(** * Shadow-volume scene renderer (NPGR019, 07-ShadowVolumes): a model of
      scene.cpp and of the OpenGL state it drives.

    The C++ code is embedded function by function.  Conventions:
    - [float] scalars of the source are idealised as real numbers; where a
      property depends on rounding or overflow, the arithmetic of [float] is
      that of [Binary32] and [Rounded];
    - [int] fields are integers in [Z]; the only unsigned arithmetic of the
      source (a [size_t] byte count) has its wrap-around written out;
    - [std::vector] is a list, and [operator[]] outside the vector (undefined
      behaviour in C++) is an explicit [Crash];
    - calls into the OpenGL API are recorded as a list of [GLcmd] and given
      a meaning by the state machine [gl_step];
    - functions that only issue OpenGL calls are functions into
      [list GLcmd]; functions that also touch the scene, the function-local
      statics or client memory live in the state-and-error monad [M]. *)

From Stdlib Require Import String ZArith List Bool Reals Lra Lia.
From Stdlib Require SpecFloat.
Import ListNotations.
Open Scope Z_scope.

Definition float := R.
Bind Scope R_scope with float.
Definition GLuint := Z.
Definition GLint := Z.

(** ** glm: the vector and matrix operations scene.cpp uses *)
Module glm.
Local Open Scope R_scope.

Record vec3 := Vec3 { x3 : float; y3 : float; z3 : float }.
Record vec4 := Vec4 { x : float; y : float; z : float; w : float }.

(** column-major matrices: [matCxR] has C columns of R components *)
Record mat4x4 := Mat4x4 { m0 : vec4; m1 : vec4; m2 : vec4; m3 : vec4 }.
Record mat3x4 := Mat3x4 { t0 : vec4; t1 : vec4; t2 : vec4 }.
Record mat4x3 := Mat4x3 { p0 : vec3; p1 : vec3; p2 : vec3; p3 : vec3 }.

Definition vec3_splat (a : float) : vec3 := Vec3 a a a.
Definition vec4_splat (a : float) : vec4 := Vec4 a a a a.

Definition add3 (a b : vec3) : vec3 :=
  Vec3 (x3 a + x3 b) (y3 a + y3 b) (z3 a + z3 b).
(** [operator*] on two vectors is component-wise *)
Definition mul3 (a b : vec3) : vec3 :=
  Vec3 (x3 a * x3 b) (y3 a * y3 b) (z3 a * z3 b).
Definition scale3 (k : float) (a : vec3) : vec3 :=
  Vec3 (k * x3 a) (k * y3 a) (k * z3 a).
Definition add4 (a b : vec4) : vec4 :=
  Vec4 (x a + x b) (y a + y b) (z a + z b) (w a + w b).
Definition scale4 (k : float) (a : vec4) : vec4 :=
  Vec4 (k * x a) (k * y a) (k * z a) (k * w a).
Definition dot3 (a b : vec3) : float := x3 a * x3 b + y3 a * y3 b + z3 a * z3 b.
Definition normalize (v : vec3) : vec3 := scale3 (/ sqrt (dot3 v v)) v.

Definition sub3 (a b : vec3) : vec3 :=
  Vec3 (x3 a - x3 b) (y3 a - y3 b) (z3 a - z3 b).
Definition cross (a b : vec3) : vec3 :=
  Vec3 (y3 a * z3 b - y3 b * z3 a)
       (z3 a * x3 b - z3 b * x3 a)
       (x3 a * y3 b - x3 b * y3 a).

Definition radians (degrees : float) : float := degrees * (PI / 180).

(** [mat4x4(1.0f)] *)
Definition identity : mat4x4 :=
  Mat4x4 (Vec4 1 0 0 0) (Vec4 0 1 0 0) (Vec4 0 0 1 0) (Vec4 0 0 0 1).

Definition mul_vec (m : mat4x4) (v : vec4) : vec4 :=
  add4 (add4 (scale4 (x v) (m0 m)) (scale4 (y v) (m1 m)))
       (add4 (scale4 (z v) (m2 m)) (scale4 (w v) (m3 m))).
(** [operator*] on matrices; [a *= b] is [a = a * b] *)
Definition mul (a b : mat4x4) : mat4x4 :=
  Mat4x4 (mul_vec a (m0 b)) (mul_vec a (m1 b)) (mul_vec a (m2 b)) (mul_vec a (m3 b)).

(** gtx/transform: the one-argument forms act on the identity *)
Definition translate (v : vec3) : mat4x4 :=
  Mat4x4 (Vec4 1 0 0 0) (Vec4 0 1 0 0) (Vec4 0 0 1 0) (Vec4 (x3 v) (y3 v) (z3 v) 1).
Definition scale (v : vec3) : mat4x4 :=
  Mat4x4 (Vec4 (x3 v) 0 0 0) (Vec4 0 (y3 v) 0 0) (Vec4 0 0 (z3 v) 0) (Vec4 0 0 0 1).
Definition rotate (angle : float) (v : vec3) : mat4x4 :=
  let c := cos angle in
  let s := sin angle in
  let axis := normalize v in
  let temp := scale3 (1 - c) axis in
  Mat4x4
    (Vec4 (c + x3 temp * x3 axis)
          (x3 temp * y3 axis + s * z3 axis)
          (x3 temp * z3 axis - s * y3 axis) 0)
    (Vec4 (y3 temp * x3 axis - s * z3 axis)
          (c + y3 temp * y3 axis)
          (y3 temp * z3 axis + s * x3 axis) 0)
    (Vec4 (z3 temp * x3 axis + s * y3 axis)
          (z3 temp * y3 axis - s * x3 axis)
          (c + z3 temp * z3 axis) 0)
    (Vec4 0 0 0 1).

(** right-handed [lookAt] *)
Definition lookAt (eye center up : vec3) : mat4x4 :=
  let f := normalize (sub3 center eye) in
  let s := normalize (cross f up) in
  let u := cross s f in
  Mat4x4 (Vec4 (x3 s) (x3 u) (- x3 f) 0)
         (Vec4 (y3 s) (y3 u) (- y3 f) 0)
         (Vec4 (z3 s) (z3 u) (- z3 f) 0)
         (Vec4 (- dot3 s eye) (- dot3 u eye) (dot3 f eye) 1).

Definition transpose (m : mat4x4) : mat4x4 :=
  Mat4x4 (Vec4 (x (m0 m)) (x (m1 m)) (x (m2 m)) (x (m3 m)))
         (Vec4 (y (m0 m)) (y (m1 m)) (y (m2 m)) (y (m3 m)))
         (Vec4 (z (m0 m)) (z (m1 m)) (z (m2 m)) (z (m3 m)))
         (Vec4 (w (m0 m)) (w (m1 m)) (w (m2 m)) (w (m3 m))).

(** converting constructors: a smaller matrix keeps the leading columns
    and rows of a [mat4x4] *)
Definition to_mat3x4 (m : mat4x4) : mat3x4 := Mat3x4 (m0 m) (m1 m) (m2 m).
Definition xyz (v : vec4) : vec3 := Vec3 (x v) (y v) (z v).
Definition to_mat4x3 (m : mat4x4) : mat4x3 :=
  Mat4x3 (xyz (m0 m)) (xyz (m1 m)) (xyz (m2 m)) (xyz (m3 m)).

(** [value_ptr]: the components in memory order *)
Definition ptr3 (v : vec3) : list float := [x3 v; y3 v; z3 v].
Definition ptr4 (v : vec4) : list float := [x v; y v; z v; w v].
Definition ptr4x4 (m : mat4x4) : list float :=
  ptr4 (m0 m) ++ ptr4 (m1 m) ++ ptr4 (m2 m) ++ ptr4 (m3 m).
Definition ptr3x4 (m : mat3x4) : list float :=
  ptr4 (t0 m) ++ ptr4 (t1 m) ++ ptr4 (t2 m).
Definition ptr4x3 (m : mat4x3) : list float :=
  ptr3 (p0 m) ++ ptr3 (p1 m) ++ ptr3 (p2 m) ++ ptr3 (p3 m).

(** [sizeof], in bytes: a [float] has 4 *)
Definition sizeof_float : Z := 4.
Definition sizeof_mat3x4 : Z := (3 * 4 * sizeof_float)%Z.
Definition sizeof_mat4x4 : Z := (4 * 4 * sizeof_float)%Z.
End glm.

(** MathSupport.h *)
Definition PI_HALF : float := (PI / 2)%R.

(** ** The OpenGL context: the calls scene.cpp makes and their effect on
       the context state *)
Module GL.

Inductive GLcap :=
| GL_MULTISAMPLE | GL_CULL_FACE | GL_DEPTH_TEST | GL_DEPTH_CLAMP
| GL_STENCIL_TEST | GL_BLEND.
Inductive GLface := GL_FRONT | GL_BACK | GL_FRONT_AND_BACK.
Inductive GLpolygon := GL_LINE | GL_FILL.
Inductive GLfunc := GL_ALWAYS | GL_LESS | GL_EQUAL | GL_LEQUAL.
Inductive GLop := GL_KEEP | GL_INCR_WRAP | GL_DECR_WRAP.
Inductive GLprimitive := GL_TRIANGLES | GL_TRIANGLES_ADJACENCY | GL_POINTS.
Inductive GLblend := GL_FUNC_ADD | GL_ONE.
Inductive GLtarget := GL_UNIFORM_BUFFER | GL_TEXTURE_2D.
Inductive GLusage := GL_DYNAMIC_DRAW | GL_WRITE_ONLY.

Definition GL_DEPTH_BUFFER_BIT : Z := 0x100.
Definition GL_STENCIL_BUFFER_BIT : Z := 0x400.
Definition GL_COLOR_BUFFER_BIT : Z := 0x4000.

(** a uniform is addressed by the result of [glGetUniformLocation] or by
    an explicit location *)
Inductive UniformLoc :=
| glGetUniformLocation (program : GLuint) (name : string)
| Location (l : GLint).

Inductive GLcmd :=
| glEnable (cap : GLcap)
| glDisable (cap : GLcap)
| glCullFace (face : GLface)
| glPolygonMode (face : GLface) (mode : GLpolygon)
| glDepthFunc (f : GLfunc)
| glDepthMask (flag : bool)
| glClearColor (r g b a : float)
| glClear (mask : Z)
| glColorMask (r g b a : bool)
| glStencilFunc (f : GLfunc) (ref mask : Z)
| glStencilOp (sfail dpfail dppass : GLop)
| glStencilOpSeparate (face : GLface) (sfail dpfail dppass : GLop)
| glBlendEquation (mode : GLblend)
| glBlendFunc (sfactor dfactor : GLblend)
| glUseProgram (program : GLuint)
| glUniform (loc : UniformLoc) (value : list float)
| glActiveTexture (unit : Z)
| glBindTexture (target : GLtarget) (texture : GLuint)
| glBindSampler (unit : Z) (sampler : GLuint)
| glGenVertexArrays
| glGenBuffers
| glBindVertexArray (array : GLuint)
| glBindBuffer (target : GLtarget) (buffer : GLuint)
| glBindBufferBase (target : GLtarget) (index : Z) (buffer : GLuint)
| glBufferData (target : GLtarget) (size : Z) (usage : GLusage)
| glBufferSubData (target : GLtarget) (offset size : Z) (data : list float)
| glMapBuffer (target : GLtarget) (access : GLusage)
| memcpy_mapped (buffer : GLuint) (data : list float)
| glUnmapBuffer (target : GLtarget)
| glPointSize (size : float)
| glDrawElements (mode : GLprimitive) (count : Z)
| glDrawElementsInstanced (mode : GLprimitive) (count : Z) (instancecount : Z)
| glDrawArrays (mode : GLprimitive) (first count : Z).

Definition cap_eqb (a b : GLcap) : bool :=
  match a, b with
  | GL_MULTISAMPLE, GL_MULTISAMPLE | GL_CULL_FACE, GL_CULL_FACE
  | GL_DEPTH_TEST, GL_DEPTH_TEST | GL_DEPTH_CLAMP, GL_DEPTH_CLAMP
  | GL_STENCIL_TEST, GL_STENCIL_TEST | GL_BLEND, GL_BLEND => true
  | _, _ => false
  end.

Record StencilOps := { sfail : GLop; dpfail : GLop; dppass : GLop }.
Record ColorMask := { red : bool; green : bool; blue : bool; alpha : bool }.

(** the part of the context state the scene code sets *)
Record GLstate := {
  enabled : GLcap -> bool;
  cull_face_mode : GLface;
  polygon_mode : GLpolygon;
  depth_func : GLfunc;
  depth_writemask : bool;
  color_writemask : ColorMask;
  stencil_func : GLfunc * Z * Z;
  stencil_front : StencilOps;
  stencil_back : StencilOps;
  current_program : GLuint;
  vertex_array_binding : GLuint;
  uniform_buffer_binding : GLuint;
  uniform_buffer_base : Z -> GLuint;
  buffer_data : GLuint -> list float;
  buffer_mapped : option GLuint;
  next_buffer : positive;
  next_vertex_array : positive
}.

Definition set_cap (cap : GLcap) (b : bool) (e : GLcap -> bool) : GLcap -> bool :=
  fun c => if cap_eqb c cap then b else e c.
Definition set_slot {A} (i : Z) (v : A) (f : Z -> A) : Z -> A :=
  fun j => if j =? i then v else f j.

(** what a buffer store holds after [len] floats of [data] are written at
    float index [at_] *)
Definition store_write (at_ len : nat) (data mem : list float) : list float :=
  firstn at_ mem ++ firstn len data ++ skipn (at_ + len) mem.

(** [glBufferSubData]: a range outside the store is GL_INVALID_VALUE and
    leaves the store as it is *)
Definition sub_data (offset size : Z) (data mem : list float) : list float :=
  if (0 <=? offset) && (0 <=? size)
     && (offset + size <=? glm.sizeof_float * Z.of_nat (length mem))
     && (offset mod glm.sizeof_float =? 0) && (size mod glm.sizeof_float =? 0)
  then store_write (Z.to_nat (offset / glm.sizeof_float))
                   (Z.to_nat (size / glm.sizeof_float)) data mem
  else mem.

Definition front_facing (face : GLface) : bool :=
  match face with GL_FRONT | GL_FRONT_AND_BACK => true | GL_BACK => false end.
Definition back_facing (face : GLface) : bool :=
  match face with GL_BACK | GL_FRONT_AND_BACK => true | GL_FRONT => false end.

Definition update_store (b : GLuint) (mem : list float)
           (f : GLuint -> list float) : GLuint -> list float :=
  fun j => if j =? b then mem else f j.

(** the effect of one call, field by field *)
Definition gl_step (g : GLstate) (c : GLcmd) : GLstate :=
  {| enabled :=
       match c with
       | glEnable cap => set_cap cap true (enabled g)
       | glDisable cap => set_cap cap false (enabled g)
       | _ => enabled g
       end;
     cull_face_mode :=
       match c with glCullFace face => face | _ => cull_face_mode g end;
     polygon_mode :=
       match c with glPolygonMode _ mode => mode | _ => polygon_mode g end;
     depth_func :=
       match c with glDepthFunc f => f | _ => depth_func g end;
     depth_writemask :=
       match c with glDepthMask flag => flag | _ => depth_writemask g end;
     color_writemask :=
       match c with
       | glColorMask r g' b a => {| red := r; green := g'; blue := b; alpha := a |}
       | _ => color_writemask g
       end;
     stencil_func :=
       match c with
       | glStencilFunc f ref mask => (f, ref, mask)
       | _ => stencil_func g
       end;
     stencil_front :=
       match c with
       | glStencilOp s d p => {| sfail := s; dpfail := d; dppass := p |}
       | glStencilOpSeparate face s d p =>
           if front_facing face
           then {| sfail := s; dpfail := d; dppass := p |}
           else stencil_front g
       | _ => stencil_front g
       end;
     stencil_back :=
       match c with
       | glStencilOp s d p => {| sfail := s; dpfail := d; dppass := p |}
       | glStencilOpSeparate face s d p =>
           if back_facing face
           then {| sfail := s; dpfail := d; dppass := p |}
           else stencil_back g
       | _ => stencil_back g
       end;
     current_program :=
       match c with glUseProgram p => p | _ => current_program g end;
     vertex_array_binding :=
       match c with glBindVertexArray a => a | _ => vertex_array_binding g end;
     uniform_buffer_binding :=
       match c with
       | glBindBuffer GL_UNIFORM_BUFFER b => b
       | glBindBufferBase GL_UNIFORM_BUFFER _ b => b
       | _ => uniform_buffer_binding g
       end;
     uniform_buffer_base :=
       match c with
       | glBindBufferBase GL_UNIFORM_BUFFER i b => set_slot i b (uniform_buffer_base g)
       | _ => uniform_buffer_base g
       end;
     buffer_data :=
       match c with
       | glBufferData GL_UNIFORM_BUFFER size _ =>
           (* a new store; its content, unspecified in OpenGL, is taken to
              be zero *)
           if (0 <=? size) && negb (uniform_buffer_binding g =? 0)
           then update_store (uniform_buffer_binding g)
                  (repeat 0%R (Z.to_nat (size / glm.sizeof_float))) (buffer_data g)
           else buffer_data g
       | glBufferSubData GL_UNIFORM_BUFFER offset size data =>
           if uniform_buffer_binding g =? 0 then buffer_data g
           else update_store (uniform_buffer_binding g)
                  (sub_data offset size data
                     (buffer_data g (uniform_buffer_binding g)))
                  (buffer_data g)
       | memcpy_mapped b data =>
           match buffer_mapped g with
           | Some m =>
               if (m =? b) && (length data <=? length (buffer_data g b))%nat
               then update_store b
                      (store_write 0 (length data) data (buffer_data g b))
                      (buffer_data g)
               else buffer_data g
           | None => buffer_data g
           end
       | _ => buffer_data g
       end;
     buffer_mapped :=
       match c with
       | glMapBuffer GL_UNIFORM_BUFFER _ =>
           if uniform_buffer_binding g =? 0 then buffer_mapped g
           else Some (uniform_buffer_binding g)
       | glUnmapBuffer GL_UNIFORM_BUFFER => None
       | _ => buffer_mapped g
       end;
     next_buffer :=
       match c with glGenBuffers => Pos.succ (next_buffer g) | _ => next_buffer g end;
     next_vertex_array :=
       match c with
       | glGenVertexArrays => Pos.succ (next_vertex_array g)
       | _ => next_vertex_array g
       end |}.

Definition gl_run (g : GLstate) (cs : list GLcmd) : GLstate :=
  fold_left gl_step cs g.

(** the context as it is created *)
Definition gl_initial : GLstate :=
  {| enabled := fun c => match c with GL_MULTISAMPLE => true | _ => false end;
     cull_face_mode := GL_BACK;
     polygon_mode := GL_FILL;
     depth_func := GL_LESS;
     depth_writemask := true;
     color_writemask := {| red := true; green := true; blue := true; alpha := true |};
     stencil_func := (GL_ALWAYS, 0, 0xffffffff);
     stencil_front := {| sfail := GL_KEEP; dpfail := GL_KEEP; dppass := GL_KEEP |};
     stencil_back := {| sfail := GL_KEEP; dpfail := GL_KEEP; dppass := GL_KEEP |};
     current_program := 0;
     vertex_array_binding := 0;
     uniform_buffer_binding := 0;
     uniform_buffer_base := fun _ => 0;
     buffer_data := fun _ => [];
     buffer_mapped := None;
     next_buffer := 1%positive;
     next_vertex_array := 1%positive |}.

(** calls that rasterise geometry *)
Definition is_draw (c : GLcmd) : bool :=
  match c with
  | glDrawElements _ _ | glDrawElementsInstanced _ _ _ | glDrawArrays _ _ _ => true
  | _ => false
  end.

(** every rasterising call of [cs], with the context state it runs in,
    when [cs] starts in state [g] *)
Fixpoint draws (g : GLstate) (cs : list GLcmd) : list (GLcmd * GLstate) :=
  match cs with
  | [] => []
  | c :: cs' =>
      (if is_draw c then [(c, g)] else []) ++ draws (gl_step g c) cs'
  end.

End GL.

(** ** Results of code that can run into undefined behaviour *)
Inductive Fault :=
| NullPointer
| OutOfRange (index : Z)
| BadCopy (bytes : Z)
| LengthError (size : Z).

Inductive Result (A : Type) :=
| Ok (a : A)
| Crash (f : Fault).
Arguments Ok {A} a.
Arguments Crash {A} f.

(** [std::vector::operator[]] with an [int] index *)
Definition vec_get {A} (v : list A) (i : Z) : Result A :=
  if i <? 0 then Crash (OutOfRange i)
  else match nth_error v (Z.to_nat i) with
       | Some a => Ok a
       | None => Crash (OutOfRange i)
       end.

Fixpoint list_set {A} (v : list A) (n : nat) (a : A) : list A :=
  match v, n with
  | [], _ => []
  | _ :: v', O => a :: v'
  | b :: v', S n' => b :: list_set v' n' a
  end.

(** [v[i] = a] *)
Definition vec_set {A} (v : list A) (i : Z) (a : A) : Result (list A) :=
  if (0 <=? i) && (i <? Z.of_nat (length v))
  then Ok (list_set v (Z.to_nat i) a)
  else Crash (OutOfRange i).

(** conversion of an [int] to [size_t] (64 bits) *)
Definition to_size_t (n : Z) : Z := n mod 2 ^ 64.

(** truth value of an [int] used as a condition *)
Definition truthy (n : Z) : bool := negb (n =? 0).

(** ** scene.h and the headers it relies on *)
Module ShaderProgram.
(** shaders.h: indices into the global [shaderProgram] array *)
Inductive t :=
| Default | DefaultDepthPass | Instancing | InstancingDepthPass
| PointRendering | InstancedShadowVolume
| SpotlightDefault | InstancingSpotlightShadow | Tonemapping.
End ShaderProgram.

Module LoadedTextures.
Inductive t :=
| White | Grey | Blue | CheckerBoard | Diffuse | Normal | Specular | Occlusion.
Definition eqb (a b : t) : bool :=
  match a, b with
  | White, White | Grey, Grey | Blue, Blue | CheckerBoard, CheckerBoard
  | Diffuse, Diffuse | Normal, Normal | Specular, Specular
  | Occlusion, Occlusion => true
  | _, _ => false
  end.
End LoadedTextures.

Module Sampler.
Inductive t := Nearest | Bilinear | Anisotropic.
End Sampler.

Module RenderPass.
(** [enum class RenderPass : int] *)
Definition t := Z.
Definition DepthPass : t := 0x0001.
Definition ShadowVolume : t := 0x0002.
Definition DirectLight : t := 0x0004.
Definition AmbientLight : t := 0x0008.
Definition LightPass : t := 0x000c.
End RenderPass.

Record RenderSettings := {
  vsync : bool;
  wireframe : bool;
  tonemapping : bool;
  msaaLevel : Z
}.

Record InstanceData := { transformation : glm.mat3x4 }.

Definition sizeof_InstanceData : Z := glm.sizeof_mat3x4.

Definition MAX_INSTANCES : Z := 1024.

Record Light := {
  position : glm.vec3;
  color : glm.vec4;
  movement : glm.vec4
}.

Record SpotLight := {
  spot_position : glm.vec3;
  spot_color : glm.vec4;
  spot_movement : glm.vec4;
  lightDirection : glm.vec3;
  innerLightAngleDegrees : float;
  outerLightAngleDegrees : float;
  lightDistance : float
}.

(** Geometry.h: what the scene reads of a mesh *)
Record Mesh := { GetVAO : GLuint; GetIBOSize : Z }.

(** Camera.h: what the scene reads of the camera.  The three matrices are
    4x4 (main.cpp multiplies [GetWorldToView] with 4x4 matrices);
    [UpdateTransformBlock] converts the transposed world-to-view matrix to a
    [mat3x4], which keeps its first three columns. *)
Record Camera := {
  GetWorldToView : glm.mat4x4;
  GetViewToWorld : glm.mat4x4;
  GetProjection : glm.mat4x4
}.

(** The collaborators of the scene that are not part of scene.cpp: the
    compiled shader programs with the sizes of their uniform blocks, the
    geometry factory and the texture helper. *)
Record Env := {
  shaderProgram : ShaderProgram.t -> GLuint;
  InstanceBuffer_DATA_SIZE : GLint;
  TransformBlock_DATA_SIZE : GLint;
  CreateQuadNormalTangentTex : Mesh;
  CreateCubeNormalTangentTex : Mesh;
  CreateCubeAdjacency : Mesh;
  GetSampler : Sampler.t -> GLuint;
  CreateSingleColorTexture : Z -> Z -> Z -> GLuint;
  CreateCheckerBoardTexture : Z -> Z -> GLuint;
  LoadTexture : string -> bool -> GLuint
}.

(** ** Functions that only issue OpenGL calls: the calls issued, or a crash *)
Definition W := Result (list GL.GLcmd).

Definition seqW (a b : W) : W :=
  match a with
  | Crash f => Crash f
  | Ok xs => match b with
             | Crash f => Crash f
             | Ok ys => Ok (xs ++ ys)
             end
  end.

Definition skip : W := Ok [].
Definition call (c : GL.GLcmd) : W := Ok [c].

(** [p->...] on a mesh pointer; [None] is [nullptr] *)
Definition deref (p : option Mesh) (k : Mesh -> W) : W :=
  match p with
  | Some m => k m
  | None => Crash NullPointer
  end.

Declare Scope gl_scope.
Delimit Scope gl_scope with gl.
Notation "a ;; b" := (seqW a b) (at level 61, right associativity) : gl_scope.
Notation "'when' c 'then' a" := (if c then a else skip)
  (at level 60, c at level 0) : gl_scope.

(** ** The mutable world of the member functions: the scene object, the
       function-local statics, the OpenGL context with the calls made so
       far, and the random source *)
Module Machine.
Import glm GL.

Record World (S : Type) := {
  scene : S;
  static_instanceData : list InstanceData;  (* of [UpdateInstanceData] *)
  static_t : float;                         (* of [Update] *)
  gl : GLstate;
  calls : list GLcmd;
  rand : nat -> float
}.
Arguments scene {S} w.
Arguments static_instanceData {S} w.
Arguments static_t {S} w.
Arguments gl {S} w.
Arguments calls {S} w.
Arguments rand {S} w.

Definition M (S A : Type) := World S -> Result (A * World S).

Section Ops.
Context {S : Type}.

Definition ret {A} (a : A) : M S A := fun w => Ok (a, w).
Definition bind {A B} (m : M S A) (k : A -> M S B) : M S B :=
  fun w => match m w with
           | Ok (a, w') => k a w'
           | Crash f => Crash f
           end.
Definition crash {A} (f : Fault) : M S A := fun _ => Crash f.
Definition lift {A} (r : Result A) : M S A :=
  fun w => match r with Ok a => Ok (a, w) | Crash f => Crash f end.

Definition get : M S (World S) := fun w => Ok (w, w).
Definition this : M S S := fun w => Ok (scene w, w).

(** the calls [cs] reach the context *)
Definition emit (cs : list GLcmd) (w : World S) : World S :=
  {| scene := scene w; static_instanceData := static_instanceData w;
     static_t := static_t w; gl := gl_run (gl w) cs;
     calls := calls w ++ cs; rand := rand w |}.

Definition run (c : W) : M S unit :=
  fun w => match c with
           | Ok cs => Ok (tt, emit cs w)
           | Crash f => Crash f
           end.

Definition with_scene (s : S) (w : World S) : World S :=
  {| scene := s; static_instanceData := static_instanceData w;
     static_t := static_t w; gl := gl w; calls := calls w; rand := rand w |}.
Definition with_instanceData (d : list InstanceData) (w : World S) : World S :=
  {| scene := scene w; static_instanceData := d;
     static_t := static_t w; gl := gl w; calls := calls w; rand := rand w |}.
Definition with_t (t : float) (w : World S) : World S :=
  {| scene := scene w; static_instanceData := static_instanceData w;
     static_t := t; gl := gl w; calls := calls w; rand := rand w |}.
Definition next_random (w : World S) : World S :=
  {| scene := scene w; static_instanceData := static_instanceData w;
     static_t := static_t w; gl := gl w; calls := calls w;
     rand := fun n => rand w (Datatypes.S n) |}.

Definition assign (f : S -> S) : M S unit :=
  fun w => Ok (tt, with_scene (f (scene w)) w).
Definition put_instanceData (d : list InstanceData) : M S unit :=
  fun w => Ok (tt, with_instanceData d w).
Definition put_t (t : float) : M S unit :=
  fun w => Ok (tt, with_t t w).

(** Modelled from the spec: getRandom (MathSupport.h is not part of the
    sources at hand) draws from a uniform distribution within the given
    range.  The random source is a stream of samples of the unit
    interval; each draw consumes the head of the stream and scales it
    into [lo, hi]. *)
Definition getRandom (lo hi : float) : M S float :=
  fun w => Ok ((lo + rand w O * (hi - lo))%R, next_random w).

(** [for (int i = from; i < to; ++i) body] *)
Fixpoint iterate (i : Z) (n : nat) (body : Z -> M S unit) : M S unit :=
  match n with
  | O => ret tt
  | Datatypes.S n' => bind (body i) (fun _ => iterate (i + 1) n' body)
  end.
Definition for_loop (from to : Z) (body : Z -> M S unit) : M S unit :=
  iterate from (Z.to_nat (to - from)) body.

(** [std::vector::reserve] with an [int] argument: a negative one
    converts to a [size_t] above [max_size] and throws
    [std::length_error] *)
Definition reserve (n : Z) : M S unit :=
  if n <? 0 then crash (LengthError (to_size_t n)) else ret tt.

(** [glGenVertexArrays(1, &name)] and [glGenBuffers(1, &name)]: the
    context hands out a name it has not used before; names are not
    zero *)
Definition genVertexArray : M S GLuint :=
  fun w => Ok (Z.pos (next_vertex_array (gl w)), emit [glGenVertexArrays] w).
Definition genBuffer : M S GLuint :=
  fun w => Ok (Z.pos (next_buffer (gl w)), emit [glGenBuffers] w).

(** [glMapBuffer(GL_UNIFORM_BUFFER, access)]: the pointer to the store of
    the buffer bound to the target, which the name of the buffer stands
    for; null when no buffer is bound *)
Definition mapBuffer (access : GLusage) : M S (option GLuint) :=
  fun w =>
    Ok (if uniform_buffer_binding (gl w) =? 0 then None
        else Some (uniform_buffer_binding (gl w)),
        emit [glMapBuffer GL_UNIFORM_BUFFER access] w).

(** [memcpy(ptr, src, bytes)] into a mapped store: a null [ptr], reading
    past [src] and writing past the store are undefined *)
Definition memcpy (ptr : option GLuint) (src : list float) (bytes : Z) : M S unit :=
  fun w =>
    match ptr with
    | None => Crash NullPointer
    | Some b =>
        if (bytes <=? sizeof_float * Z.of_nat (length src))
           && (bytes <=? sizeof_float * Z.of_nat (length (buffer_data (gl w) b)))
        then Ok (tt, emit [memcpy_mapped b
                             (firstn (Z.to_nat (bytes / sizeof_float)) src)] w)
        else Crash (BadCopy bytes)
    end.
End Ops.

(** the floats of a vector of [InstanceData], as they lie in memory *)
Definition instance_memory (d : list InstanceData) : list float :=
  flat_map (fun e => ptr3x4 (transformation e)) d.

Declare Scope world_scope.
Delimit Scope world_scope with world.
Notation "x <- m ;; k" := (bind m (fun x => k))
  (at level 61, m at next level, right associativity) : world_scope.
Notation "m ;; k" := (bind m (fun _ => k))
  (at level 61, right associativity) : world_scope.
End Machine.


(** ** scene.cpp of the shadow-volume (classic) pipeline *)
Module ShadowVolumes.
Import glm GL Machine.

(** Scaling factor and offset for lights movement curve *)
Definition scale : vec3 := Vec3 13 2 13.
Definition offset : vec3 := Vec3 0 3 0.

(** Lissajous curve position calculation based on the parameters *)
Definition lissajous (p : vec4) (t : float) : vec3 :=
  Vec3 (sin (x p * t)) (cos (y p * t)) (sin (z p * t) * cos (w p * t))%R.

Record Scene := {
  _loadedTextures : LoadedTextures.t -> GLuint;
  _numCubes : Z;
  _cubePositions : list vec3;
  _numLights : Z;
  _lights : list Light;
  _vao : GLuint;
  _quad : option Mesh;
  _cube : option Mesh;
  _cubeAdjacency : option Mesh;
  _instancingBuffer : GLuint;
  _transformBlockUBO : GLuint
}.

Section GLOnly.
Variable env : Env.
Variable this : Scene.
Local Open Scope gl_scope.

Definition BindTextures (diffuse normal specular occlusion : GLuint) : W :=
  call (glActiveTexture 0) ;;
  call (glBindTexture GL_TEXTURE_2D diffuse) ;;
  call (glBindSampler 0 (GetSampler env Sampler.Anisotropic)) ;;
  call (glActiveTexture 1) ;;
  call (glBindTexture GL_TEXTURE_2D normal) ;;
  call (glBindSampler 1 (GetSampler env Sampler.Anisotropic)) ;;
  call (glActiveTexture 2) ;;
  call (glBindTexture GL_TEXTURE_2D specular) ;;
  call (glBindSampler 2 (GetSampler env Sampler.Anisotropic)) ;;
  call (glActiveTexture 3) ;;
  call (glBindTexture GL_TEXTURE_2D occlusion) ;;
  call (glBindSampler 3 (GetSampler env Sampler.Anisotropic)).

Definition UpdateProgramData (program : GLuint) (renderPass : RenderPass.t)
           (camera : Camera) (lightPosition : vec3) (lightColor : vec4) : W :=
  (* Update the light position, use 4th component to pass direct light intensity *)
  (when (truthy (Z.land renderPass
                   (Z.lor RenderPass.ShadowVolume RenderPass.LightPass))) then
     call (glUniform (glGetUniformLocation program "lightPosWS")
             [x3 lightPosition; y3 lightPosition; z3 lightPosition;
              if truthy (Z.land renderPass RenderPass.DirectLight)
              then 1%R else 0%R])) ;;
  (* Update view position and light color *)
  (when (truthy (Z.land renderPass RenderPass.LightPass)) then
     (call (glUniform (glGetUniformLocation program "viewPosWS")
              (ptr4 (m3 (GetViewToWorld camera)))) ;;
      call (glUniform (glGetUniformLocation program "lightColor")
              [x lightColor; y lightColor; z lightColor;
               if truthy (Z.land renderPass RenderPass.AmbientLight)
               then w lightColor else 0%R]))).

Definition UpdateTransformBlock (camera : Camera) : W :=
  call (glBindBuffer GL_UNIFORM_BUFFER (_transformBlockUBO this)) ;;
  (let worldToView : mat3x4 := to_mat3x4 (transpose (GetWorldToView camera)) in
   call (glBufferSubData GL_UNIFORM_BUFFER 0 sizeof_mat3x4 (ptr3x4 worldToView))) ;;
  call (glBufferSubData GL_UNIFORM_BUFFER sizeof_mat3x4 sizeof_mat4x4
          (ptr4x4 (GetProjection camera))) ;;
  call (glBindBuffer GL_UNIFORM_BUFFER 0).

Definition DrawBackground (program : GLuint) (renderPass : RenderPass.t)
           (camera : Camera) (lightPosition : vec3) (lightColor : vec4) : W :=
  call (glUseProgram program) ;;
  UpdateProgramData program renderPass camera lightPosition lightColor ;;
  (when (truthy (Z.land renderPass RenderPass.LightPass)) then
     BindTextures (_loadedTextures this LoadedTextures.CheckerBoard)
                  (_loadedTextures this LoadedTextures.Blue)
                  (_loadedTextures this LoadedTextures.Grey)
                  (_loadedTextures this LoadedTextures.White)) ;;
  deref (_quad this) (fun quad =>
    call (glBindVertexArray (GetVAO quad)) ;;
    (* Draw floor *)
    (let transformation := glm.scale (Vec3 30 1 30) in
     call (glUniform (Location 0) (ptr4x3 (to_mat4x3 transformation)))) ;;
    call (glDrawElements GL_TRIANGLES (GetIBOSize quad)) ;;
    (* Draw Z axis wall *)
    (let transformation :=
       mul (mul (translate (Vec3 0 0 15)) (rotate (- PI_HALF) (Vec3 1 0 0)))
           (glm.scale (Vec3 30 1 30)) in
     call (glUniform (Location 0) (ptr4x3 (to_mat4x3 transformation)))) ;;
    call (glDrawElements GL_TRIANGLES (GetIBOSize quad)) ;;
    (* Draw X axis wall *)
    (let transformation :=
       mul (mul (translate (Vec3 15 0 0)) (rotate PI_HALF (Vec3 0 0 1)))
           (glm.scale (Vec3 30 1 30)) in
     call (glUniform (Location 0) (ptr4x3 (to_mat4x3 transformation)))) ;;
    call (glDrawElements GL_TRIANGLES (GetIBOSize quad))).

Definition DrawObjects (program : GLuint) (renderPass : RenderPass.t)
           (camera : Camera) (lightPosition : vec3) (lightColor : vec4) : W :=
  call (glUseProgram program) ;;
  UpdateProgramData program renderPass camera lightPosition lightColor ;;
  (* Bind the instancing buffer to the index 1 *)
  call (glBindBufferBase GL_UNIFORM_BUFFER 1 (_instancingBuffer this)) ;;
  (when (truthy (Z.land renderPass RenderPass.LightPass)) then
     BindTextures (_loadedTextures this LoadedTextures.Diffuse)
                  (_loadedTextures this LoadedTextures.Normal)
                  (_loadedTextures this LoadedTextures.Specular)
                  (_loadedTextures this LoadedTextures.Occlusion)) ;;
  (* Draw cubes based on the renderPass *)
  (if truthy (Z.land renderPass RenderPass.ShadowVolume)
   then deref (_cubeAdjacency this) (fun cubeAdjacency =>
          call (glBindVertexArray (GetVAO cubeAdjacency)) ;;
          call (glDrawElementsInstanced GL_TRIANGLES_ADJACENCY
                  (GetIBOSize cubeAdjacency) (_numCubes this)))
   else deref (_cube this) (fun cube =>
          call (glBindVertexArray (GetVAO cube)) ;;
          call (glDrawElementsInstanced GL_TRIANGLES
                  (GetIBOSize cube) (_numCubes this)))) ;;
  (* Unbind the instancing buffer *)
  call (glBindBufferBase GL_UNIFORM_BUFFER 1 0) ;;
  (* Draw the light object during the ambient pass *)
  (when (truthy (Z.land renderPass RenderPass.AmbientLight)) then
     (call (glUseProgram (shaderProgram env ShaderProgram.PointRendering)) ;;
      call (glUniform
              (glGetUniformLocation
                 (shaderProgram env ShaderProgram.PointRendering) "position")
              (ptr3 lightPosition)) ;;
      call (glUniform
              (glGetUniformLocation
                 (shaderProgram env ShaderProgram.PointRendering) "color")
              (firstn 3 (ptr4 (scale4 (5 / 100) lightColor)))) ;;
      call (glDisable GL_BLEND) ;;
      call (glPointSize 10) ;;
      call (glBindVertexArray (_vao this)) ;;
      call (glDrawArrays GL_POINTS 0 1))).

(** the three lambdas of [Draw] *)
Definition depthPass (camera : Camera) : W :=
  DrawBackground (shaderProgram env ShaderProgram.DefaultDepthPass)
    RenderPass.DepthPass camera (vec3_splat 0) (vec4_splat 0) ;;
  DrawObjects (shaderProgram env ShaderProgram.InstancingDepthPass)
    RenderPass.DepthPass camera (vec3_splat 0) (vec4_splat 0).

Definition lightPass (camera : Camera) (renderPass : RenderPass.t)
           (lightPosition : vec3) (lightColor : vec4) : W :=
  (* Enable additive alpha blending *)
  call (glEnable GL_BLEND) ;;
  call (glBlendEquation GL_FUNC_ADD) ;;
  call (glBlendFunc GL_ONE GL_ONE) ;;
  (* Pass only if equal to 0, i.e., outside shadow volume *)
  call (glStencilFunc GL_EQUAL 0x00 0xff) ;;
  (* Don't update the stencil buffer *)
  call (glStencilOp GL_KEEP GL_KEEP GL_KEEP) ;;
  DrawBackground (shaderProgram env ShaderProgram.Default)
    renderPass camera lightPosition lightColor ;;
  DrawObjects (shaderProgram env ShaderProgram.Instancing)
    renderPass camera lightPosition lightColor ;;
  call (glDisable GL_BLEND).

Definition shadowPass (camera : Camera) (carmackReverse : bool)
           (lightPosition : vec3) (lightColor : vec4) : W :=
  (* Disable face culling *)
  call (glDisable GL_CULL_FACE) ;;
  (* Always pass the stencil test *)
  call (glStencilFunc GL_ALWAYS 0x00 0xff) ;;
  (if carmackReverse
   then
     (* arguments: face, stencil fail, depth fail, depth pass *)
     call (glStencilOpSeparate GL_BACK GL_KEEP GL_INCR_WRAP GL_KEEP) ;;
     call (glStencilOpSeparate GL_FRONT GL_KEEP GL_DECR_WRAP GL_KEEP)
   else
     call (glStencilOpSeparate GL_BACK GL_KEEP GL_KEEP GL_DECR_WRAP) ;;
     call (glStencilOpSeparate GL_FRONT GL_KEEP GL_KEEP GL_INCR_WRAP)) ;;
  DrawObjects (shaderProgram env ShaderProgram.InstancedShadowVolume)
    RenderPass.ShadowVolume camera lightPosition lightColor ;;
  (* Enable it back again *)
  call (glEnable GL_CULL_FACE).

End GLOnly.

(** field assignments on the scene *)
Definition set_numCubes (v : Z) (s : Scene) : Scene :=
  {| _loadedTextures := _loadedTextures s; _numCubes := v;
     _cubePositions := _cubePositions s; _numLights := _numLights s;
     _lights := _lights s; _vao := _vao s; _quad := _quad s; _cube := _cube s;
     _cubeAdjacency := _cubeAdjacency s;
     _instancingBuffer := _instancingBuffer s;
     _transformBlockUBO := _transformBlockUBO s |}.
Definition set_numLights (v : Z) (s : Scene) : Scene :=
  {| _loadedTextures := _loadedTextures s; _numCubes := _numCubes s;
     _cubePositions := _cubePositions s; _numLights := v;
     _lights := _lights s; _vao := _vao s; _quad := _quad s; _cube := _cube s;
     _cubeAdjacency := _cubeAdjacency s;
     _instancingBuffer := _instancingBuffer s;
     _transformBlockUBO := _transformBlockUBO s |}.
Definition set_meshes (q c a : option Mesh) (s : Scene) : Scene :=
  {| _loadedTextures := _loadedTextures s; _numCubes := _numCubes s;
     _cubePositions := _cubePositions s; _numLights := _numLights s;
     _lights := _lights s; _vao := _vao s; _quad := q; _cube := c;
     _cubeAdjacency := a;
     _instancingBuffer := _instancingBuffer s;
     _transformBlockUBO := _transformBlockUBO s |}.
Definition set_vao (v : GLuint) (s : Scene) : Scene :=
  {| _loadedTextures := _loadedTextures s; _numCubes := _numCubes s;
     _cubePositions := _cubePositions s; _numLights := _numLights s;
     _lights := _lights s; _vao := v; _quad := _quad s; _cube := _cube s;
     _cubeAdjacency := _cubeAdjacency s;
     _instancingBuffer := _instancingBuffer s;
     _transformBlockUBO := _transformBlockUBO s |}.
Definition set_instancingBuffer (v : GLuint) (s : Scene) : Scene :=
  {| _loadedTextures := _loadedTextures s; _numCubes := _numCubes s;
     _cubePositions := _cubePositions s; _numLights := _numLights s;
     _lights := _lights s; _vao := _vao s; _quad := _quad s; _cube := _cube s;
     _cubeAdjacency := _cubeAdjacency s;
     _instancingBuffer := v;
     _transformBlockUBO := _transformBlockUBO s |}.
Definition set_transformBlockUBO (v : GLuint) (s : Scene) : Scene :=
  {| _loadedTextures := _loadedTextures s; _numCubes := _numCubes s;
     _cubePositions := _cubePositions s; _numLights := _numLights s;
     _lights := _lights s; _vao := _vao s; _quad := _quad s; _cube := _cube s;
     _cubeAdjacency := _cubeAdjacency s;
     _instancingBuffer := _instancingBuffer s;
     _transformBlockUBO := v |}.
Definition set_cubePositions (v : list vec3) (s : Scene) : Scene :=
  {| _loadedTextures := _loadedTextures s; _numCubes := _numCubes s;
     _cubePositions := v; _numLights := _numLights s;
     _lights := _lights s; _vao := _vao s; _quad := _quad s; _cube := _cube s;
     _cubeAdjacency := _cubeAdjacency s;
     _instancingBuffer := _instancingBuffer s;
     _transformBlockUBO := _transformBlockUBO s |}.
Definition set_lights (v : list Light) (s : Scene) : Scene :=
  {| _loadedTextures := _loadedTextures s; _numCubes := _numCubes s;
     _cubePositions := _cubePositions s; _numLights := _numLights s;
     _lights := v; _vao := _vao s; _quad := _quad s; _cube := _cube s;
     _cubeAdjacency := _cubeAdjacency s;
     _instancingBuffer := _instancingBuffer s;
     _transformBlockUBO := _transformBlockUBO s |}.
Definition set_loadedTexture (k : LoadedTextures.t) (v : GLuint) (s : Scene) : Scene :=
  {| _loadedTextures :=
       fun j => if LoadedTextures.eqb j k then v else _loadedTextures s j;
     _numCubes := _numCubes s;
     _cubePositions := _cubePositions s; _numLights := _numLights s;
     _lights := _lights s; _vao := _vao s; _quad := _quad s; _cube := _cube s;
     _cubeAdjacency := _cubeAdjacency s;
     _instancingBuffer := _instancingBuffer s;
     _transformBlockUBO := _transformBlockUBO s |}.


Definition light (i : Z) : M Scene Light :=
  fun w => lift (vec_get (_lights (scene w)) i) w.

(** [_lights[i].position = p] *)
Definition set_light_position (i : Z) (p : vec3) : M Scene unit :=
  fun w =>
    match vec_get (_lights (scene w)) i with
    | Crash f => Crash f
    | Ok l =>
        match vec_set (_lights (scene w)) i
                {| position := p; color := color l; movement := movement l |} with
        | Crash f => Crash f
        | Ok ls => assign (set_lights ls) w
        end
    end.

Section Members.
Variable env : Env.
Local Open Scope world_scope.

Definition Init (numCubes numLights : Z) : M Scene unit :=
  s <- this ;;
  (* Check if already initialized and return *)
  if truthy (_vao s) then ret tt else
  assign (set_numCubes numCubes) ;;
  assign (set_numLights numLights) ;;
  (* Prepare meshes *)
  assign (set_meshes (Some (CreateQuadNormalTangentTex env))
                     (Some (CreateCubeNormalTangentTex env))
                     (Some (CreateCubeAdjacency env))) ;;
  (* Create general use VAO *)
  vao <- genVertexArray ;;
  assign (set_vao vao) ;;
  (* Generate the instancing buffer as Uniform Buffer Object *)
  ib <- genBuffer ;;
  assign (set_instancingBuffer ib) ;;
  run (call (glBindBuffer GL_UNIFORM_BUFFER ib) ;;
       call (glBufferData GL_UNIFORM_BUFFER (InstanceBuffer_DATA_SIZE env)
               GL_DYNAMIC_DRAW) ;;
       call (glBindBuffer GL_UNIFORM_BUFFER 0))%gl ;;
  (* Generate the transform UBO handle *)
  tb <- genBuffer ;;
  assign (set_transformBlockUBO tb) ;;
  run (call (glBindBuffer GL_UNIFORM_BUFFER tb) ;;
       call (glBufferData GL_UNIFORM_BUFFER (TransformBlock_DATA_SIZE env)
               GL_DYNAMIC_DRAW) ;;
       (* Bind the memory for usage *)
       call (glBindBufferBase GL_UNIFORM_BUFFER 0 tb) ;;
       call (glBindBuffer GL_UNIFORM_BUFFER 0))%gl ;;
  (* Position the first cube half a meter above origin *)
  reserve numCubes ;;
  assign (fun s => set_cubePositions (_cubePositions s ++ [Vec3 0 (1 / 2) 0]) s) ;;
  (* Generate random positions for the rest of the cubes *)
  for_loop 1 numCubes (fun i =>
    x <- getRandom (-5) 5 ;;
    y <- getRandom 1 5 ;;
    z <- getRandom (-5) 5 ;;
    assign (fun s => set_cubePositions (_cubePositions s ++ [Vec3 x y z]) s)) ;;
  (* Ambient intensity for the lights *)
  let ambientIntentsity : float := (1 / 1000 / IZR numLights)%R in
  (* Position & color of the first light *)
  reserve numLights ;;
  let p := Vec4 0 1 0 0 in
  assign (fun s => set_lights
            (_lights s ++ [{| position := Vec3 (-3) 3 0;
                              color := Vec4 10 10 10 ambientIntentsity;
                              movement := p |}]) s) ;;
  (* Generate random positions for the rest of the lights *)
  for_loop 1 numLights (fun i =>
    x <- getRandom (-2) 2 ;;
    y <- getRandom (-2) 2 ;;
    z <- getRandom (-2) 2 ;;
    w <- getRandom (-2) 2 ;;
    let p := Vec4 x y z w in
    r <- getRandom 0 5 ;;
    g <- getRandom 0 5 ;;
    b <- getRandom 0 5 ;;
    let c := Vec4 r g b ambientIntentsity in
    assign (fun s => set_lights
              (_lights s ++ [{| position := add3 offset (mul3 (lissajous p 0) scale);
                                color := c; movement := p |}]) s)) ;;
  (* Create texture samplers: [_textures.CreateSamplers()] changes the
     texture helper only, whose samplers [GetSampler] gives *)
  (* Prepare textures *)
  assign (set_loadedTexture LoadedTextures.White
            (CreateSingleColorTexture env 255 255 255)) ;;
  assign (set_loadedTexture LoadedTextures.Grey
            (CreateSingleColorTexture env 127 127 127)) ;;
  assign (set_loadedTexture LoadedTextures.Blue
            (CreateSingleColorTexture env 127 127 255)) ;;
  assign (set_loadedTexture LoadedTextures.CheckerBoard
            (CreateCheckerBoardTexture env 256 16)) ;;
  assign (set_loadedTexture LoadedTextures.Diffuse
            (LoadTexture env "data/Terracotta_Tiles_002_Base_Color.jpg" true)) ;;
  assign (set_loadedTexture LoadedTextures.Normal
            (LoadTexture env "data/Terracotta_Tiles_002_Normal.jpg" false)) ;;
  assign (set_loadedTexture LoadedTextures.Specular
            (LoadTexture env "data/Terracotta_Tiles_002_Roughness.jpg" false)) ;;
  assign (set_loadedTexture LoadedTextures.Occlusion
            (LoadTexture env "data/Terracotta_Tiles_002_ambientOcclusion.jpg" false)).

Definition Update (dt : float) : M Scene unit :=
  (* Animation timer *)
  w0 <- get ;;
  let t := static_t w0 in
  (* Treat the first light as a special case with offset *)
  l0 <- light 0 ;;
  set_light_position 0 (add3 (Vec3 (-3) 2 0) (lissajous (movement l0) t)) ;;
  (* Update the rest of the lights *)
  s <- this ;;
  for_loop 1 (_numLights s) (fun i =>
    li <- light i ;;
    set_light_position i (add3 offset (mul3 (lissajous (movement li) t) scale))) ;;
  (* Update the animation timer *)
  put_t (t + dt)%R.

Definition UpdateInstanceData : M Scene unit :=
  let angle : float := 20%R in
  s <- this ;;
  (* Cubes *)
  for_loop 0 (_numCubes s) (fun i =>
    pos <- lift (vec_get (_cubePositions s) i) ;;
    let transformation := translate pos in
    let transformation :=
      mul transformation (rotate (radians (IZR i * angle)) (Vec3 1 1 1)) in
    w <- get ;;
    d <- lift (vec_set (static_instanceData w) i
                 {| transformation := to_mat3x4 (transpose transformation) |}) ;;
    put_instanceData d) ;;
  (* Bind the instancing buffer to the index 1 *)
  run (call (glBindBufferBase GL_UNIFORM_BUFFER 1 (_instancingBuffer s))) ;;
  (* Update the buffer data using mapping *)
  ptr <- mapBuffer GL_WRITE_ONLY ;;
  w <- get ;;
  memcpy ptr (instance_memory (static_instanceData w))
         (to_size_t (to_size_t (_numCubes s) * sizeof_InstanceData)) ;;
  run (call (glUnmapBuffer GL_UNIFORM_BUFFER)) ;;
  (* Unbind the instancing buffer *)
  run (call (glBindBufferBase GL_UNIFORM_BUFFER 1 0)).

Definition Draw (camera : Camera) (renderMode : RenderSettings)
           (carmackReverse : bool) : M Scene unit :=
  s <- this ;;
  run (UpdateTransformBlock s camera) ;;
  (* Update the scene *)
  UpdateInstanceData ;;
  run ((* Enable/disable MSAA rendering *)
       (if 1 <? msaaLevel renderMode
        then call (glEnable GL_MULTISAMPLE)
        else call (glDisable GL_MULTISAMPLE)) ;;
       (* Enable backface culling *)
       call (glEnable GL_CULL_FACE) ;;
       call (glCullFace GL_BACK) ;;
       (* Enable/disable wireframe *)
       call (glPolygonMode GL_FRONT_AND_BACK
               (if wireframe renderMode then GL_LINE else GL_FILL)) ;;
       (* Enable depth test, clamp, and write *)
       call (glEnable GL_DEPTH_TEST) ;;
       call (glEnable GL_DEPTH_CLAMP) ;;
       call (glDepthFunc GL_LEQUAL) ;;
       call (glDepthMask true) ;;
       (* Clear the color and depth buffer *)
       call (glClearColor 0 0 0 1) ;;
       call (glClear (Z.lor GL_COLOR_BUFFER_BIT GL_DEPTH_BUFFER_BIT)) ;;
       (* Render the scene into the depth buffer only, disable color write *)
       call (glColorMask false false false false) ;;
       depthPass env s camera ;;
       (* We primed the depth buffer, no need to write to it anymore *)
       call (glDepthMask false))%gl ;;
  (* For each light we need to render the scene with its contribution *)
  for_loop 0 (_numLights s) (fun i =>
    (* Enable stencil test and clear the stencil buffer *)
    run (call (glClear GL_STENCIL_BUFFER_BIT) ;;
         call (glEnable GL_STENCIL_TEST) ;;
         (* Draw shadow volumes first, disable color write *)
         call (glColorMask false false false false))%gl ;;
    l <- light i ;;
    run (shadowPass env s camera carmackReverse (position l) (color l)) ;;
    (* Draw direct light utilizing stenciled shadows, enable color write *)
    run (call (glColorMask true true true true)) ;;
    l <- light i ;;
    run (lightPass env s camera RenderPass.DirectLight (position l) (color l)) ;;
    (* Disable stencil test as we don't want shadows to affect ambient light *)
    run (call (glDisable GL_STENCIL_TEST)) ;;
    l <- light i ;;
    run (lightPass env s camera RenderPass.AmbientLight (position l) (color l))) ;;
  (* Don't forget to leave the color write enabled *)
  run (call (glColorMask true true true true)).

End Members.
End ShadowVolumes.

(** ** scene.cpp of the spot-light (shadow-map) pipeline: the members the
       two pipelines do not share word for word *)
Module Spotlights.
Import glm GL Machine.

Definition scale : vec3 := Vec3 13 2 13.
Definition offset : vec3 := Vec3 0 3 0.

Definition lissajous (p : vec4) (t : float) : vec3 :=
  Vec3 (sin (x p * t)) (cos (y p * t)) (sin (z p * t) * cos (w p * t))%R.

Record Scene := {
  _loadedTextures : LoadedTextures.t -> GLuint;
  _numCubes : Z;
  _cubePositions : list vec3;
  _numPointLights : Z;
  _numSpotLights : Z;
  _lights : list Light;
  _spotLights : list SpotLight;
  _vao : GLuint;
  _quad : option Mesh;
  _cube : option Mesh;
  _cubeAdjacency : option Mesh;
  _instancingBuffer : GLuint;
  _transformBlockUBO : GLuint;
  depthMapTexture : GLuint;
  depthMapFBO : GLuint
}.

(** field assignments on the scene *)
Definition set_numCubes (v : Z) (s : Scene) : Scene :=
  {| _loadedTextures := _loadedTextures s; _numCubes := v;
     _cubePositions := _cubePositions s;
     _numPointLights := _numPointLights s;
     _numSpotLights := _numSpotLights s; _lights := _lights s;
     _spotLights := _spotLights s; _vao := _vao s; _quad := _quad s;
     _cube := _cube s; _cubeAdjacency := _cubeAdjacency s;
     _instancingBuffer := _instancingBuffer s;
     _transformBlockUBO := _transformBlockUBO s;
     depthMapTexture := depthMapTexture s; depthMapFBO := depthMapFBO s |}.
Definition set_numSpotLights (v : Z) (s : Scene) : Scene :=
  {| _loadedTextures := _loadedTextures s; _numCubes := _numCubes s;
     _cubePositions := _cubePositions s;
     _numPointLights := _numPointLights s; _numSpotLights := v;
     _lights := _lights s; _spotLights := _spotLights s; _vao := _vao s;
     _quad := _quad s; _cube := _cube s;
     _cubeAdjacency := _cubeAdjacency s;
     _instancingBuffer := _instancingBuffer s;
     _transformBlockUBO := _transformBlockUBO s;
     depthMapTexture := depthMapTexture s; depthMapFBO := depthMapFBO s |}.
Definition set_numPointLights (v : Z) (s : Scene) : Scene :=
  {| _loadedTextures := _loadedTextures s; _numCubes := _numCubes s;
     _cubePositions := _cubePositions s; _numPointLights := v;
     _numSpotLights := _numSpotLights s; _lights := _lights s;
     _spotLights := _spotLights s; _vao := _vao s; _quad := _quad s;
     _cube := _cube s; _cubeAdjacency := _cubeAdjacency s;
     _instancingBuffer := _instancingBuffer s;
     _transformBlockUBO := _transformBlockUBO s;
     depthMapTexture := depthMapTexture s; depthMapFBO := depthMapFBO s |}.
Definition set_meshes (q c a : option Mesh) (s : Scene) : Scene :=
  {| _loadedTextures := _loadedTextures s; _numCubes := _numCubes s;
     _cubePositions := _cubePositions s;
     _numPointLights := _numPointLights s;
     _numSpotLights := _numSpotLights s; _lights := _lights s;
     _spotLights := _spotLights s; _vao := _vao s; _quad := q; _cube := c;
     _cubeAdjacency := a; _instancingBuffer := _instancingBuffer s;
     _transformBlockUBO := _transformBlockUBO s;
     depthMapTexture := depthMapTexture s; depthMapFBO := depthMapFBO s |}.
Definition set_vao (v : GLuint) (s : Scene) : Scene :=
  {| _loadedTextures := _loadedTextures s; _numCubes := _numCubes s;
     _cubePositions := _cubePositions s;
     _numPointLights := _numPointLights s;
     _numSpotLights := _numSpotLights s; _lights := _lights s;
     _spotLights := _spotLights s; _vao := v; _quad := _quad s;
     _cube := _cube s; _cubeAdjacency := _cubeAdjacency s;
     _instancingBuffer := _instancingBuffer s;
     _transformBlockUBO := _transformBlockUBO s;
     depthMapTexture := depthMapTexture s; depthMapFBO := depthMapFBO s |}.
Definition set_instancingBuffer (v : GLuint) (s : Scene) : Scene :=
  {| _loadedTextures := _loadedTextures s; _numCubes := _numCubes s;
     _cubePositions := _cubePositions s;
     _numPointLights := _numPointLights s;
     _numSpotLights := _numSpotLights s; _lights := _lights s;
     _spotLights := _spotLights s; _vao := _vao s; _quad := _quad s;
     _cube := _cube s; _cubeAdjacency := _cubeAdjacency s;
     _instancingBuffer := v; _transformBlockUBO := _transformBlockUBO s;
     depthMapTexture := depthMapTexture s; depthMapFBO := depthMapFBO s |}.
Definition set_transformBlockUBO (v : GLuint) (s : Scene) : Scene :=
  {| _loadedTextures := _loadedTextures s; _numCubes := _numCubes s;
     _cubePositions := _cubePositions s;
     _numPointLights := _numPointLights s;
     _numSpotLights := _numSpotLights s; _lights := _lights s;
     _spotLights := _spotLights s; _vao := _vao s; _quad := _quad s;
     _cube := _cube s; _cubeAdjacency := _cubeAdjacency s;
     _instancingBuffer := _instancingBuffer s; _transformBlockUBO := v;
     depthMapTexture := depthMapTexture s; depthMapFBO := depthMapFBO s |}.
Definition set_cubePositions (v : list vec3) (s : Scene) : Scene :=
  {| _loadedTextures := _loadedTextures s; _numCubes := _numCubes s;
     _cubePositions := v; _numPointLights := _numPointLights s;
     _numSpotLights := _numSpotLights s; _lights := _lights s;
     _spotLights := _spotLights s; _vao := _vao s; _quad := _quad s;
     _cube := _cube s; _cubeAdjacency := _cubeAdjacency s;
     _instancingBuffer := _instancingBuffer s;
     _transformBlockUBO := _transformBlockUBO s;
     depthMapTexture := depthMapTexture s; depthMapFBO := depthMapFBO s |}.
Definition set_lights (v : list Light) (s : Scene) : Scene :=
  {| _loadedTextures := _loadedTextures s; _numCubes := _numCubes s;
     _cubePositions := _cubePositions s;
     _numPointLights := _numPointLights s;
     _numSpotLights := _numSpotLights s; _lights := v;
     _spotLights := _spotLights s; _vao := _vao s; _quad := _quad s;
     _cube := _cube s; _cubeAdjacency := _cubeAdjacency s;
     _instancingBuffer := _instancingBuffer s;
     _transformBlockUBO := _transformBlockUBO s;
     depthMapTexture := depthMapTexture s; depthMapFBO := depthMapFBO s |}.
Definition set_spotLights (v : list SpotLight) (s : Scene) : Scene :=
  {| _loadedTextures := _loadedTextures s; _numCubes := _numCubes s;
     _cubePositions := _cubePositions s;
     _numPointLights := _numPointLights s;
     _numSpotLights := _numSpotLights s; _lights := _lights s;
     _spotLights := v; _vao := _vao s; _quad := _quad s; _cube := _cube s;
     _cubeAdjacency := _cubeAdjacency s;
     _instancingBuffer := _instancingBuffer s;
     _transformBlockUBO := _transformBlockUBO s;
     depthMapTexture := depthMapTexture s; depthMapFBO := depthMapFBO s |}.
Definition set_loadedTexture (k : LoadedTextures.t) (v : GLuint) (s : Scene) : Scene :=
  {|
     _loadedTextures := (fun j => if LoadedTextures.eqb j k then v else _loadedTextures s j);
     _numCubes := _numCubes s; _cubePositions := _cubePositions s;
     _numPointLights := _numPointLights s;
     _numSpotLights := _numSpotLights s; _lights := _lights s;
     _spotLights := _spotLights s; _vao := _vao s; _quad := _quad s;
     _cube := _cube s; _cubeAdjacency := _cubeAdjacency s;
     _instancingBuffer := _instancingBuffer s;
     _transformBlockUBO := _transformBlockUBO s;
     depthMapTexture := depthMapTexture s; depthMapFBO := depthMapFBO s |}.

Section GLOnly.
Local Open Scope gl_scope.

Definition UpdateProgramData (program : GLuint) (renderPass : RenderPass.t)
           (camera : Camera) (lightPosition : vec3) (lightColor : vec4)
           (lightDirection : vec3) : W :=
  (when (truthy (Z.land renderPass
                   (Z.lor RenderPass.ShadowVolume RenderPass.LightPass))) then
     call (glUniform (glGetUniformLocation program "lightPosWS")
             [x3 lightPosition; y3 lightPosition; z3 lightPosition;
              if truthy (Z.land renderPass RenderPass.DirectLight)
              then 1%R else 0%R])) ;;
  (when (truthy (Z.land renderPass RenderPass.DepthPass)) then
     (let lightView := lookAt lightPosition (vec3_splat 0) (Vec3 0 1 0) in
      let lightMatrix := mul (GetProjection camera) lightView in
      call (glUniform (glGetUniformLocation program "lightMatrix")
              (ptr4x4 lightMatrix)))) ;;
  (* Update view position and light color *)
  (when (truthy (Z.land renderPass RenderPass.LightPass)) then
     (call (glUniform (glGetUniformLocation program "viewPosWS")
              (ptr4 (m3 (GetViewToWorld camera)))) ;;
      call (glUniform (glGetUniformLocation program "lightColor")
              [x lightColor; y lightColor; z lightColor;
               if truthy (Z.land renderPass RenderPass.AmbientLight)
               then w lightColor else 0%R]))).

Definition UpdateProgramDataSpotlights (program : GLuint)
           (renderPass : RenderPass.t) (camera : Camera)
           (lightPosition : vec3) (lightColor : vec4) (lightDirection : vec3)
           (innerAngleDegrees outerAngleDegrees maxLightDistance : float) : W :=
  (when (truthy (Z.land renderPass
                   (Z.lor RenderPass.ShadowVolume RenderPass.LightPass))) then
     call (glUniform (glGetUniformLocation program "lightPosWS")
             [x3 lightPosition; y3 lightPosition; z3 lightPosition;
              if truthy (Z.land renderPass RenderPass.DirectLight)
              then 1%R else 0%R])) ;;
  (when (truthy (Z.land renderPass RenderPass.DepthPass)) then
     (let lightView := lookAt lightPosition (vec3_splat 0) (Vec3 0 1 0) in
      let lightMatrix := mul (GetProjection camera) lightView in
      call (glUniform (glGetUniformLocation program "lightMatrix")
              (ptr4x4 lightMatrix)))) ;;
  (when (truthy (Z.land renderPass RenderPass.LightPass)) then
     (call (glUniform (glGetUniformLocation program "viewPosWS")
              (ptr4 (m3 (GetViewToWorld camera)))) ;;
      call (glUniform (glGetUniformLocation program "lightColor")
              [x lightColor; y lightColor; z lightColor;
               if truthy (Z.land renderPass RenderPass.AmbientLight)
               then w lightColor else 0%R]))) ;;
  call (glUniform (glGetUniformLocation program "lightDirection")
          (ptr3 lightDirection)) ;;
  call (glUniform (glGetUniformLocation program "innerAngleDegrees")
          [innerAngleDegrees]) ;;
  call (glUniform (glGetUniformLocation program "outerAngleDegrees")
          [outerAngleDegrees]) ;;
  call (glUniform (glGetUniformLocation program "maxLightDistance")
          [maxLightDistance]).

Definition UpdateProgramDataSpotlightsShadow (program : GLuint)
           (renderPass : RenderPass.t) (camera : Camera)
           (lightPosition : vec3) (lightColor : vec4) (lightDirection : vec3)
           (innerAngleDegrees outerAngleDegrees maxLightDistance : float) : W :=
  (when (truthy (Z.land renderPass
                   (Z.lor RenderPass.ShadowVolume RenderPass.LightPass))) then
     call (glUniform (glGetUniformLocation program "lightPosWS")
             [x3 lightPosition; y3 lightPosition; z3 lightPosition;
              if truthy (Z.land renderPass RenderPass.DirectLight)
              then 1%R else 0%R])) ;;
  (when (truthy (Z.land renderPass RenderPass.LightPass)) then
     (call (glUniform (glGetUniformLocation program "viewPosWS")
              (ptr4 (m3 (GetViewToWorld camera)))) ;;
      call (glUniform (glGetUniformLocation program "lightColor")
              [x lightColor; y lightColor; z lightColor;
               if truthy (Z.land renderPass RenderPass.AmbientLight)
               then w lightColor else 0%R]))) ;;
  call (glUniform (glGetUniformLocation program "lightDirection")
          (ptr3 lightDirection)) ;;
  call (glUniform (glGetUniformLocation program "innerAngleDegrees")
          [innerAngleDegrees]) ;;
  call (glUniform (glGetUniformLocation program "outerAngleDegrees")
          [outerAngleDegrees]) ;;
  call (glUniform (glGetUniformLocation program "maxLightDistance")
          [maxLightDistance]).
End GLOnly.

Definition light (i : Z) : M Scene Light :=
  fun w => lift (vec_get (_lights (scene w)) i) w.
Definition spotLight (i : Z) : M Scene SpotLight :=
  fun w => lift (vec_get (_spotLights (scene w)) i) w.

(** [_lights[i].position = p] and [_spotLights[i].position = p] *)
Definition set_light_position (i : Z) (p : vec3) : M Scene unit :=
  fun w =>
    match vec_get (_lights (scene w)) i with
    | Crash f => Crash f
    | Ok l =>
        match vec_set (_lights (scene w)) i
                {| position := p; color := color l; movement := movement l |} with
        | Crash f => Crash f
        | Ok ls => assign (set_lights ls) w
        end
    end.
Definition set_spotLight_position (i : Z) (p : vec3) : M Scene unit :=
  fun w =>
    match vec_get (_spotLights (scene w)) i with
    | Crash f => Crash f
    | Ok l =>
        match vec_set (_spotLights (scene w)) i
                {| spot_position := p; spot_color := spot_color l;
                   spot_movement := spot_movement l;
                   lightDirection := lightDirection l;
                   innerLightAngleDegrees := innerLightAngleDegrees l;
                   outerLightAngleDegrees := outerLightAngleDegrees l;
                   lightDistance := lightDistance l |} with
        | Crash f => Crash f
        | Ok ls => assign (set_spotLights ls) w
        end
    end.

Section Members.
Variable env : Env.
Local Open Scope world_scope.

Definition Init (numCubes numLights : Z) : M Scene unit :=
  s <- this ;;
  (* Check if already initialized and return *)
  if truthy (_vao s) then ret tt else
  assign (set_numCubes numCubes) ;;
  assign (set_numSpotLights 1) ;;
  assign (set_numPointLights numLights) ;;
  (* Prepare meshes *)
  assign (set_meshes (Some (CreateQuadNormalTangentTex env))
                     (Some (CreateCubeNormalTangentTex env))
                     (Some (CreateCubeAdjacency env))) ;;
  (* Create general use VAO *)
  vao <- genVertexArray ;;
  assign (set_vao vao) ;;
  (* Generate the instancing buffer as Uniform Buffer Object *)
  ib <- genBuffer ;;
  assign (set_instancingBuffer ib) ;;
  run (call (glBindBuffer GL_UNIFORM_BUFFER ib) ;;
       call (glBufferData GL_UNIFORM_BUFFER (InstanceBuffer_DATA_SIZE env)
               GL_DYNAMIC_DRAW) ;;
       call (glBindBuffer GL_UNIFORM_BUFFER 0))%gl ;;
  (* Generate the UBO handle with transform matrix *)
  tb <- genBuffer ;;
  assign (set_transformBlockUBO tb) ;;
  run (call (glBindBuffer GL_UNIFORM_BUFFER tb) ;;
       call (glBufferData GL_UNIFORM_BUFFER (TransformBlock_DATA_SIZE env)
               GL_DYNAMIC_DRAW) ;;
       call (glBindBufferBase GL_UNIFORM_BUFFER 0 tb) ;;
       call (glBindBuffer GL_UNIFORM_BUFFER 0))%gl ;;
  (* Position the first cube half a meter above origin *)
  reserve numCubes ;;
  assign (fun s => set_cubePositions (_cubePositions s ++ [Vec3 0 (1 / 2) 0]) s) ;;
  for_loop 1 numCubes (fun i =>
    x <- getRandom (-5) 5 ;;
    y <- getRandom 1 5 ;;
    z <- getRandom (-5) 5 ;;
    assign (fun s => set_cubePositions (_cubePositions s ++ [Vec3 x y z]) s)) ;;
  (* Ambient intensity for the lights *)
  let ambientIntensity : float := (1 / 1000 / IZR numLights)%R in
  (* Position & color of the first light *)
  reserve numLights ;;
  let nextPosition := Vec4 0 1 0 0 in
  assign (fun s => set_lights
            (_lights s ++ [{| position := Vec3 (-3) 3 0;
                              color := Vec4 10 10 10 ambientIntensity;
                              movement := nextPosition |}]) s) ;;
  (* Create Spot Light as the 2nd *)
  reserve 1 ;;
  let nextPosition := Vec4 2 1 1 0 in
  let spotLightDirection := Vec3 (1 / 2) (- (1 / 2)) 0 in
  let innerAngle : float := 30%R in
  let outerAngle : float := 40%R in
  let dropoffDistance : float := 5000%R in
  assign (fun s => set_spotLights
            (_spotLights s ++ [{| spot_position := Vec3 (-3) 2 0;
                                  spot_color := Vec4 10 10 10 ambientIntensity;
                                  spot_movement := nextPosition;
                                  lightDirection := spotLightDirection;
                                  innerLightAngleDegrees := innerAngle;
                                  outerLightAngleDegrees := outerAngle;
                                  lightDistance := dropoffDistance |}]) s) ;;
  (* Generate random positions for the rest of the lights *)
  for_loop 1 numLights (fun i =>
    x <- getRandom (-2) 2 ;;
    y <- getRandom (-2) 2 ;;
    z <- getRandom (-2) 2 ;;
    w <- getRandom (-2) 2 ;;
    let nextPosition := Vec4 x y z w in
    r <- getRandom 0 5 ;;
    g <- getRandom 0 5 ;;
    b <- getRandom 0 5 ;;
    let color := Vec4 r g b ambientIntensity in
    assign (fun s => set_lights
              (_lights s ++ [{| position :=
                                  add3 offset (mul3 (lissajous nextPosition 0) scale);
                                color := color; movement := nextPosition |}]) s)) ;;
  (* Create texture samplers: [_textures.CreateSamplers()] changes the
     texture helper only, whose samplers [GetSampler] gives *)
  (* Prepare textures *)
  assign (set_loadedTexture LoadedTextures.White
            (CreateSingleColorTexture env 255 255 255)) ;;
  assign (set_loadedTexture LoadedTextures.Grey
            (CreateSingleColorTexture env 127 127 127)) ;;
  assign (set_loadedTexture LoadedTextures.Blue
            (CreateSingleColorTexture env 127 127 255)) ;;
  assign (set_loadedTexture LoadedTextures.CheckerBoard
            (CreateCheckerBoardTexture env 256 16)) ;;
  assign (set_loadedTexture LoadedTextures.Diffuse
            (LoadTexture env "data/Terracotta_Tiles_002_Base_Color.jpg" true)) ;;
  assign (set_loadedTexture LoadedTextures.Normal
            (LoadTexture env "data/Terracotta_Tiles_002_Normal.jpg" false)) ;;
  assign (set_loadedTexture LoadedTextures.Specular
            (LoadTexture env "data/Terracotta_Tiles_002_Roughness.jpg" false)) ;;
  assign (set_loadedTexture LoadedTextures.Occlusion
            (LoadTexture env "data/Terracotta_Tiles_002_ambientOcclusion.jpg" false)).

Definition Update (dt : float) : M Scene unit :=
  w0 <- get ;;
  let t := static_t w0 in
  (* Treat the first light as a special case with offset *)
  l0 <- light 0 ;;
  set_light_position 0 (add3 (Vec3 (-3) 2 0) (lissajous (movement l0) t)) ;;
  (* same for the spotlight *)
  s0 <- spotLight 0 ;;
  set_spotLight_position 0
    (add3 (Vec3 (- (15 / 10)) (2 / 10) (1 / 2)) (lissajous (spot_movement s0) t)) ;;
  (* Update the rest of the lights *)
  s <- this ;;
  for_loop 1 (_numPointLights s) (fun i =>
    li <- light i ;;
    set_light_position i (add3 offset (mul3 (lissajous (movement li) t) scale))) ;;
  (* Update the animation timer *)
  put_t (t + dt)%R.

End Members.
End Spotlights.

(** ** The arithmetic of [float]

    Where a property depends on overflow or on rounding, the idealisation of
    [float] as a real number is not enough.  [Binary32] is the IEEE 754
    binary32 format with the operations of the Standard Library's
    specification of floating-point arithmetic (round to nearest, ties to
    even); [Rounded] is real arithmetic in which every operation of the
    source rounds its exact result. *)
Module Binary32.

Definition prec : Z := 24.
Definition emax : Z := 128.
Definition binary32 : Set := SpecFloat.spec_float.

Definition mul : binary32 -> binary32 -> binary32 := SpecFloat.SFmul prec emax.
Definition add : binary32 -> binary32 -> binary32 := SpecFloat.SFadd prec emax.
Definition sub : binary32 -> binary32 -> binary32 := SpecFloat.SFsub prec emax.
Definition abs : binary32 -> binary32 := SpecFloat.SFabs.
(** [a <= b]; false when an operand is NaN *)
Definition leb : binary32 -> binary32 -> bool := SpecFloat.SFleb.

(** a literal with an integer value, as [13.0f] *)
Definition of_Z (n : Z) : binary32 := SpecFloat.binary_normalize prec emax n 0 false.

Definition is_nan (a : binary32) : bool :=
  match a with SpecFloat.S754_nan => true | _ => false end.
Definition is_infinite (a : binary32) : bool :=
  match a with SpecFloat.S754_infinity _ => true | _ => false end.
Definition is_finite (a : binary32) : bool :=
  match a with
  | SpecFloat.S754_zero _ | SpecFloat.S754_finite _ _ _ => true
  | _ => false
  end.

(** [sinf] and [cosf] of the C library.  Their values at zeros, infinities
    and NaN are those of IEC 60559 (C Annex F: sin(+-0) is +-0, cos(+-0) is
    1, sin and cos of an infinity are NaN); at the other arguments the value
    is the library's. *)
Record libm := {
  sin_finite : binary32 -> binary32;
  cos_finite : binary32 -> binary32
}.

Definition sinf (m : libm) (a : binary32) : binary32 :=
  match a with
  | SpecFloat.S754_zero _ => a
  | SpecFloat.S754_infinity _ | SpecFloat.S754_nan => SpecFloat.S754_nan
  | SpecFloat.S754_finite _ _ _ => sin_finite m a
  end.

Definition cosf (m : libm) (a : binary32) : binary32 :=
  match a with
  | SpecFloat.S754_zero _ => of_Z 1
  | SpecFloat.S754_infinity _ | SpecFloat.S754_nan => SpecFloat.S754_nan
  | SpecFloat.S754_finite _ _ _ => cos_finite m a
  end.

Record vec3 := Vec3 { x3 : binary32; y3 : binary32; z3 : binary32 }.
Record vec4 := Vec4 { x : binary32; y : binary32; z : binary32; w : binary32 }.

Definition add3 (a b : vec3) : vec3 :=
  Vec3 (add (x3 a) (x3 b)) (add (y3 a) (y3 b)) (add (z3 a) (z3 b)).
Definition mul3 (a b : vec3) : vec3 :=
  Vec3 (mul (x3 a) (x3 b)) (mul (y3 a) (y3 b)) (mul (z3 a) (z3 b)).

(** Scaling factor and offset for lights movement curve *)
Definition scale : vec3 := Vec3 (of_Z 13) (of_Z 2) (of_Z 13).
Definition offset : vec3 := Vec3 (of_Z 0) (of_Z 3) (of_Z 0).

(** Lissajous curve position calculation based on the parameters *)
Definition lissajous (m : libm) (p : vec4) (t : binary32) : vec3 :=
  Vec3 (sinf m (mul (x p) t)) (cosf m (mul (y p) t))
       (mul (sinf m (mul (z p) t)) (cosf m (mul (w p) t))).

(** the position [Update] gives a light from 1 on:
    [offset + lissajous(movement, t) * scale] *)
Definition light_position (m : libm) (p : vec4) (t : binary32) : vec3 :=
  add3 offset (mul3 (lissajous m p t) scale).

(** the position [Update] gives the first light:
    [vec3(-3, 2, 0) + lissajous(movement, t)] *)
Definition first_light_position (m : libm) (p : vec4) (t : binary32) : vec3 :=
  add3 (Vec3 (of_Z (-3)) (of_Z 2) (of_Z 0)) (lissajous m p t).

(** [|a - c| <= r] *)
Definition within (a c r : binary32) : bool := leb (abs (sub a c)) r.

(** on each axis the position is within the scale component of the offset *)
Definition in_range (q : vec3) : bool :=
  within (x3 q) (x3 offset) (x3 scale)
  && within (y3 q) (y3 offset) (y3 scale)
  && within (z3 q) (z3 offset) (z3 scale).

(** [3e38f], a finite binary32 number: 14791142 * 2^104 *)
Definition f3e38 : binary32 := SpecFloat.S754_finite false 14791142 104.

End Binary32.

Module Rounded.
Import glm.
Local Open Scope R_scope.

Section Arithmetic.
(** the rounding of an exact result to [float] *)
Variable rnd : R -> R.
(** [sinf] and [cosf] of the C library *)
Variables sinf cosf : R -> R.

Definition add3 (a b : vec3) : vec3 :=
  Vec3 (rnd (x3 a + x3 b)) (rnd (y3 a + y3 b)) (rnd (z3 a + z3 b)).
Definition mul3 (a b : vec3) : vec3 :=
  Vec3 (rnd (x3 a * x3 b)) (rnd (y3 a * y3 b)) (rnd (z3 a * z3 b)).

(** Lissajous curve position calculation based on the parameters *)
Definition lissajous (p : vec4) (t : float) : vec3 :=
  Vec3 (sinf (rnd (x p * t))) (cosf (rnd (y p * t)))
       (rnd (sinf (rnd (z p * t)) * cosf (rnd (w p * t)))).

(** the position [Update] gives a light from 1 on:
    [offset + lissajous(movement, t) * scale] *)
Definition light_position (p : vec4) (t : float) : vec3 :=
  add3 ShadowVolumes.offset (mul3 (lissajous p t) ShadowVolumes.scale).

End Arithmetic.

(** what the bounds need of rounding: it is monotone and leaves the integers
    a [float] represents exactly (those up to 2^24) as they are; so does
    every rounding mode of IEEE 754 *)
Definition rounding (rnd : R -> R) : Prop :=
  (forall a b, a <= b -> rnd a <= rnd b) /\
  (forall n : Z, (Z.abs n <= 16777216)%Z -> rnd (IZR n) = IZR n).

(** what they need of [sinf] and [cosf]: values within [-1, 1] *)
Definition within_one (f : R -> R) : Prop := forall a, -1 <= f a <= 1.

End Rounded.

(** * Vocabulary of the properties *)
Import glm GL Machine.

(** the calls a GL-only function issues *)
Definition calls_of (c : W) : list GLcmd :=
  match c with Ok cs => cs | Crash _ => [] end.

Definition all_channels (b : bool) : ColorMask :=
  {| red := b; green := b; blue := b; alpha := b |}.

(** a render pass value contains a flag *)
Definition has_flag (renderPass flag : Z) : Prop := Z.land renderPass flag <> 0.

(** the calls set the uniform [name] of some program *)
Definition sets_uniform (name : string) (cs : list GLcmd) : bool :=
  existsb (fun c => match c with
                    | glUniform (glGetUniformLocation _ n) _ => String.eqb n name
                    | _ => false
                    end) cs.

(** the draw of the shadow volumes: the adjacency mesh, instanced *)
Definition is_shadow_volume_draw (c : GLcmd) : bool :=
  match c with
  | glDrawElementsInstanced GL_TRIANGLES_ADJACENCY _ _ => true
  | _ => false
  end.

(** the call binds a buffer to the indexed uniform slot [i] *)
Definition binds_slot (i : Z) (c : GLcmd) : bool :=
  match c with
  | glBindBufferBase GL_UNIFORM_BUFFER j _ => j =? i
  | _ => false
  end.

(** the call belongs to the per-light stencil work *)
Definition stencil_call (c : GLcmd) : bool :=
  match c with
  | glClear mask => truthy (Z.land mask GL_STENCIL_BUFFER_BIT)
  | glEnable GL_STENCIL_TEST | glDisable GL_STENCIL_TEST
  | glStencilFunc _ _ _ | glStencilOp _ _ _ | glStencilOpSeparate _ _ _ _ => true
  | _ => false
  end.

(** the state a list of rasterising calls ran in satisfies [P] throughout *)
Definition all_drawn (P : GLstate -> Prop) (ds : list (GLcmd * GLstate)) : Prop :=
  Forall (fun d => P (snd d)) ds.

(** the world after rounds [k], ..., [k + n - 1] of a loop whose round [j]
    maps the world by [f j] *)
Fixpoint rounds {Wd} (f : nat -> Wd -> Wd) (k n : nat) (w : Wd) : Wd :=
  match n with
  | O => w
  | S n' => rounds f (S k) n' (f k w)
  end.

(** the transform of instance [i] at [pos], as [UpdateInstanceData] stages it *)
Definition instance_of (i : Z) (pos : vec3) : InstanceData :=
  {| transformation :=
       to_mat3x4 (transpose (mul (translate pos)
                                 (rotate (radians (IZR i * 20)) (Vec3 1 1 1)))) |}.

(** the transforms of the cubes at [ps], numbered from [i] *)
Fixpoint instances_from (i : Z) (ps : list vec3) : list InstanceData :=
  match ps with
  | [] => []
  | pos :: ps' => instance_of i pos :: instances_from (i + 1) ps'
  end.

(** one round of the staging loop of [UpdateInstanceData] over the cube
    positions [ps] *)
Definition stage_round {Sc} (ps : list vec3) (j : nat) (w : World Sc) : World Sc :=
  match nth_error ps j with
  | Some pos =>
      with_instanceData
        (firstn j (static_instanceData w)
         ++ instance_of (Z.of_nat j) pos :: skipn (S j) (static_instanceData w)) w
  | None => w
  end.

(** the calls with which [UpdateInstanceData] uploads the floats [data] *)
Definition instance_upload (buffer : GLuint) (data : list float) : list GLcmd :=
  [glBindBufferBase GL_UNIFORM_BUFFER 1 buffer;
   glMapBuffer GL_UNIFORM_BUFFER GL_WRITE_ONLY;
   memcpy_mapped buffer data;
   glUnmapBuffer GL_UNIFORM_BUFFER;
   glBindBufferBase GL_UNIFORM_BUFFER 1 0].

(** a GL-only function runs to its end *)
Definition ok (c : W) : Prop := c = Ok (calls_of c).

(** the fixed state set-up of a frame, up to the masking of colour writes
    for the depth pre-pass *)
Definition frame_setup (renderMode : RenderSettings) : list GLcmd :=
  [ if 1 <? msaaLevel renderMode
    then glEnable GL_MULTISAMPLE else glDisable GL_MULTISAMPLE;
    glEnable GL_CULL_FACE;
    glCullFace GL_BACK;
    glPolygonMode GL_FRONT_AND_BACK
      (if wireframe renderMode then GL_LINE else GL_FILL);
    glEnable GL_DEPTH_TEST;
    glEnable GL_DEPTH_CLAMP;
    glDepthFunc GL_LEQUAL;
    glDepthMask true;
    glClearColor 0 0 0 1;
    glClear (Z.lor GL_COLOR_BUFFER_BIT GL_DEPTH_BUFFER_BIT);
    glColorMask false false false false ].

(** the three passes of the loop of [Draw] for one light, each with the
    colour-mask call that precedes it *)
Definition shadow_segment env s camera carmackReverse (l : Light) : list GLcmd :=
  glColorMask false false false false
  :: calls_of (ShadowVolumes.shadowPass env s camera carmackReverse
                 (position l) (color l)).
Definition direct_segment env s camera (l : Light) : list GLcmd :=
  glColorMask true true true true
  :: calls_of (ShadowVolumes.lightPass env s camera RenderPass.DirectLight
                 (position l) (color l)).
Definition ambient_segment env s camera (l : Light) : list GLcmd :=
  calls_of (ShadowVolumes.lightPass env s camera RenderPass.AmbientLight
              (position l) (color l)).

(** the calls of one round of the loop of [Draw] *)
Definition light_iteration env s camera carmackReverse (l : Light) : list GLcmd :=
  [glClear GL_STENCIL_BUFFER_BIT; glEnable GL_STENCIL_TEST]
  ++ shadow_segment env s camera carmackReverse l
  ++ direct_segment env s camera l
  ++ [glDisable GL_STENCIL_TEST]
  ++ ambient_segment env s camera l.

(** the calls of a frame before the loop over the lights, when the floats
    [data] are uploaded for the instances *)
Definition frame_prologue env s camera renderMode (data : list float) : list GLcmd :=
  calls_of (ShadowVolumes.UpdateTransformBlock s camera)
  ++ instance_upload (ShadowVolumes._instancingBuffer s) data
  ++ frame_setup renderMode
  ++ calls_of (ShadowVolumes.depthPass env s camera)
  ++ [glDepthMask false].

(** one round of the loop of [Draw] over [lights] *)
Definition light_round env s camera cr (lights : list Light) (j : nat)
           (w : World ShadowVolumes.Scene) : World ShadowVolumes.Scene :=
  match nth_error lights j with
  | Some l => emit (light_iteration env s camera cr l) w
  | None => w
  end.

(** the context state the shadow-volume pass is to render in *)
Definition shadow_state (st : GLstate) : Prop :=
  stencil_func st = (GL_ALWAYS, 0, 0xff) /\
  enabled st GL_CULL_FACE = false /\
  color_writemask st = all_channels false /\
  depth_writemask st = false.

(** the shadow-volume draws among rasterising calls *)
Definition shadow_draws (ds : list (GLcmd * GLstate)) : list (GLcmd * GLstate) :=
  filter (fun d => is_shadow_volume_draw (fst d)) ds.

(** the world-to-view matrix of the camera as [UpdateTransformBlock] stores
    it: transposed, 3 columns of 4 rows *)
Definition transposed_view (camera : Camera) : list float :=
  let m := GetWorldToView camera in
  [ x (m0 m); x (m1 m); x (m2 m); x (m3 m);
    y (m0 m); y (m1 m); y (m2 m); y (m3 m);
    z (m0 m); z (m1 m); z (m2 m); z (m3 m) ].

(** the calls [Init] issues in a context in state [g] *)
Definition init_calls (env : Env) (g : GLstate) : list GLcmd :=
  let ib := Z.pos (next_buffer g) in
  let tb := Z.pos (Pos.succ (next_buffer g)) in
  [ glGenVertexArrays;
    glGenBuffers;
    glBindBuffer GL_UNIFORM_BUFFER ib;
    glBufferData GL_UNIFORM_BUFFER (InstanceBuffer_DATA_SIZE env) GL_DYNAMIC_DRAW;
    glBindBuffer GL_UNIFORM_BUFFER 0;
    glGenBuffers;
    glBindBuffer GL_UNIFORM_BUFFER tb;
    glBufferData GL_UNIFORM_BUFFER (TransformBlock_DATA_SIZE env) GL_DYNAMIC_DRAW;
    glBindBufferBase GL_UNIFORM_BUFFER 0 tb;
    glBindBuffer GL_UNIFORM_BUFFER 0 ].

(** the world [w] has the context, the calls and the object handles of
    [w0]: what the loops of [Init] leave alone *)
Definition same_context (w0 w : World ShadowVolumes.Scene) : Prop :=
  calls w = calls w0 /\ gl w = gl w0 /\
  ShadowVolumes._vao (scene w) = ShadowVolumes._vao (scene w0) /\
  ShadowVolumes._instancingBuffer (scene w)
  = ShadowVolumes._instancingBuffer (scene w0) /\
  ShadowVolumes._transformBlockUBO (scene w)
  = ShadowVolumes._transformBlockUBO (scene w0).

(** the bounding box of the random cubes *)
Definition in_box (c : vec3) : Prop :=
  (-5 <= x3 c <= 5 /\ 1 <= y3 c <= 5 /\ -5 <= z3 c <= 5)%R.

(** the cube that the samples [u], [v], [w] of the random source give *)
Definition random_cube (u v w : float) : vec3 :=
  Vec3 (-5 + u * (5 - -5)) (1 + v * (5 - 1)) (-5 + w * (5 - -5)).

(** the first light of a scene of [numLights] lights *)
Definition hero_light (numLights : Z) : Light :=
  {| position := Vec3 (-3) 3 0;
     color := Vec4 10 10 10 (1 / 1000 / IZR numLights);
     movement := Vec4 0 1 0 0 |}.

(** a light moved along its curve to time [t], as the loop of [Update]
    moves it *)
Definition moved (t : float) (l : Light) : Light :=
  {| position := add3 ShadowVolumes.offset
                      (mul3 (ShadowVolumes.lissajous (movement l) t)
                            ShadowVolumes.scale);
     color := color l;
     movement := movement l |}.

(** the world with the lights of the scene replaced *)
Definition relight (ls : list Light) (w : World ShadowVolumes.Scene)
  : World ShadowVolumes.Scene :=
  with_scene (ShadowVolumes.set_lights ls (scene w)) w.

(** one round of the loop of [Update] at time [t] *)
Definition update_round (t : float) (j : nat) (w : World ShadowVolumes.Scene)
  : World ShadowVolumes.Scene :=
  match nth_error (ShadowVolumes._lights (scene w)) j with
  | Some l =>
      relight (firstn j (ShadowVolumes._lights (scene w))
               ++ moved t l :: skipn (S j) (ShadowVolumes._lights (scene w))) w
  | None => w
  end.

(** the lights the loop of [Draw] visits *)
Definition counted_lights (s : ShadowVolumes.Scene) : list Light :=
  firstn (Z.to_nat (ShadowVolumes._numLights s)) (ShadowVolumes._lights s).

(** the staged transforms of the counted cubes *)
Definition staged_instances (s : ShadowVolumes.Scene) : list InstanceData :=
  instances_from 0 (firstn (Z.to_nat (ShadowVolumes._numCubes s))
                           (ShadowVolumes._cubePositions s)).

(** the body of the staging loop of [UpdateInstanceData], by itself *)
Definition stage_body {Sc} (ps : list vec3) (i : Z) : M Sc unit :=
  bind (lift (vec_get ps i)) (fun pos =>
  bind get (fun w =>
  bind (lift (vec_set (static_instanceData w) i (instance_of i pos)))
       put_instanceData)).

(** the instance count of the scene is one [UpdateInstanceData] can handle:
    it is within [0, MAX_INSTANCES], every counted cube has a position, the
    staging array has its [MAX_INSTANCES] entries, and the store of the
    instancing buffer has room for the counted entries *)
Definition uploadable (w : World ShadowVolumes.Scene) : Prop :=
  let s := scene w in
  0 <= ShadowVolumes._numCubes s <= MAX_INSTANCES /\
  ShadowVolumes._numCubes s <= Z.of_nat (length (ShadowVolumes._cubePositions s)) /\
  length (static_instanceData w) = Z.to_nat MAX_INSTANCES /\
  ShadowVolumes._instancingBuffer s <> 0 /\
  sizeof_InstanceData * ShadowVolumes._numCubes s
    <= sizeof_float
       * Z.of_nat (length (buffer_data (gl w) (ShadowVolumes._instancingBuffer s))).

(** a scene of the shadow-volume pipeline that [Draw] can render: the
    meshes exist, the instances can be uploaded, the two uniform buffers are
    different objects, and every counted light exists *)
Definition ready (w : World ShadowVolumes.Scene) : Prop :=
  let s := scene w in
  ShadowVolumes._quad s <> None /\
  ShadowVolumes._cube s <> None /\
  ShadowVolumes._cubeAdjacency s <> None /\
  uploadable w /\
  ShadowVolumes._transformBlockUBO s <> ShadowVolumes._instancingBuffer s /\
  ShadowVolumes._numLights s <= Z.of_nat (length (ShadowVolumes._lights s)).

(** ** A sample configuration *)
Module Sample.
Definition env : Env :=
  {| shaderProgram := fun p =>
       match p with
       | ShaderProgram.Default => 1
       | ShaderProgram.DefaultDepthPass => 2
       | ShaderProgram.Instancing => 3
       | ShaderProgram.InstancingDepthPass => 4
       | ShaderProgram.PointRendering => 5
       | ShaderProgram.InstancedShadowVolume => 6
       | ShaderProgram.SpotlightDefault => 7
       | ShaderProgram.InstancingSpotlightShadow => 8
       | ShaderProgram.Tonemapping => 9
       end;
     InstanceBuffer_DATA_SIZE := MAX_INSTANCES * sizeof_InstanceData;
     TransformBlock_DATA_SIZE := sizeof_mat3x4 + sizeof_mat4x4;
     CreateQuadNormalTangentTex := {| GetVAO := 11; GetIBOSize := 6 |};
     CreateCubeNormalTangentTex := {| GetVAO := 12; GetIBOSize := 36 |};
     CreateCubeAdjacency := {| GetVAO := 13; GetIBOSize := 72 |};
     GetSampler := fun k =>
       match k with
       | Sampler.Nearest => 1 | Sampler.Bilinear => 2 | Sampler.Anisotropic => 3
       end;
     CreateSingleColorTexture := fun r g b => 21;
     CreateCheckerBoardTexture := fun size check => 22;
     LoadTexture := fun path srgb => 23 |}.

Definition zero_instance : InstanceData :=
  {| transformation := Mat3x4 (vec4_splat 0) (vec4_splat 0) (vec4_splat 0) |}.

(** the scene object as its member initialisers leave it *)
Definition scene0 : ShadowVolumes.Scene :=
  {| ShadowVolumes._loadedTextures := fun _ => 0;
     ShadowVolumes._numCubes := 10;
     ShadowVolumes._cubePositions := [];
     ShadowVolumes._numLights := 0;
     ShadowVolumes._lights := [];
     ShadowVolumes._vao := 0;
     ShadowVolumes._quad := None;
     ShadowVolumes._cube := None;
     ShadowVolumes._cubeAdjacency := None;
     ShadowVolumes._instancingBuffer := 0;
     ShadowVolumes._transformBlockUBO := 0 |}.

Definition spot_scene0 : Spotlights.Scene :=
  {| Spotlights._loadedTextures := fun _ => 0;
     Spotlights._numCubes := 10;
     Spotlights._cubePositions := [];
     Spotlights._numPointLights := 0;
     Spotlights._numSpotLights := 0;
     Spotlights._lights := [];
     Spotlights._spotLights := [];
     Spotlights._vao := 0;
     Spotlights._quad := None;
     Spotlights._cube := None;
     Spotlights._cubeAdjacency := None;
     Spotlights._instancingBuffer := 0;
     Spotlights._transformBlockUBO := 0;
     Spotlights.depthMapTexture := 0;
     Spotlights.depthMapFBO := 0 |}.

(** a program start: nothing initialised, every random sample one half *)
Definition start {S} (s : S) : World S :=
  {| scene := s;
     static_instanceData := repeat zero_instance (Z.to_nat MAX_INSTANCES);
     static_t := 0;
     gl := gl_initial;
     calls := [];
     rand := fun _ => (1 / 2)%R |}.

Definition world_of {S} (r : Result (unit * World S)) (w : World S) : World S :=
  match r with Ok (_, w') => w' | Crash _ => w end.

(** the world after [main] has initialised the scene *)
Definition initialised : World ShadowVolumes.Scene :=
  world_of (ShadowVolumes.Init env 5 1 (start scene0)) (start scene0).

Definition spot_initialised : World Spotlights.Scene :=
  world_of (Spotlights.Init env 5 1 (start spot_scene0)) (start spot_scene0).

(** the world after a scene without lights has been initialised *)
Definition unlit : World ShadowVolumes.Scene :=
  world_of (ShadowVolumes.Init env 5 0 (start scene0)) (start scene0).

(** the initialised world, with a second light put in place *)
Definition two_lights : World ShadowVolumes.Scene :=
  with_scene
    (ShadowVolumes.set_numLights 2
       (ShadowVolumes.set_lights
          [ {| position := Vec3 (-3) 3 0; color := Vec4 10 10 10 0;
               movement := Vec4 0 1 0 0 |};
            {| position := Vec3 0 5 0; color := Vec4 1 2 3 0;
               movement := Vec4 1 (-2) (1 / 2) 2 |} ]
          (scene initialised)))
    initialised.

(** the world after a scene of 1025 cubes has been initialised *)
Definition crowded : World ShadowVolumes.Scene :=
  world_of (ShadowVolumes.Init env 1025 1 (start scene0)) (start scene0).

Definition camera : Camera :=
  {| GetWorldToView := identity; GetViewToWorld := identity;
     GetProjection := identity |}.

Definition settings : RenderSettings :=
  {| vsync := true; wireframe := false; tonemapping := true; msaaLevel := 4 |}.
End Sample.

(** ** Further vocabulary *)

(** a light as [Init] creates the lights beyond the first: placed on its
    curve at time 0, with movement parameters drawn from [-2, 2], colour
    components drawn from [0, 5] and the ambient intensity of the scene *)
Definition fresh_light (numLights : Z) (l : Light) : Prop :=
  position l = add3 ShadowVolumes.offset
                    (mul3 (ShadowVolumes.lissajous (movement l) 0)
                          ShadowVolumes.scale) /\
  (-2 <= x (movement l) <= 2 /\ -2 <= y (movement l) <= 2 /\
   -2 <= z (movement l) <= 2 /\ -2 <= w (movement l) <= 2)%R /\
  (0 <= x (color l) <= 5 /\ 0 <= y (color l) <= 5 /\ 0 <= z (color l) <= 5)%R /\
  w (color l) = (1 / 1000 / IZR numLights)%R.

(** what [Init] leaves alone once the object handles are made: the context
    with its calls, the function-local statics, the counts, the handles and
    the meshes *)
Definition init_fixed (w0 w : World ShadowVolumes.Scene) : Prop :=
  calls w = calls w0 /\ gl w = gl w0 /\
  static_instanceData w = static_instanceData w0 /\
  static_t w = static_t w0 /\
  ShadowVolumes._numCubes (scene w) = ShadowVolumes._numCubes (scene w0) /\
  ShadowVolumes._numLights (scene w) = ShadowVolumes._numLights (scene w0) /\
  ShadowVolumes._vao (scene w) = ShadowVolumes._vao (scene w0) /\
  ShadowVolumes._quad (scene w) = ShadowVolumes._quad (scene w0) /\
  ShadowVolumes._cube (scene w) = ShadowVolumes._cube (scene w0) /\
  ShadowVolumes._cubeAdjacency (scene w) = ShadowVolumes._cubeAdjacency (scene w0) /\
  ShadowVolumes._instancingBuffer (scene w)
  = ShadowVolumes._instancingBuffer (scene w0) /\
  ShadowVolumes._transformBlockUBO (scene w)
  = ShadowVolumes._transformBlockUBO (scene w0).

(** the scene [Init] builds from a world [w] not yet initialised: the world
    [w'] it ends in, with the cube positions [cubes] and the lights [lights]
    beyond the first *)
Definition Init_outcome (env : Env) (numCubes numLights : Z)
           (w w' : World ShadowVolumes.Scene)
           (cubes : list vec3) (lights : list Light) : Prop :=
  let s' := scene w' in
  calls w' = calls w ++ init_calls env (gl w) /\
  gl w' = gl_run (gl w) (init_calls env (gl w)) /\
  static_instanceData w' = static_instanceData w /\
  static_t w' = static_t w /\
  ShadowVolumes._numCubes s' = numCubes /\
  ShadowVolumes._numLights s' = numLights /\
  ShadowVolumes._vao s' = Z.pos (next_vertex_array (gl w)) /\
  ShadowVolumes._quad s' = Some (CreateQuadNormalTangentTex env) /\
  ShadowVolumes._cube s' = Some (CreateCubeNormalTangentTex env) /\
  ShadowVolumes._cubeAdjacency s' = Some (CreateCubeAdjacency env) /\
  ShadowVolumes._instancingBuffer s' = Z.pos (next_buffer (gl w)) /\
  ShadowVolumes._transformBlockUBO s' = Z.pos (Pos.succ (next_buffer (gl w))) /\
  ShadowVolumes._cubePositions s' = Vec3 0 (1 / 2) 0 :: cubes /\
  length cubes = Z.to_nat (numCubes - 1) /\
  Forall in_box cubes /\
  ShadowVolumes._lights s' = hero_light numLights :: lights /\
  length lights = Z.to_nat (numLights - 1) /\
  Forall (fresh_light numLights) lights.

(** the bounds of the parameters [Init] draws for a light beyond the first *)
Definition light_parameters_in_range (l : Light) : Prop :=
  (-2 <= x (movement l) <= 2 /\ -2 <= y (movement l) <= 2 /\
   -2 <= z (movement l) <= 2 /\ -2 <= w (movement l) <= 2 /\
   0 <= x (color l) <= 5 /\ 0 <= y (color l) <= 5 /\ 0 <= z (color l) <= 5)%R.

(** the first light moved to time [t], as [Update] moves it: around
    (-3, 2, 0), without the scale *)
Definition moved_first (t : float) (l : Light) : Light :=
  {| position := add3 (Vec3 (-3) 2 0) (ShadowVolumes.lissajous (movement l) t);
     color := color l;
     movement := movement l |}.

(** the lights after [Update] at time [t], when the scene counts
    [numLights] of them *)
Definition updated_lights (t : float) (numLights : Z) (ls : list Light) : list Light :=
  match ls with
  | [] => []
  | l0 :: rest =>
      moved_first t l0
      :: map (moved t) (firstn (Z.to_nat (numLights - 1)) rest)
      ++ skipn (Z.to_nat (numLights - 1)) rest
  end.

(** the draw is an instanced one: the cubes or their shadow volumes *)
Definition is_instanced_draw (c : GLcmd) : bool :=
  match c with glDrawElementsInstanced _ _ _ => true | _ => false end.

(** uniform slot 1 holds [buffer] at the instanced draws and nothing at the
    other draws *)
Definition slot1_discipline (buffer : GLuint) (ds : list (GLcmd * GLstate)) : Prop :=
  Forall (fun d => uniform_buffer_base (snd d) 1
                   = if is_instanced_draw (fst d) then buffer else 0) ds.

(** the context state [Draw] sets up before the lights and every light
    pass keeps *)
Definition frame_state (renderMode : RenderSettings) (g : GLstate) : Prop :=
  depth_writemask g = false /\
  enabled g GL_DEPTH_TEST = true /\
  depth_func g = GL_LEQUAL /\
  enabled g GL_DEPTH_CLAMP = true /\
  enabled g GL_CULL_FACE = true /\
  cull_face_mode g = GL_BACK /\
  enabled g GL_MULTISAMPLE = (1 <? msaaLevel renderMode) /\
  polygon_mode g = (if wireframe renderMode then GL_LINE else GL_FILL) /\
  uniform_buffer_binding g = 0 /\
  buffer_mapped g = None.

(** the context state the last light pass of a frame leaves behind *)
Definition lit_state (env : Env) (s : ShadowVolumes.Scene) (g : GLstate) : Prop :=
  enabled g GL_STENCIL_TEST = false /\
  enabled g GL_BLEND = false /\
  stencil_func g = (GL_EQUAL, 0, 0xff) /\
  current_program g = shaderProgram env ShaderProgram.PointRendering /\
  vertex_array_binding g = ShadowVolumes._vao s.

(** the call leaves the size of every buffer store as it is: it does not
    create a store, and what it writes into one it writes in full *)
Definition keeps_store_sizes (c : GLcmd) : bool :=
  match c with
  | glBufferData _ _ _ => false
  | glBufferSubData _ _ size data => size =? sizeof_float * Z.of_nat (length data)
  | _ => true
  end.

(** a scene the main loop can animate and draw: ready for [Draw], with a
    first light for [Update] *)
Definition running (w : World ShadowVolumes.Scene) : Prop :=
  ready w /\ ShadowVolumes._lights (scene w) <> [].

(** the translation a staged transform carries: with the matrix stored
    transposed, the fourth component of each of its three columns *)
Definition translation_of (e : InstanceData) : vec3 :=
  Vec3 (w (t0 (transformation e))) (w (t1 (transformation e)))
       (w (t2 (transformation e))).

(** the rotation a staged transform carries: the first three components of
    its three columns *)
Definition rotation_of (e : InstanceData) : list float :=
  [ x (t0 (transformation e)); y (t0 (transformation e)); z (t0 (transformation e));
    x (t1 (transformation e)); y (t1 (transformation e)); z (t1 (transformation e));
    x (t2 (transformation e)); y (t2 (transformation e)); z (t2 (transformation e)) ].

(** the spot light [Init] of the spot-light pipeline creates *)
Definition first_spot_light (numLights : Z) : SpotLight :=
  {| spot_position := Vec3 (-3) 2 0;
     spot_color := Vec4 10 10 10 (1 / 1000 / IZR numLights);
     spot_movement := Vec4 2 1 1 0;
     lightDirection := Vec3 (1 / 2) (- (1 / 2)) 0;
     innerLightAngleDegrees := 30;
     outerLightAngleDegrees := 40;
     lightDistance := 5000 |}.

(** the counts and the spot lights of a scene of the spot-light pipeline *)
Definition spot_counts (numCubes numLights : Z) (spots : list SpotLight)
           (w : World Spotlights.Scene) : Prop :=
  Spotlights._numCubes (scene w) = numCubes /\
  Spotlights._numPointLights (scene w) = numLights /\
  Spotlights._numSpotLights (scene w) = 1 /\
  Spotlights._spotLights (scene w) = spots.



(** the four uniforms that describe the cone of a spot light *)
Definition spot_uniforms (program : GLuint) (lightDirection : vec3)
           (innerAngleDegrees outerAngleDegrees maxLightDistance : float)
  : list GLcmd :=
  [ glUniform (glGetUniformLocation program "lightDirection") (ptr3 lightDirection);
    glUniform (glGetUniformLocation program "innerAngleDegrees") [innerAngleDegrees];
    glUniform (glGetUniformLocation program "outerAngleDegrees") [outerAngleDegrees];
    glUniform (glGetUniformLocation program "maxLightDistance") [maxLightDistance] ].

(** the call sets the uniform [name] of some program *)
Definition is_uniform (name : string) (c : GLcmd) : bool :=
  match c with
  | glUniform (glGetUniformLocation _ n) _ => String.eqb n name
  | _ => false
  end.

(** ** The framebuffer, texture and renderbuffer objects of the context

    main.cpp and [Scene::CreateDepthBuffer] create and delete objects of
    the context and ask it about them.  The part of the OpenGL 3.3 core
    object model they touch: names are generated, become objects when they
    are first bound, and die when they are deleted.  The default objects
    (name 0) are not tracked, and one texture unit is (the code never
    switches the unit here). *)
Module GLObjects.

Inductive TextureTarget := GL_TEXTURE_2D | GL_TEXTURE_2D_MULTISAMPLE.
Inductive InternalFormat := GL_RGB16F | GL_DEPTH24_STENCIL8 | GL_DEPTH_COMPONENT32.
Inductive GLenum :=
| GL_NONE | GL_COLOR_ATTACHMENT0 | GL_DEPTH_ATTACHMENT | GL_DEPTH_STENCIL_ATTACHMENT.
Inductive TexParameter :=
| GL_TEXTURE_MIN_FILTER | GL_TEXTURE_MAG_FILTER | GL_TEXTURE_COMPARE_MODE
| GL_TEXTURE_COMPARE_FUNC | GL_TEXTURE_WRAP_S | GL_TEXTURE_WRAP_T.
Inductive TexValue :=
| GL_LINEAR | GL_COMPARE_REF_TO_TEXTURE | GL_LEQUAL | GL_CLAMP_TO_EDGE.

Definition GL_FRAMEBUFFER_COMPLETE : Z := 0x8CD5.

Definition target_eqb (a b : TextureTarget) : bool :=
  match a, b with
  | GL_TEXTURE_2D, GL_TEXTURE_2D
  | GL_TEXTURE_2D_MULTISAMPLE, GL_TEXTURE_2D_MULTISAMPLE => true
  | _, _ => false
  end.

(** the store of a texture level or of a renderbuffer; [samples] is 0 for
    a store that is not multisampled *)
Record Image := {
  samples : Z;
  internalformat : InternalFormat;
  image_width : Z;
  image_height : Z
}.

Record Texture := {
  target : TextureTarget;
  image : option Image;
  parameters : list (TexParameter * TexValue)     (* latest first *)
}.

Record Renderbuffer := { storage : option Image }.

Inductive Attached :=
| Nothing
| AttachedTexture (texture : GLuint)
| AttachedRenderbuffer (renderbuffer : GLuint).

Record Framebuffer := {
  color0 : Attached;
  depth : Attached;
  stencil : Attached;
  draw_buffer : GLenum;
  read_buffer : GLenum
}.

(** a framebuffer object as its first binding creates it *)
Definition new_framebuffer : Framebuffer :=
  {| color0 := Nothing; depth := Nothing; stencil := Nothing;
     draw_buffer := GL_COLOR_ATTACHMENT0; read_buffer := GL_COLOR_ATTACHMENT0 |}.

(** The names of one kind that are in use, each with its object once the
    name has been bound. *)
Definition Table (A : Type) := list (GLuint * option A).

Definition names {A} (t : Table A) : list GLuint := map fst t.

Fixpoint lookup {A} (n : GLuint) (t : Table A) : option (option A) :=
  match t with
  | [] => None
  | (m, a) :: t' => if m =? n then Some a else lookup n t'
  end.

(** the object of name [n], if [n] names one *)
Definition object {A} (n : GLuint) (t : Table A) : option A :=
  match lookup n t with Some (Some a) => Some a | _ => None end.

Definition put {A} (n : GLuint) (a : A) (t : Table A) : Table A :=
  map (fun e => if fst e =? n then (n, Some a) else e) t.

Definition drop {A} (n : GLuint) (t : Table A) : Table A :=
  filter (fun e => negb (fst e =? n)) t.

Record Objects := {
  textures : Table Texture;
  renderbuffers : Table Renderbuffer;
  framebuffers : Table Framebuffer;
  texture_binding : TextureTarget -> GLuint;
  renderbuffer_binding : GLuint;
  framebuffer_binding : GLuint
}.

Definition no_objects : Objects :=
  {| textures := []; renderbuffers := []; framebuffers := [];
     texture_binding := fun _ => 0; renderbuffer_binding := 0;
     framebuffer_binding := 0 |}.

(** What the code cannot know of the context: which unused name a
    [glGen*] call hands out, which stores the implementation accepts
    (sizes within its limits, a sample count it supports), and what
    [glCheckFramebufferStatus] answers. *)
Record Driver := {
  fresh : list GLuint -> GLuint;
  accepts : Image -> bool;
  status : Objects -> Z
}.

Definition with_textures (v : Table Texture) (o : Objects) : Objects :=
  {| textures := v; renderbuffers := renderbuffers o;
     framebuffers := framebuffers o; texture_binding := texture_binding o;
     renderbuffer_binding := renderbuffer_binding o;
     framebuffer_binding := framebuffer_binding o |}.
Definition with_renderbuffers (v : Table Renderbuffer) (o : Objects) : Objects :=
  {| textures := textures o; renderbuffers := v;
     framebuffers := framebuffers o; texture_binding := texture_binding o;
     renderbuffer_binding := renderbuffer_binding o;
     framebuffer_binding := framebuffer_binding o |}.
Definition with_framebuffers (v : Table Framebuffer) (o : Objects) : Objects :=
  {| textures := textures o; renderbuffers := renderbuffers o;
     framebuffers := v; texture_binding := texture_binding o;
     renderbuffer_binding := renderbuffer_binding o;
     framebuffer_binding := framebuffer_binding o |}.
Definition with_texture_binding (v : TextureTarget -> GLuint) (o : Objects) : Objects :=
  {| textures := textures o; renderbuffers := renderbuffers o;
     framebuffers := framebuffers o; texture_binding := v;
     renderbuffer_binding := renderbuffer_binding o;
     framebuffer_binding := framebuffer_binding o |}.
Definition with_renderbuffer_binding (v : GLuint) (o : Objects) : Objects :=
  {| textures := textures o; renderbuffers := renderbuffers o;
     framebuffers := framebuffers o; texture_binding := texture_binding o;
     renderbuffer_binding := v;
     framebuffer_binding := framebuffer_binding o |}.
Definition with_framebuffer_binding (v : GLuint) (o : Objects) : Objects :=
  {| textures := textures o; renderbuffers := renderbuffers o;
     framebuffers := framebuffers o; texture_binding := texture_binding o;
     renderbuffer_binding := renderbuffer_binding o;
     framebuffer_binding := v |}.

Definition bind_target (t : TextureTarget) (n : GLuint)
           (b : TextureTarget -> GLuint) : TextureTarget -> GLuint :=
  fun u => if target_eqb u t then n else b u.

(** an attachment that shows the deleted object is taken off *)
Definition detach (gone : Attached) (a : Attached) : Attached :=
  match gone, a with
  | AttachedTexture n, AttachedTexture m => if m =? n then Nothing else a
  | AttachedRenderbuffer n, AttachedRenderbuffer m => if m =? n then Nothing else a
  | _, _ => a
  end.

Definition detach_all (gone : Attached) (f : Framebuffer) : Framebuffer :=
  {| color0 := detach gone (color0 f); depth := detach gone (depth f);
     stencil := detach gone (stencil f);
     draw_buffer := draw_buffer f; read_buffer := read_buffer f |}.

(** the framebuffer object that is bound, changed by [f]; with the default
    framebuffer bound there is no object to change *)
Definition on_bound_framebuffer (f : Framebuffer -> Framebuffer) (o : Objects) : Objects :=
  match object (framebuffer_binding o) (framebuffers o) with
  | Some fb => with_framebuffers (put (framebuffer_binding o) (f fb) (framebuffers o)) o
  | None => o
  end.

(** [glGenFramebuffers(1, &name)], [glGenTextures(1, &name)],
    [glGenRenderbuffers(1, &name)]: a name that is not in use; it names no
    object until it is bound *)
Definition glGenFramebuffers (d : Driver) (o : Objects) : GLuint * Objects :=
  let n := fresh d (names (framebuffers o)) in
  (n, with_framebuffers ((n, None) :: framebuffers o) o).
Definition glGenTextures (d : Driver) (o : Objects) : GLuint * Objects :=
  let n := fresh d (names (textures o)) in
  (n, with_textures ((n, None) :: textures o) o).
Definition glGenRenderbuffers (d : Driver) (o : Objects) : GLuint * Objects :=
  let n := fresh d (names (renderbuffers o)) in
  (n, with_renderbuffers ((n, None) :: renderbuffers o) o).

(** [glBindFramebuffer(GL_FRAMEBUFFER, n)]: 0 is the default framebuffer;
    a generated name is bound and becomes an object; any other name is
    GL_INVALID_OPERATION *)
Definition glBindFramebuffer (n : GLuint) (o : Objects) : Objects :=
  if n =? 0 then with_framebuffer_binding 0 o
  else match lookup n (framebuffers o) with
       | Some (Some _) => with_framebuffer_binding n o
       | Some None =>
           with_framebuffer_binding n
             (with_framebuffers (put n new_framebuffer (framebuffers o)) o)
       | None => o
       end.

(** [glIsTexture], [glIsRenderbuffer]: the name of an object, which a
    name is once it has been bound *)
Definition glIsTexture (n : GLuint) (o : Objects) : bool :=
  negb (n =? 0) && match object n (textures o) with Some _ => true | None => false end.
Definition glIsRenderbuffer (n : GLuint) (o : Objects) : bool :=
  negb (n =? 0)
  && match object n (renderbuffers o) with Some _ => true | None => false end.

(** [glDeleteTextures(1, &n)]: 0 and names not in use are ignored; the
    name is free again, a binding of the texture reverts to 0, and the
    texture is taken off the framebuffer that is bound *)
Definition glDeleteTextures (n : GLuint) (o : Objects) : Objects :=
  if n =? 0 then o
  else match lookup n (textures o) with
       | None => o
       | Some _ =>
           on_bound_framebuffer (detach_all (AttachedTexture n))
             (with_texture_binding
                (fun u => if texture_binding o u =? n then 0 else texture_binding o u)
                (with_textures (drop n (textures o)) o))
       end.

(** [glDeleteRenderbuffers(1, &n)], likewise *)
Definition glDeleteRenderbuffers (n : GLuint) (o : Objects) : Objects :=
  if n =? 0 then o
  else match lookup n (renderbuffers o) with
       | None => o
       | Some _ =>
           on_bound_framebuffer (detach_all (AttachedRenderbuffer n))
             (with_renderbuffer_binding
                (if renderbuffer_binding o =? n then 0 else renderbuffer_binding o)
                (with_renderbuffers (drop n (renderbuffers o)) o))
       end.

(** [glBindTexture(t, n)]: a generated name becomes a texture of target
    [t] when it is first bound; binding a texture to another target than
    its own, or a name that was not generated, is GL_INVALID_OPERATION *)
Definition glBindTexture (t : TextureTarget) (n : GLuint) (o : Objects) : Objects :=
  if n =? 0 then with_texture_binding (bind_target t 0 (texture_binding o)) o
  else match lookup n (textures o) with
       | Some (Some tex) =>
           if target_eqb (target tex) t
           then with_texture_binding (bind_target t n (texture_binding o)) o
           else o
       | Some None =>
           with_texture_binding (bind_target t n (texture_binding o))
             (with_textures
                (put n {| target := t; image := None; parameters := [] |}
                     (textures o)) o)
       | None => o
       end.

(** the texture bound to target [t], changed by [f] *)
Definition on_bound_texture (t : TextureTarget) (f : Texture -> Texture)
           (o : Objects) : Objects :=
  match object (texture_binding o t) (textures o) with
  | Some tex => with_textures (put (texture_binding o t) (f tex) (textures o)) o
  | None => o
  end.

Definition set_image (i : Image) (tex : Texture) : Texture :=
  {| target := target tex; image := Some i; parameters := parameters tex |}.
Definition set_parameter (p : TexParameter) (v : TexValue) (tex : Texture) : Texture :=
  {| target := target tex; image := image tex;
     parameters := (p, v) :: parameters tex |}.

(** [glTexImage2DMultisample(GL_TEXTURE_2D_MULTISAMPLE, samples, format,
    width, height, GL_TRUE)] and [glTexImage2D(GL_TEXTURE_2D, 0, format,
    width, height, 0, ..., nullptr)]: a store the implementation does not
    accept is an error and leaves the texture as it is *)
Definition glTexImage2DMultisample (d : Driver) (samples : Z)
           (format : InternalFormat) (width height : Z) (o : Objects) : Objects :=
  let i := {| samples := samples; internalformat := format;
              image_width := width; image_height := height |} in
  if accepts d i then on_bound_texture GL_TEXTURE_2D_MULTISAMPLE (set_image i) o
  else o.
Definition glTexImage2D (d : Driver) (format : InternalFormat)
           (width height : Z) (o : Objects) : Objects :=
  let i := {| samples := 0; internalformat := format;
              image_width := width; image_height := height |} in
  if accepts d i then on_bound_texture GL_TEXTURE_2D (set_image i) o else o.

(** [glTexParameteri(GL_TEXTURE_2D, pname, param)] *)
Definition glTexParameteri (p : TexParameter) (v : TexValue) (o : Objects) : Objects :=
  on_bound_texture GL_TEXTURE_2D (set_parameter p v) o.

Definition attach (point : GLenum) (a : Attached) (f : Framebuffer) : Framebuffer :=
  match point with
  | GL_COLOR_ATTACHMENT0 =>
      {| color0 := a; depth := depth f; stencil := stencil f;
         draw_buffer := draw_buffer f; read_buffer := read_buffer f |}
  | GL_DEPTH_ATTACHMENT =>
      {| color0 := color0 f; depth := a; stencil := stencil f;
         draw_buffer := draw_buffer f; read_buffer := read_buffer f |}
  | GL_DEPTH_STENCIL_ATTACHMENT =>
      {| color0 := color0 f; depth := a; stencil := a;
         draw_buffer := draw_buffer f; read_buffer := read_buffer f |}
  | GL_NONE => f
  end.

(** [glFramebufferTexture2D(GL_FRAMEBUFFER, point, t, n, 0)]: [n] must
    be 0, which detaches, or a texture of target [t] *)
Definition glFramebufferTexture2D (point : GLenum) (t : TextureTarget)
           (n : GLuint) (o : Objects) : Objects :=
  if n =? 0 then on_bound_framebuffer (attach point Nothing) o
  else match object n (textures o) with
       | Some tex =>
           if target_eqb (target tex) t
           then on_bound_framebuffer (attach point (AttachedTexture n)) o
           else o
       | None => o
       end.

(** [glBindRenderbuffer(GL_RENDERBUFFER, n)] *)
Definition glBindRenderbuffer (n : GLuint) (o : Objects) : Objects :=
  if n =? 0 then with_renderbuffer_binding 0 o
  else match lookup n (renderbuffers o) with
       | Some (Some _) => with_renderbuffer_binding n o
       | Some None =>
           with_renderbuffer_binding n
             (with_renderbuffers (put n {| storage := None |} (renderbuffers o)) o)
       | None => o
       end.

(** [glRenderbufferStorageMultisample(GL_RENDERBUFFER, samples, format,
    width, height)]; [glRenderbufferStorage] is the same call with 0
    samples *)
Definition glRenderbufferStorageMultisample (d : Driver) (samples : Z)
           (format : InternalFormat) (width height : Z) (o : Objects) : Objects :=
  let i := {| samples := samples; internalformat := format;
              image_width := width; image_height := height |} in
  if accepts d i
  then match object (renderbuffer_binding o) (renderbuffers o) with
       | Some _ =>
           with_renderbuffers
             (put (renderbuffer_binding o) {| storage := Some i |}
                  (renderbuffers o)) o
       | None => o
       end
  else o.
Definition glRenderbufferStorage (d : Driver) (format : InternalFormat)
           (width height : Z) (o : Objects) : Objects :=
  glRenderbufferStorageMultisample d 0 format width height o.

(** [glFramebufferRenderbuffer(GL_FRAMEBUFFER, point, GL_RENDERBUFFER, n)] *)
Definition glFramebufferRenderbuffer (point : GLenum) (n : GLuint)
           (o : Objects) : Objects :=
  if n =? 0 then on_bound_framebuffer (attach point Nothing) o
  else match object n (renderbuffers o) with
       | Some _ => on_bound_framebuffer (attach point (AttachedRenderbuffer n)) o
       | None => o
       end.

Definition set_draw_buffer (b : GLenum) (f : Framebuffer) : Framebuffer :=
  {| color0 := color0 f; depth := depth f; stencil := stencil f;
     draw_buffer := b; read_buffer := read_buffer f |}.
Definition set_read_buffer (b : GLenum) (f : Framebuffer) : Framebuffer :=
  {| color0 := color0 f; depth := depth f; stencil := stencil f;
     draw_buffer := draw_buffer f; read_buffer := b |}.

(** [glDrawBuffers(1, {b})] and [glDrawBuffer(b)], [glReadBuffer(b)] with
    a framebuffer object bound *)
Definition glDrawBuffers (b : GLenum) (o : Objects) : Objects :=
  on_bound_framebuffer (set_draw_buffer b) o.
Definition glDrawBuffer (b : GLenum) (o : Objects) : Objects :=
  on_bound_framebuffer (set_draw_buffer b) o.
Definition glReadBuffer (b : GLenum) (o : Objects) : Objects :=
  on_bound_framebuffer (set_read_buffer b) o.

End GLObjects.

(** ** main.cpp: the globals, the GLFW callbacks and the framebuffer
       helper, with [Scene::CreateDepthBuffer] that the helper calls *)
Module Main.

(** glfw3.h *)
Definition GLFW_RELEASE : Z := 0.
Definition GLFW_PRESS : Z := 1.
Definition GLFW_REPEAT : Z := 2.
Definition GLFW_KEY_MINUS : Z := 45.
Definition GLFW_KEY_EQUAL : Z := 61.
Definition GLFW_KEY_ESCAPE : Z := 256.
Definition GLFW_KEY_BACKSPACE : Z := 259.
Definition GLFW_KEY_F1 : Z := 290.
Definition GLFW_KEY_F2 : Z := 291.
Definition GLFW_KEY_F3 : Z := 292.
Definition GLFW_KEY_F4 : Z := 293.
Definition GLFW_KEY_F5 : Z := 294.
Definition GLFW_KEY_F6 : Z := 295.
Definition GLFW_KEY_KP_SUBTRACT : Z := 333.
Definition GLFW_KEY_KP_ADD : Z := 334.

(** [Window::DefaultWidth], [Window::DefaultHeight] *)
Definition DefaultWidth : Z := 800.
Definition DefaultHeight : Z := 600.

Definition nearClipPlane : float := (1 / 10)%R.
Definition farClipPlane : float := (1000 + 1 / 10)%R.
Definition MSAA_SAMPLES : Z := 4.

Record MouseStatus := {
  x : float; y : float;
  prevX : float; prevY : float
}.

(** what the callbacks do besides changing the globals and the objects of
    the context, in program order *)
Inductive Call :=
| printf (format : string) (args : list Z)
| glfwSetWindowShouldClose (value : bool)
| glfwSwapInterval (interval : Z)
| glViewport (x y width height : Z)
| SetProjection (fov aspect nearClip farClip : float).

(** the globals of main.cpp, the two members of the scene that
    [CreateDepthBuffer] uses, the objects of the context and the calls
    made *)
Record Program := {
  width : Z;                       (* mainWindow.width *)
  height : Z;                      (* mainWindow.height *)
  fov : float;
  mouseStatus : MouseStatus;
  renderMode : RenderSettings;
  animate : bool;
  carmackReverse : bool;
  fbo : GLuint;
  renderTarget : GLuint;
  depthStencil : GLuint;
  depthMapTexture : GLuint;        (* scene.depthMapTexture *)
  depthMapFBO : GLuint;            (* scene.depthMapFBO *)
  objects : GLObjects.Objects;
  made : list Call
}.

(** the globals as main.cpp initialises them, before a window exists *)
Definition program_start : Program :=
  {| width := 0; height := 0; fov := 45;
     mouseStatus := {| x := 0; y := 0; prevX := 0; prevY := 0 |};
     renderMode := {| vsync := true; wireframe := false; tonemapping := true;
                      msaaLevel := MSAA_SAMPLES |};
     animate := false; carmackReverse := true;
     fbo := 0; renderTarget := 0; depthStencil := 0;
     depthMapTexture := 0; depthMapFBO := 0;
     objects := GLObjects.no_objects; made := [] |}.

Definition set_size (w h : Z) (p : Program) : Program :=
  {| width := w; height := h; fov := fov p; mouseStatus := mouseStatus p;
     renderMode := renderMode p; animate := animate p;
     carmackReverse := carmackReverse p; fbo := fbo p;
     renderTarget := renderTarget p; depthStencil := depthStencil p;
     depthMapTexture := depthMapTexture p; depthMapFBO := depthMapFBO p;
     objects := objects p; made := made p |}.
Definition set_fov (v : float) (p : Program) : Program :=
  {| width := width p; height := height p; fov := v;
     mouseStatus := mouseStatus p;
     renderMode := renderMode p; animate := animate p;
     carmackReverse := carmackReverse p; fbo := fbo p;
     renderTarget := renderTarget p; depthStencil := depthStencil p;
     depthMapTexture := depthMapTexture p; depthMapFBO := depthMapFBO p;
     objects := objects p; made := made p |}.
Definition set_mouseStatus (v : MouseStatus) (p : Program) : Program :=
  {| width := width p; height := height p; fov := fov p; mouseStatus := v;
     renderMode := renderMode p; animate := animate p;
     carmackReverse := carmackReverse p; fbo := fbo p;
     renderTarget := renderTarget p; depthStencil := depthStencil p;
     depthMapTexture := depthMapTexture p; depthMapFBO := depthMapFBO p;
     objects := objects p; made := made p |}.
Definition set_renderMode (v : RenderSettings) (p : Program) : Program :=
  {| width := width p; height := height p; fov := fov p;
     mouseStatus := mouseStatus p;
     renderMode := v; animate := animate p;
     carmackReverse := carmackReverse p; fbo := fbo p;
     renderTarget := renderTarget p; depthStencil := depthStencil p;
     depthMapTexture := depthMapTexture p; depthMapFBO := depthMapFBO p;
     objects := objects p; made := made p |}.
Definition set_animate (v : bool) (p : Program) : Program :=
  {| width := width p; height := height p; fov := fov p;
     mouseStatus := mouseStatus p;
     renderMode := renderMode p; animate := v;
     carmackReverse := carmackReverse p; fbo := fbo p;
     renderTarget := renderTarget p; depthStencil := depthStencil p;
     depthMapTexture := depthMapTexture p; depthMapFBO := depthMapFBO p;
     objects := objects p; made := made p |}.
Definition set_carmackReverse (v : bool) (p : Program) : Program :=
  {| width := width p; height := height p; fov := fov p;
     mouseStatus := mouseStatus p;
     renderMode := renderMode p; animate := animate p;
     carmackReverse := v; fbo := fbo p;
     renderTarget := renderTarget p; depthStencil := depthStencil p;
     depthMapTexture := depthMapTexture p; depthMapFBO := depthMapFBO p;
     objects := objects p; made := made p |}.
Definition set_fbo (v : GLuint) (p : Program) : Program :=
  {| width := width p; height := height p; fov := fov p;
     mouseStatus := mouseStatus p;
     renderMode := renderMode p; animate := animate p;
     carmackReverse := carmackReverse p; fbo := v;
     renderTarget := renderTarget p; depthStencil := depthStencil p;
     depthMapTexture := depthMapTexture p; depthMapFBO := depthMapFBO p;
     objects := objects p; made := made p |}.
Definition set_renderTarget (v : GLuint) (p : Program) : Program :=
  {| width := width p; height := height p; fov := fov p;
     mouseStatus := mouseStatus p;
     renderMode := renderMode p; animate := animate p;
     carmackReverse := carmackReverse p; fbo := fbo p;
     renderTarget := v; depthStencil := depthStencil p;
     depthMapTexture := depthMapTexture p; depthMapFBO := depthMapFBO p;
     objects := objects p; made := made p |}.
Definition set_depthStencil (v : GLuint) (p : Program) : Program :=
  {| width := width p; height := height p; fov := fov p;
     mouseStatus := mouseStatus p;
     renderMode := renderMode p; animate := animate p;
     carmackReverse := carmackReverse p; fbo := fbo p;
     renderTarget := renderTarget p; depthStencil := v;
     depthMapTexture := depthMapTexture p; depthMapFBO := depthMapFBO p;
     objects := objects p; made := made p |}.
Definition set_depthMapTexture (v : GLuint) (p : Program) : Program :=
  {| width := width p; height := height p; fov := fov p;
     mouseStatus := mouseStatus p;
     renderMode := renderMode p; animate := animate p;
     carmackReverse := carmackReverse p; fbo := fbo p;
     renderTarget := renderTarget p; depthStencil := depthStencil p;
     depthMapTexture := v; depthMapFBO := depthMapFBO p;
     objects := objects p; made := made p |}.
Definition set_depthMapFBO (v : GLuint) (p : Program) : Program :=
  {| width := width p; height := height p; fov := fov p;
     mouseStatus := mouseStatus p;
     renderMode := renderMode p; animate := animate p;
     carmackReverse := carmackReverse p; fbo := fbo p;
     renderTarget := renderTarget p; depthStencil := depthStencil p;
     depthMapTexture := depthMapTexture p; depthMapFBO := v;
     objects := objects p; made := made p |}.
Definition set_objects (v : GLObjects.Objects) (p : Program) : Program :=
  {| width := width p; height := height p; fov := fov p;
     mouseStatus := mouseStatus p;
     renderMode := renderMode p; animate := animate p;
     carmackReverse := carmackReverse p; fbo := fbo p;
     renderTarget := renderTarget p; depthStencil := depthStencil p;
     depthMapTexture := depthMapTexture p; depthMapFBO := depthMapFBO p;
     objects := v; made := made p |}.
Definition set_made (v : list Call) (p : Program) : Program :=
  {| width := width p; height := height p; fov := fov p;
     mouseStatus := mouseStatus p;
     renderMode := renderMode p; animate := animate p;
     carmackReverse := carmackReverse p; fbo := fbo p;
     renderTarget := renderTarget p; depthStencil := depthStencil p;
     depthMapTexture := depthMapTexture p; depthMapFBO := depthMapFBO p;
     objects := objects p; made := v |}.

Definition set_vsync (v : bool) (m : RenderSettings) : RenderSettings :=
  {| vsync := v; wireframe := wireframe m; tonemapping := tonemapping m;
     msaaLevel := msaaLevel m |}.
Definition set_wireframe (v : bool) (m : RenderSettings) : RenderSettings :=
  {| vsync := vsync m; wireframe := v; tonemapping := tonemapping m;
     msaaLevel := msaaLevel m |}.
Definition set_tonemapping (v : bool) (m : RenderSettings) : RenderSettings :=
  {| vsync := vsync m; wireframe := wireframe m; tonemapping := v;
     msaaLevel := msaaLevel m |}.
Definition set_msaaLevel (v : Z) (m : RenderSettings) : RenderSettings :=
  {| vsync := vsync m; wireframe := wireframe m; tonemapping := tonemapping m;
     msaaLevel := v |}.

(** a statement of main.cpp: it changes the program state *)
Definition Stmt := Program -> Program.

Definition seq (a b : Stmt) : Stmt := fun p => b (a p).
Definition nop : Stmt := fun p => p.
(** a statement that reads the state it runs in *)
Definition reading (k : Program -> Stmt) : Stmt := fun p => k p p.
Definition call (c : Call) : Stmt := fun p => set_made (made p ++ [c]) p.
(** a call into the context that returns nothing *)
Definition gl (f : GLObjects.Objects -> GLObjects.Objects) : Stmt :=
  fun p => set_objects (f (objects p)) p.
(** a [glGen*] call, whose result the variable [store] takes *)
Definition gen (f : GLObjects.Objects -> GLuint * GLObjects.Objects)
           (store : GLuint -> Program -> Program) : Stmt :=
  fun p => let r := f (objects p) in store (fst r) (set_objects (snd r) p).

Declare Scope main_scope.
Delimit Scope main_scope with main.
Notation "a ;; b" := (seq a b) (at level 61, right associativity) : main_scope.
Notation "'when' c 'then' a" := (if c then a else nop)
  (at level 60, c at level 0) : main_scope.

Section Code.
Variable driver : GLObjects.Driver.
Local Open Scope main_scope.
Import GLObjects.

(** [Scene::CreateDepthBuffer(width, height, MSAA)] *)
Definition CreateDepthBuffer (width height MSAA : Z) : Stmt :=
  (* Depth Buffer *)
  reading (fun p =>
    when (depthMapFBO p =? 0) then
      (call (printf "creating depth buffer \n" []) ;;
       gen (glGenFramebuffers driver) set_depthMapFBO)) ;;
  (* prepare depth buffer (texture) for the shadow map *)
  gen (glGenTextures driver) set_depthMapTexture ;;
  reading (fun p => gl (glBindTexture GL_TEXTURE_2D (depthMapTexture p))) ;;
  gl (glTexImage2D driver GL_DEPTH_COMPONENT32 width height) ;;
  gl (glTexParameteri GL_TEXTURE_MIN_FILTER GL_LINEAR) ;;
  gl (glTexParameteri GL_TEXTURE_MAG_FILTER GL_LINEAR) ;;
  gl (glTexParameteri GL_TEXTURE_COMPARE_MODE GL_COMPARE_REF_TO_TEXTURE) ;;
  gl (glTexParameteri GL_TEXTURE_COMPARE_FUNC GL_LEQUAL) ;;
  gl (glTexParameteri GL_TEXTURE_WRAP_S GL_CLAMP_TO_EDGE) ;;
  gl (glTexParameteri GL_TEXTURE_WRAP_T GL_CLAMP_TO_EDGE) ;;
  gl (glBindTexture GL_TEXTURE_2D 0) ;;
  reading (fun p => gl (glBindFramebuffer (depthMapFBO p))) ;;
  reading (fun p =>
    gl (glFramebufferTexture2D GL_DEPTH_ATTACHMENT GL_TEXTURE_2D (depthMapTexture p))) ;;
  gl (glDrawBuffer GL_NONE) ;;
  gl (glReadBuffer GL_NONE) ;;
  (* Check for completeness *)
  reading (fun p =>
    let status := status driver (objects p) in
    when (negb (status =? GL_FRAMEBUFFER_COMPLETE)) then
      call (printf "Failed to create depth framebuffer: 0x%04X\n" [status])) ;;
  gl (glBindFramebuffer 0).

(** [createFramebuffer(width, height, MSAA)] *)
Definition createFramebuffer (width height MSAA : Z) : Stmt :=
  (* Bind the default framebuffer *)
  gl (glBindFramebuffer 0) ;;
  (* Generate the FBO if necessary *)
  reading (fun p =>
    when (fbo p =? 0) then gen (glGenFramebuffers driver) set_fbo) ;;
  (* Bind it and recreate textures *)
  reading (fun p => gl (glBindFramebuffer (fbo p))) ;;
  (* Render target texture: delete it if necessary *)
  reading (fun p =>
    when (glIsTexture (renderTarget p) (objects p)) then
      (gl (glDeleteTextures (renderTarget p)) ;; set_renderTarget 0)) ;;
  (* Create the texture name *)
  reading (fun p =>
    when (renderTarget p =? 0) then gen (glGenTextures driver) set_renderTarget) ;;
  (* Bind and recreate the render target texture *)
  reading (fun p =>
    if MSAA >? 1
    then gl (glBindTexture GL_TEXTURE_2D_MULTISAMPLE (renderTarget p)) ;;
         gl (glTexImage2DMultisample driver MSAA GL_RGB16F width height) ;;
         gl (glFramebufferTexture2D GL_COLOR_ATTACHMENT0
               GL_TEXTURE_2D_MULTISAMPLE (renderTarget p))
    else gl (glBindTexture GL_TEXTURE_2D (renderTarget p)) ;;
         gl (glTexImage2D driver GL_RGB16F width height) ;;
         gl (glTexParameteri GL_TEXTURE_MIN_FILTER GL_LINEAR) ;;
         gl (glTexParameteri GL_TEXTURE_MAG_FILTER GL_LINEAR) ;;
         gl (glFramebufferTexture2D GL_COLOR_ATTACHMENT0 GL_TEXTURE_2D
               (renderTarget p))) ;;
  (* Depth/stencil buffer: delete it if necessary *)
  reading (fun p =>
    when (glIsRenderbuffer (depthStencil p) (objects p)) then
      (gl (glDeleteRenderbuffers (depthStencil p)) ;; set_depthStencil 0)) ;;
  (* Create the depth-stencil name *)
  reading (fun p =>
    when (depthStencil p =? 0) then
      gen (glGenRenderbuffers driver) set_depthStencil) ;;
  (* Bind and recreate the depth-stencil Render Buffer Object *)
  reading (fun p => gl (glBindRenderbuffer (depthStencil p))) ;;
  (if MSAA >? 1
   then gl (glRenderbufferStorageMultisample driver MSAA GL_DEPTH24_STENCIL8
              width height)
   else gl (glRenderbufferStorage driver GL_DEPTH24_STENCIL8 width height)) ;;
  reading (fun p =>
    gl (glFramebufferRenderbuffer GL_DEPTH_STENCIL_ATTACHMENT (depthStencil p))) ;;
  (* Set the list of draw buffers *)
  gl (glDrawBuffers GL_COLOR_ATTACHMENT0) ;;
  (* Check for completeness *)
  reading (fun p =>
    let status := status driver (objects p) in
    when (negb (status =? GL_FRAMEBUFFER_COMPLETE)) then
      call (printf "Failed to create framebuffer: 0x%04X\n" [status])) ;;
  (* Bind back the window system provided framebuffer *)
  gl (glBindFramebuffer 0) ;;
  CreateDepthBuffer width height MSAA.

(** [(float)width / (float)height] *)
Definition aspect (p : Program) : float := (IZR (width p) / IZR (height p))%R.

Definition set_projection : Stmt :=
  reading (fun p => call (SetProjection (fov p) (aspect p) nearClipPlane farClipPlane)).

(** [resizeCallback(window, width, height)] *)
Definition resizeCallback (width height : Z) : Stmt :=
  set_size width height ;;
  call (glViewport 0 0 width height) ;;
  set_projection ;;
  reading (fun p => createFramebuffer width height (msaaLevel (renderMode p))).

(** [mouseMoveCallback(window, x, y)] *)
Definition mouseMoveCallback (x y : float) : Stmt :=
  reading (fun p =>
    set_mouseStatus {| Main.x := x; Main.y := y;
                       prevX := prevX (mouseStatus p);
                       prevY := prevY (mouseStatus p) |}).

(** [keyCallback(window, key, scancode, action, mods)] *)
Definition keyCallback (key scancode action mods : Z) : Stmt :=
  (* Notify the window that user wants to exit the application *)
  (when ((key =? GLFW_KEY_ESCAPE) && (action =? GLFW_PRESS)) then
     call (glfwSetWindowShouldClose true)) ;;
  (* Enable/disable MSAA *)
  (when ((key =? GLFW_KEY_F1) && (action =? GLFW_PRESS)) then
     (reading (fun p =>
        if msaaLevel (renderMode p) >? 1
        then set_renderMode (set_msaaLevel 1 (renderMode p))
        else set_renderMode (set_msaaLevel MSAA_SAMPLES (renderMode p))) ;;
      reading (fun p =>
        createFramebuffer (width p) (height p) (msaaLevel (renderMode p))))) ;;
  (* Enable/disable wireframe rendering *)
  (when ((key =? GLFW_KEY_F2) && (action =? GLFW_PRESS)) then
     reading (fun p =>
       set_renderMode (set_wireframe (negb (wireframe (renderMode p)))
                                     (renderMode p)))) ;;
  (* Enable/disable vsync *)
  (when ((key =? GLFW_KEY_F3) && (action =? GLFW_PRESS)) then
     (reading (fun p =>
        set_renderMode (set_vsync (negb (vsync (renderMode p))) (renderMode p))) ;;
      reading (fun p =>
        if vsync (renderMode p) then call (glfwSwapInterval 1)
        else call (glfwSwapInterval 0)))) ;;
  (* Enable/disable tonemapping *)
  (when ((key =? GLFW_KEY_F4) && (action =? GLFW_PRESS)) then
     reading (fun p =>
       set_renderMode (set_tonemapping (negb (tonemapping (renderMode p)))
                                       (renderMode p)))) ;;
  (* Enable/disable light movement *)
  (when ((key =? GLFW_KEY_F5) && (action =? GLFW_PRESS)) then
     reading (fun p => set_animate (negb (animate p)))) ;;
  (* Enable/disable Carmack's reverse *)
  (when ((key =? GLFW_KEY_F6) && (action =? GLFW_PRESS)) then
     reading (fun p => set_carmackReverse (negb (carmackReverse p)))) ;;
  (* Zoom in *)
  (when ((key =? GLFW_KEY_KP_ADD)
         || (key =? GLFW_KEY_EQUAL) && (action =? GLFW_PRESS)) then
     (reading (fun p => set_fov (fov p - 1)%R) ;;
      reading (fun p => when (Rlt_dec (fov p) 5) then set_fov 5))) ;;
  (* Zoom out *)
  (when ((key =? GLFW_KEY_KP_SUBTRACT)
         || (key =? GLFW_KEY_MINUS) && (action =? GLFW_PRESS)) then
     (reading (fun p => set_fov (fov p + 1)%R) ;;
      reading (fun p => when (Rge_dec (fov p) 180) then set_fov 179))) ;;
  (when ((key =? GLFW_KEY_BACKSPACE) && (action =? GLFW_PRESS)) then
     set_fov 45) ;;
  (* Set the camera projection *)
  set_projection.

End Code.

(** [MouseStatus::Update(moveX, moveY)]: the two results and the status
    afterwards *)
Definition Update (m : MouseStatus) : (float * float) * MouseStatus :=
  ((x m - prevX m, y m - prevY m)%R,
   {| x := x m; y := y m; prevX := x m; prevY := y m |}).

End Main.

(** the globals of main.cpp that the user controls: window size, field of
    view, mouse, render settings and the two switches *)
Definition controls (p : Main.Program)
  : Z * Z * float * Main.MouseStatus * RenderSettings * bool * bool :=
  (Main.width p, Main.height p, Main.fov p, Main.mouseStatus p,
   Main.renderMode p, Main.animate p, Main.carmackReverse p).

(** a statement that leaves the part [f] of the program state alone *)
Definition keeps {A} (f : Main.Program -> A) (s : Main.Stmt) : Prop :=
  forall p, f (s p) = f p.

(** a field of view of a whole number of degrees, from 5 to 179 *)
Definition whole_fov (p : Main.Program) : Prop :=
  exists k : Z, Main.fov p = IZR k /\ 5 <= k <= 179.

(** the driver of the sample runs: names are handed out in increasing
    order, every store is accepted, every framebuffer is complete *)
Definition sample_driver : GLObjects.Driver :=
  {| GLObjects.fresh := fun l => 1 + fold_right Z.max 0 l;
     GLObjects.accepts := fun _ => true;
     GLObjects.status := fun _ => GLObjects.GL_FRAMEBUFFER_COMPLETE |}.

(** the mouse moving over the window through the positions [ps]: one call
    of [mouseMoveCallback] for each *)
Definition mouse_moves (ps : list (float * float)) : Main.Stmt :=
  fun p => fold_left (fun q xy => Main.mouseMoveCallback (fst xy) (snd xy) q) ps p.

(** a driver that hands out names as the GL requires: not 0 and not in
    use *)
Definition hands_out_unused_names (d : GLObjects.Driver) : Prop :=
  forall l, GLObjects.fresh d l <> 0 /\ ~ In (GLObjects.fresh d l) l.

(** the name held by a variable of the program is 0 or in use *)
Definition held {A} (n : GLuint) (t : GLObjects.Table A) : Prop :=
  n = 0 \/ In n (GLObjects.names t).

(** the variables of main.cpp and of the scene hold names of the context,
    no name is in its table twice, and the two framebuffer variables do
    not share a name *)
Definition tidy (p : Main.Program) : Prop :=
  let o := Main.objects p in
  NoDup (GLObjects.names (GLObjects.textures o)) /\
  NoDup (GLObjects.names (GLObjects.renderbuffers o)) /\
  NoDup (GLObjects.names (GLObjects.framebuffers o)) /\
  held (Main.fbo p) (GLObjects.framebuffers o) /\
  held (Main.depthMapFBO p) (GLObjects.framebuffers o) /\
  held (Main.renderTarget p) (GLObjects.textures o) /\
  held (Main.depthStencil p) (GLObjects.renderbuffers o) /\
  (Main.fbo p <> 0 -> Main.fbo p <> Main.depthMapFBO p).

(** the store [createFramebuffer] asks for with the level [MSAA] *)
Definition wanted (MSAA : Z) (format : GLObjects.InternalFormat)
           (width height : Z) : GLObjects.Image :=
  {| GLObjects.samples := if MSAA >? 1 then MSAA else 0;
     GLObjects.internalformat := format;
     GLObjects.image_width := width; GLObjects.image_height := height |}.

(** what the context keeps of a requested store: nothing if the
    implementation does not accept it *)
Definition granted (d : GLObjects.Driver) (i : GLObjects.Image)
  : option GLObjects.Image :=
  if GLObjects.accepts d i then Some i else None.

(** [createFramebuffer] in four steps, as the comments of the source divide
    it, and [CreateDepthBuffer] in two *)
Section Steps.
Variable driver : GLObjects.Driver.
Import GLObjects.
Local Notation "a ;; b" := (Main.seq a b) (at level 61, right associativity).
Local Notation "'when' c 'then' a" := (if c then a else Main.nop)
  (at level 60, c at level 0).

Definition own_framebuffer : Main.Stmt :=
  Main.gl (glBindFramebuffer 0) ;;
  Main.reading (fun p =>
    when (Main.fbo p =? 0) then Main.gen (glGenFramebuffers driver) Main.set_fbo) ;;
  Main.reading (fun p => Main.gl (glBindFramebuffer (Main.fbo p))).

Definition render_target_name : Main.Stmt :=
  Main.reading (fun p =>
    when (glIsTexture (Main.renderTarget p) (Main.objects p)) then
      (Main.gl (glDeleteTextures (Main.renderTarget p)) ;; Main.set_renderTarget 0)) ;;
  Main.reading (fun p =>
    when (Main.renderTarget p =? 0) then
      Main.gen (glGenTextures driver) Main.set_renderTarget).

Definition render_target_store (width height MSAA : Z) : Main.Stmt :=
  Main.reading (fun p =>
    if MSAA >? 1
    then Main.gl (glBindTexture GL_TEXTURE_2D_MULTISAMPLE (Main.renderTarget p)) ;;
         Main.gl (glTexImage2DMultisample driver MSAA GL_RGB16F width height) ;;
         Main.gl (glFramebufferTexture2D GL_COLOR_ATTACHMENT0
                    GL_TEXTURE_2D_MULTISAMPLE (Main.renderTarget p))
    else Main.gl (glBindTexture GL_TEXTURE_2D (Main.renderTarget p)) ;;
         Main.gl (glTexImage2D driver GL_RGB16F width height) ;;
         Main.gl (glTexParameteri GL_TEXTURE_MIN_FILTER GL_LINEAR) ;;
         Main.gl (glTexParameteri GL_TEXTURE_MAG_FILTER GL_LINEAR) ;;
         Main.gl (glFramebufferTexture2D GL_COLOR_ATTACHMENT0 GL_TEXTURE_2D
                    (Main.renderTarget p))).

Definition depth_stencil_name : Main.Stmt :=
  Main.reading (fun p =>
    when (glIsRenderbuffer (Main.depthStencil p) (Main.objects p)) then
      (Main.gl (glDeleteRenderbuffers (Main.depthStencil p)) ;;
       Main.set_depthStencil 0)) ;;
  Main.reading (fun p =>
    when (Main.depthStencil p =? 0) then
      Main.gen (glGenRenderbuffers driver) Main.set_depthStencil).

Definition depth_stencil_store (width height MSAA : Z) : Main.Stmt :=
  Main.reading (fun p => Main.gl (glBindRenderbuffer (Main.depthStencil p))) ;;
  (if MSAA >? 1
   then Main.gl (glRenderbufferStorageMultisample driver MSAA GL_DEPTH24_STENCIL8
                   width height)
   else Main.gl (glRenderbufferStorage driver GL_DEPTH24_STENCIL8 width height)) ;;
  Main.reading (fun p =>
    Main.gl (glFramebufferRenderbuffer GL_DEPTH_STENCIL_ATTACHMENT
               (Main.depthStencil p))).

Definition finish_framebuffer : Main.Stmt :=
  Main.gl (glDrawBuffers GL_COLOR_ATTACHMENT0) ;;
  Main.reading (fun p =>
    let status := status driver (Main.objects p) in
    when (negb (status =? GL_FRAMEBUFFER_COMPLETE)) then
      Main.call (Main.printf "Failed to create framebuffer: 0x%04X\n" [status])) ;;
  Main.gl (glBindFramebuffer 0).

Definition depth_map_names : Main.Stmt :=
  Main.reading (fun p =>
    when (Main.depthMapFBO p =? 0) then
      (Main.call (Main.printf "creating depth buffer \n" []) ;;
       Main.gen (glGenFramebuffers driver) Main.set_depthMapFBO)) ;;
  Main.gen (glGenTextures driver) Main.set_depthMapTexture.

Definition depth_map_store (width height : Z) : Main.Stmt :=
  Main.reading (fun p => Main.gl (glBindTexture GL_TEXTURE_2D (Main.depthMapTexture p))) ;;
  Main.gl (glTexImage2D driver GL_DEPTH_COMPONENT32 width height) ;;
  Main.gl (glTexParameteri GL_TEXTURE_MIN_FILTER GL_LINEAR) ;;
  Main.gl (glTexParameteri GL_TEXTURE_MAG_FILTER GL_LINEAR) ;;
  Main.gl (glTexParameteri GL_TEXTURE_COMPARE_MODE GL_COMPARE_REF_TO_TEXTURE) ;;
  Main.gl (glTexParameteri GL_TEXTURE_COMPARE_FUNC GL_LEQUAL) ;;
  Main.gl (glTexParameteri GL_TEXTURE_WRAP_S GL_CLAMP_TO_EDGE) ;;
  Main.gl (glTexParameteri GL_TEXTURE_WRAP_T GL_CLAMP_TO_EDGE) ;;
  Main.gl (glBindTexture GL_TEXTURE_2D 0).

Definition depth_map_framebuffer : Main.Stmt :=
  Main.reading (fun p => Main.gl (glBindFramebuffer (Main.depthMapFBO p))) ;;
  Main.reading (fun p =>
    Main.gl (glFramebufferTexture2D GL_DEPTH_ATTACHMENT GL_TEXTURE_2D
               (Main.depthMapTexture p))) ;;
  Main.gl (glDrawBuffer GL_NONE) ;;
  Main.gl (glReadBuffer GL_NONE) ;;
  Main.reading (fun p =>
    let status := status driver (Main.objects p) in
    when (negb (status =? GL_FRAMEBUFFER_COMPLETE)) then
      Main.call (Main.printf "Failed to create depth framebuffer: 0x%04X\n" [status])) ;;
  Main.gl (glBindFramebuffer 0).

End Steps.

(** the render target, the depth-stencil buffer and the depth map as
    [createFramebuffer width height MSAA] leaves them *)
Definition render_target_texture (d : GLObjects.Driver) (width height MSAA : Z)
  : GLObjects.Texture :=
  {| GLObjects.target := if MSAA >? 1 then GLObjects.GL_TEXTURE_2D_MULTISAMPLE
                         else GLObjects.GL_TEXTURE_2D;
     GLObjects.image := granted d (wanted MSAA GLObjects.GL_RGB16F width height);
     GLObjects.parameters :=
       if MSAA >? 1 then []
       else [(GLObjects.GL_TEXTURE_MAG_FILTER, GLObjects.GL_LINEAR);
             (GLObjects.GL_TEXTURE_MIN_FILTER, GLObjects.GL_LINEAR)] |}.

Definition depth_stencil_buffer (d : GLObjects.Driver) (width height MSAA : Z)
  : GLObjects.Renderbuffer :=
  {| GLObjects.storage :=
       granted d (wanted MSAA GLObjects.GL_DEPTH24_STENCIL8 width height) |}.

Definition depth_map_texture (d : GLObjects.Driver) (width height : Z)
  : GLObjects.Texture :=
  {| GLObjects.target := GLObjects.GL_TEXTURE_2D;
     GLObjects.image :=
       granted d (wanted 0 GLObjects.GL_DEPTH_COMPONENT32 width height);
     GLObjects.parameters :=
       [(GLObjects.GL_TEXTURE_WRAP_T, GLObjects.GL_CLAMP_TO_EDGE);
        (GLObjects.GL_TEXTURE_WRAP_S, GLObjects.GL_CLAMP_TO_EDGE);
        (GLObjects.GL_TEXTURE_COMPARE_FUNC, GLObjects.GL_LEQUAL);
        (GLObjects.GL_TEXTURE_COMPARE_MODE, GLObjects.GL_COMPARE_REF_TO_TEXTURE);
        (GLObjects.GL_TEXTURE_MAG_FILTER, GLObjects.GL_LINEAR);
        (GLObjects.GL_TEXTURE_MIN_FILTER, GLObjects.GL_LINEAR)] |}.

(** what [createFramebuffer width height MSAA] establishes: the two
    framebuffers with their attachments, the three stores, and the
    bindings it leaves *)
Definition framebuffers_built (d : GLObjects.Driver) (width height MSAA : Z)
           (q : Main.Program) : Prop :=
  let o := Main.objects q in
  Main.fbo q <> 0 /\ Main.depthMapFBO q <> 0 /\
  Main.fbo q <> Main.depthMapFBO q /\
  Main.renderTarget q <> 0 /\ Main.depthStencil q <> 0 /\
  Main.depthMapTexture q <> 0 /\
  Main.renderTarget q <> Main.depthMapTexture q /\
  (exists fb,
     GLObjects.object (Main.fbo q) (GLObjects.framebuffers o) = Some fb /\
     GLObjects.color0 fb = GLObjects.AttachedTexture (Main.renderTarget q) /\
     GLObjects.depth fb = GLObjects.AttachedRenderbuffer (Main.depthStencil q) /\
     GLObjects.stencil fb = GLObjects.AttachedRenderbuffer (Main.depthStencil q) /\
     GLObjects.draw_buffer fb = GLObjects.GL_COLOR_ATTACHMENT0) /\
  GLObjects.object (Main.renderTarget q) (GLObjects.textures o)
  = Some (render_target_texture d width height MSAA) /\
  GLObjects.object (Main.depthStencil q) (GLObjects.renderbuffers o)
  = Some (depth_stencil_buffer d width height MSAA) /\
  (exists fb,
     GLObjects.object (Main.depthMapFBO q) (GLObjects.framebuffers o) = Some fb /\
     GLObjects.depth fb = GLObjects.AttachedTexture (Main.depthMapTexture q) /\
     GLObjects.draw_buffer fb = GLObjects.GL_NONE /\
     GLObjects.read_buffer fb = GLObjects.GL_NONE) /\
  GLObjects.object (Main.depthMapTexture q) (GLObjects.textures o)
  = Some (depth_map_texture d width height) /\
  GLObjects.framebuffer_binding o = 0 /\
  GLObjects.texture_binding o GLObjects.GL_TEXTURE_2D = 0 /\
  GLObjects.renderbuffer_binding o = Main.depthStencil q.

(** how many names of each kind [createFramebuffer] adds to those in use *)
Definition new_textures (p : Main.Program) : nat :=
  if GLObjects.glIsTexture (Main.renderTarget p) (Main.objects p) then 1
  else if Main.renderTarget p =? 0 then 2 else 1.
Definition new_renderbuffers (p : Main.Program) : nat :=
  if GLObjects.glIsRenderbuffer (Main.depthStencil p) (Main.objects p) then 0
  else if Main.depthStencil p =? 0 then 1 else 0.
Definition new_framebuffers (p : Main.Program) : nat :=
  (if Main.fbo p =? 0 then 1 else 0) + (if Main.depthMapFBO p =? 0 then 1 else 0).

(** the names the program holds and the objects of the context *)
Definition gpu (p : Main.Program)
  : GLuint * GLuint * GLuint * GLuint * GLuint * GLObjects.Objects :=
  (Main.fbo p, Main.renderTarget p, Main.depthStencil p,
   Main.depthMapTexture p, Main.depthMapFBO p, Main.objects p).

(** the events GLFW reports to the callbacks that [initOpenGL] registers *)
Inductive Event :=
| Resize (width height : Z)
| Key (key scancode action mods : Z)
| MouseMove (x y : float).

Definition dispatch (d : GLObjects.Driver) (e : Event) : Main.Stmt :=
  match e with
  | Resize width height => Main.resizeCallback d width height
  | Key key scancode action mods => Main.keyCallback d key scancode action mods
  | MouseMove x y => Main.mouseMoveCallback x y
  end.

(** the events on which the program builds its framebuffers anew: a
    resize, and a press of F1 *)
Definition rebuilds (e : Event) : bool :=
  match e with
  | Resize _ _ => true
  | Key key _ action _ => (key =? Main.GLFW_KEY_F1) && (action =? Main.GLFW_PRESS)
  | MouseMove _ _ => false
  end.

(** the off-screen buffers as [createFramebuffer width height MSAA] builds
    them, whatever is bound at the moment: the two framebuffers with their
    attachments, and the three stores *)
Definition offscreen_buffers (d : GLObjects.Driver) (width height MSAA : Z)
           (q : Main.Program) : Prop :=
  let o := Main.objects q in
  Main.fbo q <> 0 /\ Main.depthMapFBO q <> 0 /\
  Main.fbo q <> Main.depthMapFBO q /\
  Main.renderTarget q <> 0 /\ Main.depthStencil q <> 0 /\
  Main.depthMapTexture q <> 0 /\
  Main.renderTarget q <> Main.depthMapTexture q /\
  (exists fb,
     GLObjects.object (Main.fbo q) (GLObjects.framebuffers o) = Some fb /\
     GLObjects.color0 fb = GLObjects.AttachedTexture (Main.renderTarget q) /\
     GLObjects.depth fb = GLObjects.AttachedRenderbuffer (Main.depthStencil q) /\
     GLObjects.stencil fb = GLObjects.AttachedRenderbuffer (Main.depthStencil q) /\
     GLObjects.draw_buffer fb = GLObjects.GL_COLOR_ATTACHMENT0) /\
  GLObjects.object (Main.renderTarget q) (GLObjects.textures o)
  = Some (render_target_texture d width height MSAA) /\
  GLObjects.object (Main.depthStencil q) (GLObjects.renderbuffers o)
  = Some (depth_stencil_buffer d width height MSAA) /\
  (exists fb,
     GLObjects.object (Main.depthMapFBO q) (GLObjects.framebuffers o) = Some fb /\
     GLObjects.depth fb = GLObjects.AttachedTexture (Main.depthMapTexture q) /\
     GLObjects.draw_buffer fb = GLObjects.GL_NONE /\
     GLObjects.read_buffer fb = GLObjects.GL_NONE) /\
  GLObjects.object (Main.depthMapTexture q) (GLObjects.textures o)
  = Some (depth_map_texture d width height).

(** the off-screen buffers fit the window and the render settings *)
Definition buffers_fit_window (d : GLObjects.Driver) (p : Main.Program) : Prop :=
  offscreen_buffers d (Main.width p) (Main.height p)
    (msaaLevel (Main.renderMode p)) p.

(** the program in its steady state: the names it holds are in order, the
    off-screen buffers fit the window and the settings, the field of view
    and the MSAA level are in range.  Nothing is said of the other objects
    of the context, nor of what is bound. *)
Definition steady (d : GLObjects.Driver) (p : Main.Program) : Prop :=
  tidy p /\
  buffers_fit_window d p /\
  whole_fov p /\
  (msaaLevel (Main.renderMode p) = 1 \/
   msaaLevel (Main.renderMode p) = Main.MSAA_SAMPLES).

(** what the program runs from [initOpenGL] on: the callbacks, on the events
    GLFW reports, and between them the rest of the program ([Scene::Init]
    and the other initialisation that follows [initOpenGL], the frames of
    [mainLoop]), each piece a statement of its own *)
Inductive Step :=
| Callback (e : Event)
| Between (c : Main.Stmt).

Definition perform (d : GLObjects.Driver) (s : Step) : Main.Stmt :=
  match s with
  | Callback e => dispatch d e
  | Between c => c
  end.

(** the program after the steps [ss], in their order *)
Definition after_steps (d : GLObjects.Driver) (ss : list Step) : Main.Stmt :=
  fun p => fold_left (fun q s => perform d s q) ss p.

(** code that leaves the off-screen buffers alone when it runs on a steady
    state: it may create objects of its own and bind what it likes, but it
    changes neither the window size, the field of view and the MSAA level,
    nor the five names the program holds, nor the objects they name, and
    it keeps the names in order *)
Definition leaves_buffers_alone (d : GLObjects.Driver) (c : Main.Stmt) : Prop :=
  forall p, steady d p ->
    let q := c p in
    let o := Main.objects p in
    let o' := Main.objects q in
    tidy q /\
    Main.width q = Main.width p /\ Main.height q = Main.height p /\
    Main.fov q = Main.fov p /\
    msaaLevel (Main.renderMode q) = msaaLevel (Main.renderMode p) /\
    Main.fbo q = Main.fbo p /\ Main.renderTarget q = Main.renderTarget p /\
    Main.depthStencil q = Main.depthStencil p /\
    Main.depthMapTexture q = Main.depthMapTexture p /\
    Main.depthMapFBO q = Main.depthMapFBO p /\
    GLObjects.object (Main.fbo p) (GLObjects.framebuffers o')
    = GLObjects.object (Main.fbo p) (GLObjects.framebuffers o) /\
    GLObjects.object (Main.depthMapFBO p) (GLObjects.framebuffers o')
    = GLObjects.object (Main.depthMapFBO p) (GLObjects.framebuffers o) /\
    GLObjects.object (Main.renderTarget p) (GLObjects.textures o')
    = GLObjects.object (Main.renderTarget p) (GLObjects.textures o) /\
    GLObjects.object (Main.depthMapTexture p) (GLObjects.textures o')
    = GLObjects.object (Main.depthMapTexture p) (GLObjects.textures o) /\
    GLObjects.object (Main.depthStencil p) (GLObjects.renderbuffers o')
    = GLObjects.object (Main.depthStencil p) (GLObjects.renderbuffers o).

(** the steps the steady state is proved for: every callback, and between
    them code that leaves the off-screen buffers alone *)
Definition allowed (d : GLObjects.Driver) (s : Step) : Prop :=
  match s with
  | Callback _ => True
  | Between c => leaves_buffers_alone d c
  end.

(** [renderScene] starts a frame by binding the framebuffer of the program *)
Definition bind_fbo : Main.Stmt :=
  Main.reading (fun p => Main.gl (GLObjects.glBindFramebuffer (Main.fbo p))).

(** a texture of the scene's own, as [Scene::Init] has them made: a name is
    generated, for a variable that is none of the five above *)
Definition scene_texture (d : GLObjects.Driver) : Main.Stmt :=
  Main.gl (fun o => snd (GLObjects.glGenTextures d o)).

(** * Theorems *)

(** ** The context state machine *)

Lemma gl_run_app g a b : gl_run g (a ++ b) = gl_run (gl_run g a) b.
Proof. unfold gl_run. apply fold_left_app. Qed.

Lemma draws_app a : forall g b,
  draws g (a ++ b) = draws g a ++ draws (gl_run g a) b.
Proof.
  induction a as [|c a IH]; intros g b; [reflexivity|].
  cbn [app draws gl_run fold_left]. rewrite IH, <- app_assoc. reflexivity.
Qed.

Lemma all_drawn_app P xs ys :
  all_drawn P (xs ++ ys) <-> all_drawn P xs /\ all_drawn P ys.
Proof. apply Forall_app. Qed.

(** ** Render pass flags *)




(** ** Initialisation guard *)

Lemma truthy_nonzero n : n <> 0 -> truthy n = true.
Proof. intros H. unfold truthy. apply negb_true_iff, Z.eqb_neq, H. Qed.

(** C10. On a scene whose generic VAO handle is not zero, [Init] (of either
    pipeline) returns at once, whatever its arguments: no field of the
    scene, no static, no context state changes and no OpenGL call is
    made. *)
Theorem C10_Init_idempotent :
  forall env numCubes numLights
         (w : World ShadowVolumes.Scene) (w' : World Spotlights.Scene),
    ShadowVolumes._vao (scene w) <> 0 ->
    Spotlights._vao (scene w') <> 0 ->
    ShadowVolumes.Init env numCubes numLights w = Ok (tt, w) /\
    Spotlights.Init env numCubes numLights w' = Ok (tt, w').
Proof.
  intros env numCubes numLights w w' H H'. split.
  - unfold ShadowVolumes.Init, bind, this.
    rewrite (truthy_nonzero _ H). reflexivity.
  - unfold Spotlights.Init, bind, this.
    rewrite (truthy_nonzero _ H'). reflexivity.
Qed.

(** ** The shadow-volume pass *)

(** C2 as stated fails: with the depth-pass convention selected, the
    shadow-volume draw does not run with "back faces increment, front faces
    decrement" on depth pass. *)
Lemma C2_counterexample :
  ~ (forall d,
       In d (draws gl_initial
               (calls_of (ShadowVolumes.shadowPass Sample.env
                            (scene Sample.initialised) Sample.camera false
                            (Vec3 0 3 0) (Vec4 1 1 1 0)))) ->
       dppass (stencil_back (snd d)) = GL_INCR_WRAP /\
       dppass (stencil_front (snd d)) = GL_DECR_WRAP).
Proof.
  intros H.
  match type of H with
  | forall d, In d ?l -> _ => set (L := l) in H
  end.
  assert (F : Forall (fun o => o = GL_INCR_WRAP)
                (map (fun d => dppass (stencil_back (snd d))) L)).
  { apply Forall_map, Forall_forall. intros d Hd. apply (H d Hd). }
  assert (E : map (fun d => dppass (stencil_back (snd d))) L = [GL_DECR_WRAP])
    by (lazy; reflexivity).
  rewrite E in F. inversion F as [|? ? Hb _]. discriminate Hb.
Qed.

(** ** Vectors *)

Lemma list_set_split {A} (a : A) : forall (v : list A) (k : nat),
  (k < length v)%nat ->
  list_set v k a = firstn k v ++ a :: skipn (S k) v.
Proof.
  induction v as [|b v IH]; intros k Hk; cbn [length] in Hk; [lia|].
  destruct k as [|k]; [reflexivity|].
  cbn [list_set firstn skipn app]. f_equal. apply IH. lia.
Qed.

Lemma vec_get_nth {A} (v : list A) (k : nat) (a : A) :
  nth_error v k = Some a -> vec_get v (Z.of_nat k) = Ok a.
Proof.
  intros H. unfold vec_get.
  destruct (Z.ltb_spec (Z.of_nat k) 0) as [L|_]; [lia|].
  now rewrite Nat2Z.id, H.
Qed.

Lemma vec_set_in {A} (v : list A) (k : nat) (a : A) :
  (k < length v)%nat ->
  vec_set v (Z.of_nat k) a = Ok (firstn k v ++ a :: skipn (S k) v).
Proof.
  intros H. unfold vec_set.
  destruct (Z.leb_spec 0 (Z.of_nat k)) as [_|L]; [|lia].
  destruct (Z.ltb_spec (Z.of_nat k) (Z.of_nat (length v))) as [_|L]; [|lia].
  cbn [andb]. now rewrite Nat2Z.id, list_set_split.
Qed.

Lemma vec_set_out {A} (v : list A) (i : Z) (a : A) :
  Z.of_nat (length v) <= i -> vec_set v i a = Crash (OutOfRange i).
Proof.
  intros H. unfold vec_set.
  destruct (Z.ltb_spec i (Z.of_nat (length v))) as [L|_]; [lia|].
  now rewrite andb_false_r.
Qed.

Lemma skipn_cons_nth {A} : forall (v : list A) (k : nat) (a : A),
  nth_error v k = Some a -> skipn k v = a :: skipn (S k) v.
Proof.
  induction v as [|b v IH]; intros [|k] a H; try discriminate H.
  - now injection H as ->.
  - cbn [skipn]. apply IH, H.
Qed.

(** ** Loops *)

Lemma iterate_split {Sc} (body : Z -> M Sc unit) : forall (a b : nat) (i : Z) w,
  iterate i (a + b) body w =
  bind (iterate i a body) (fun _ => iterate (i + Z.of_nat a) b body) w.
Proof.
  induction a as [|a IH]; intros b i w.
  - cbn [iterate Nat.add Z.of_nat]. rewrite Z.add_0_r. reflexivity.
  - cbn [iterate Nat.add]. unfold bind.
    destruct (body i w) as [[[] w1]|f]; [|reflexivity].
    rewrite IH. unfold bind.
    replace (i + 1 + Z.of_nat a) with (i + Z.of_nat (S a)) by lia.
    reflexivity.
Qed.

Lemma iterate_rounds {Sc} (body : Z -> M Sc unit)
      (f : nat -> World Sc -> World Sc) (P : nat -> World Sc -> Prop) :
  forall (n k : nat) (w : World Sc),
    (forall j w', (k <= j < k + n)%nat -> P j w' ->
                  body (Z.of_nat j) w' = Ok (tt, f j w') /\ P (S j) (f j w')) ->
    P k w ->
    iterate (Z.of_nat k) n body w = Ok (tt, rounds f k n w) /\
    P (k + n)%nat (rounds f k n w).
Proof.
  induction n as [|n IH]; intros k w Hbody HP.
  - cbn [iterate rounds]. rewrite Nat.add_0_r. split; [reflexivity|exact HP].
  - cbn [iterate rounds]. unfold bind.
    destruct (Hbody k w ltac:(lia) HP) as [-> HP'].
    replace (Z.of_nat k + 1) with (Z.of_nat (S k)) by lia.
    replace (k + S n)%nat with (S k + n)%nat by lia.
    apply IH; [|exact HP'].
    intros j w' Hj. apply Hbody. lia.
Qed.

(** a loop whose bound does not exceed its start runs no round *)
Lemma for_loop_empty {Sc} (from to : Z) (body : Z -> M Sc unit) w :
  to <= from -> for_loop from to body w = Ok (tt, w).
Proof.
  intros H. unfold for_loop.
  replace (Z.to_nat (to - from)) with O by lia. reflexivity.
Qed.

(** ** Staging and upload of the instance transforms *)

Lemma splice_length {A} (d : list A) (k : nat) (a : A) :
  (k < length d)%nat ->
  length (firstn k d ++ a :: skipn (S k) d) = length d.
Proof.
  intros H. rewrite length_app. cbn [length].
  rewrite length_firstn, length_skipn. lia.
Qed.

Lemma splice_firstn {A} (d : list A) (k : nat) (a : A) :
  (k < length d)%nat ->
  firstn (S k) (firstn k d ++ a :: skipn (S k) d) = firstn k d ++ [a].
Proof.
  intros H. rewrite firstn_app, firstn_firstn, length_firstn.
  replace (Nat.min (S k) k) with k by lia.
  replace (S k - Nat.min k (length d))%nat with 1%nat by lia.
  reflexivity.
Qed.

Lemma splice_skipn {A} (d : list A) (k m : nat) (a : A) :
  (k < length d)%nat -> (S k <= m)%nat ->
  skipn m (firstn k d ++ a :: skipn (S k) d) = skipn m d.
Proof.
  intros H Hm. rewrite skipn_app, length_firstn.
  rewrite (skipn_all2 (firstn k d)) by (rewrite length_firstn; lia).
  replace (m - Nat.min k (length d))%nat with (S (m - S k)) by lia.
  cbn [app]. rewrite skipn_cons, skipn_skipn. f_equal. lia.
Qed.

Lemma rounds_stage {Sc} (ps : list vec3) :
  forall (n k : nat) (w : World Sc),
    (k + n <= length ps)%nat ->
    (k + n <= length (static_instanceData w))%nat ->
    rounds (stage_round ps) k n w =
    with_instanceData
      (firstn k (static_instanceData w)
       ++ instances_from (Z.of_nat k) (firstn n (skipn k ps))
       ++ skipn (k + n) (static_instanceData w)) w.
Proof.
  induction n as [|n IH]; intros k w Hp Hd.
  - cbn [rounds firstn instances_from app]. rewrite Nat.add_0_r, firstn_skipn.
    destruct w; reflexivity.
  - cbn [rounds]. unfold stage_round at 2.
    destruct (nth_error ps k) as [pos|] eqn:E;
      [|apply nth_error_None in E; lia].
    rewrite IH; cbn [static_instanceData with_instanceData];
      [|lia|rewrite splice_length; lia].
    rewrite splice_firstn, splice_skipn by lia.
    rewrite (skipn_cons_nth _ _ _ E). cbn [firstn instances_from].
    replace (Z.of_nat k + 1) with (Z.of_nat (S k)) by lia.
    replace (S k + n)%nat with (k + S n)%nat by lia.
    unfold with_instanceData; cbn. rewrite <- app_assoc. reflexivity.
Qed.

Lemma instances_from_length : forall ps i, length (instances_from i ps) = length ps.
Proof. induction ps as [|p ps IH]; intros i; cbn; [|rewrite IH]; reflexivity. Qed.

Lemma instance_memory_length d :
  length (instance_memory d) = (12 * length d)%nat.
Proof.
  induction d as [|e d IH]; [reflexivity|].
  unfold instance_memory in *. cbn [flat_map length].
  rewrite length_app, IH. cbn [ptr3x4 ptr4 app length]. lia.
Qed.

Lemma instance_memory_app a b :
  instance_memory (a ++ b) = instance_memory a ++ instance_memory b.
Proof. apply flat_map_app. Qed.

Lemma instance_memory_firstn : forall d n,
  firstn (12 * n) (instance_memory d) = instance_memory (firstn n d).
Proof.
  induction d as [|e d IH]; intros [|n]; try reflexivity.
  replace (12 * S n)%nat with (12 + 12 * n)%nat by lia.
  unfold instance_memory in *. cbn [flat_map firstn].
  cbn [ptr3x4 ptr4 app Nat.add firstn]. now rewrite IH.
Qed.

Lemma emit_emit {Sc} (a b : list GLcmd) (w : World Sc) :
  emit b (emit a w) = emit (a ++ b) w.
Proof.
  unfold emit; cbn [scene static_instanceData static_t gl calls rand].
  now rewrite gl_run_app, app_assoc.
Qed.

Lemma copy_size (N : Z) :
  0 <= N <= MAX_INSTANCES ->
  to_size_t (to_size_t N * sizeof_InstanceData) = sizeof_float * (12 * N).
Proof.
  intros H. unfold to_size_t, sizeof_InstanceData, sizeof_mat3x4, sizeof_float,
    MAX_INSTANCES in *.
  rewrite (Z.mod_small N) by lia. rewrite Z.mod_small by lia. lia.
Qed.

Lemma UpdateInstanceData_loop (w : World ShadowVolumes.Scene) :
  ShadowVolumes.UpdateInstanceData w =
  bind (iterate 0 (Z.to_nat (ShadowVolumes._numCubes (scene w)))
          (stage_body (ShadowVolumes._cubePositions (scene w))))
       (fun _ =>
          bind (run (call (glBindBufferBase GL_UNIFORM_BUFFER 1
                             (ShadowVolumes._instancingBuffer (scene w)))))
          (fun _ => bind (mapBuffer GL_WRITE_ONLY)
          (fun ptr => bind get
          (fun w0 => bind (memcpy ptr (instance_memory (static_instanceData w0))
                             (to_size_t (to_size_t (ShadowVolumes._numCubes (scene w))
                                         * sizeof_InstanceData)))
          (fun _ => bind (run (call (glUnmapBuffer GL_UNIFORM_BUFFER)))
          (fun _ => run (call (glBindBufferBase GL_UNIFORM_BUFFER 1 0)))))))) w.
Proof.
  unfold ShadowVolumes.UpdateInstanceData, for_loop.
  unfold bind at 1. unfold this at 1. rewrite Z.sub_0_r. reflexivity.
Qed.

Lemma stage_body_ok {Sc} ps (j : nat) pos (w : World Sc) :
  nth_error ps j = Some pos ->
  (j < length (static_instanceData w))%nat ->
  stage_body ps (Z.of_nat j) w = Ok (tt, stage_round ps j w).
Proof.
  intros E H. unfold stage_body, bind, lift, get, put_instanceData, stage_round.
  now rewrite (vec_get_nth _ _ _ E), E, vec_set_in.
Qed.

Lemma stage_loop_ok {Sc} ps (n : nat) (w : World Sc) :
  (n <= length ps)%nat ->
  (n <= length (static_instanceData w))%nat ->
  iterate 0 n (stage_body ps) w =
  Ok (tt, with_instanceData
            (instances_from 0 (firstn n ps) ++ skipn n (static_instanceData w)) w).
Proof.
  intros Hp Hd.
  destruct (iterate_rounds (stage_body ps) (stage_round ps)
              (fun _ w' => length (static_instanceData w')
                           = length (static_instanceData w))
              n 0%nat w) as [E _].
  - intros j w' Hj HL.
    destruct (nth_error ps j) as [pos|] eqn:Ej;
      [|apply nth_error_None in Ej; lia].
    rewrite (stage_body_ok _ _ _ _ Ej) by lia.
    split; [reflexivity|]. unfold stage_round. rewrite Ej.
    cbn [static_instanceData with_instanceData].
    rewrite splice_length; lia.
  - reflexivity.
  - change (Z.of_nat 0) with 0 in E. rewrite E, rounds_stage by lia.
    reflexivity.
Qed.

Lemma UpdateInstanceData_runs (w : World ShadowVolumes.Scene) :
  let s := scene w in
  let n := Z.to_nat (ShadowVolumes._numCubes s) in
  uploadable w ->
  ShadowVolumes.UpdateInstanceData w =
  Ok (tt, emit (instance_upload (ShadowVolumes._instancingBuffer s)
                  (instance_memory
                     (instances_from 0 (firstn n (ShadowVolumes._cubePositions s)))))
            (with_instanceData
               (instances_from 0 (firstn n (ShadowVolumes._cubePositions s))
                ++ skipn n (static_instanceData w)) w)).
Proof.
  intros s n (Hn & Hp & Hd & Hib & Hst). fold s in Hn, Hp, Hib, Hst.
  rewrite UpdateInstanceData_loop. fold s n.
  unfold bind at 1.
  rewrite stage_loop_ok by (unfold MAX_INSTANCES in *; lia).
  unfold bind, run, call, get, mapBuffer, memcpy.
  cbn [gl emit with_instanceData gl_run fold_left gl_step buffer_mapped
       uniform_buffer_binding buffer_data static_instanceData].
  destruct (Z.eqb_spec (ShadowVolumes._instancingBuffer s) 0) as [|_];
    [contradiction|].
  rewrite (copy_size _ Hn).
  assert (Hlen : length (instances_from 0 (firstn n (ShadowVolumes._cubePositions s))
                         ++ skipn n (static_instanceData w))
                 = Z.to_nat MAX_INSTANCES).
  { rewrite length_app, instances_from_length, length_firstn, length_skipn.
    unfold MAX_INSTANCES in *. lia. }
  rewrite instance_memory_length, Hlen.
  destruct (Z.leb_spec (sizeof_float * (12 * ShadowVolumes._numCubes s))
              (sizeof_float * Z.of_nat (12 * Z.to_nat MAX_INSTANCES))) as [_|L];
    [|unfold MAX_INSTANCES, sizeof_float in *; lia].
  destruct (Z.leb_spec (sizeof_float * (12 * ShadowVolumes._numCubes s))
              (sizeof_float * Z.of_nat (length (buffer_data (gl w)
                                (ShadowVolumes._instancingBuffer s))))) as [_|L];
    [|unfold sizeof_InstanceData, sizeof_mat3x4, sizeof_float in *; lia].
  cbn [andb].
  replace (Z.to_nat (sizeof_float * (12 * ShadowVolumes._numCubes s) / sizeof_float))
    with (12 * n)%nat.
  2:{ unfold sizeof_float. rewrite Z.mul_comm, Z.div_mul by lia. subst n. lia. }
  rewrite instance_memory_firstn, firstn_app, instances_from_length.
  rewrite length_firstn.
  replace (n - Nat.min n (length (ShadowVolumes._cubePositions s)))%nat with O by lia.
  rewrite firstn_O, app_nil_r.
  rewrite firstn_all2 by (rewrite instances_from_length, length_firstn; lia).
  rewrite !emit_emit. reflexivity.
Qed.

Lemma upload_store g ib data :
  ib <> 0 ->
  (length data <= length (buffer_data g ib))%nat ->
  buffer_data (gl_run g (instance_upload ib data)) ib =
  data ++ skipn (length data) (buffer_data g ib).
Proof.
  intros Hib Hlen. unfold instance_upload.
  cbn [gl_run fold_left gl_step buffer_data buffer_mapped uniform_buffer_binding].
  destruct (Z.eqb_spec ib 0) as [|_]; [contradiction|]. rewrite Z.eqb_refl.
  destruct (Nat.leb_spec (length data) (length (buffer_data g ib))) as [_|L]; [|lia].
  cbn [andb]. unfold update_store. rewrite Z.eqb_refl. unfold store_write.
  cbn [firstn app Nat.add]. now rewrite firstn_all.
Qed.

Lemma upload_other g ib data b :
  ib <> 0 -> b <> ib ->
  buffer_data (gl_run g (instance_upload ib data)) b = buffer_data g b.
Proof.
  intros Hib Hb. unfold instance_upload.
  cbn [gl_run fold_left gl_step buffer_data buffer_mapped uniform_buffer_binding].
  destruct (Z.eqb_spec ib 0) as [|_]; [contradiction|]. rewrite Z.eqb_refl.
  destruct (length data <=? length (buffer_data g ib))%nat; [|reflexivity].
  cbn [andb]. unfold update_store.
  destruct (Z.eqb_spec b ib); [contradiction|reflexivity].
Qed.

(** C3, as the code has it.  For a scene whose instance count [n] is within
    [0, MAX_INSTANCES] (with a position for each counted cube and room for
    [n] entries in the store of the instancing buffer), [UpdateInstanceData]
    returns; it has replaced exactly the first [n] entries of the staging
    array by the transforms of the cubes and left the others as they were;
    it has copied exactly these [n] entries (12 floats each) to the start of
    the buffer store and left the rest of that store, every other store and
    the scene as they were; and it leaves uniform slot 1 unbound. *)
Theorem C3_UpdateInstanceData_within_bounds :
  forall w : World ShadowVolumes.Scene,
    uploadable w ->
    let s := scene w in
    let n := Z.to_nat (ShadowVolumes._numCubes s) in
    let ib := ShadowVolumes._instancingBuffer s in
    exists staged w',
      ShadowVolumes.UpdateInstanceData w = Ok (tt, w') /\
      staged = instances_from 0 (firstn n (ShadowVolumes._cubePositions s)) /\
      length staged = n /\
      static_instanceData w' = staged ++ skipn n (static_instanceData w) /\
      buffer_data (gl w') ib
      = instance_memory staged ++ skipn (12 * n) (buffer_data (gl w) ib) /\
      (forall b, b <> ib -> buffer_data (gl w') b = buffer_data (gl w) b) /\
      scene w' = s /\
      uniform_buffer_base (gl w') 1 = 0.
Proof.
  intros w U s n ib.
  pose proof (UpdateInstanceData_runs w U) as R. cbv zeta in R. fold s n ib in R.
  destruct U as (Hn & Hp & Hd & Hib & Hst). fold s ib in Hn, Hp, Hib, Hst.
  eexists. eexists. split; [exact R|]. split; [reflexivity|].
  assert (Hlen : length (instances_from 0 (firstn n (ShadowVolumes._cubePositions s)))
                 = n).
  { rewrite instances_from_length, length_firstn. lia. }
  split; [exact Hlen|]. split; [reflexivity|].
  cbn [gl emit with_instanceData scene].
  split; [|split; [|split; [reflexivity|reflexivity]]].
  - rewrite upload_store; [now rewrite instance_memory_length, Hlen|exact Hib|].
    rewrite instance_memory_length, Hlen.
    unfold sizeof_InstanceData, sizeof_mat3x4, sizeof_float in Hst. lia.
  - intros b Hb. now apply upload_other.
Qed.

(** beyond [MAX_INSTANCES] the staging loop runs off the end of the staging
    array: nothing checks the count *)
Lemma UpdateInstanceData_overflow (w : World ShadowVolumes.Scene) :
  let s := scene w in
  MAX_INSTANCES < ShadowVolumes._numCubes s ->
  ShadowVolumes._numCubes s <= Z.of_nat (length (ShadowVolumes._cubePositions s)) ->
  length (static_instanceData w) = Z.to_nat MAX_INSTANCES ->
  ShadowVolumes.UpdateInstanceData w = Crash (OutOfRange MAX_INSTANCES).
Proof.
  intros s Hn Hp Hd. rewrite UpdateInstanceData_loop. fold s.
  unfold bind at 1.
  replace (Z.to_nat (ShadowVolumes._numCubes s))
    with (Z.to_nat MAX_INSTANCES
          + S (Z.to_nat (ShadowVolumes._numCubes s) - S (Z.to_nat MAX_INSTANCES)))%nat
    by (unfold MAX_INSTANCES in *; lia).
  rewrite iterate_split. unfold bind at 1.
  rewrite stage_loop_ok by (unfold MAX_INSTANCES in *; lia).
  cbn [iterate]. unfold bind at 1.
  destruct (nth_error (ShadowVolumes._cubePositions s) (Z.to_nat MAX_INSTANCES))
    as [pos|] eqn:E;
    [|apply nth_error_None in E; unfold MAX_INSTANCES in *; lia].
  unfold stage_body, bind, lift, get.
  replace (0 + Z.of_nat (Z.to_nat MAX_INSTANCES))
    with (Z.of_nat (Z.to_nat MAX_INSTANCES)) by lia.
  rewrite (vec_get_nth _ _ _ E).
  cbn [static_instanceData with_instanceData].
  rewrite vec_set_out; [now rewrite Z2Nat.id by (unfold MAX_INSTANCES; lia)|].
  rewrite length_app, instances_from_length, length_firstn, length_skipn.
  unfold MAX_INSTANCES in *. lia.
Qed.

(** C3 as stated fails: a scene initialised with 1025 cubes is not turned
    away; [UpdateInstanceData] indexes the staging array of 1024 entries at
    1024. *)
Lemma C3_counterexample :
  ShadowVolumes._numCubes (scene Sample.crowded) = MAX_INSTANCES + 1 /\
  length (static_instanceData Sample.crowded) = Z.to_nat MAX_INSTANCES /\
  ShadowVolumes.UpdateInstanceData Sample.crowded = Crash (OutOfRange MAX_INSTANCES).
Proof.
  assert (Hn : ShadowVolumes._numCubes (scene Sample.crowded) = MAX_INSTANCES + 1)
    by (vm_compute; reflexivity).
  assert (Hd : length (static_instanceData Sample.crowded) = Z.to_nat MAX_INSTANCES)
    by (vm_compute; reflexivity).
  assert (Hp : length (ShadowVolumes._cubePositions (scene Sample.crowded)) = 1025%nat)
    by (vm_compute; reflexivity).
  split; [exact Hn|]. split; [exact Hd|].
  apply UpdateInstanceData_overflow; [| |exact Hd].
  - rewrite Hn. lia.
  - rewrite Hn, Hp. unfold MAX_INSTANCES. lia.
Qed.

Lemma sample_uploadable : uploadable Sample.initialised.
Proof. unfold uploadable. vm_compute. repeat split; discriminate. Qed.

Lemma sample_ready : ready Sample.initialised.
Proof.
  unfold ready. repeat split; try apply sample_uploadable;
    vm_compute; discriminate.
Qed.

Lemma C3_witness :
  uploadable Sample.initialised /\
  exists w',
    ShadowVolumes.UpdateInstanceData Sample.initialised = Ok (tt, w') /\
    length (static_instanceData w') = Z.to_nat MAX_INSTANCES /\
    uniform_buffer_base (gl w') 1 = 0.
Proof.
  split; [exact sample_uploadable|].
  destruct (C3_UpdateInstanceData_within_bounds Sample.initialised sample_uploadable)
    as (staged & w' & H & _ & Hl & Hs & _ & _ & _ & Hu).
  exists w'. split; [exact H|]. split; [|exact Hu].
  rewrite Hs, length_app, Hl, length_skipn. vm_compute. reflexivity.
Defined.

Lemma C10_witness :
  ShadowVolumes._vao (scene Sample.initialised) <> 0 /\
  Spotlights._vao (scene Sample.spot_initialised) <> 0 /\
  ShadowVolumes.Init Sample.env 7 3 Sample.initialised
  = Ok (tt, Sample.initialised) /\
  Spotlights.Init Sample.env 7 3 Sample.spot_initialised
  = Ok (tt, Sample.spot_initialised).
Proof.
  assert (H : ShadowVolumes._vao (scene Sample.initialised) <> 0)
    by (vm_compute; discriminate).
  assert (H' : Spotlights._vao (scene Sample.spot_initialised) <> 0)
    by (vm_compute; discriminate).
  split; [exact H|]. split; [exact H'|].
  exact (C10_Init_idempotent Sample.env 7 3 Sample.initialised
           Sample.spot_initialised H H').
Defined.

(** ** GL-only functions run to their end *)

Ltac gl_compute :=
  lazy -[Rplus Rmult Rminus Ropp Rinv Rdiv IZR sin cos sqrt PI PI_HALF].

Lemma ok_seq a b : ok a -> ok b -> ok (seqW a b).
Proof. unfold ok. intros -> ->. reflexivity. Qed.

Lemma calls_of_seq a b :
  ok a -> ok b -> calls_of (seqW a b) = calls_of a ++ calls_of b.
Proof. unfold ok. intros -> ->. reflexivity. Qed.

Lemma run_ok {Sc} (c : W) (w : World Sc) :
  ok c -> run c w = Ok (tt, emit (calls_of c) w).
Proof. unfold ok. intros ->. reflexivity. Qed.

Lemma UpdateProgramData_ok program rp camera lp lc :
  ok (ShadowVolumes.UpdateProgramData program rp camera lp lc).
Proof.
  unfold ShadowVolumes.UpdateProgramData.
  destruct (truthy (Z.land rp (Z.lor RenderPass.ShadowVolume RenderPass.LightPass)));
    destruct (truthy (Z.land rp RenderPass.LightPass)); reflexivity.
Qed.

Lemma DrawBackground_ok env s program rp camera lp lc :
  ShadowVolumes._quad s <> None ->
  ok (ShadowVolumes.DrawBackground env s program rp camera lp lc).
Proof.
  intros H. unfold ShadowVolumes.DrawBackground.
  destruct (ShadowVolumes._quad s) as [quad|]; [|contradiction].
  pose proof (UpdateProgramData_ok program rp camera lp lc) as U.
  unfold ok in U. rewrite U.
  destruct (truthy (Z.land rp RenderPass.LightPass)); reflexivity.
Qed.

Lemma DrawObjects_ok env s program rp camera lp lc :
  ShadowVolumes._cube s <> None ->
  ShadowVolumes._cubeAdjacency s <> None ->
  ok (ShadowVolumes.DrawObjects env s program rp camera lp lc).
Proof.
  intros H H'. unfold ShadowVolumes.DrawObjects.
  destruct (ShadowVolumes._cube s) as [cube|]; [|contradiction].
  destruct (ShadowVolumes._cubeAdjacency s) as [adj|]; [|contradiction].
  pose proof (UpdateProgramData_ok program rp camera lp lc) as U.
  unfold ok in U. rewrite U.
  destruct (truthy (Z.land rp RenderPass.LightPass));
    destruct (truthy (Z.land rp RenderPass.ShadowVolume));
    destruct (truthy (Z.land rp RenderPass.AmbientLight)); reflexivity.
Qed.

Lemma UpdateTransformBlock_ok s camera :
  ok (ShadowVolumes.UpdateTransformBlock s camera).
Proof. reflexivity. Qed.

(** the meshes of the scene exist *)
Lemma depthPass_ok env s camera :
  ShadowVolumes._quad s <> None -> ShadowVolumes._cube s <> None ->
  ShadowVolumes._cubeAdjacency s <> None ->
  ok (ShadowVolumes.depthPass env s camera).
Proof.
  intros. unfold ShadowVolumes.depthPass.
  apply ok_seq; [apply DrawBackground_ok|apply DrawObjects_ok]; assumption.
Qed.

Lemma lightPass_ok env s camera rp lp lc :
  ShadowVolumes._quad s <> None -> ShadowVolumes._cube s <> None ->
  ShadowVolumes._cubeAdjacency s <> None ->
  ok (ShadowVolumes.lightPass env s camera rp lp lc).
Proof.
  intros. unfold ShadowVolumes.lightPass.
  repeat (apply ok_seq; [reflexivity|]).
  apply ok_seq; [apply DrawBackground_ok; assumption|].
  apply ok_seq; [apply DrawObjects_ok; assumption|reflexivity].
Qed.

Lemma shadowPass_ok env s camera cr lp lc :
  ShadowVolumes._cube s <> None -> ShadowVolumes._cubeAdjacency s <> None ->
  ok (ShadowVolumes.shadowPass env s camera cr lp lc).
Proof.
  intros. unfold ShadowVolumes.shadowPass.
  repeat (apply ok_seq; [reflexivity|]).
  apply ok_seq; [destruct cr; reflexivity|].
  apply ok_seq; [apply DrawObjects_ok; assumption|reflexivity].
Qed.

(** ** A frame *)

Lemma emit_nil {Sc} (w : World Sc) : emit [] w = w.
Proof. destruct w. unfold emit. cbn. now rewrite app_nil_r. Qed.

Lemma rounds_lights env s camera cr lights :
  forall (n k : nat) w,
    (k + n <= length lights)%nat ->
    rounds (light_round env s camera cr lights) k n w =
    emit (flat_map (light_iteration env s camera cr) (firstn n (skipn k lights))) w.
Proof.
  induction n as [|n IH]; intros k w H.
  - cbn [rounds firstn flat_map]. now rewrite emit_nil.
  - cbn [rounds]. unfold light_round at 2.
    destruct (nth_error lights k) as [l|] eqn:E; [|apply nth_error_None in E; lia].
    rewrite IH by lia. rewrite (skipn_cons_nth _ _ _ E).
    cbn [firstn flat_map]. now rewrite emit_emit.
Qed.

Lemma transform_keeps_store s camera g b :
  b <> ShadowVolumes._transformBlockUBO s ->
  buffer_data (gl_run g (calls_of (ShadowVolumes.UpdateTransformBlock s camera))) b
  = buffer_data g b.
Proof.
  intros Hb. cbn [calls_of ShadowVolumes.UpdateTransformBlock seqW call app].
  cbn [gl_run fold_left gl_step buffer_data uniform_buffer_binding].
  destruct (ShadowVolumes._transformBlockUBO s =? 0); [reflexivity|].
  unfold update_store.
  destruct (Z.eqb_spec b (ShadowVolumes._transformBlockUBO s)); [contradiction|].
  reflexivity.
Qed.

Lemma Draw_runs env camera rm cr (w : World ShadowVolumes.Scene) :
  ready w ->
  let s := scene w in
  ShadowVolumes.Draw env camera rm cr w =
  Ok (tt, emit (frame_prologue env s camera rm (instance_memory (staged_instances s))
                ++ flat_map (light_iteration env s camera cr) (counted_lights s)
                ++ [glColorMask true true true true])
            (with_instanceData
               (staged_instances s
                ++ skipn (Z.to_nat (ShadowVolumes._numCubes s)) (static_instanceData w))
               w)).
Proof.
  intros (Hq & Hc & Ha & U & Htb & Hl) s. fold s in Hq, Hc, Ha, Htb, Hl.
  unfold ShadowVolumes.Draw.
  unfold bind at 1. unfold this at 1. fold s.
  unfold bind at 1. rewrite run_ok by apply UpdateTransformBlock_ok.
  unfold bind at 1. rewrite UpdateInstanceData_runs.
  2:{ destruct U as (Hn & Hp & Hd & Hib & Hst). fold s in Hn, Hp, Hib, Hst.
      unfold uploadable. cbn [scene emit static_instanceData gl]. fold s.
      rewrite transform_keeps_store by congruence. repeat split; assumption || apply Hn. }
  cbn [scene emit static_instanceData]. fold s.
  unfold bind at 1.
  match goal with |- context [run ?c ?w0] =>
    assert (Hok : ok c /\ calls_of c = frame_setup rm
                         ++ calls_of (ShadowVolumes.depthPass env s camera)
                         ++ [glDepthMask false])
  end.
  { pose proof (depthPass_ok env s camera Hq Hc Ha) as D. unfold ok in D.
    set (dpc := calls_of (ShadowVolumes.depthPass env s camera)) in *.
    rewrite D. unfold ok, frame_setup.
    destruct (1 <? msaaLevel rm); split; reflexivity. }
  destruct Hok as [Hok Hcalls]. rewrite (run_ok _ _ Hok), Hcalls.
  unfold bind at 1. unfold for_loop. rewrite Z.sub_0_r.
  match goal with |- context [iterate 0 ?n ?b ?w0] =>
    destruct (iterate_rounds b (light_round env s camera cr (ShadowVolumes._lights s))
                (fun _ w' => scene w' = s) n 0%nat w0) as [E _]
  end.
  - intros j w' Hj HP.
    destruct (nth_error (ShadowVolumes._lights s) j) as [l|] eqn:Ej;
      [|apply nth_error_None in Ej; lia].
    unfold light_round. rewrite Ej.
    assert (HL : forall a, ShadowVolumes.light (Z.of_nat j) (emit a w') = Ok (l, emit a w')).
    { intros a. unfold ShadowVolumes.light. cbn [scene emit]. rewrite HP.
      now rewrite (vec_get_nth _ _ _ Ej). }
    unfold bind. rewrite run_ok by reflexivity. rewrite HL.
    rewrite run_ok by (apply shadowPass_ok; assumption).
    rewrite run_ok by reflexivity. rewrite !emit_emit, HL.
    rewrite run_ok by (apply lightPass_ok; assumption).
    rewrite run_ok by reflexivity. rewrite !emit_emit, HL.
    rewrite run_ok by (apply lightPass_ok; assumption).
    rewrite !emit_emit. split; [|exact HP].
    unfold light_iteration, shadow_segment, direct_segment, ambient_segment.
    cbn [calls_of seqW call app]. rewrite <- !app_assoc. reflexivity.
  - reflexivity.
  - change (Z.of_nat 0) with 0 in E. rewrite E.
    rewrite rounds_lights by lia. cbn [skipn].
    rewrite run_ok by reflexivity.
    change (with_instanceData ?d (emit ?a ?w0))
      with (emit a (with_instanceData d w0)).
    rewrite !emit_emit.
    unfold frame_prologue, counted_lights, staged_instances.
    cbn [calls_of call]. rewrite <- !app_assoc. reflexivity.
Qed.

Lemma exists_mesh (p : option Mesh) : p <> None -> exists m, p = Some m.
Proof. destruct p as [m|]; [now exists m|contradiction]. Qed.

Lemma calls_emit {Sc} cs (w : World Sc) : calls (emit cs w) = calls w ++ cs.
Proof. reflexivity. Qed.

(** C1. [Draw] on a ready scene returns, and the calls it has issued are a
    prologue, then one [light_iteration] per counted light in order, then
    the final colour-mask call.  An iteration is: clear the stencil buffer
    and enable the stencil test; the shadow-volume segment; the direct-light
    segment; disable the stencil test; the ambient segment.  From whatever
    context state an iteration starts, the shadow volume is drawn with
    colour writes disabled (stencil test on); the direct light is drawn with
    colour writes enabled, the stencil test on and passing only where the
    stencil value is 0; the ambient light is drawn with the stencil test
    off. *)
Theorem C1_per_light_sequence :
  forall env camera renderMode carmackReverse (w : World ShadowVolumes.Scene),
    ready w ->
    let s := scene w in
    exists prologue w',
      ShadowVolumes.Draw env camera renderMode carmackReverse w = Ok (tt, w') /\
      calls w' = calls w ++ prologue
                 ++ flat_map (light_iteration env s camera carmackReverse)
                             (counted_lights s)
                 ++ [glColorMask true true true true] /\
      forall (l : Light) (g : GLstate),
        let g1 := gl_run g [glClear GL_STENCIL_BUFFER_BIT; glEnable GL_STENCIL_TEST] in
        let g2 := gl_run g1 (shadow_segment env s camera carmackReverse l) in
        let g3 := gl_run g2 (direct_segment env s camera l
                             ++ [glDisable GL_STENCIL_TEST]) in
        (exists d, draws g1 (shadow_segment env s camera carmackReverse l) = [d] /\
                   is_shadow_volume_draw (fst d) = true /\
                   enabled (snd d) GL_STENCIL_TEST = true /\
                   color_writemask (snd d) = all_channels false) /\
        draws g2 (direct_segment env s camera l) <> [] /\
        all_drawn (fun st => color_writemask st = all_channels true /\
                             enabled st GL_STENCIL_TEST = true /\
                             stencil_func st = (GL_EQUAL, 0, 0xff))
                  (draws g2 (direct_segment env s camera l)) /\
        draws g3 (ambient_segment env s camera l) <> [] /\
        all_drawn (fun st => enabled st GL_STENCIL_TEST = false /\
                             color_writemask st = all_channels true)
                  (draws g3 (ambient_segment env s camera l)).
Proof.
  intros env camera rm cr w R s.
  pose proof (Draw_runs env camera rm cr w R) as D. cbv zeta in D. fold s in D.
  destruct R as (Hq & Hc & Ha & _). fold s in Hq, Hc, Ha.
  destruct (exists_mesh _ Hq) as [quad Eq].
  destruct (exists_mesh _ Hc) as [cube Ec].
  destruct (exists_mesh _ Ha) as [adj Ea].
  eexists. eexists. split; [exact D|]. split.
  { reflexivity. }
  intros l g.
  unfold shadow_segment, direct_segment, ambient_segment,
    ShadowVolumes.shadowPass, ShadowVolumes.lightPass,
    ShadowVolumes.DrawBackground, ShadowVolumes.DrawObjects.
  rewrite Eq, Ec, Ea. destruct cr.
  - gl_compute. 
    split; [eexists; split; [reflexivity|repeat split]|].
    split; [discriminate|]. split; [repeat constructor|].
    split; [discriminate|repeat constructor].
  - gl_compute.
    split; [eexists; split; [reflexivity|repeat split]|].
    split; [discriminate|]. split; [repeat constructor|].
    split; [discriminate|repeat constructor].
Qed.

(** ** The shadow-volume draws of a frame *)

Ltac unfold_passes :=
  unfold light_iteration, shadow_segment, direct_segment, ambient_segment,
    ShadowVolumes.depthPass,
    ShadowVolumes.shadowPass, ShadowVolumes.lightPass,
    ShadowVolumes.DrawBackground, ShadowVolumes.DrawObjects.

Lemma iteration_shadow_draws env s camera cr quad cube adj :
  ShadowVolumes._quad s = Some quad ->
  ShadowVolumes._cube s = Some cube ->
  ShadowVolumes._cubeAdjacency s = Some adj ->
  forall l g,
    depth_writemask g = false ->
    depth_writemask (gl_run g (light_iteration env s camera cr l)) = false /\
    all_drawn shadow_state
      (shadow_draws (draws g (light_iteration env s camera cr l))) /\
    length (shadow_draws (draws g (light_iteration env s camera cr l))) = 1%nat.
Proof.
  intros Hquad Hcube Hadj l g Hg. unfold shadow_state, shadow_draws, all_drawn. unfold_passes.
  rewrite Hquad, Hcube, Hadj. destruct cr; gl_compute;
    (split; [exact Hg|]); (split; [|reflexivity]);
    repeat constructor; exact Hg.
Qed.

Lemma loop_shadow_draws env s camera cr quad cube adj :
  ShadowVolumes._quad s = Some quad ->
  ShadowVolumes._cube s = Some cube ->
  ShadowVolumes._cubeAdjacency s = Some adj ->
  forall ls g,
    depth_writemask g = false ->
    all_drawn shadow_state
      (shadow_draws (draws g (flat_map (light_iteration env s camera cr) ls))) /\
    length (shadow_draws (draws g (flat_map (light_iteration env s camera cr) ls)))
    = length ls.
Proof.
  intros Hquad Hcube Hadj. induction ls as [|l ls IH]; intros g Hg.
  - split; [constructor|reflexivity].
  - cbn [flat_map length]. rewrite draws_app. unfold shadow_draws in *.
    rewrite filter_app, length_app.
    destruct (iteration_shadow_draws env s camera cr quad cube adj Hquad Hcube Hadj l g Hg)
      as (Hg' & Hall & Hlen).
    destruct (IH _ Hg') as [IHall IHlen].
    split; [apply all_drawn_app; split; assumption|].
    unfold shadow_draws in Hlen. rewrite Hlen, IHlen. reflexivity.
Qed.

Lemma prologue_draws env s camera rm data quad cube adj g :
  ShadowVolumes._quad s = Some quad ->
  ShadowVolumes._cube s = Some cube ->
  ShadowVolumes._cubeAdjacency s = Some adj ->
  let ds := draws g (frame_prologue env s camera rm data) in
  map fst ds = [glDrawElements GL_TRIANGLES (GetIBOSize quad);
                glDrawElements GL_TRIANGLES (GetIBOSize quad);
                glDrawElements GL_TRIANGLES (GetIBOSize quad);
                glDrawElementsInstanced GL_TRIANGLES (GetIBOSize cube)
                  (ShadowVolumes._numCubes s)] /\
  map (fun d => current_program (snd d)) ds
  = [shaderProgram env ShaderProgram.DefaultDepthPass;
     shaderProgram env ShaderProgram.DefaultDepthPass;
     shaderProgram env ShaderProgram.DefaultDepthPass;
     shaderProgram env ShaderProgram.InstancingDepthPass] /\
  all_drawn (fun st => color_writemask st = all_channels false /\
                       depth_writemask st = true /\
                       enabled st GL_DEPTH_TEST = true /\
                       depth_func st = GL_LEQUAL) ds /\
  depth_writemask (gl_run g (frame_prologue env s camera rm data)) = false /\
  color_writemask (gl_run g (frame_prologue env s camera rm data ++ [glColorMask true true true true])) = all_channels true /\
  forallb (fun c => negb (stencil_call c)) (frame_prologue env s camera rm data) = true /\
  shadow_draws ds = [].
Proof.
  intros Hquad Hcube Hadj. unfold frame_prologue, frame_setup, instance_upload, all_drawn. unfold_passes.
  rewrite Hquad, Hcube, Hadj. destruct (1 <? msaaLevel rm).
  all: gl_compute.
  all: repeat split; repeat constructor.
Qed.

(** C6. In a frame of a ready scene, every shadow-volume draw runs with the
    stencil function [GL_ALWAYS], face culling disabled, and colour and
    depth writes disabled; there is one such draw per counted light.  The
    pass itself, from whatever context state it starts, draws the shadow
    volumes once, with [GL_ALWAYS] and culling disabled, and has culling
    enabled again when it returns. *)
Theorem C6_shadow_pass_state :
  forall env camera renderMode carmackReverse (w : World ShadowVolumes.Scene),
    ready w ->
    let s := scene w in
    exists frame w',
      ShadowVolumes.Draw env camera renderMode carmackReverse w = Ok (tt, w') /\
      calls w' = calls w ++ frame /\
      all_drawn shadow_state (shadow_draws (draws (gl w) frame)) /\
      length (shadow_draws (draws (gl w) frame)) = length (counted_lights s) /\
      forall l g,
        let pass := calls_of (ShadowVolumes.shadowPass env s camera carmackReverse
                                (position l) (color l)) in
        (exists d, draws g pass = [d] /\
                   is_shadow_volume_draw (fst d) = true /\
                   stencil_func (snd d) = (GL_ALWAYS, 0, 0xff) /\
                   enabled (snd d) GL_CULL_FACE = false) /\
        enabled (gl_run g pass) GL_CULL_FACE = true.
Proof.
  intros env camera rm cr w R s.
  pose proof (Draw_runs env camera rm cr w R) as D. cbv zeta in D. fold s in D.
  destruct R as (Hq & Hc & Ha & _). fold s in Hq, Hc, Ha.
  destruct (exists_mesh _ Hq) as [quad Hquad].
  destruct (exists_mesh _ Hc) as [cube Hcube].
  destruct (exists_mesh _ Ha) as [adj Hadj].
  eexists. eexists. split; [exact D|]. split; [reflexivity|].
  set (data := instance_memory (staged_instances s)).
  destruct (prologue_draws env s camera rm data quad cube adj (gl w)
              Hquad Hcube Hadj) as (_ & _ & _ & Hdepth & _ & _ & Hnone).
  destruct (loop_shadow_draws env s camera cr quad cube adj Hquad Hcube Hadj
              (counted_lights s) _ Hdepth) as [Hall Hlen].
  rewrite !draws_app. unfold shadow_draws in *. rewrite !filter_app, !length_app.
  rewrite Hnone, Hlen. cbn [app length draws is_draw filter Nat.add].
  rewrite app_nil_r, Nat.add_0_r.
  split; [exact Hall|]. split; [reflexivity|].
  intros l g. unfold ShadowVolumes.shadowPass, ShadowVolumes.DrawObjects.
  rewrite Hcube, Hadj.
  destruct cr; gl_compute;
    (split; [eexists; split; [reflexivity|repeat split]|reflexivity]).
Qed.

(** C9. With zero lights counted, [Draw] on a ready scene returns; what it
    rasterises is the depth pre-pass alone (floor, two walls and the cubes,
    with the depth-pass programs, colour writes disabled and depth writes
    enabled); it issues no stencil call and draws no shadow volume; and the
    colour-write mask is fully enabled when it returns. *)
Theorem C9_frame_without_lights :
  forall env camera renderMode carmackReverse (w : World ShadowVolumes.Scene),
    ready w ->
    ShadowVolumes._numLights (scene w) = 0 ->
    let s := scene w in
    exists frame w' quad cube,
      ShadowVolumes.Draw env camera renderMode carmackReverse w = Ok (tt, w') /\
      calls w' = calls w ++ frame /\
      ShadowVolumes._quad s = Some quad /\
      ShadowVolumes._cube s = Some cube /\
      map fst (draws (gl w) frame)
      = [glDrawElements GL_TRIANGLES (GetIBOSize quad);
         glDrawElements GL_TRIANGLES (GetIBOSize quad);
         glDrawElements GL_TRIANGLES (GetIBOSize quad);
         glDrawElementsInstanced GL_TRIANGLES (GetIBOSize cube)
           (ShadowVolumes._numCubes s)] /\
      map (fun d => current_program (snd d)) (draws (gl w) frame)
      = [shaderProgram env ShaderProgram.DefaultDepthPass;
         shaderProgram env ShaderProgram.DefaultDepthPass;
         shaderProgram env ShaderProgram.DefaultDepthPass;
         shaderProgram env ShaderProgram.InstancingDepthPass] /\
      all_drawn (fun st => color_writemask st = all_channels false /\
                           depth_writemask st = true /\
                           enabled st GL_DEPTH_TEST = true /\
                           depth_func st = GL_LEQUAL)
                (draws (gl w) frame) /\
      forallb (fun c => negb (stencil_call c)) frame = true /\
      shadow_draws (draws (gl w) frame) = [] /\
      color_writemask (gl w') = all_channels true.
Proof.
  intros env camera rm cr w R Hzero s.
  pose proof (Draw_runs env camera rm cr w R) as D. cbv zeta in D. fold s in D.
  destruct R as (Hq & Hc & Ha & _). fold s in Hq, Hc, Ha, Hzero.
  destruct (exists_mesh _ Hq) as [quad Hquad].
  destruct (exists_mesh _ Hc) as [cube Hcube].
  destruct (exists_mesh _ Ha) as [adj Hadj].
  unfold counted_lights in D. rewrite Hzero in D. cbn [Z.to_nat firstn flat_map app] in D.
  set (data := instance_memory (staged_instances s)) in *.
  destruct (prologue_draws env s camera rm data quad cube adj (gl w)
              Hquad Hcube Hadj) as (Hdraws & Hprog & Hstate & _ & Hmask & Hsten & Hnone).
  eexists. exists (emit (frame_prologue env s camera rm data
                         ++ [glColorMask true true true true])
                    (with_instanceData
                       (staged_instances s
                        ++ skipn (Z.to_nat (ShadowVolumes._numCubes s))
                                 (static_instanceData w)) w)).
  exists quad, cube.
  split; [exact D|]. split; [reflexivity|].
  split; [exact Hquad|]. split; [exact Hcube|].
  rewrite draws_app. cbn [draws is_draw app]. rewrite app_nil_r.
  split; [exact Hdraws|]. split; [exact Hprog|]. split; [exact Hstate|].
  split; [|split; [exact Hnone|exact Hmask]].
  rewrite forallb_app, Hsten. reflexivity.
Qed.

Lemma unlit_ready : ready Sample.unlit.
Proof.
  unfold ready, uploadable. vm_compute. repeat split; discriminate.
Qed.

Lemma C1_witness :
  ready Sample.initialised /\
  exists w',
    ShadowVolumes.Draw Sample.env Sample.camera Sample.settings true
      Sample.initialised = Ok (tt, w').
Proof.
  split; [exact sample_ready|].
  destruct (C1_per_light_sequence Sample.env Sample.camera Sample.settings true
              Sample.initialised sample_ready) as (prologue & w' & H & _).
  exists w'. exact H.
Defined.

Lemma C6_witness :
  ready Sample.initialised /\
  exists frame,
    all_drawn shadow_state (shadow_draws (draws (gl Sample.initialised) frame)) /\
    length (shadow_draws (draws (gl Sample.initialised) frame)) = 1%nat.
Proof.
  split; [exact sample_ready|].
  destruct (C6_shadow_pass_state Sample.env Sample.camera Sample.settings false
              Sample.initialised sample_ready) as (frame & w' & _ & _ & Ha & Hl & _).
  exists frame. split; [exact Ha|exact Hl].
Defined.

Lemma C9_witness :
  ready Sample.unlit /\
  ShadowVolumes._numLights (scene Sample.unlit) = 0 /\
  exists w',
    ShadowVolumes.Draw Sample.env Sample.camera Sample.settings true Sample.unlit
    = Ok (tt, w') /\
    color_writemask (gl w') = all_channels true.
Proof.
  split; [exact unlit_ready|]. split; [reflexivity|].
  destruct (C9_frame_without_lights Sample.env Sample.camera Sample.settings true
              Sample.unlit unlit_ready eq_refl)
    as (frame & w' & quad & cube & H & _ & _ & _ & _ & _ & _ & _ & _ & Hm).
  exists w'. split; [exact H|exact Hm].
Defined.

(** C2, as the code has it.  With the depth-pass convention selected
    ([carmackReverse] false), the shadow-volume pass draws the shadow
    volumes once, and for that draw back faces decrement (with wrap) and
    front faces increment (with wrap) the stencil value on depth pass; the
    stencil-fail and depth-fail operations keep it. *)
Theorem C2_depth_pass_stencil_ops :
  forall env s camera lightPosition lightColor (g : GLstate) cube adj,
    ShadowVolumes._cube s = Some cube ->
    ShadowVolumes._cubeAdjacency s = Some adj ->
    exists cs st,
      ShadowVolumes.shadowPass env s camera false lightPosition lightColor = Ok cs /\
      draws g cs
      = [(glDrawElementsInstanced GL_TRIANGLES_ADJACENCY (GetIBOSize adj)
            (ShadowVolumes._numCubes s), st)] /\
      stencil_back st
      = {| sfail := GL_KEEP; dpfail := GL_KEEP; dppass := GL_DECR_WRAP |} /\
      stencil_front st
      = {| sfail := GL_KEEP; dpfail := GL_KEEP; dppass := GL_INCR_WRAP |}.
Proof.
  intros env s camera lp lc g cube adj Hcube Hadj.
  unfold ShadowVolumes.shadowPass, ShadowVolumes.DrawObjects.
  rewrite Hcube, Hadj. gl_compute.
  eexists. eexists. split; [reflexivity|]. split; [reflexivity|].
  split; reflexivity.
Qed.

Lemma C2_witness :
  exists cs st,
    ShadowVolumes.shadowPass Sample.env (scene Sample.initialised) Sample.camera
      false (Vec3 0 3 0) (Vec4 1 1 1 0) = Ok cs /\
    draws gl_initial cs = [(glDrawElementsInstanced GL_TRIANGLES_ADJACENCY 72 5, st)] /\
    dppass (stencil_back st) = GL_DECR_WRAP /\
    dppass (stencil_front st) = GL_INCR_WRAP.
Proof.
  destruct (C2_depth_pass_stencil_ops Sample.env (scene Sample.initialised)
              Sample.camera (Vec3 0 3 0) (Vec4 1 1 1 0) gl_initial
              {| GetVAO := 12; GetIBOSize := 36 |}
              {| GetVAO := 13; GetIBOSize := 72 |} eq_refl eq_refl)
    as (cs & st & H & Hd & Hb & Hf).
  exists cs, st. split; [exact H|]. split; [exact Hd|].
  rewrite Hb, Hf. split; reflexivity.
Defined.

(** X1. With the depth-fail convention selected ([carmackReverse] true,
    the default of main.cpp), the shadow-volume pass draws the shadow
    volumes once, and for that draw back faces increment (with wrap) and
    front faces decrement (with wrap) the stencil value on depth fail; the
    stencil-fail and depth-pass operations keep it. *)
Lemma depth_fail_stencil_ops :
  forall env s camera lightPosition lightColor (g : GLstate) cube adj,
    ShadowVolumes._cube s = Some cube ->
    ShadowVolumes._cubeAdjacency s = Some adj ->
    exists cs st,
      ShadowVolumes.shadowPass env s camera true lightPosition lightColor = Ok cs /\
      draws g cs
      = [(glDrawElementsInstanced GL_TRIANGLES_ADJACENCY (GetIBOSize adj)
            (ShadowVolumes._numCubes s), st)] /\
      stencil_back st
      = {| sfail := GL_KEEP; dpfail := GL_INCR_WRAP; dppass := GL_KEEP |} /\
      stencil_front st
      = {| sfail := GL_KEEP; dpfail := GL_DECR_WRAP; dppass := GL_KEEP |}.
Proof.
  intros env s camera lp lc g cube adj Hcube Hadj.
  unfold ShadowVolumes.shadowPass, ShadowVolumes.DrawObjects.
  rewrite Hcube, Hadj. gl_compute.
  eexists. eexists. split; [reflexivity|]. split; [reflexivity|].
  split; reflexivity.
Qed.

(** ** Animation of the lights *)

Lemma relight_same (w : World ShadowVolumes.Scene) :
  relight (ShadowVolumes._lights (scene w)) w = w.
Proof. destruct w as [s d t g c r]. destruct s. reflexivity. Qed.

Lemma rounds_update t :
  forall (n k : nat) (w : World ShadowVolumes.Scene),
    (k + n <= length (ShadowVolumes._lights (scene w)))%nat ->
    rounds (update_round t) k n w =
    relight (firstn k (ShadowVolumes._lights (scene w))
             ++ map (moved t) (firstn n (skipn k (ShadowVolumes._lights (scene w))))
             ++ skipn (k + n) (ShadowVolumes._lights (scene w))) w.
Proof.
  induction n as [|n IH]; intros k w H.
  - cbn [rounds firstn map app]. rewrite Nat.add_0_r, firstn_skipn.
    now rewrite relight_same.
  - cbn [rounds]. unfold update_round at 2.
    destruct (nth_error (ShadowVolumes._lights (scene w)) k) as [l|] eqn:E;
      [|apply nth_error_None in E; lia].
    rewrite IH;
      cbn [relight with_scene scene ShadowVolumes._lights ShadowVolumes.set_lights];
      [|rewrite splice_length; lia].
    rewrite splice_firstn, !splice_skipn by lia.
    rewrite (skipn_cons_nth _ _ _ E). cbn [firstn map].
    replace (S k + n)%nat with (k + S n)%nat by lia.
    rewrite <- app_assoc. reflexivity.
Qed.

Lemma set_light_position_ok (j : nat) (p : vec3) (l : Light)
      (w : World ShadowVolumes.Scene) :
  nth_error (ShadowVolumes._lights (scene w)) j = Some l ->
  ShadowVolumes.set_light_position (Z.of_nat j) p w =
  Ok (tt, relight (firstn j (ShadowVolumes._lights (scene w))
                   ++ {| position := p; color := color l; movement := movement l |}
                      :: skipn (S j) (ShadowVolumes._lights (scene w))) w).
Proof.
  intros E. unfold ShadowVolumes.set_light_position.
  rewrite (vec_get_nth _ _ _ E).
  rewrite vec_set_in by (apply nth_error_Some; congruence).
  reflexivity.
Qed.

Lemma light_ok (j : nat) (l : Light) (w : World ShadowVolumes.Scene) :
  nth_error (ShadowVolumes._lights (scene w)) j = Some l ->
  ShadowVolumes.light (Z.of_nat j) w = Ok (l, w).
Proof.
  intros E. unfold ShadowVolumes.light. now rewrite (vec_get_nth _ _ _ E).
Qed.

Lemma Update_runs dt (w : World ShadowVolumes.Scene) l0 rest :
  let s := scene w in
  let t := static_t w in
  let n := Z.to_nat (ShadowVolumes._numLights s - 1) in
  ShadowVolumes._lights s = l0 :: rest ->
  ShadowVolumes._numLights s <= Z.of_nat (length (ShadowVolumes._lights s)) ->
  ShadowVolumes.Update dt w =
  Ok (tt, with_t (t + dt)
            (relight ({| position := add3 (Vec3 (-3) 2 0)
                                          (ShadowVolumes.lissajous (movement l0) t);
                         color := color l0; movement := movement l0 |}
                      :: map (moved t) (firstn n rest) ++ skipn n rest) w)).
Proof.
  intros s t n HL Hn. unfold ShadowVolumes.Update.
  unfold bind at 1. unfold get at 1. fold t.
  unfold bind at 1. rewrite (light_ok 0 l0) by (fold s; now rewrite HL).
  unfold bind at 1.
  rewrite (set_light_position_ok 0 _ l0) by (fold s; now rewrite HL).
  fold s. rewrite HL. cbn [firstn skipn app].
  unfold bind at 1. unfold this at 1.
  cbn [scene relight with_scene ShadowVolumes._numLights ShadowVolumes.set_lights].
  unfold bind at 1. unfold for_loop. fold s. fold n.
  match goal with |- context [iterate 1 n ?b ?w0] =>
    destruct (iterate_rounds b (update_round t)
                (fun _ w' => length (ShadowVolumes._lights (scene w'))
                             = S (length rest)) n 1%nat w0) as [E _]
  end.
  - intros j w' Hj HP.
    destruct (nth_error (ShadowVolumes._lights (scene w')) j) as [l|] eqn:Ej.
    2:{ apply nth_error_None in Ej. rewrite HL in Hn. cbn [length] in Hn. lia. }
    unfold bind. rewrite (light_ok _ _ _ Ej), (set_light_position_ok _ _ _ _ Ej).
    unfold update_round. rewrite Ej. split; [reflexivity|].
    cbn [relight with_scene scene ShadowVolumes._lights ShadowVolumes.set_lights].
    rewrite splice_length; [exact HP|]. apply nth_error_Some. congruence.
  - reflexivity.
  - change (Z.of_nat 1) with 1 in E. rewrite E.
    rewrite rounds_update.
    2:{ cbn [relight with_scene scene ShadowVolumes._lights ShadowVolumes.set_lights length].
        rewrite HL in Hn. cbn [length] in Hn. lia. }
    cbn [relight with_scene scene ShadowVolumes._lights ShadowVolumes.set_lights
         firstn skipn app Nat.add].
    reflexivity.
Qed.


(** ** Animation of the lights: rounding and overflow *)

Lemma rounding_keeps_integers rnd (n : Z) a :
  Rounded.rounding rnd -> Z.abs n <= 16777216 ->
  ((a <= IZR n -> rnd a <= IZR n) /\ (IZR n <= a -> IZR n <= rnd a))%R.
Proof.
  intros [Hm Hi] Hn.
  split; intros H; apply Hm in H; rewrite (Hi n Hn) in H; exact H.
Qed.

Lemma rounding_between rnd (lo hi : Z) a :
  Rounded.rounding rnd -> Z.abs lo <= 16777216 -> Z.abs hi <= 16777216 ->
  (IZR lo <= a <= IZR hi -> IZR lo <= rnd a <= IZR hi)%R.
Proof.
  intros Hr Hlo Hhi [H1 H2]. split.
  - now apply (rounding_keeps_integers rnd lo a Hr Hlo).
  - now apply (rounding_keeps_integers rnd hi a Hr Hhi).
Qed.

Lemma rounded_lissajous_bounded rnd sinf cosf p t :
  Rounded.rounding rnd -> Rounded.within_one sinf -> Rounded.within_one cosf ->
  (-1 <= x3 (Rounded.lissajous rnd sinf cosf p t) <= 1 /\
   -1 <= y3 (Rounded.lissajous rnd sinf cosf p t) <= 1 /\
   -1 <= z3 (Rounded.lissajous rnd sinf cosf p t) <= 1)%R.
Proof.
  intros Hr Hs Hc. unfold Rounded.lissajous. cbn [x3 y3 z3].
  split; [apply Hs|]. split; [apply Hc|].
  pose proof (Hs (rnd (z p * t)%R)) as Bs.
  pose proof (Hc (rnd (w p * t)%R)) as Bc.
  apply (rounding_between rnd (-1) 1); [exact Hr|cbn; lia|cbn; lia|].
  split; nra.
Qed.

Lemma rounded_light_position_bounded rnd sinf cosf p t :
  Rounded.rounding rnd -> Rounded.within_one sinf -> Rounded.within_one cosf ->
  let q := Rounded.light_position rnd sinf cosf p t in
  (Rabs (x3 q - x3 ShadowVolumes.offset) <= x3 ShadowVolumes.scale /\
   Rabs (y3 q - y3 ShadowVolumes.offset) <= y3 ShadowVolumes.scale /\
   Rabs (z3 q - z3 ShadowVolumes.offset) <= z3 ShadowVolumes.scale)%R.
Proof.
  intros Hr Hs Hc q.
  pose proof (rounded_lissajous_bounded rnd sinf cosf p t Hr Hs Hc) as (Bx & By & Bz).
  subst q. unfold Rounded.light_position, Rounded.add3, Rounded.mul3,
    ShadowVolumes.offset, ShadowVolumes.scale.
  cbn [x3 y3 z3].
  set (c := Rounded.lissajous rnd sinf cosf p t) in *.
  assert (Mx : (-13 <= rnd (x3 c * 13) <= 13)%R)
    by (apply (rounding_between rnd (-13) 13); [exact Hr|cbn; lia|cbn; lia|lra]).
  assert (My : (-2 <= rnd (y3 c * 2) <= 2)%R)
    by (apply (rounding_between rnd (-2) 2); [exact Hr|cbn; lia|cbn; lia|lra]).
  assert (Mz : (-13 <= rnd (z3 c * 13) <= 13)%R)
    by (apply (rounding_between rnd (-13) 13); [exact Hr|cbn; lia|cbn; lia|lra]).
  assert (Ax : (-13 <= rnd (0 + rnd (x3 c * 13)) <= 13)%R)
    by (apply (rounding_between rnd (-13) 13); [exact Hr|cbn; lia|cbn; lia|lra]).
  assert (Ay : (1 <= rnd (3 + rnd (y3 c * 2)) <= 5)%R)
    by (apply (rounding_between rnd 1 5); [exact Hr|cbn; lia|cbn; lia|lra]).
  assert (Az : (-13 <= rnd (0 + rnd (z3 c * 13)) <= 13)%R)
    by (apply (rounding_between rnd (-13) 13); [exact Hr|cbn; lia|cbn; lia|lra]).
  repeat split; apply Rabs_le; lra.
Qed.

Lemma exact_rounding : Rounded.rounding (fun a => a).
Proof. split; intros; [assumption|reflexivity]. Qed.

Lemma sin_within_one : Rounded.within_one sin.
Proof. intros a. pose proof (SIN_bound a). lra. Qed.

Lemma cos_within_one : Rounded.within_one cos.
Proof. intros a. pose proof (COS_bound a). lra. Qed.

Lemma exact_light_position p t :
  Rounded.light_position (fun a => a) sin cos p t
  = add3 ShadowVolumes.offset (mul3 (ShadowVolumes.lissajous p t) ShadowVolumes.scale).
Proof. reflexivity. Qed.

Lemma binary32_add_nan a : Binary32.add a SpecFloat.S754_nan = SpecFloat.S754_nan.
Proof. destruct a; reflexivity. Qed.

Lemma binary32_mul_nan a : Binary32.mul a SpecFloat.S754_nan = SpecFloat.S754_nan.
Proof. destruct a; reflexivity. Qed.

Lemma binary32_sinf_infinite m a :
  Binary32.is_infinite a = true -> Binary32.sinf m a = SpecFloat.S754_nan.
Proof. destruct a; try discriminate; reflexivity. Qed.

Lemma binary32_cosf_infinite m a :
  Binary32.is_infinite a = true -> Binary32.cosf m a = SpecFloat.S754_nan.
Proof. destruct a; try discriminate; reflexivity. Qed.

Lemma binary32_overflow m p t :
  let q := Binary32.light_position m p t in
  (Binary32.is_infinite (Binary32.mul (Binary32.x p) t) = true ->
   Binary32.is_nan (Binary32.x3 q) = true) /\
  (Binary32.is_infinite (Binary32.mul (Binary32.y p) t) = true ->
   Binary32.is_nan (Binary32.y3 q) = true) /\
  (Binary32.is_infinite (Binary32.mul (Binary32.z p) t) = true \/
   Binary32.is_infinite (Binary32.mul (Binary32.w p) t) = true ->
   Binary32.is_nan (Binary32.z3 q) = true).
Proof.
  intros q. subst q.
  unfold Binary32.light_position, Binary32.add3, Binary32.mul3, Binary32.lissajous.
  cbn [Binary32.x3 Binary32.y3 Binary32.z3].
  split; [|split].
  - intros H. rewrite (binary32_sinf_infinite m _ H). reflexivity.
  - intros H. rewrite (binary32_cosf_infinite m _ H). reflexivity.
  - intros [H|H].
    + rewrite (binary32_sinf_infinite m _ H). reflexivity.
    + rewrite (binary32_cosf_infinite m _ H), binary32_mul_nan. reflexivity.
Qed.

Lemma binary32_nan_out_of_range q :
  Binary32.is_nan (Binary32.x3 q) = true \/ Binary32.is_nan (Binary32.y3 q) = true \/
  Binary32.is_nan (Binary32.z3 q) = true ->
  Binary32.in_range q = false.
Proof.
  destruct q as [a b c]. cbn [Binary32.x3 Binary32.y3 Binary32.z3].
  unfold Binary32.in_range. cbn [Binary32.x3 Binary32.y3 Binary32.z3].
  intros [H|[H|H]].
  - destruct a; try discriminate H. reflexivity.
  - destruct b; try discriminate H.
    change (Binary32.within SpecFloat.S754_nan _ _) with false.
    now rewrite andb_false_r.
  - destruct c; try discriminate H.
    change (Binary32.within SpecFloat.S754_nan _ _) with false.
    now rewrite andb_false_r.
Qed.

Lemma binary32_rest m p :
  Binary32.is_finite (Binary32.x p) = true ->
  Binary32.is_finite (Binary32.y p) = true ->
  Binary32.is_finite (Binary32.z p) = true ->
  Binary32.is_finite (Binary32.w p) = true ->
  Binary32.light_position m p (Binary32.of_Z 0)
  = Binary32.Vec3 (Binary32.of_Z 0) (Binary32.of_Z 5) (Binary32.of_Z 0).
Proof.
  destruct p as [a b c d]. cbn [Binary32.x Binary32.y Binary32.z Binary32.w].
  intros Ha Hb Hc Hd.
  destruct a as [sa|sa| |sa ma ea]; try discriminate Ha;
    destruct b as [sb|sb| |sb mb eb]; try discriminate Hb;
      destruct c as [sc|sc| |sc mc ec]; try discriminate Hc;
        destruct d as [sd|sd| |sd md ed]; try discriminate Hd;
          try destruct sa; try destruct sb; try destruct sc; try destruct sd;
            reflexivity.
Qed.

(** C4. [Update] on a scene with its lights in place returns and advances
    the timer by [dt].  With [t] the timer before the call, every light [i]
    from 1 below the light count ends at
    [offset + lissajous(movement(i), t) * scale] with its movement
    parameters unchanged.  As long as the products of the movement
    parameters and [t] are finite, each component of the curve lies in
    [-1, 1] and on each axis the position is within the scale component of
    the offset, rounding included: this is so for every rounding that is
    monotone and keeps the integers a [float] holds exactly, and every
    [sinf] and [cosf] with values in [-1, 1].  In binary32 the products
    need not be finite: when one of them overflows to an infinity, [sinf] or
    [cosf] yields NaN, the coordinate of the position is NaN and the
    position is not in range.  At time 0 the position is (0, 5, 0). *)
Theorem C4_light_motion :
  (forall dt (w : World ShadowVolumes.Scene) (i : nat),
     let s := scene w in
     let t := static_t w in
     ShadowVolumes._lights s <> [] ->
     ShadowVolumes._numLights s <= Z.of_nat (length (ShadowVolumes._lights s)) ->
     1 <= Z.of_nat i < ShadowVolumes._numLights s ->
     exists w' l l',
       ShadowVolumes.Update dt w = Ok (tt, w') /\
       static_t w' = (t + dt)%R /\
       nth_error (ShadowVolumes._lights s) i = Some l /\
       nth_error (ShadowVolumes._lights (scene w')) i = Some l' /\
       movement l' = movement l /\
       position l' = add3 ShadowVolumes.offset
                          (mul3 (ShadowVolumes.lissajous (movement l) t)
                                ShadowVolumes.scale) /\
       position l' = Rounded.light_position (fun a => a) sin cos (movement l) t) /\
  (forall (rnd sinf cosf : R -> R) (p : vec4) (t : float),
     Rounded.rounding rnd -> Rounded.within_one sinf -> Rounded.within_one cosf ->
     let c := Rounded.lissajous rnd sinf cosf p t in
     let q := Rounded.light_position rnd sinf cosf p t in
     (-1 <= x3 c <= 1 /\ -1 <= y3 c <= 1 /\ -1 <= z3 c <= 1)%R /\
     (Rabs (x3 q - x3 ShadowVolumes.offset) <= x3 ShadowVolumes.scale /\
      Rabs (y3 q - y3 ShadowVolumes.offset) <= y3 ShadowVolumes.scale /\
      Rabs (z3 q - z3 ShadowVolumes.offset) <= z3 ShadowVolumes.scale)%R) /\
  (forall (m : Binary32.libm) (p : Binary32.vec4) (t : Binary32.binary32),
     let q := Binary32.light_position m p t in
     (Binary32.is_infinite (Binary32.mul (Binary32.x p) t) = true ->
      Binary32.is_nan (Binary32.x3 q) = true /\ Binary32.in_range q = false) /\
     (Binary32.is_infinite (Binary32.mul (Binary32.y p) t) = true ->
      Binary32.is_nan (Binary32.y3 q) = true /\ Binary32.in_range q = false) /\
     (Binary32.is_infinite (Binary32.mul (Binary32.z p) t) = true \/
      Binary32.is_infinite (Binary32.mul (Binary32.w p) t) = true ->
      Binary32.is_nan (Binary32.z3 q) = true /\ Binary32.in_range q = false)) /\
  (forall (m : Binary32.libm) (p : Binary32.vec4),
     Binary32.is_finite (Binary32.x p) = true ->
     Binary32.is_finite (Binary32.y p) = true ->
     Binary32.is_finite (Binary32.z p) = true ->
     Binary32.is_finite (Binary32.w p) = true ->
     let q := Binary32.light_position m p (Binary32.of_Z 0) in
     q = Binary32.Vec3 (Binary32.of_Z 0) (Binary32.of_Z 5) (Binary32.of_Z 0) /\
     Binary32.in_range q = true).
Proof.
  split; [|split; [|split]].
  - intros dt w i s t Hne Hn Hi.
    destruct (ShadowVolumes._lights s) as [|l0 rest] eqn:HL; [contradiction|].
    pose proof (Update_runs dt w l0 rest HL) as U. cbv zeta in U.
    fold s t in U. rewrite HL in U. specialize (U Hn).
    destruct i as [|k]; [lia|]. cbn [length] in Hn.
    destruct (nth_error rest k) as [l|] eqn:El;
      [|apply nth_error_None in El; lia].
    eexists. exists l, (moved t l). split; [exact U|].
    split; [reflexivity|]. split; [exact El|].
    cbn [with_t relight with_scene scene ShadowVolumes._lights
         ShadowVolumes.set_lights nth_error].
    split.
    { rewrite nth_error_app1 by (rewrite length_map, length_firstn; lia).
      rewrite nth_error_map, nth_error_firstn.
      destruct (Nat.ltb_spec k (Z.to_nat (ShadowVolumes._numLights s - 1))) as [_|L];
        [now rewrite El|lia]. }
    split; [reflexivity|]. split; [reflexivity|].
    rewrite exact_light_position. reflexivity.
  - intros rnd sinf cosf p t Hr Hs Hc c q. split.
    + exact (rounded_lissajous_bounded rnd sinf cosf p t Hr Hs Hc).
    + exact (rounded_light_position_bounded rnd sinf cosf p t Hr Hs Hc).
  - intros m p t q.
    destruct (binary32_overflow m p t) as (Ox & Oy & Oz). fold q in Ox, Oy, Oz.
    split; [|split]; intros H.
    + split; [exact (Ox H)|]. apply binary32_nan_out_of_range. left. exact (Ox H).
    + split; [exact (Oy H)|]. apply binary32_nan_out_of_range.
      right. left. exact (Oy H).
    + split; [exact (Oz H)|]. apply binary32_nan_out_of_range.
      right. right. exact (Oz H).
  - intros m p Hx Hy Hz Hw q. subst q.
    rewrite (binary32_rest m p Hx Hy Hz Hw). split; reflexivity.
Qed.

Lemma C4_witness :
  (ShadowVolumes._lights (scene Sample.two_lights) <> [] /\
   ShadowVolumes._numLights (scene Sample.two_lights)
   <= Z.of_nat (length (ShadowVolumes._lights (scene Sample.two_lights))) /\
   1 <= Z.of_nat 1 < ShadowVolumes._numLights (scene Sample.two_lights) /\
   exists w' l l',
     ShadowVolumes.Update (1 / 60) Sample.two_lights = Ok (tt, w') /\
     nth_error (ShadowVolumes._lights (scene w')) 1 = Some l' /\
     position l' = add3 ShadowVolumes.offset
                        (mul3 (ShadowVolumes.lissajous (movement l)
                                 (static_t Sample.two_lights))
                              ShadowVolumes.scale)) /\
  (Rounded.rounding (fun a => a) /\ Rounded.within_one sin /\ Rounded.within_one cos /\
   Rabs (y3 (Rounded.light_position (fun a => a) sin cos (Vec4 1 2 1 2) 7) - 3) <= 2)%R /\
  (forall m,
     Binary32.is_infinite
       (Binary32.mul (Binary32.of_Z (-2)) Binary32.f3e38) = true /\
     Binary32.is_nan
       (Binary32.y3 (Binary32.light_position m
                       (Binary32.Vec4 (Binary32.of_Z 1) (Binary32.of_Z (-2))
                                      (Binary32.of_Z 1) (Binary32.of_Z 1))
                       Binary32.f3e38)) = true).
Proof.
  destruct C4_light_motion as (U & B & O & _).
  split; [|split].
  - assert (H1 : ShadowVolumes._lights (scene Sample.two_lights) <> [])
      by discriminate.
    assert (H2 : ShadowVolumes._numLights (scene Sample.two_lights)
                 <= Z.of_nat (length (ShadowVolumes._lights (scene Sample.two_lights))))
      by (cbn; lia).
    assert (H3 : 1 <= Z.of_nat 1 < ShadowVolumes._numLights (scene Sample.two_lights))
      by (cbn; lia).
    split; [exact H1|]. split; [exact H2|]. split; [exact H3|].
    destruct (U (1 / 60)%R Sample.two_lights 1%nat H1 H2 H3)
      as (w' & l & l' & HU & _ & _ & Hn & _ & Hp & _).
    exists w', l, l'. split; [exact HU|]. split; [exact Hn|exact Hp].
  - split; [exact exact_rounding|]. split; [exact sin_within_one|].
    split; [exact cos_within_one|].
    destruct (B (fun a => a) sin cos (Vec4 1 2 1 2) 7%R
                exact_rounding sin_within_one cos_within_one) as (_ & _ & By & _).
    exact By.
  - intros m. split; [reflexivity|].
    destruct (O m (Binary32.Vec4 (Binary32.of_Z 1) (Binary32.of_Z (-2))
                                 (Binary32.of_Z 1) (Binary32.of_Z 1))
                Binary32.f3e38) as (_ & Oy & _).
    exact (proj1 (Oy eq_refl)).
Defined.

(** C4 as stated fails: with the finite time 3e38 and the movement parameter
    -2 on the second axis, both binary32 numbers, the product overflows to
    minus infinity, [cosf] of it is NaN, and the position
    [offset + lissajous(movement, t) * scale] has NaN for its second
    coordinate, whatever the C library computes at finite arguments: it is
    not within the scale of the offset. *)
Lemma C4_counterexample :
  let p := Binary32.Vec4 (Binary32.of_Z 0) (Binary32.of_Z (-2))
                         (Binary32.of_Z 0) (Binary32.of_Z 0) in
  let t := Binary32.f3e38 in
  Binary32.is_finite t = true /\
  Binary32.mul (Binary32.y p) t = SpecFloat.S754_infinity true /\
  (forall m, Binary32.y3 (Binary32.lissajous m p t) = SpecFloat.S754_nan) /\
  (forall m, Binary32.light_position m p t
             = Binary32.Vec3 (Binary32.of_Z 0) SpecFloat.S754_nan (Binary32.of_Z 0)) /\
  (forall m, Binary32.in_range (Binary32.light_position m p t) = false).
Proof.
  cbv zeta. split; [reflexivity|]. split; [vm_compute; reflexivity|].
  split; [intros m; vm_compute; reflexivity|].
  split; intros m; vm_compute; reflexivity.
Qed.

(** ** Initialisation *)

Lemma iterate_preserves {Sc} (body : Z -> M Sc unit) (Q : World Sc -> Prop) :
  (forall i w, Q w -> exists w', body i w = Ok (tt, w') /\ Q w') ->
  forall n i w, Q w -> exists w', iterate i n body w = Ok (tt, w') /\ Q w'.
Proof.
  intros Hbody. induction n as [|n IH]; intros i w HQ.
  - exists w. split; [reflexivity|exact HQ].
  - cbn [iterate]. unfold bind.
    destruct (Hbody i w HQ) as (w1 & -> & HQ1). apply IH, HQ1.
Qed.

Lemma reserve_ok {Sc} n (w : World Sc) : 0 <= n -> reserve n w = Ok (tt, w).
Proof.
  intros H. unfold reserve. destruct (Z.ltb_spec n 0); [lia|reflexivity].
Qed.

Ltac world_eval_in H :=
  cbv beta iota zeta delta
    [bind assign this ret genVertexArray genBuffer run seqW call getRandom
     emit with_scene next_random scene gl calls static_instanceData static_t rand
     ShadowVolumes.set_numCubes ShadowVolumes.set_numLights ShadowVolumes.set_meshes
     ShadowVolumes.set_vao ShadowVolumes.set_instancingBuffer
     ShadowVolumes.set_transformBlockUBO ShadowVolumes.set_cubePositions
     ShadowVolumes.set_lights ShadowVolumes.set_loadedTexture
     ShadowVolumes._loadedTextures ShadowVolumes._numCubes
     ShadowVolumes._cubePositions ShadowVolumes._numLights ShadowVolumes._lights
     ShadowVolumes._vao ShadowVolumes._quad ShadowVolumes._cube
     ShadowVolumes._cubeAdjacency ShadowVolumes._instancingBuffer
     ShadowVolumes._transformBlockUBO] in H.

Ltac world_eval :=
  cbv beta iota zeta delta
    [bind assign this ret genVertexArray genBuffer run seqW call getRandom
     emit with_scene next_random scene gl calls static_instanceData static_t rand
     ShadowVolumes.set_numCubes ShadowVolumes.set_numLights ShadowVolumes.set_meshes
     ShadowVolumes.set_vao ShadowVolumes.set_instancingBuffer
     ShadowVolumes.set_transformBlockUBO ShadowVolumes.set_cubePositions
     ShadowVolumes.set_lights ShadowVolumes.set_loadedTexture
     ShadowVolumes._loadedTextures ShadowVolumes._numCubes
     ShadowVolumes._cubePositions ShadowVolumes._numLights ShadowVolumes._lights
     ShadowVolumes._vao ShadowVolumes._quad ShadowVolumes._cube
     ShadowVolumes._cubeAdjacency ShadowVolumes._instancingBuffer
     ShadowVolumes._transformBlockUBO].

Ltac run_body :=
  intros ? ? HQ; eexists; split;
  [reflexivity|unfold same_context in *; world_eval; world_eval_in HQ; exact HQ].

Lemma Init_runs env numCubes numLights (w : World ShadowVolumes.Scene) :
  ShadowVolumes._vao (scene w) = 0 ->
  0 <= numCubes -> 0 <= numLights ->
  exists w',
    ShadowVolumes.Init env numCubes numLights w = Ok (tt, w') /\
    calls w' = calls w ++ init_calls env (gl w) /\
    gl w' = gl_run (gl w) (init_calls env (gl w)) /\
    ShadowVolumes._vao (scene w') = Z.pos (next_vertex_array (gl w)) /\
    ShadowVolumes._transformBlockUBO (scene w')
    = Z.pos (Pos.succ (next_buffer (gl w))).
Proof.
  intros Hv Hc Hl.
  destruct w as [s d t g c r]. destruct s as [tex nc ps nl ls vao q cu ad ib tb].
  cbn [scene ShadowVolumes._vao] in Hv. subst vao.
  unfold ShadowVolumes.Init, for_loop. world_eval.
  cbn [truthy Z.eqb negb].
  match goal with |- context [reserve numCubes ?w0] => set (w1 := w0) end.
  assert (F : calls w1 = c ++ init_calls env g /\
              gl w1 = gl_run g (init_calls env g) /\
              ShadowVolumes._vao (scene w1) = Z.pos (next_vertex_array g) /\
              ShadowVolumes._transformBlockUBO (scene w1)
              = Z.pos (Pos.succ (next_buffer g))).
  { subst w1. cbn [calls gl scene ShadowVolumes._vao ShadowVolumes._transformBlockUBO].
    rewrite <- !app_assoc. repeat split; reflexivity. }
  clearbody w1.
  rewrite reserve_ok by exact Hc. cbv beta iota.
  match goal with |- context [iterate 1 ?n ?b ?w0] =>
    destruct (iterate_preserves b (same_context w1) ltac:(run_body) n 1 w0)
      as (w2 & -> & Q2)
  end.
  { unfold same_context. world_eval. repeat split. }
  rewrite reserve_ok by exact Hl. cbv beta iota.
  match goal with |- context [iterate 1 ?n ?b ?w0] =>
    destruct (iterate_preserves b (same_context w1) ltac:(run_body) n 1 w0)
      as (w3 & -> & Q3)
  end.
  { unfold same_context in *. world_eval. world_eval_in Q2. exact Q2. }
  eexists. split; [reflexivity|].
  destruct Q3 as (Qc & Qg & Qv & _ & Qt). destruct F as (Fc & Fg & Fv & Ft).
  world_eval. world_eval_in Qc. world_eval_in Qg. world_eval_in Qv. world_eval_in Qt.
  world_eval_in Fc. world_eval_in Fg. world_eval_in Fv. world_eval_in Ft.
  rewrite Qc, Qg, Qv, Qt. repeat split; assumption.
Qed.

Lemma random_cube_in_box u v w :
  (0 <= u <= 1)%R -> (0 <= v <= 1)%R -> (0 <= w <= 1)%R ->
  in_box (random_cube u v w).
Proof.
  intros Hu Hv Hw. unfold in_box, random_cube. cbn [x3 y3 z3].
  repeat split; lra.
Qed.

(** C8, as the code has it.  [Init] with 5 cubes and 1 light, on a scene
    not yet initialised and a random source of samples of the unit
    interval, returns; the scene then counts 5 cubes and 1 light; its only
    light is the first ("hero") light at (-3, 3, 0) with colour
    (10, 10, 10) and ambient intensity 0.001 / 1, and no random light
    exists; the first cube is at (0, 0.5, 0) and the 4 further cubes are
    drawn from 12 successive samples, each within x in [-5, 5],
    y in [1, 5], z in [-5, 5]. *)
Theorem C8_initial_scene :
  forall env (w : World ShadowVolumes.Scene),
    ShadowVolumes._vao (scene w) = 0 ->
    ShadowVolumes._cubePositions (scene w) = [] ->
    ShadowVolumes._lights (scene w) = [] ->
    (forall n, (0 <= rand w n <= 1)%R) ->
    exists w' c1 c2 c3 c4,
      ShadowVolumes.Init env 5 1 w = Ok (tt, w') /\
      ShadowVolumes._numCubes (scene w') = 5 /\
      ShadowVolumes._numLights (scene w') = 1 /\
      ShadowVolumes._lights (scene w') = [hero_light 1] /\
      ShadowVolumes._cubePositions (scene w') = [Vec3 0 (1 / 2) 0; c1; c2; c3; c4] /\
      c1 = random_cube (rand w 0) (rand w 1) (rand w 2) /\
      c2 = random_cube (rand w 3) (rand w 4) (rand w 5) /\
      c3 = random_cube (rand w 6) (rand w 7) (rand w 8) /\
      c4 = random_cube (rand w 9) (rand w 10) (rand w 11) /\
      in_box c1 /\ in_box c2 /\ in_box c3 /\ in_box c4.
Proof.
  intros env w Hv Hc Hl Hr.
  destruct w as [s d t g c r]. destruct s.
  cbn [scene ShadowVolumes._vao ShadowVolumes._cubePositions ShadowVolumes._lights rand] in *.
  subst.
  eexists. exists (random_cube (r 0%nat) (r 1%nat) (r 2%nat)),
    (random_cube (r 3%nat) (r 4%nat) (r 5%nat)),
    (random_cube (r 6%nat) (r 7%nat) (r 8%nat)),
    (random_cube (r 9%nat) (r 10%nat) (r 11%nat)).
  split; [gl_compute; reflexivity|].
  split; [reflexivity|]. split; [reflexivity|]. split; [reflexivity|].
  split; [reflexivity|].
  repeat (split; [reflexivity|]).
  repeat split; apply random_cube_in_box; apply Hr.
Qed.

Lemma sample_Init :
  ShadowVolumes.Init Sample.env 5 1 (Sample.start Sample.scene0)
  = Ok (tt, Sample.initialised).
Proof. vm_compute. reflexivity. Qed.

(** C8 as stated fails: initialising with 5 cubes and 1 light does not give
    the first light and 4 random lights; there is one light. *)
Lemma C8_counterexample :
  ~ (exists w',
       ShadowVolumes.Init Sample.env 5 1 (Sample.start Sample.scene0) = Ok (tt, w') /\
       length (ShadowVolumes._lights (scene w')) = (1 + 4)%nat).
Proof.
  intros (w' & H & L). rewrite sample_Init in H.
  assert (E : w' = Sample.initialised) by congruence.
  rewrite E in L. vm_compute in L. discriminate L.
Qed.

Lemma C8_witness :
  (forall n, (0 <= rand (Sample.start Sample.scene0) n <= 1)%R) /\
  exists w',
    ShadowVolumes.Init Sample.env 5 1 (Sample.start Sample.scene0) = Ok (tt, w') /\
    ShadowVolumes._lights (scene w') = [hero_light 1] /\
    length (ShadowVolumes._cubePositions (scene w')) = 5%nat.
Proof.
  assert (Hr : forall n, (0 <= rand (Sample.start Sample.scene0) n <= 1)%R)
    by (intros n; unfold Sample.start; cbn [rand]; lra).
  split; [exact Hr|].
  destruct (C8_initial_scene Sample.env (Sample.start Sample.scene0)
              eq_refl eq_refl eq_refl Hr)
    as (w' & c1 & c2 & c3 & c4 & H & _ & _ & Hl & Hc & _).
  exists w'. split; [exact H|]. split; [exact Hl|]. now rewrite Hc.
Defined.

(** ** The transform block *)

Lemma sub_data_fits offset size data mem :
  0 <= offset -> 0 <= size ->
  offset + size <= sizeof_float * Z.of_nat (length mem) ->
  offset mod sizeof_float = 0 -> size mod sizeof_float = 0 ->
  sub_data offset size data mem
  = store_write (Z.to_nat (offset / sizeof_float)) (Z.to_nat (size / sizeof_float))
                data mem.
Proof.
  intros H1 H2 H3 H4 H5. unfold sub_data.
  destruct (Z.leb_spec 0 offset); [|lia].
  destruct (Z.leb_spec 0 size); [|lia].
  destruct (Z.leb_spec (offset + size) (sizeof_float * Z.of_nat (length mem))); [|lia].
  rewrite H4, H5. reflexivity.
Qed.

Lemma transform_block_store s camera g :
  let tb := ShadowVolumes._transformBlockUBO s in
  tb <> 0 ->
  (28 <= length (buffer_data g tb))%nat ->
  buffer_data (gl_run g (calls_of (ShadowVolumes.UpdateTransformBlock s camera))) tb
  = transposed_view camera ++ ptr4x4 (GetProjection camera)
    ++ skipn 28 (buffer_data g tb).
Proof.
  intros tb Htb Hlen.
  cbn [calls_of ShadowVolumes.UpdateTransformBlock seqW call app].
  cbn [gl_run fold_left gl_step buffer_data uniform_buffer_binding]. fold tb.
  destruct (Z.eqb_spec tb 0) as [|_]; [contradiction|].
  unfold update_store. rewrite !Z.eqb_refl.
  set (mem := buffer_data g tb) in *.
  rewrite (sub_data_fits 0 sizeof_mat3x4) by
    (unfold sizeof_mat3x4, sizeof_float; try reflexivity; lia).
  change (Z.to_nat (0 / sizeof_float)) with 0%nat.
  change (Z.to_nat (sizeof_mat3x4 / sizeof_float)) with 12%nat.
  unfold store_write at 1. cbn [firstn app Nat.add].
  change (firstn 12 (ptr3x4 (to_mat3x4 (transpose (GetWorldToView camera)))))
    with (transposed_view camera).
  assert (L : length (transposed_view camera) = 12%nat) by reflexivity.
  assert (Hfit : sizeof_mat3x4 + sizeof_mat4x4
                 <= sizeof_float
                    * Z.of_nat (length (transposed_view camera ++ skipn 12 mem))).
  { rewrite length_app, length_skipn, L.
    unfold sizeof_mat3x4, sizeof_mat4x4, sizeof_float. lia. }
  rewrite (sub_data_fits sizeof_mat3x4 sizeof_mat4x4)
    by first [exact Hfit | reflexivity | discriminate].
  change (Z.to_nat (sizeof_mat3x4 / sizeof_float)) with 12%nat.
  change (Z.to_nat (sizeof_mat4x4 / sizeof_float)) with 16%nat.
  unfold store_write.
  rewrite (firstn_app 12 (transposed_view camera)), L.
  rewrite (firstn_all2 (transposed_view camera)) by (rewrite L; lia).
  change (12 - 12)%nat with 0%nat. rewrite firstn_O, app_nil_r.
  rewrite (skipn_app (12 + 16) (transposed_view camera)), L.
  rewrite (skipn_all2 (transposed_view camera)) by (rewrite L; lia).
  change (12 + 16 - 12)%nat with 16%nat. cbn [app].
  rewrite skipn_skipn.
  change (firstn 16 (ptr4x4 (GetProjection camera)))
    with (ptr4x4 (GetProjection camera)).
  reflexivity.
Qed.

Lemma gl_run_keeps_slot i cs : forall g,
  filter (binds_slot i) cs = [] ->
  uniform_buffer_base (gl_run g cs) i = uniform_buffer_base g i.
Proof.
  induction cs as [|c cs IH]; intros g H; [reflexivity|].
  cbn [filter] in H. destruct (binds_slot i c) eqn:E; [discriminate H|].
  cbn [gl_run fold_left]. change (fold_left gl_step cs ?g0) with (gl_run g0 cs).
  rewrite (IH _ H). destruct c; try reflexivity.
  destruct target; try reflexivity.
  cbn [gl_step uniform_buffer_base binds_slot] in *. unfold set_slot.
  rewrite Z.eqb_sym, E. reflexivity.
Qed.

Lemma frame_keeps_slot0 env s camera rm cr data quad cube adj :
  ShadowVolumes._quad s = Some quad ->
  ShadowVolumes._cube s = Some cube ->
  ShadowVolumes._cubeAdjacency s = Some adj ->
  forall ls,
    filter (binds_slot 0)
      (frame_prologue env s camera rm data
       ++ flat_map (light_iteration env s camera cr) ls
       ++ [glColorMask true true true true]) = [].
Proof.
  intros Hquad Hcube Hadj ls. rewrite !filter_app.
  assert (P : filter (binds_slot 0) (frame_prologue env s camera rm data) = []).
  { unfold frame_prologue, frame_setup, instance_upload. unfold_passes.
    rewrite Hquad, Hcube, Hadj. destruct (1 <? msaaLevel rm); gl_compute; reflexivity. }
  assert (L : filter (binds_slot 0) (flat_map (light_iteration env s camera cr) ls) = []).
  { induction ls as [|l ls IH]; [reflexivity|].
    cbn [flat_map]. rewrite filter_app, IH, app_nil_r.
    unfold_passes. rewrite Hquad, Hcube, Hadj.
    destruct cr; gl_compute; reflexivity. }
  rewrite P, L. reflexivity.
Qed.

(** C5. [UpdateTransformBlock] writes the world-to-view matrix, transposed
    to 3 columns of 4 rows (12 floats, 48 bytes), at byte offset 0 of the
    buffer bound as transform block, and the 4x4 projection matrix (16
    floats, 64 bytes) at byte offset 48: in a store of at least 112 bytes
    the two lie one after the other from the start, and the rest of the
    store is as before.  [Init] binds the transform buffer to uniform slot 0
    with one call, and a frame drawn by [Draw] has no call that binds slot
    0: the slot is as it was when the frame ends. *)
Theorem C5_transform_block :
  forall env camera renderMode carmackReverse numCubes numLights
         (w0 w : World ShadowVolumes.Scene) (g : GLstate),
    let s := scene w in
    let tb := ShadowVolumes._transformBlockUBO s in
    ShadowVolumes._vao (scene w0) = 0 ->
    0 <= numCubes -> 0 <= numLights ->
    ready w ->
    tb <> 0 ->
    (28 <= length (buffer_data g tb))%nat ->
    (ShadowVolumes.UpdateTransformBlock s camera
     = Ok [ glBindBuffer GL_UNIFORM_BUFFER tb;
            glBufferSubData GL_UNIFORM_BUFFER 0 48 (transposed_view camera);
            glBufferSubData GL_UNIFORM_BUFFER 48 64 (ptr4x4 (GetProjection camera));
            glBindBuffer GL_UNIFORM_BUFFER 0 ] /\
     sizeof_float * Z.of_nat (length (transposed_view camera)) = 48 /\
     sizeof_float * Z.of_nat (length (ptr4x4 (GetProjection camera))) = 64 /\
     buffer_data (gl_run g (calls_of (ShadowVolumes.UpdateTransformBlock s camera))) tb
     = transposed_view camera ++ ptr4x4 (GetProjection camera)
       ++ skipn 28 (buffer_data g tb)) /\
    (exists w1 cs,
       ShadowVolumes.Init env numCubes numLights w0 = Ok (tt, w1) /\
       calls w1 = calls w0 ++ cs /\
       filter (binds_slot 0) cs
       = [glBindBufferBase GL_UNIFORM_BUFFER 0
            (ShadowVolumes._transformBlockUBO (scene w1))] /\
       uniform_buffer_base (gl w1) 0 = ShadowVolumes._transformBlockUBO (scene w1)) /\
    (exists w' frame,
       ShadowVolumes.Draw env camera renderMode carmackReverse w = Ok (tt, w') /\
       calls w' = calls w ++ frame /\
       filter (binds_slot 0) frame = [] /\
       uniform_buffer_base (gl w') 0 = uniform_buffer_base (gl w) 0).
Proof.
  intros env camera rm cr nc nl w0 w g s tb Hv Hc Hl R Htb Hlen.
  split; [|split].
  - split; [reflexivity|]. split; [reflexivity|]. split; [reflexivity|].
    now apply transform_block_store.
  - destruct (Init_runs env nc nl w0 Hv Hc Hl) as (w1 & HI & Hcalls & Hgl & _ & Ht).
    exists w1, (init_calls env (gl w0)).
    split; [exact HI|]. split; [exact Hcalls|].
    rewrite Ht, Hgl. split; reflexivity.
  - pose proof (Draw_runs env camera rm cr w R) as D. cbv zeta in D. fold s in D.
    destruct R as (Hq & Hcu & Ha & _). fold s in Hq, Hcu, Ha.
    destruct (exists_mesh _ Hq) as [quad Hquad].
    destruct (exists_mesh _ Hcu) as [cube Hcube].
    destruct (exists_mesh _ Ha) as [adj Hadj].
    eexists. eexists. split; [exact D|]. split; [reflexivity|].
    pose proof (frame_keeps_slot0 env s camera rm cr
                  (instance_memory (staged_instances s)) quad cube adj
                  Hquad Hcube Hadj (counted_lights s)) as K.
    split; [exact K|].
    cbn [gl emit with_instanceData]. now apply gl_run_keeps_slot.
Qed.

Lemma C5_witness :
  ShadowVolumes._transformBlockUBO (scene Sample.initialised) <> 0 /\
  (28 <= length (buffer_data (gl Sample.initialised)
                   (ShadowVolumes._transformBlockUBO (scene Sample.initialised))))%nat /\
  exists w',
    ShadowVolumes.Draw Sample.env Sample.camera Sample.settings true
      Sample.initialised = Ok (tt, w') /\
    uniform_buffer_base (gl w') 0
    = ShadowVolumes._transformBlockUBO (scene Sample.initialised).
Proof.
  assert (Ht : ShadowVolumes._transformBlockUBO (scene Sample.initialised) <> 0)
    by (vm_compute; discriminate).
  assert (Hs : (28 <= length (buffer_data (gl Sample.initialised)
                            (ShadowVolumes._transformBlockUBO
                               (scene Sample.initialised))))%nat)
    by (vm_compute; apply le_n).
  split; [exact Ht|]. split; [exact Hs|].
  destruct (C5_transform_block Sample.env Sample.camera Sample.settings true 5 1
              (Sample.start Sample.scene0) Sample.initialised
              (gl Sample.initialised) eq_refl ltac:(lia) ltac:(lia)
              sample_ready Ht Hs)
    as (_ & _ & (w' & frame & HD & _ & _ & Hb)).
  exists w'. split; [exact HD|]. rewrite Hb. vm_compute. reflexivity.
Defined.

(** X15. [Init] initialises once: a call with counts that are not
    negative returns, on a fresh scene and on an initialised one alike, and
    after it every further call, whatever its arguments, returns at once
    and changes nothing, neither the scene nor the context. *)
Lemma Init_settles env numCubes numLights (w : World ShadowVolumes.Scene) :
  0 <= numCubes -> 0 <= numLights ->
  exists w1,
    ShadowVolumes.Init env numCubes numLights w = Ok (tt, w1) /\
    forall env' numCubes' numLights',
      ShadowVolumes.Init env' numCubes' numLights' w1 = Ok (tt, w1).
Proof.
  intros Hc Hl.
  destruct (Z.eq_dec (ShadowVolumes._vao (scene w)) 0) as [Hv|Hv].
  - destruct (Init_runs env numCubes numLights w Hv Hc Hl) as (w1 & HI & _ & _ & Hvao & _).
    exists w1. split; [exact HI|].
    intros env' nc' nl'. unfold ShadowVolumes.Init, bind, this.
    rewrite truthy_nonzero; [reflexivity|]. rewrite Hvao. discriminate.
  - exists w. unfold ShadowVolumes.Init, bind, this.
    rewrite (truthy_nonzero _ Hv). split; [reflexivity|]. intros.
    reflexivity.
Qed.

(** * Further properties of the code *)

Lemma iterate_invariant {Sc} (body : Z -> M Sc unit) :
  forall (n : nat) (P : nat -> World Sc -> Prop) (i : Z) (w : World Sc),
    (forall j w', (j < n)%nat -> P j w' ->
       exists w'', body (i + Z.of_nat j) w' = Ok (tt, w'') /\ P (S j) w'') ->
    P O w ->
    exists w', iterate i n body w = Ok (tt, w') /\ P n w'.
Proof.
  induction n as [|n IH]; intros P i w Hbody H0.
  - exists w. split; [reflexivity|exact H0].
  - cbn [iterate]. unfold bind.
    destruct (Hbody O w ltac:(lia) H0) as (w1 & E & H1).
    cbn [Z.of_nat] in E. rewrite Z.add_0_r in E. rewrite E.
    apply (IH (fun j => P (S j))); [|exact H1].
    intros j w' Hj HP.
    replace (i + 1 + Z.of_nat j) with (i + Z.of_nat (S j)) by lia.
    apply Hbody; [lia|exact HP].
Qed.

Lemma Forall_snoc {A} (P : A -> Prop) (xs : list A) (a : A) :
  Forall P xs -> P a -> Forall P (xs ++ [a]).
Proof. intros H Ha. apply Forall_app. split; [exact H|]. now constructor. Qed.

Lemma Init_scene env numCubes numLights (w : World ShadowVolumes.Scene) :
  ShadowVolumes._vao (scene w) = 0 ->
  ShadowVolumes._cubePositions (scene w) = [] ->
  ShadowVolumes._lights (scene w) = [] ->
  0 <= numCubes -> 0 <= numLights ->
  (forall n, (0 <= rand w n <= 1)%R) ->
  exists w' cubes lights,
    ShadowVolumes.Init env numCubes numLights w = Ok (tt, w') /\
    Init_outcome env numCubes numLights w w' cubes lights.
Proof.
  intros Hv Hps Hls Hc Hl Hr.
  destruct w as [s d t g c r]. destruct s as [tex nc ps nl ls vao q cu ad ib tb].
  cbn [scene ShadowVolumes._vao ShadowVolumes._cubePositions ShadowVolumes._lights rand]
    in Hv, Hps, Hls, Hr.
  subst vao ps ls.
  unfold ShadowVolumes.Init, for_loop. world_eval.
  cbn [truthy Z.eqb negb app].
  match goal with |- context [reserve numCubes ?w0] => set (w1 := w0) end.
  assert (F : calls w1 = c ++ init_calls env g /\
              gl w1 = gl_run g (init_calls env g) /\
              static_instanceData w1 = d /\ static_t w1 = t /\
              ShadowVolumes._numCubes (scene w1) = numCubes /\
              ShadowVolumes._numLights (scene w1) = numLights /\
              ShadowVolumes._vao (scene w1) = Z.pos (next_vertex_array g) /\
              ShadowVolumes._quad (scene w1) = Some (CreateQuadNormalTangentTex env) /\
              ShadowVolumes._cube (scene w1) = Some (CreateCubeNormalTangentTex env) /\
              ShadowVolumes._cubeAdjacency (scene w1) = Some (CreateCubeAdjacency env) /\
              ShadowVolumes._instancingBuffer (scene w1) = Z.pos (next_buffer g) /\
              ShadowVolumes._transformBlockUBO (scene w1)
              = Z.pos (Pos.succ (next_buffer g))).
  { subst w1. cbn [calls gl scene static_instanceData static_t
                   ShadowVolumes._numCubes ShadowVolumes._numLights
                   ShadowVolumes._vao ShadowVolumes._quad ShadowVolumes._cube
                   ShadowVolumes._cubeAdjacency ShadowVolumes._instancingBuffer
                   ShadowVolumes._transformBlockUBO].
    rewrite <- !app_assoc. repeat split; reflexivity. }
  assert (G : ShadowVolumes._cubePositions (scene w1) = [] /\
              ShadowVolumes._lights (scene w1) = [] /\ rand w1 = r).
  { subst w1. repeat split; reflexivity. }
  clearbody w1.
  rewrite reserve_ok by exact Hc. cbv beta iota.
  (* the cubes *)
  match goal with |- context [iterate 1 ?n ?b ?w0] =>
    destruct (iterate_invariant b n
                (fun j w' =>
                   init_fixed w1 w' /\
                   ShadowVolumes._lights (scene w') = [] /\
                   (forall k, (0 <= rand w' k <= 1)%R) /\
                   exists cs, ShadowVolumes._cubePositions (scene w')
                              = Vec3 0 (1 / 2) 0 :: cs /\
                              length cs = j /\ Forall in_box cs) 1 w0)
      as (w2 & E2 & Q2 & L2 & R2 & cubes & C2 & N2 & B2)
  end.
  { intros j w' Hj (Q & L & R & cs & C & N & B).
    destruct w' as [s' d' t' g' c' r']. destruct s'.
    unfold init_fixed in *. world_eval. world_eval_in Q. world_eval_in L.
    world_eval_in R. world_eval_in C.
    eexists. split; [reflexivity|]. world_eval.
    split; [exact Q|]. split; [exact L|]. split; [intros k; apply R|].
    exists (cs ++ [random_cube (r' 0%nat) (r' 1%nat) (r' 2%nat)]).
    split; [rewrite C; reflexivity|].
    split; [rewrite length_app, N; cbn [length]; lia|].
    apply Forall_snoc; [exact B|]. apply random_cube_in_box; apply R. }
  { destruct G as (G1 & G2 & G3). world_eval_in G1. world_eval_in G2. world_eval_in G3.
    world_eval.
    split; [unfold init_fixed; world_eval; repeat split; reflexivity|].
    split; [exact G2|]. split; [rewrite G3; exact Hr|].
    exists []. split; [rewrite G1; reflexivity|]. split; [reflexivity|constructor]. }
  rewrite E2. cbv beta iota.
  rewrite reserve_ok by exact Hl. cbv beta iota.
  (* the lights *)
  match goal with |- context [iterate 1 ?n ?b ?w0] =>
    destruct (iterate_invariant b n
                (fun j w' =>
                   init_fixed w1 w' /\
                   ShadowVolumes._cubePositions (scene w') = Vec3 0 (1 / 2) 0 :: cubes /\
                   (forall k, (0 <= rand w' k <= 1)%R) /\
                   exists ls, ShadowVolumes._lights (scene w')
                              = hero_light numLights :: ls /\
                              length ls = j /\ Forall (fresh_light numLights) ls) 1 w0)
      as (w3 & E3 & Q3 & C3 & R3 & lights & L3 & N3 & B3)
  end.
  { intros j w' Hj (Q & C & R & ls & L & N & B).
    destruct w' as [s' d' t' g' c' r']. destruct s'.
    unfold init_fixed in *. world_eval. world_eval_in Q. world_eval_in L.
    world_eval_in R. world_eval_in C.
    eexists. split; [reflexivity|]. world_eval.
    split; [exact Q|]. split; [exact C|]. split; [intros k; apply R|].
    eexists. split; [rewrite L; reflexivity|].
    split; [rewrite length_app, N; cbn [length]; lia|].
    apply Forall_snoc; [exact B|].
    unfold fresh_light. cbn [position movement color x y z w].
    split; [reflexivity|].
    pose proof (R 0%nat). pose proof (R 1%nat). pose proof (R 2%nat).
    pose proof (R 3%nat). pose proof (R 4%nat). pose proof (R 5%nat).
    pose proof (R 6%nat).
    repeat split; lra. }
  { unfold init_fixed in *. world_eval. world_eval_in Q2. world_eval_in L2.
    world_eval_in R2. world_eval_in C2.
    split; [exact Q2|]. split; [exact C2|]. split; [exact R2|].
    exists []. split; [rewrite L2; reflexivity|]. split; [reflexivity|constructor]. }
  rewrite E3. cbv beta iota.
  eexists. exists cubes, lights. split; [reflexivity|].
  unfold Init_outcome, init_fixed in *.
  destruct F as (F1 & F2 & F3 & F4 & F5 & F6 & F7 & F8 & F9 & F10 & F11 & F12).
  destruct Q3 as (K1 & K2 & K3 & K4 & K5 & K6 & K7 & K8 & K9 & K10 & K11 & K12).
  world_eval. world_eval_in K1. world_eval_in K2. world_eval_in K3.
  world_eval_in K4. world_eval_in K5. world_eval_in K6. world_eval_in K7.
  world_eval_in K8. world_eval_in K9. world_eval_in K10. world_eval_in K11.
  world_eval_in K12. world_eval_in C3. world_eval_in L3.
  world_eval_in F1. world_eval_in F2. world_eval_in F3.
  world_eval_in F4. world_eval_in F5. world_eval_in F6. world_eval_in F7.
  world_eval_in F8. world_eval_in F9. world_eval_in F10. world_eval_in F11.
  world_eval_in F12.
  rewrite K1, K2, K3, K4, K5, K6, K7, K8, K9, K10, K11, K12.
  repeat (split; [assumption|]).
  exact B3.
Qed.

Lemma lissajous_at_0 p : ShadowVolumes.lissajous p 0 = Vec3 0 1 0.
Proof.
  unfold ShadowVolumes.lissajous. rewrite !Rmult_0_r, sin_0, cos_0.
  f_equal; lra.
Qed.

Lemma curve_start p :
  add3 ShadowVolumes.offset
       (mul3 (ShadowVolumes.lissajous p 0) ShadowVolumes.scale) = Vec3 0 5 0.
Proof.
  rewrite lissajous_at_0. unfold add3, mul3, ShadowVolumes.offset, ShadowVolumes.scale.
  cbn [x3 y3 z3]. f_equal; lra.
Qed.

(** X3. [Init] on a scene not yet initialised, asked for [numCubes >= 0]
    cubes and [numLights >= 1] lights with a random source of samples of the
    unit interval, returns.  The scene then has the two counts as given;
    one cube position (0, 0.5, 0) followed by [numCubes - 1] positions
    within x in [-5, 5], y in [1, 5], z in [-5, 5] (none when [numCubes] is
    0: the first cube is stored all the same); and the first light at
    (-3, 3, 0) with colour (10, 10, 10), followed by [numLights - 1] lights
    that all start at the same point (0, 5, 0), the point of every curve at
    time 0, whatever movement parameters were drawn for them. *)
Theorem X3_Init_builds_scene :
  forall env numCubes numLights (w : World ShadowVolumes.Scene),
    ShadowVolumes._vao (scene w) = 0 ->
    ShadowVolumes._cubePositions (scene w) = [] ->
    ShadowVolumes._lights (scene w) = [] ->
    0 <= numCubes -> 1 <= numLights ->
    (forall n, (0 <= rand w n <= 1)%R) ->
    exists w' cubes lights,
      ShadowVolumes.Init env numCubes numLights w = Ok (tt, w') /\
      ShadowVolumes._numCubes (scene w') = numCubes /\
      ShadowVolumes._numLights (scene w') = numLights /\
      ShadowVolumes._cubePositions (scene w') = Vec3 0 (1 / 2) 0 :: cubes /\
      length cubes = Z.to_nat (numCubes - 1) /\
      Forall in_box cubes /\
      ShadowVolumes._lights (scene w') = hero_light numLights :: lights /\
      length lights = Z.to_nat (numLights - 1) /\
      Forall (fun l => position l = Vec3 0 5 0 /\
                       light_parameters_in_range l /\
                       glm.w (color l) = glm.w (color (hero_light numLights))) lights.
Proof.
  intros env numCubes numLights w Hv Hps Hls Hc Hl Hr.
  destruct (Init_scene env numCubes numLights w Hv Hps Hls Hc ltac:(lia) Hr)
    as (w' & cubes & lights & HI & O).
  destruct O as (_ & _ & _ & _ & Onc & Onl & _ & _ & _ & _ & _ & _
                 & Ocubes & Oclen & Obox & Olights & Ollen & Ofresh).
  exists w', cubes, lights.
  repeat (split; [assumption|]).
  eapply Forall_impl; [|exact Ofresh].
  intros l (Hp & (Hx & Hy & Hz & Hw) & (Hr' & Hg & Hb) & Ha).
  rewrite curve_start in Hp.
  split; [exact Hp|]. split; [|exact Ha].
  unfold light_parameters_in_range. repeat split; lra.
Qed.

Lemma sample_rand : forall n, (0 <= rand (Sample.start Sample.scene0) n <= 1)%R.
Proof. intros n. unfold Sample.start. cbn [rand]. lra. Qed.

Lemma X3_witness :
  (forall n, (0 <= rand (Sample.start Sample.scene0) n <= 1)%R) /\
  exists w' lights,
    ShadowVolumes.Init Sample.env 7 3 (Sample.start Sample.scene0) = Ok (tt, w') /\
    length (ShadowVolumes._cubePositions (scene w')) = 7%nat /\
    ShadowVolumes._lights (scene w') = hero_light 3 :: lights /\
    Forall (fun l => position l = Vec3 0 5 0) lights.
Proof.
  split; [exact sample_rand|].
  destruct (X3_Init_builds_scene Sample.env 7 3 (Sample.start Sample.scene0)
              eq_refl eq_refl eq_refl ltac:(lia) ltac:(lia) sample_rand)
    as (w' & cubes & lights & HI & _ & _ & Hc & Hcl & _ & Hl & _ & Hf).
  exists w', lights. split; [exact HI|].
  split; [rewrite Hc; cbn [length]; rewrite Hcl; reflexivity|].
  split; [exact Hl|].
  eapply Forall_impl; [|exact Hf]. intros l H. apply H.
Defined.

(** X4. Asked for no cube and no light, [Init] still stores the position of
    the first cube and the first light: the counts are 0, the two vectors
    hold one element each. *)
Theorem X4_Init_zero_counts :
  forall env (w : World ShadowVolumes.Scene),
    ShadowVolumes._vao (scene w) = 0 ->
    ShadowVolumes._cubePositions (scene w) = [] ->
    ShadowVolumes._lights (scene w) = [] ->
    exists w' l,
      ShadowVolumes.Init env 0 0 w = Ok (tt, w') /\
      ShadowVolumes._numCubes (scene w') = 0 /\
      ShadowVolumes._numLights (scene w') = 0 /\
      ShadowVolumes._cubePositions (scene w') = [Vec3 0 (1 / 2) 0] /\
      ShadowVolumes._lights (scene w') = [l] /\
      position l = Vec3 (-3) 3 0 /\ movement l = Vec4 0 1 0 0.
Proof.
  intros env w Hv Hc Hl.
  destruct w as [s d t g c r]. destruct s.
  cbn [scene ShadowVolumes._vao ShadowVolumes._cubePositions ShadowVolumes._lights] in *.
  subst.
  eexists. eexists. split; [gl_compute; reflexivity|].
  repeat split; reflexivity.
Qed.

Lemma X4_witness :
  exists w',
    ShadowVolumes.Init Sample.env 0 0 (Sample.start Sample.scene0) = Ok (tt, w') /\
    ShadowVolumes._numLights (scene w') = 0 /\
    length (ShadowVolumes._lights (scene w')) = 1%nat.
Proof.
  destruct (X4_Init_zero_counts Sample.env (Sample.start Sample.scene0)
              eq_refl eq_refl eq_refl)
    as (w' & l & HI & _ & Hn & _ & Hl & _).
  exists w'. split; [exact HI|]. split; [exact Hn|]. now rewrite Hl.
Defined.

(** X5. A negative count makes [Init] fail: [std::vector::reserve] is
    handed the count converted to [size_t] and throws
    [std::length_error], for the cubes first and, when their count is
    fine, for the lights. *)
Theorem X5_Init_negative_count :
  forall env numCubes numLights (w0 : World ShadowVolumes.Scene),
    ShadowVolumes._vao (scene w0) = 0 ->
    numCubes < 0 \/ numLights < 0 ->
    ShadowVolumes.Init env numCubes numLights w0
    = Crash (LengthError (to_size_t (if numCubes <? 0 then numCubes else numLights))).
Proof.
  intros env numCubes numLights w0 Hv Hneg.
  destruct w0 as [s d t g c r]. destruct s as [tex nc ps nl ls vao q cu ad ib tb].
  cbn [scene ShadowVolumes._vao] in Hv. subst vao.
  unfold ShadowVolumes.Init, for_loop. world_eval.
  cbn [truthy Z.eqb negb].
  unfold reserve at 1. destruct (Z.ltb_spec numCubes 0) as [Hc|Hc]; [reflexivity|].
  unfold ret at 1.
  match goal with |- context [iterate 1 ?n ?b ?w1] =>
    destruct (iterate_preserves b (fun _ => True) ltac:(intros; eexists; split; [reflexivity|exact I]) n 1 w1 I)
      as (w2 & -> & _)
  end.
  unfold reserve. destruct (Z.ltb_spec numLights 0) as [Hl|Hl]; [reflexivity|lia].
Qed.

Lemma X5_witness :
  ShadowVolumes.Init Sample.env (-1) 1 (Sample.start Sample.scene0)
  = Crash (LengthError (2 ^ 64 - 1)) /\
  ShadowVolumes.Init Sample.env 5 (-2) (Sample.start Sample.scene0)
  = Crash (LengthError (2 ^ 64 - 2)).
Proof.
  split.
  - exact (X5_Init_negative_count Sample.env (-1) 1 (Sample.start Sample.scene0)
             eq_refl (or_introl eq_refl)).
  - exact (X5_Init_negative_count Sample.env 5 (-2) (Sample.start Sample.scene0)
             eq_refl (or_intror eq_refl)).
Defined.

Lemma moved_fresh n l : fresh_light n l -> moved 0 l = l.
Proof.
  intros (Hp & _). destruct l as [p c m]. unfold moved.
  cbn [position color movement] in *. now rewrite <- Hp.
Qed.

Lemma map_moved_fresh n ls : Forall (fresh_light n) ls -> map (moved 0) ls = ls.
Proof.
  induction 1 as [|l ls H _ IH]; [reflexivity|].
  cbn [map]. now rewrite (moved_fresh n l H), IH.
Qed.

Lemma moved_first_hero n : moved_first 0 (hero_light n) = hero_light n.
Proof.
  unfold moved_first, hero_light. cbn [position color movement].
  rewrite lissajous_at_0. unfold add3. cbn [x3 y3 z3].
  f_equal. f_equal; lra.
Qed.

Lemma Update_result dt (w0 : World ShadowVolumes.Scene) :
  ShadowVolumes._lights (scene w0) <> [] ->
  ShadowVolumes._numLights (scene w0)
  <= Z.of_nat (length (ShadowVolumes._lights (scene w0))) ->
  ShadowVolumes.Update dt w0 =
  Ok (tt, with_t (static_t w0 + dt)
            (relight (updated_lights (static_t w0)
                        (ShadowVolumes._numLights (scene w0))
                        (ShadowVolumes._lights (scene w0))) w0)).
Proof.
  intros Hne Hn.
  destruct (ShadowVolumes._lights (scene w0)) as [|l0 rest] eqn:HL; [contradiction|].
  pose proof (Update_runs dt w0 l0 rest HL) as U. cbv zeta in U.
  rewrite HL in U. exact (U Hn).
Qed.

(** X6. The first [Update] after [Init] (the timer of [Update] is still 0)
    returns and leaves the scene as [Init] built it: every light, the
    first included, stays where [Init] placed it, because [Init] places
    the lights on their curves at time 0.  Only the timer advances. *)
Theorem X6_first_Update_keeps_lights :
  forall env numCubes numLights dt (w0 : World ShadowVolumes.Scene),
    ShadowVolumes._vao (scene w0) = 0 ->
    ShadowVolumes._cubePositions (scene w0) = [] ->
    ShadowVolumes._lights (scene w0) = [] ->
    0 <= numCubes -> 0 <= numLights ->
    (forall n, (0 <= rand w0 n <= 1)%R) ->
    static_t w0 = 0%R ->
    exists w1 w2,
      ShadowVolumes.Init env numCubes numLights w0 = Ok (tt, w1) /\
      ShadowVolumes.Update dt w1 = Ok (tt, w2) /\
      scene w2 = scene w1 /\
      static_t w2 = (0 + dt)%R.
Proof.
  intros env numCubes numLights dt w0 Hv Hps Hls Hc Hl Hr Ht.
  destruct (Init_scene env numCubes numLights w0 Hv Hps Hls Hc Hl Hr)
    as (w1 & cubes & lights & HI & O).
  destruct O as (_ & _ & _ & Ot & _ & Onl & _ & _ & _ & _ & _ & _
                 & _ & _ & _ & Olights & Ollen & Ofresh).
  exists w1. eexists. split; [exact HI|].
  split.
  { apply Update_result; rewrite Olights; [discriminate|].
    rewrite Onl. cbn [length]. lia. }
  rewrite Ot, Ht, Onl, Olights. unfold updated_lights.
  rewrite <- Ollen, firstn_all, skipn_all, app_nil_r.
  rewrite (map_moved_fresh _ _ Ofresh), moved_first_hero, <- Olights, relight_same.
  split; reflexivity.
Qed.

Lemma X6_witness :
  exists w1 w2,
    ShadowVolumes.Init Sample.env 5 3 (Sample.start Sample.scene0) = Ok (tt, w1) /\
    ShadowVolumes.Update (1 / 60) w1 = Ok (tt, w2) /\
    ShadowVolumes._lights (scene w2) = ShadowVolumes._lights (scene w1).
Proof.
  destruct (X6_first_Update_keeps_lights Sample.env 5 3 (1 / 60)
              (Sample.start Sample.scene0)
              eq_refl eq_refl eq_refl ltac:(lia) ltac:(lia) sample_rand eq_refl)
    as (w1 & w2 & HI & HU & Hs & _).
  exists w1, w2. split; [exact HI|]. split; [exact HU|]. now rewrite Hs.
Defined.

Lemma updated_lights_length t n ls :
  length (updated_lights t n ls) = length ls.
Proof.
  destruct ls as [|l0 rest]; [reflexivity|].
  unfold updated_lights. cbn [length]. f_equal.
  rewrite length_app, length_map, <- length_app, firstn_skipn. reflexivity.
Qed.

Lemma updated_lights_data {A} (f : Light -> A) t n ls :
  (forall l, f (moved t l) = f l) -> (forall l, f (moved_first t l) = f l) ->
  map f (updated_lights t n ls) = map f ls.
Proof.
  intros H1 H2. destruct ls as [|l0 rest]; [reflexivity|].
  unfold updated_lights. cbn [map]. rewrite H2. f_equal.
  rewrite map_app, map_map.
  rewrite (map_ext _ f H1), <- map_app, firstn_skipn. reflexivity.
Qed.

(** X7. [Update] on a scene with its lights in place returns, and all it
    changes is the positions of the first light and of the counted lights,
    and its timer: the number of lights, their colours and their movement
    parameters are as before, lights beyond the count (other than the
    first) are not touched, the rest of the scene object is as before, and
    no OpenGL call is made. *)
Theorem X7_Update_moves_lights_only :
  forall dt (w0 : World ShadowVolumes.Scene),
    let s := scene w0 in
    ShadowVolumes._lights s <> [] ->
    ShadowVolumes._numLights s <= Z.of_nat (length (ShadowVolumes._lights s)) ->
    exists w' lights',
      ShadowVolumes.Update dt w0 = Ok (tt, w') /\
      scene w' = ShadowVolumes.set_lights lights' s /\
      length lights' = length (ShadowVolumes._lights s) /\
      map color lights' = map color (ShadowVolumes._lights s) /\
      map movement lights' = map movement (ShadowVolumes._lights s) /\
      skipn (Z.to_nat (Z.max 1 (ShadowVolumes._numLights s))) lights'
      = skipn (Z.to_nat (Z.max 1 (ShadowVolumes._numLights s))) (ShadowVolumes._lights s) /\
      calls w' = calls w0 /\ gl w' = gl w0 /\
      static_instanceData w' = static_instanceData w0 /\
      static_t w' = (static_t w0 + dt)%R.
Proof.
  intros dt w0 s Hne Hn.
  eexists. eexists. split; [apply Update_result; assumption|].
  fold s. split; [reflexivity|].
  split; [apply updated_lights_length|].
  split; [apply updated_lights_data; reflexivity|].
  split; [apply updated_lights_data; reflexivity|].
  split; [|repeat split; reflexivity].
  destruct (ShadowVolumes._lights s) as [|l0 rest]; [contradiction|].
  unfold updated_lights.
  replace (Z.to_nat (Z.max 1 (ShadowVolumes._numLights s)))
    with (S (Z.to_nat (ShadowVolumes._numLights s - 1))) by lia.
  cbn [skipn]. cbn [length] in Hn.
  rewrite skipn_app, length_map, length_firstn.
  rewrite skipn_all2 by (rewrite length_map, length_firstn; lia).
  replace (Z.to_nat (ShadowVolumes._numLights s - 1)
           - Nat.min (Z.to_nat (ShadowVolumes._numLights s - 1)) (length rest))%nat
    with O by lia.
  reflexivity.
Qed.

Lemma two_lights_in_place :
  ShadowVolumes._lights (scene Sample.two_lights) <> [] /\
  ShadowVolumes._numLights (scene Sample.two_lights)
  <= Z.of_nat (length (ShadowVolumes._lights (scene Sample.two_lights))).
Proof. split; [discriminate|cbn; lia]. Qed.

Lemma X7_witness :
  exists w',
    ShadowVolumes.Update (1 / 60) Sample.two_lights = Ok (tt, w') /\
    length (ShadowVolumes._lights (scene w')) = 2%nat /\
    calls w' = calls Sample.two_lights.
Proof.
  destruct (X7_Update_moves_lights_only (1 / 60) Sample.two_lights
              (proj1 two_lights_in_place) (proj2 two_lights_in_place))
    as (w' & ls & HU & Hs & Hl & _ & _ & _ & Hc & _).
  exists w'. split; [exact HU|]. split; [|exact Hc].
  rewrite Hs. cbn [ShadowVolumes._lights ShadowVolumes.set_lights]. exact Hl.
Defined.

(** X8. [Update] indexes the first light without checking that there is
    one: on a scene whose light vector is empty (a scene [Init] has not
    built) the access [_lights[0]] is out of range. *)
Theorem X8_Update_without_lights :
  forall dt (w0 : World ShadowVolumes.Scene),
    ShadowVolumes._lights (scene w0) = [] ->
    ShadowVolumes.Update dt w0 = Crash (OutOfRange 0).
Proof.
  intros dt w0 H. unfold ShadowVolumes.Update, bind, get, ShadowVolumes.light, lift.
  rewrite H. reflexivity.
Qed.

Lemma X8_witness :
  ShadowVolumes.Update (1 / 60) (Sample.start Sample.scene0) = Crash (OutOfRange 0).
Proof.
  exact (X8_Update_without_lights (1 / 60) (Sample.start Sample.scene0) eq_refl).
Defined.

(** X9. [Update] moves the first light around (-3, 2, 0) without the scale
    and offset of the other lights: it ends at
    (-3, 2, 0) + lissajous(movement, t), with its movement parameters
    unchanged.  With the movement parameters (0, 1, 0, 0) that [Init] gives
    the first light, it ends at (-3, 2 + cos t, 0): the light only moves up
    and down, between heights 1 and 3.  In binary32, for every finite [t],
    the first and third coordinate of that position are exactly -3 and 0,
    and the second is 2 + cosf(1 * t). *)
Theorem X9_first_light_motion :
  (forall dt (w0 : World ShadowVolumes.Scene) l0 rest,
     let t := static_t w0 in
     ShadowVolumes._lights (scene w0) = l0 :: rest ->
     ShadowVolumes._numLights (scene w0)
     <= Z.of_nat (length (ShadowVolumes._lights (scene w0))) ->
     exists w' l0' rest',
       ShadowVolumes.Update dt w0 = Ok (tt, w') /\
       ShadowVolumes._lights (scene w') = l0' :: rest' /\
       movement l0' = movement l0 /\
       position l0' = add3 (Vec3 (-3) 2 0) (ShadowVolumes.lissajous (movement l0) t) /\
       (movement l0 = Vec4 0 1 0 0 ->
        position l0' = Vec3 (-3) (2 + cos t) 0 /\
        (1 <= y3 (position l0') <= 3)%R)) /\
  (forall (m : Binary32.libm) (t : Binary32.binary32),
     Binary32.is_finite t = true ->
     Binary32.first_light_position m
       (Binary32.Vec4 (Binary32.of_Z 0) (Binary32.of_Z 1)
                      (Binary32.of_Z 0) (Binary32.of_Z 0)) t
     = Binary32.Vec3 (Binary32.of_Z (-3))
                     (Binary32.add (Binary32.of_Z 2)
                        (Binary32.cosf m (Binary32.mul (Binary32.of_Z 1) t)))
                     (Binary32.of_Z 0)).
Proof.
  split.
  - intros dt w0 l0 rest t HL Hn.
    eexists. eexists. eexists.
    split; [apply Update_result; [rewrite HL; discriminate|exact Hn]|].
    rewrite HL. unfold updated_lights.
    cbn [with_t relight with_scene scene ShadowVolumes._lights
         ShadowVolumes.set_lights].
    split; [reflexivity|]. split; [reflexivity|]. split; [reflexivity|].
    fold t. unfold moved_first. cbn [position].
    intros Hm. rewrite Hm. unfold ShadowVolumes.lissajous, add3.
    cbn [x y z w x3 y3 z3].
    rewrite !Rmult_0_l, sin_0, Rmult_1_l.
    pose proof (COS_bound t) as Hcos.
    split; [f_equal; lra|lra].
  - intros m t Ht.
    destruct t as [s|s| |s mt e]; try discriminate Ht; destruct s; reflexivity.
Qed.

Lemma X9_witness :
  (exists w' l0' rest',
     ShadowVolumes.Update (1 / 60) Sample.two_lights = Ok (tt, w') /\
     ShadowVolumes._lights (scene w') = l0' :: rest' /\
     position l0' = Vec3 (-3) (2 + cos 0) 0) /\
  Binary32.is_finite Binary32.f3e38 = true /\
  forall m,
    Binary32.x3 (Binary32.first_light_position m
                   (Binary32.Vec4 (Binary32.of_Z 0) (Binary32.of_Z 1)
                                  (Binary32.of_Z 0) (Binary32.of_Z 0))
                   Binary32.f3e38)
    = Binary32.of_Z (-3).
Proof.
  destruct X9_first_light_motion as [U F].
  split; [|split; [reflexivity|]].
  - destruct (U (1 / 60)%R Sample.two_lights _ _ eq_refl
                (proj2 two_lights_in_place))
      as (w' & l0' & rest' & HU & HL & _ & _ & Hv).
    exists w', l0', rest'. split; [exact HU|]. split; [exact HL|].
    exact (proj1 (Hv eq_refl)).
  - intros m. rewrite (F m Binary32.f3e38 eq_refl). reflexivity.
Defined.

(** X2. [UpdateInstanceData] checks its instance count against nothing.
    When the count exceeds the number of cube positions or the number of
    entries of the staging array, the function does not return: the
    staging loop indexes a vector out of range, at the index that equals
    the smaller of the two sizes (undefined behaviour). *)
Theorem X2_UpdateInstanceData_runs_off :
  forall w0 : World ShadowVolumes.Scene,
    let s := scene w0 in
    let k := Nat.min (length (ShadowVolumes._cubePositions s))
                     (length (static_instanceData w0)) in
    Z.of_nat k < ShadowVolumes._numCubes s ->
    ShadowVolumes.UpdateInstanceData w0 = Crash (OutOfRange (Z.of_nat k)).
Proof.
  intros w0 s k Hn. rewrite UpdateInstanceData_loop. fold s.
  unfold bind at 1.
  replace (Z.to_nat (ShadowVolumes._numCubes s))
    with (k + S (Z.to_nat (ShadowVolumes._numCubes s) - S k))%nat by lia.
  rewrite iterate_split. unfold bind at 1.
  rewrite stage_loop_ok by lia.
  cbn [iterate]. unfold bind at 1. rewrite Z.add_0_l.
  unfold stage_body, bind, lift, get.
  destruct (nth_error (ShadowVolumes._cubePositions s) k) as [pos|] eqn:E.
  - rewrite (vec_get_nth _ _ _ E).
    cbn [static_instanceData with_instanceData].
    rewrite vec_set_out; [reflexivity|].
    rewrite length_app, instances_from_length, length_firstn, length_skipn.
    assert (k < length (ShadowVolumes._cubePositions s))%nat
      by (apply nth_error_Some; congruence).
    lia.
  - apply nth_error_None in E. unfold vec_get.
    destruct (Z.ltb_spec (Z.of_nat k) 0); [lia|].
    rewrite Nat2Z.id.
    destruct (nth_error (ShadowVolumes._cubePositions s) k) eqn:E'; [|reflexivity].
    assert (k < length (ShadowVolumes._cubePositions s))%nat
      by (apply nth_error_Some; congruence).
    lia.
Qed.

Lemma X2_witness :
  ShadowVolumes.UpdateInstanceData Sample.crowded = Crash (OutOfRange 1024) /\
  ShadowVolumes.UpdateInstanceData (Sample.start Sample.scene0) = Crash (OutOfRange 0).
Proof.
  split.
  - assert (Hp : length (ShadowVolumes._cubePositions (scene Sample.crowded)) = 1025%nat)
      by (vm_compute; reflexivity).
    assert (Hd : length (static_instanceData Sample.crowded) = 1024%nat)
      by (vm_compute; reflexivity).
    pose proof (X2_UpdateInstanceData_runs_off Sample.crowded) as H.
    cbv zeta in H. rewrite Hp, Hd in H. apply H. vm_compute. reflexivity.
  - pose proof (X2_UpdateInstanceData_runs_off (Sample.start Sample.scene0)) as H.
    cbv zeta in H. apply H. vm_compute. reflexivity.
Defined.

Lemma iteration_draws env s camera cr quad cube adj :
  ShadowVolumes._quad s = Some quad ->
  ShadowVolumes._cube s = Some cube ->
  ShadowVolumes._cubeAdjacency s = Some adj ->
  forall l g,
    uniform_buffer_base g 1 = 0 ->
    uniform_buffer_base (gl_run g (light_iteration env s camera cr l)) 1 = 0 /\
    length (draws g (light_iteration env s camera cr l)) = 10%nat /\
    slot1_discipline (ShadowVolumes._instancingBuffer s)
      (draws g (light_iteration env s camera cr l)).
Proof.
  intros Hquad Hcube Hadj l g Hg. unfold slot1_discipline. unfold_passes.
  rewrite Hquad, Hcube, Hadj. destruct cr; gl_compute;
    (split; [reflexivity|]); (split; [reflexivity|]);
    repeat constructor; exact Hg.
Qed.

Lemma loop_draws env s camera cr quad cube adj :
  ShadowVolumes._quad s = Some quad ->
  ShadowVolumes._cube s = Some cube ->
  ShadowVolumes._cubeAdjacency s = Some adj ->
  forall ls g,
    uniform_buffer_base g 1 = 0 ->
    uniform_buffer_base
      (gl_run g (flat_map (light_iteration env s camera cr) ls)) 1 = 0 /\
    length (draws g (flat_map (light_iteration env s camera cr) ls))
    = (10 * length ls)%nat /\
    slot1_discipline (ShadowVolumes._instancingBuffer s)
      (draws g (flat_map (light_iteration env s camera cr) ls)).
Proof.
  intros Hquad Hcube Hadj. induction ls as [|l ls IH]; intros g Hg.
  - split; [exact Hg|]. split; [reflexivity|constructor].
  - cbn [flat_map length]. rewrite draws_app, gl_run_app, length_app.
    destruct (iteration_draws env s camera cr quad cube adj Hquad Hcube Hadj l g Hg)
      as (Hg' & Hlen & Hall).
    destruct (IH _ Hg') as (IHg & IHlen & IHall).
    split; [exact IHg|]. split; [rewrite Hlen, IHlen; lia|].
    unfold slot1_discipline in *. apply Forall_app. split; assumption.
Qed.

Lemma prologue_slot1 env s camera rm data quad cube adj g :
  ShadowVolumes._quad s = Some quad ->
  ShadowVolumes._cube s = Some cube ->
  ShadowVolumes._cubeAdjacency s = Some adj ->
  uniform_buffer_base (gl_run g (frame_prologue env s camera rm data)) 1 = 0 /\
  length (draws g (frame_prologue env s camera rm data)) = 4%nat /\
  slot1_discipline (ShadowVolumes._instancingBuffer s)
    (draws g (frame_prologue env s camera rm data)).
Proof.
  intros Hquad Hcube Hadj.
  unfold frame_prologue, frame_setup, instance_upload, slot1_discipline. unfold_passes.
  rewrite Hquad, Hcube, Hadj. destruct (1 <? msaaLevel rm).
  all: gl_compute.
  all: repeat split; repeat constructor.
Qed.

(** X10. A frame drawn by [Draw] on a ready scene that counts [n] lights
    rasterises 4 + 10 n times: the depth pre-pass draws the three quads of
    the background and the cubes, and every light adds its shadow volumes,
    then for each of its two light passes the three quads and the cubes,
    and in the ambient pass the point of the light.  The instanced draws
    (cubes and shadow volumes) all run with the instancing buffer bound to
    uniform slot 1, every other draw runs with slot 1 unbound, and the
    slot is unbound when the frame ends. *)
Theorem X10_frame_draws :
  forall env camera renderMode carmackReverse (w0 : World ShadowVolumes.Scene),
    ready w0 ->
    let s := scene w0 in
    exists frame w',
      ShadowVolumes.Draw env camera renderMode carmackReverse w0 = Ok (tt, w') /\
      calls w' = calls w0 ++ frame /\
      length (draws (gl w0) frame) = (4 + 10 * length (counted_lights s))%nat /\
      slot1_discipline (ShadowVolumes._instancingBuffer s) (draws (gl w0) frame) /\
      uniform_buffer_base (gl w') 1 = 0.
Proof.
  intros env camera rm cr w0 R s.
  pose proof (Draw_runs env camera rm cr w0 R) as D. cbv zeta in D. fold s in D.
  destruct R as (Hq & Hc & Ha & _). fold s in Hq, Hc, Ha.
  destruct (exists_mesh _ Hq) as [quad Hquad].
  destruct (exists_mesh _ Hc) as [cube Hcube].
  destruct (exists_mesh _ Ha) as [adj Hadj].
  eexists. eexists. split; [exact D|]. split; [reflexivity|].
  set (data := instance_memory (staged_instances s)).
  destruct (prologue_slot1 env s camera rm data quad cube adj (gl w0)
              Hquad Hcube Hadj) as (Hs & Hn & Hd).
  destruct (loop_draws env s camera cr quad cube adj Hquad Hcube Hadj
              (counted_lights s) _ Hs) as (Hs' & Hn' & Hd').
  cbn [gl emit with_instanceData].
  rewrite !draws_app, !length_app, Hn, Hn'. cbn [draws is_draw app length].
  split; [lia|]. rewrite app_nil_r.
  split; [unfold slot1_discipline in *; apply Forall_app; split; assumption|].
  rewrite !gl_run_app. exact Hs'.
Qed.

Lemma X10_witness :
  exists frame w',
    ShadowVolumes.Draw Sample.env Sample.camera Sample.settings true
      Sample.initialised = Ok (tt, w') /\
    calls w' = calls Sample.initialised ++ frame /\
    length (draws (gl Sample.initialised) frame) = 14%nat.
Proof.
  destruct (X10_frame_draws Sample.env Sample.camera Sample.settings true
              Sample.initialised sample_ready)
    as (frame & w' & HD & Hc & Hn & _).
  exists frame, w'. split; [exact HD|]. split; [exact Hc|exact Hn].
Defined.

Lemma iteration_state env s camera cr rm quad cube adj :
  ShadowVolumes._quad s = Some quad ->
  ShadowVolumes._cube s = Some cube ->
  ShadowVolumes._cubeAdjacency s = Some adj ->
  forall l g,
    frame_state rm g ->
    frame_state rm (gl_run g (light_iteration env s camera cr l)) /\
    lit_state env s (gl_run g (light_iteration env s camera cr l)).
Proof.
  intros Hquad Hcube Hadj l g Hg. unfold frame_state, lit_state in *. unfold_passes.
  rewrite Hquad, Hcube, Hadj.
  destruct Hg as (H1 & H2 & H3 & H4 & H5 & H6 & H7 & H8 & H9 & H10).
  destruct cr; gl_compute; repeat split; assumption.
Qed.

Lemma loop_state env s camera cr rm quad cube adj :
  ShadowVolumes._quad s = Some quad ->
  ShadowVolumes._cube s = Some cube ->
  ShadowVolumes._cubeAdjacency s = Some adj ->
  forall ls g,
    frame_state rm g ->
    frame_state rm (gl_run g (flat_map (light_iteration env s camera cr) ls)) /\
    (ls <> [] ->
     lit_state env s (gl_run g (flat_map (light_iteration env s camera cr) ls))).
Proof.
  intros Hquad Hcube Hadj. induction ls as [|l ls IH]; intros g Hg.
  - split; [exact Hg|]. intros H. contradiction.
  - cbn [flat_map]. rewrite gl_run_app.
    destruct (iteration_state env s camera cr rm quad cube adj Hquad Hcube Hadj l g Hg)
      as (Hg' & Hlit).
    destruct (IH _ Hg') as (IHg & IHlit).
    split; [exact IHg|]. intros _.
    destruct ls as [|l' ls']; [exact Hlit|]. apply IHlit. discriminate.
Qed.

Lemma prologue_state env s camera rm data quad cube adj g :
  ShadowVolumes._quad s = Some quad ->
  ShadowVolumes._cube s = Some cube ->
  ShadowVolumes._cubeAdjacency s = Some adj ->
  frame_state rm (gl_run g (frame_prologue env s camera rm data)).
Proof.
  intros Hquad Hcube Hadj.
  unfold frame_prologue, frame_setup, instance_upload, frame_state. unfold_passes.
  rewrite Hquad, Hcube, Hadj.
  destruct (1 <? msaaLevel rm); destruct (wireframe rm); gl_compute;
    repeat split; reflexivity.
Qed.

(** X11. The context state a frame of [Draw] hands back, on a ready scene:
    colour writes enabled on all channels, depth writes still disabled,
    the depth test on with [GL_LEQUAL] and depth clamping, back-face
    culling on, multisampling and the polygon mode as the render settings
    ask, no buffer bound to [GL_UNIFORM_BUFFER] and none mapped.  When at
    least one light is counted, the stencil test and blending are off,
    the light-point program is current and the generic vertex array is
    bound. *)
Theorem X11_frame_end_state :
  forall env camera renderMode carmackReverse (w0 : World ShadowVolumes.Scene),
    ready w0 ->
    let s := scene w0 in
    exists w',
      ShadowVolumes.Draw env camera renderMode carmackReverse w0 = Ok (tt, w') /\
      color_writemask (gl w') = all_channels true /\
      frame_state renderMode (gl w') /\
      (counted_lights s <> [] -> lit_state env s (gl w')).
Proof.
  intros env camera rm cr w0 R s.
  pose proof (Draw_runs env camera rm cr w0 R) as D. cbv zeta in D. fold s in D.
  destruct R as (Hq & Hc & Ha & _). fold s in Hq, Hc, Ha.
  destruct (exists_mesh _ Hq) as [quad Hquad].
  destruct (exists_mesh _ Hc) as [cube Hcube].
  destruct (exists_mesh _ Ha) as [adj Hadj].
  eexists. split; [exact D|].
  set (data := instance_memory (staged_instances s)).
  pose proof (prologue_state env s camera rm data quad cube adj (gl w0)
                Hquad Hcube Hadj) as Hp.
  destruct (loop_state env s camera cr rm quad cube adj Hquad Hcube Hadj
              (counted_lights s) _ Hp) as (Hs & Hl).
  cbn [gl emit with_instanceData]. rewrite !gl_run_app.
  set (g' := gl_run (gl_run (gl w0) _) _) in *.
  split; [reflexivity|].
  split; [exact Hs|]. intros Hne. exact (Hl Hne).
Qed.

Lemma X11_witness :
  exists w',
    ShadowVolumes.Draw Sample.env Sample.camera Sample.settings true
      Sample.initialised = Ok (tt, w') /\
    depth_writemask (gl w') = false /\
    enabled (gl w') GL_BLEND = false.
Proof.
  destruct (X11_frame_end_state Sample.env Sample.camera Sample.settings true
              Sample.initialised sample_ready)
    as (w' & HD & _ & Hs & Hl).
  exists w'. split; [exact HD|]. split; [apply Hs|].
  apply Hl. vm_compute. discriminate.
Defined.

Lemma store_write_length at_ len (data mem : list float) :
  (len <= length data)%nat -> (at_ + len <= length mem)%nat ->
  length (store_write at_ len data mem) = length mem.
Proof.
  intros H1 H2. unfold store_write.
  rewrite !length_app, !length_firstn, length_skipn. lia.
Qed.

Lemma sub_data_length offset size data mem :
  size = sizeof_float * Z.of_nat (length data) ->
  length (sub_data offset size data mem) = length mem.
Proof.
  intros Hs. unfold sub_data.
  destruct (Z.leb_spec 0 offset) as [H1|]; [|reflexivity].
  destruct (Z.leb_spec 0 size) as [H2|]; [|reflexivity].
  destruct (Z.leb_spec (offset + size) (sizeof_float * Z.of_nat (length mem)))
    as [H3|]; [|reflexivity].
  destruct (Z.eqb_spec (offset mod sizeof_float) 0) as [H4|]; [|reflexivity].
  destruct (Z.eqb_spec (size mod sizeof_float) 0) as [H5|]; [|reflexivity].
  cbn [andb]. unfold sizeof_float in *.
  assert (Ho : offset = 4 * (offset / 4)) by (apply Z_div_exact_full_2; lia).
  assert (Hd : size / 4 = Z.of_nat (length data))
    by (rewrite Hs, Z.mul_comm, Z.div_mul; lia).
  apply store_write_length; lia.
Qed.

Lemma gl_step_store_size g c b :
  keeps_store_sizes c = true ->
  length (buffer_data (gl_step g c) b) = length (buffer_data g b).
Proof.
  intros H. destruct c; try reflexivity; cbn [gl_step buffer_data].
  - discriminate H.
  - destruct target; [|reflexivity].
    destruct (uniform_buffer_binding g =? 0); [reflexivity|].
    unfold update_store.
    destruct (Z.eqb_spec b (uniform_buffer_binding g)) as [->|]; [|reflexivity].
    apply sub_data_length. cbn [keeps_store_sizes] in H. lia.
  - destruct (buffer_mapped g) as [m|]; [|reflexivity].
    destruct (Z.eqb_spec m buffer) as [->|]; [|reflexivity].
    destruct (Nat.leb_spec (length data) (length (buffer_data g buffer)));
      [|reflexivity].
    cbn [andb]. unfold update_store.
    destruct (Z.eqb_spec b buffer) as [->|]; [|reflexivity].
    apply store_write_length; lia.
Qed.

Lemma gl_run_store_size cs b : forall g,
  forallb keeps_store_sizes cs = true ->
  length (buffer_data (gl_run g cs) b) = length (buffer_data g b).
Proof.
  induction cs as [|c cs IH]; intros g H; [reflexivity|].
  cbn [forallb] in H. apply andb_true_iff in H as [Hc Hcs].
  cbn [gl_run fold_left]. change (fold_left gl_step cs ?g0) with (gl_run g0 cs).
  rewrite (IH _ Hcs). now apply gl_step_store_size.
Qed.

Lemma frame_keeps_store_sizes env s camera rm cr data quad cube adj :
  ShadowVolumes._quad s = Some quad ->
  ShadowVolumes._cube s = Some cube ->
  ShadowVolumes._cubeAdjacency s = Some adj ->
  forall ls,
    forallb keeps_store_sizes
      (frame_prologue env s camera rm data
       ++ flat_map (light_iteration env s camera cr) ls
       ++ [glColorMask true true true true]) = true.
Proof.
  intros Hquad Hcube Hadj ls. rewrite !forallb_app.
  assert (P : forallb keeps_store_sizes (frame_prologue env s camera rm data) = true).
  { unfold frame_prologue, frame_setup, instance_upload. unfold_passes.
    rewrite Hquad, Hcube, Hadj. destruct (1 <? msaaLevel rm); gl_compute; reflexivity. }
  assert (L : forallb keeps_store_sizes
                (flat_map (light_iteration env s camera cr) ls) = true).
  { induction ls as [|l ls IH]; [reflexivity|].
    cbn [flat_map]. rewrite forallb_app, IH, andb_true_r.
    unfold_passes. rewrite Hquad, Hcube, Hadj.
    destruct cr; gl_compute; reflexivity. }
  rewrite P, L. reflexivity.
Qed.

Lemma Draw_keeps_running env camera rm cr (w0 : World ShadowVolumes.Scene) :
  running w0 ->
  exists w',
    ShadowVolumes.Draw env camera rm cr w0 = Ok (tt, w') /\
    scene w' = scene w0 /\ static_t w' = static_t w0 /\ running w'.
Proof.
  intros [R Hl].
  pose proof (Draw_runs env camera rm cr w0 R) as D. cbv zeta in D.
  eexists. split; [exact D|]. split; [reflexivity|]. split; [reflexivity|].
  set (s := scene w0) in *.
  destruct R as (Hq & Hc & Ha & U & Htb & Hn). fold s in Hq, Hc, Ha, Htb, Hn.
  destruct U as (Hnc & Hp & Hd & Hib & Hst). fold s in Hnc, Hp, Hib, Hst.
  destruct (exists_mesh _ Hq) as [quad Hquad].
  destruct (exists_mesh _ Hc) as [cube Hcube].
  destruct (exists_mesh _ Ha) as [adj Hadj].
  unfold running, ready, uploadable.
  cbn [scene emit with_instanceData static_instanceData gl]. fold s.
  rewrite gl_run_store_size
    by (apply (frame_keeps_store_sizes env s camera rm cr _ quad cube adj);
        assumption).
  repeat (split; [assumption|]).
  split; [|exact Hl].
  repeat (split; [assumption|]).
  split; [|repeat split; assumption].
  rewrite length_app, length_skipn. unfold staged_instances.
  rewrite instances_from_length, length_firstn. unfold MAX_INSTANCES in *. lia.
Qed.

Lemma Update_keeps_running dt (w0 : World ShadowVolumes.Scene) :
  running w0 ->
  exists w',
    ShadowVolumes.Update dt w0 = Ok (tt, w') /\
    static_t w' = (static_t w0 + dt)%R /\ running w'.
Proof.
  intros [R Hl].
  destruct R as (Hq & Hc & Ha & U & Htb & Hn).
  destruct U as (Hnc & Hp & Hd & Hib & Hst).
  eexists. split; [apply Update_result; assumption|]. split; [reflexivity|].
  unfold running, ready, uploadable.
  cbn [scene with_t relight with_scene static_instanceData gl
       ShadowVolumes._quad ShadowVolumes._cube ShadowVolumes._cubeAdjacency
       ShadowVolumes._numCubes ShadowVolumes._cubePositions
       ShadowVolumes._instancingBuffer ShadowVolumes._transformBlockUBO
       ShadowVolumes._numLights ShadowVolumes._lights ShadowVolumes.set_lights].
  rewrite updated_lights_length.
  split; [repeat split; assumption || apply Hnc|].
  intros E. apply Hl. apply length_zero_iff_nil.
  rewrite <- (updated_lights_length (static_t w0)
                (ShadowVolumes._numLights (scene w0))), E. reflexivity.
Qed.

(** X12. A scene that is ready for [Draw] and has a first light stays so:
    [Update] with any time step and [Draw] with any camera and settings
    both return on it and leave it ready, with its lights in place, so
    that the main loop can call them frame after frame.  [Draw] does not
    change the scene object at all. *)
Theorem X12_scene_stays_ready :
  forall w0 : World ShadowVolumes.Scene,
    ready w0 ->
    ShadowVolumes._lights (scene w0) <> [] ->
    (forall dt, exists w',
        ShadowVolumes.Update dt w0 = Ok (tt, w') /\
        ready w' /\ ShadowVolumes._lights (scene w') <> []) /\
    (forall env camera renderMode carmackReverse, exists w',
        ShadowVolumes.Draw env camera renderMode carmackReverse w0 = Ok (tt, w') /\
        scene w' = scene w0 /\
        ready w' /\ ShadowVolumes._lights (scene w') <> []).
Proof.
  intros w0 R Hl. split.
  - intros dt.
    destruct (Update_keeps_running dt w0 (conj R Hl)) as (w' & HU & _ & R' & Hl').
    exists w'. split; [exact HU|]. split; [exact R'|exact Hl'].
  - intros env camera rm cr.
    destruct (Draw_keeps_running env camera rm cr w0 (conj R Hl))
      as (w' & HD & Hs & _ & R' & Hl').
    exists w'. split; [exact HD|]. split; [exact Hs|]. split; [exact R'|exact Hl'].
Qed.

Lemma sample_lights : ShadowVolumes._lights (scene Sample.initialised) <> [].
Proof. vm_compute. discriminate. Qed.

Lemma X12_witness :
  exists w1 w2,
    ShadowVolumes.Update (1 / 60) Sample.initialised = Ok (tt, w1) /\
    ShadowVolumes.Draw Sample.env Sample.camera Sample.settings true w1 = Ok (tt, w2) /\
    ready w2.
Proof.
  destruct (X12_scene_stays_ready Sample.initialised sample_ready sample_lights)
    as [HU _].
  destruct (HU (1 / 60)%R) as (w1 & HU1 & R1 & L1).
  destruct (X12_scene_stays_ready w1 R1 L1) as [_ HD].
  destruct (HD Sample.env Sample.camera Sample.settings true)
    as (w2 & HD2 & _ & R2 & _).
  exists w1, w2. split; [exact HU1|]. split; [exact HD2|exact R2].
Defined.

Lemma init_calls_store env g :
  0 <= InstanceBuffer_DATA_SIZE env ->
  length (buffer_data (gl_run g (init_calls env g)) (Z.pos (next_buffer g)))
  = Z.to_nat (InstanceBuffer_DATA_SIZE env / sizeof_float).
Proof.
  intros H. unfold init_calls.
  cbn [gl_run fold_left gl_step buffer_data uniform_buffer_binding next_buffer].
  destruct (Z.leb_spec 0 (InstanceBuffer_DATA_SIZE env)) as [_|]; [|lia].
  cbn [Z.eqb negb andb]. unfold update_store.
  destruct ((0 <=? TransformBlock_DATA_SIZE env) && true); cbv beta.
  - destruct (Z.eqb_spec (Z.pos (next_buffer g)) (Z.pos (Pos.succ (next_buffer g))))
      as [E|_]; [injection E; lia|].
    rewrite Z.eqb_refl. apply repeat_length.
  - rewrite Z.eqb_refl. apply repeat_length.
Qed.

(** X13. [Init] makes the scene ready for the frames to come.  On a scene
    not yet initialised, with a count of cubes within [0, MAX_INSTANCES]
    for which the uniform block of the instancing program has room, and
    any count of lights that is not negative, [Init] returns a scene on
    which [Draw] and [Update] return: the meshes exist, every counted cube
    has a position and every counted light exists, the instancing buffer
    has a store for the counted instances and is an object other than the
    transform buffer. *)
Theorem X13_Init_makes_ready :
  forall env numCubes numLights (w0 : World ShadowVolumes.Scene),
    ShadowVolumes._vao (scene w0) = 0 ->
    ShadowVolumes._cubePositions (scene w0) = [] ->
    ShadowVolumes._lights (scene w0) = [] ->
    (forall n, (0 <= rand w0 n <= 1)%R) ->
    length (static_instanceData w0) = Z.to_nat MAX_INSTANCES ->
    0 <= numCubes <= MAX_INSTANCES ->
    0 <= numLights ->
    sizeof_InstanceData * numCubes <= InstanceBuffer_DATA_SIZE env ->
    exists w1,
      ShadowVolumes.Init env numCubes numLights w0 = Ok (tt, w1) /\
      ready w1 /\
      ShadowVolumes._lights (scene w1) <> [] /\
      (forall camera renderMode carmackReverse, exists w2,
          ShadowVolumes.Draw env camera renderMode carmackReverse w1 = Ok (tt, w2)) /\
      (forall dt, exists w2, ShadowVolumes.Update dt w1 = Ok (tt, w2)).
Proof.
  intros env numCubes numLights w0 Hv Hps Hls Hr Hd Hc Hl Hsize.
  destruct (Init_scene env numCubes numLights w0 Hv Hps Hls (proj1 Hc) Hl Hr)
    as (w1 & cubes & lights & HI & O).
  destruct O as (_ & Ogl & Od & _ & Onc & Onl & _ & Oq & Ocu & Oa & Oib & Otb
                 & Ocubes & Oclen & _ & Olights & Ollen & _).
  assert (R : ready w1).
  { unfold ready, uploadable.
    rewrite Oq, Ocu, Oa, Onc, Onl, Od, Oib, Otb, Ocubes, Olights, Ogl.
    cbn [length]. rewrite Oclen, Ollen.
    rewrite init_calls_store
      by (unfold sizeof_InstanceData, sizeof_mat3x4, sizeof_float in Hsize; lia).
    unfold sizeof_InstanceData, sizeof_mat3x4, sizeof_float in *.
    assert (12 * numCubes <= InstanceBuffer_DATA_SIZE env / 4)
      by (apply Z.div_le_lower_bound; lia).
    repeat split; try discriminate; try lia. }
  assert (L : ShadowVolumes._lights (scene w1) <> [])
    by (rewrite Olights; discriminate).
  exists w1. split; [exact HI|]. split; [exact R|]. split; [exact L|].
  split.
  - intros camera rm cr.
    destruct (Draw_keeps_running env camera rm cr w1 (conj R L)) as (w2 & H & _).
    exists w2. exact H.
  - intros dt.
    destruct (Update_keeps_running dt w1 (conj R L)) as (w2 & H & _).
    exists w2. exact H.
Qed.

Lemma X13_witness :
  exists w1 w2,
    ShadowVolumes.Init Sample.env 100 2 (Sample.start Sample.scene0) = Ok (tt, w1) /\
    ShadowVolumes.Draw Sample.env Sample.camera Sample.settings false w1 = Ok (tt, w2).
Proof.
  destruct (X13_Init_makes_ready Sample.env 100 2 (Sample.start Sample.scene0)
              eq_refl eq_refl eq_refl sample_rand)
    as (w1 & HI & _ & _ & HD & _).
  - vm_compute. reflexivity.
  - unfold MAX_INSTANCES. lia.
  - lia.
  - vm_compute. discriminate.
  - destruct (HD Sample.camera Sample.settings false) as (w2 & H).
    exists w1, w2. split; [exact HI|exact H].
Defined.

Lemma instances_from_nth : forall ps k i,
  nth_error (instances_from k ps) i
  = option_map (instance_of (k + Z.of_nat i)) (nth_error ps i).
Proof.
  induction ps as [|p ps IH]; intros k [|i]; try reflexivity.
  - cbn [instances_from nth_error option_map Z.of_nat]. now rewrite Z.add_0_r.
  - cbn [instances_from nth_error]. rewrite IH. f_equal. f_equal. lia.
Qed.

Ltac matrix_eval :=
  cbv beta iota zeta delta
    [translation_of rotation_of to_mat3x4 transpose mul mul_vec translate add4 scale4
     transformation t0 t1 t2 m0 m1 m2 m3 x y z w x3 y3 z3].

Lemma staged_translation p R :
  m3 R = Vec4 0 0 0 1 ->
  translation_of {| transformation := to_mat3x4 (transpose (mul (translate p) R)) |}
  = p.
Proof.
  destruct p as [px py pz]. destruct R as [[a0 a1 a2 a3] [b0 b1 b2 b3]
                                            [c0 c1 c2 c3] [d0 d1 d2 d3]].
  cbn [m3]. intros [= -> -> -> ->].
  matrix_eval. f_equal; ring.
Qed.

Lemma staged_rotation p R :
  w (m0 R) = 0%R -> w (m1 R) = 0%R -> w (m2 R) = 0%R ->
  rotation_of {| transformation := to_mat3x4 (transpose (mul (translate p) R)) |}
  = [ x (m0 R); x (m1 R); x (m2 R);
      y (m0 R); y (m1 R); y (m2 R);
      z (m0 R); z (m1 R); z (m2 R) ].
Proof.
  destruct p as [px py pz]. destruct R as [[a0 a1 a2 a3] [b0 b1 b2 b3]
                                            [c0 c1 c2 c3] [d0 d1 d2 d3]].
  cbn [m0 m1 m2 w]. intros -> -> ->.
  matrix_eval. repeat (apply (f_equal2 (@cons R)); [ring|]). reflexivity.
Qed.

Lemma instance_translation i pos : translation_of (instance_of i pos) = pos.
Proof. unfold instance_of. now apply staged_translation. Qed.

Lemma rotate_0 v : rotate 0 v = identity.
Proof.
  unfold rotate, identity. cbv zeta. rewrite cos_0, sin_0.
  destruct (normalize v) as [ax ay az]. cbn [scale3 x3 y3 z3].
  f_equal; f_equal; ring.
Qed.

Lemma instance_rotation_0 pos :
  rotation_of (instance_of 0 pos) = [1; 0; 0; 0; 1; 0; 0; 0; 1]%R.
Proof.
  unfold instance_of.
  replace (radians (0 * 20)) with 0%R by (unfold radians; lra).
  rewrite rotate_0. now rewrite staged_rotation.
Qed.

Lemma instance_rotation i pos :
  let R := rotate (radians (IZR i * 20)) (Vec3 1 1 1) in
  rotation_of (instance_of i pos)
  = [ x (m0 R); x (m1 R); x (m2 R);
      y (m0 R); y (m1 R); y (m2 R);
      z (m0 R); z (m1 R); z (m2 R) ].
Proof. intros R. unfold instance_of. fold R. now rewrite staged_rotation. Qed.

(** X14. What [UpdateInstanceData] stages for the cubes, on a scene whose
    instance count it can handle: the entry of cube [i] carries the
    position of the cube as its translation, so the cube is drawn where
    [_cubePositions] has it, and as its rotation part the (transposed)
    rotation by [i] times 20 degrees about the axis (1, 1, 1); the first
    cube is not rotated (its rotation part is the identity). *)
Theorem X14_instance_transforms :
  forall w0 : World ShadowVolumes.Scene,
    uploadable w0 ->
    let s := scene w0 in
    exists w',
      ShadowVolumes.UpdateInstanceData w0 = Ok (tt, w') /\
      (forall (i : nat) pos,
          Z.of_nat i < ShadowVolumes._numCubes s ->
          nth_error (ShadowVolumes._cubePositions s) i = Some pos ->
          exists e,
            nth_error (static_instanceData w') i = Some e /\
            translation_of e = pos /\
            (let R := rotate (radians (IZR (Z.of_nat i) * 20)) (Vec3 1 1 1) in
             rotation_of e
             = [ x (m0 R); x (m1 R); x (m2 R);
                 y (m0 R); y (m1 R); y (m2 R);
                 z (m0 R); z (m1 R); z (m2 R) ]) /\
            (i = O -> rotation_of e = [1; 0; 0; 0; 1; 0; 0; 0; 1]%R)).
Proof.
  intros w0 U s.
  pose proof (UpdateInstanceData_runs w0 U) as R. cbv zeta in R. fold s in R.
  destruct U as (Hn & Hp & Hd & Hib & Hst). fold s in Hn, Hp, Hib, Hst.
  set (n := Z.to_nat (ShadowVolumes._numCubes s)) in *.
  eexists. split; [exact R|].
  cbn [static_instanceData emit with_instanceData].
  assert (Hlen : length (instances_from 0 (firstn n (ShadowVolumes._cubePositions s)))
                 = n).
  { rewrite instances_from_length, length_firstn. lia. }
  assert (Hnth : forall i, (i < n)%nat ->
            nth_error (instances_from 0 (firstn n (ShadowVolumes._cubePositions s))
                       ++ skipn n (static_instanceData w0)) i
            = option_map (instance_of (Z.of_nat i))
                         (nth_error (ShadowVolumes._cubePositions s) i)).
  { intros i Hi. rewrite nth_error_app1 by lia.
    rewrite instances_from_nth, nth_error_firstn, Z.add_0_l.
    destruct (Nat.ltb_spec i n); [reflexivity|lia]. }
  intros i pos Hi Hpos. exists (instance_of (Z.of_nat i) pos).
  rewrite Hnth by lia. rewrite Hpos.
  split; [reflexivity|]. split; [apply instance_translation|].
  split; [apply instance_rotation|].
  intros ->. apply instance_rotation_0.
Qed.

Lemma X14_witness :
  exists w' e,
    ShadowVolumes.UpdateInstanceData Sample.initialised = Ok (tt, w') /\
    nth_error (static_instanceData w') 0 = Some e /\
    translation_of e = Vec3 0 (1 / 2) 0 /\
    rotation_of e = [1; 0; 0; 0; 1; 0; 0; 0; 1]%R.
Proof.
  destruct (X14_instance_transforms Sample.initialised sample_uploadable)
    as (w' & HU & H).
  destruct (H O (Vec3 0 (1 / 2) 0)) as (e & He & Ht & _ & Hr).
  - vm_compute. reflexivity.
  - vm_compute. reflexivity.
  - exists w', e. split; [exact HU|]. split; [exact He|].
    split; [exact Ht|exact (Hr eq_refl)].
Defined.

Lemma X1_witness :
  exists cs st,
    ShadowVolumes.shadowPass Sample.env (scene Sample.initialised) Sample.camera
      true (Vec3 0 3 0) (Vec4 1 1 1 0) = Ok cs /\
    draws gl_initial cs = [(glDrawElementsInstanced GL_TRIANGLES_ADJACENCY 72 5, st)] /\
    dpfail (stencil_back st) = GL_INCR_WRAP /\
    dpfail (stencil_front st) = GL_DECR_WRAP.
Proof.
  destruct (depth_fail_stencil_ops Sample.env (scene Sample.initialised)
              Sample.camera (Vec3 0 3 0) (Vec4 1 1 1 0) gl_initial
              {| GetVAO := 12; GetIBOSize := 36 |}
              {| GetVAO := 13; GetIBOSize := 72 |} eq_refl eq_refl)
    as (cs & st & H & Hd & Hb & Hf).
  exists cs, st. split; [exact H|]. split; [exact Hd|].
  rewrite Hb, Hf. split; reflexivity.
Defined.

Lemma X15_witness :
  exists w1,
    ShadowVolumes.Init Sample.env 5 1 (Sample.start Sample.scene0) = Ok (tt, w1) /\
    ShadowVolumes.Init Sample.env 9 2 w1 = Ok (tt, w1).
Proof.
  destruct (Init_settles Sample.env 5 1 (Sample.start Sample.scene0)
              ltac:(lia) ltac:(lia)) as (w1 & H & Hs).
  exists w1. split; [exact H|apply Hs].
Defined.

Ltac spot_eval_in H :=
  cbv beta iota zeta delta
    [bind assign this ret genVertexArray genBuffer run seqW call getRandom
     emit with_scene next_random scene gl calls static_instanceData static_t rand
     Spotlights.set_numCubes Spotlights.set_numSpotLights
     Spotlights.set_numPointLights Spotlights.set_meshes
     Spotlights.set_vao Spotlights.set_instancingBuffer
     Spotlights.set_transformBlockUBO Spotlights.set_cubePositions
     Spotlights.set_lights Spotlights.set_spotLights Spotlights.set_loadedTexture
     Spotlights._loadedTextures Spotlights._numCubes
     Spotlights._cubePositions Spotlights._numPointLights
     Spotlights._numSpotLights Spotlights._lights Spotlights._spotLights
     Spotlights._vao Spotlights._quad Spotlights._cube
     Spotlights._cubeAdjacency Spotlights._instancingBuffer
     Spotlights._transformBlockUBO Spotlights.depthMapTexture
     Spotlights.depthMapFBO spot_counts] in H.

Ltac spot_eval :=
  cbv beta iota zeta delta
    [bind assign this ret genVertexArray genBuffer run seqW call getRandom
     emit with_scene next_random scene gl calls static_instanceData static_t rand
     Spotlights.set_numCubes Spotlights.set_numSpotLights
     Spotlights.set_numPointLights Spotlights.set_meshes
     Spotlights.set_vao Spotlights.set_instancingBuffer
     Spotlights.set_transformBlockUBO Spotlights.set_cubePositions
     Spotlights.set_lights Spotlights.set_spotLights Spotlights.set_loadedTexture
     Spotlights._loadedTextures Spotlights._numCubes
     Spotlights._cubePositions Spotlights._numPointLights
     Spotlights._numSpotLights Spotlights._lights Spotlights._spotLights
     Spotlights._vao Spotlights._quad Spotlights._cube
     Spotlights._cubeAdjacency Spotlights._instancingBuffer
     Spotlights._transformBlockUBO Spotlights.depthMapTexture
     Spotlights.depthMapFBO spot_counts].

(** X16. [Init] of the spot-light pipeline, on a scene not yet initialised,
    asked for [numCubes >= 0] cubes and [numLights >= 1] lights: it
    returns; [numLights] counts the point lights only; whatever the
    arguments there is one spot light, at (-3, 2, 0) with direction
    (0.5, -0.5, 0), angles of 30 and 40 degrees and a reach of 5000; the
    point lights and the cubes are made as in the shadow-volume pipeline:
    the first light at (-3, 3, 0), the other lights all at (0, 5, 0), the
    first cube at (0, 0.5, 0) and the other cubes within the box. *)
Theorem X16_spot_Init_builds_scene :
  forall env numCubes numLights (w0 : World Spotlights.Scene),
    Spotlights._vao (scene w0) = 0 ->
    Spotlights._cubePositions (scene w0) = [] ->
    Spotlights._lights (scene w0) = [] ->
    Spotlights._spotLights (scene w0) = [] ->
    0 <= numCubes -> 1 <= numLights ->
    (forall n, (0 <= rand w0 n <= 1)%R) ->
    exists w' cubes lights,
      Spotlights.Init env numCubes numLights w0 = Ok (tt, w') /\
      Spotlights._numCubes (scene w') = numCubes /\
      Spotlights._numPointLights (scene w') = numLights /\
      Spotlights._numSpotLights (scene w') = 1 /\
      Spotlights._spotLights (scene w') = [first_spot_light numLights] /\
      Spotlights._cubePositions (scene w') = Vec3 0 (1 / 2) 0 :: cubes /\
      length cubes = Z.to_nat (numCubes - 1) /\
      Forall in_box cubes /\
      Spotlights._lights (scene w') = hero_light numLights :: lights /\
      length lights = Z.to_nat (numLights - 1) /\
      Forall (fun l => position l = Vec3 0 5 0 /\ light_parameters_in_range l) lights.
Proof.
  intros env numCubes numLights w0 Hv Hps Hls Hss Hc Hl Hr.
  destruct w0 as [s d t g c r].
  destruct s as [tex nc ps npl nsl ls ss vao q cu ad ib tb dt df].
  cbn [scene Spotlights._vao Spotlights._cubePositions Spotlights._lights
       Spotlights._spotLights rand] in Hv, Hps, Hls, Hss, Hr.
  subst vao ps ls ss.
  unfold Spotlights.Init, for_loop. spot_eval.
  cbn [truthy Z.eqb negb app].
  rewrite reserve_ok by exact Hc. cbv beta iota.
  match goal with |- context [iterate 1 ?n ?b ?w1] =>
    destruct (iterate_invariant b n
                (fun j w' =>
                   spot_counts numCubes numLights [] w' /\
                   Spotlights._lights (scene w') = [] /\
                   (forall k, (0 <= rand w' k <= 1)%R) /\
                   exists cs, Spotlights._cubePositions (scene w')
                              = Vec3 0 (1 / 2) 0 :: cs /\
                              length cs = j /\ Forall in_box cs) 1 w1)
      as (w2 & E2 & Q2 & L2 & R2 & cubes & C2 & N2 & B2)
  end.
  { intros j w' Hj (Q & L & R & cs & C & N & B).
    destruct w' as [s' d' t' g' c' r']. destruct s'.
    spot_eval. spot_eval_in Q. spot_eval_in L. spot_eval_in R. spot_eval_in C.
    eexists. split; [reflexivity|]. spot_eval.
    split; [exact Q|]. split; [exact L|]. split; [intros k; apply R|].
    exists (cs ++ [random_cube (r' 0%nat) (r' 1%nat) (r' 2%nat)]).
    split; [rewrite C; reflexivity|].
    split; [rewrite length_app, N; cbn [length]; lia|].
    apply Forall_snoc; [exact B|]. apply random_cube_in_box; apply R. }
  { spot_eval. split; [repeat split; reflexivity|]. split; [reflexivity|].
    split; [exact Hr|]. exists []. repeat split. constructor. }
  rewrite E2. cbv beta iota.
  rewrite reserve_ok by lia. cbv beta iota.
  rewrite reserve_ok by lia. cbv beta iota.
  match goal with |- context [iterate 1 ?n ?b ?w1] =>
    destruct (iterate_invariant b n
                (fun j w' =>
                   spot_counts numCubes numLights [first_spot_light numLights] w' /\
                   Spotlights._cubePositions (scene w') = Vec3 0 (1 / 2) 0 :: cubes /\
                   (forall k, (0 <= rand w' k <= 1)%R) /\
                   exists ls, Spotlights._lights (scene w')
                              = hero_light numLights :: ls /\
                              length ls = j /\
                              Forall (fresh_light numLights) ls) 1 w1)
      as (w3 & E3 & Q3 & C3 & R3 & lights & L3 & N3 & B3)
  end.
  { intros j w' Hj (Q & C & R & ls & L & N & B).
    destruct w' as [s' d' t' g' c' r']. destruct s'.
    spot_eval. spot_eval_in Q. spot_eval_in L. spot_eval_in R. spot_eval_in C.
    eexists. split; [reflexivity|]. spot_eval.
    split; [exact Q|]. split; [exact C|]. split; [intros k; apply R|].
    eexists. split; [rewrite L; reflexivity|].
    split; [rewrite length_app, N; cbn [length]; lia|].
    apply Forall_snoc; [exact B|].
    unfold fresh_light. cbn [position movement color x y z w].
    split; [reflexivity|].
    pose proof (R 0%nat). pose proof (R 1%nat). pose proof (R 2%nat).
    pose proof (R 3%nat). pose proof (R 4%nat). pose proof (R 5%nat).
    pose proof (R 6%nat).
    repeat split; lra. }
  { spot_eval. spot_eval_in Q2. spot_eval_in L2. spot_eval_in R2. spot_eval_in C2.
    destruct Q2 as (Q21 & Q22 & Q23 & Q24).
    split; [rewrite Q24; repeat split; assumption|].
    split; [exact C2|]. split; [exact R2|].
    exists []. split; [rewrite L2; reflexivity|]. split; [reflexivity|constructor]. }
  rewrite E3. cbv beta iota.
  eexists. exists cubes, lights. split; [reflexivity|].
  spot_eval. spot_eval_in Q3. spot_eval_in C3. spot_eval_in L3.
  destruct Q3 as (Q31 & Q32 & Q33 & Q34).
  repeat (split; [assumption|]).
  eapply Forall_impl; [|exact B3].
  intros l (Hp & (Hx & Hy & Hz & Hw) & (Hr' & Hg & Hb) & Ha).
  rewrite curve_start in Hp. split; [exact Hp|].
  unfold light_parameters_in_range. repeat split; lra.
Qed.

Lemma spot_sample_rand :
  forall n, (0 <= rand (Sample.start Sample.spot_scene0) n <= 1)%R.
Proof. intros n. unfold Sample.start. cbn [rand]. lra. Qed.

Lemma X16_witness :
  exists w',
    Spotlights.Init Sample.env 5 3 (Sample.start Sample.spot_scene0) = Ok (tt, w') /\
    Spotlights._numSpotLights (scene w') = 1 /\
    length (Spotlights._spotLights (scene w')) = 1%nat /\
    length (Spotlights._lights (scene w')) = 3%nat.
Proof.
  destruct (X16_spot_Init_builds_scene Sample.env 5 3
              (Sample.start Sample.spot_scene0)
              eq_refl eq_refl eq_refl eq_refl ltac:(lia) ltac:(lia) spot_sample_rand)
    as (w' & cubes & lights & HI & _ & _ & Hn & Hs & _ & _ & _ & Hl & Hll & _).
  exists w'. split; [exact HI|]. split; [exact Hn|].
  split; [now rewrite Hs|]. rewrite Hl. cbn [length]. now rewrite Hll.
Defined.







(** X18. The three uniform updates of the spot-light pipeline never crash
    and differ only as follows, for every render pass value:
    [UpdateProgramDataSpotlights] issues the calls of [UpdateProgramData]
    followed by the four cone uniforms (direction, inner and outer angle,
    reach), which it sets whatever the render pass;
    [UpdateProgramDataSpotlightsShadow] issues the same calls without the
    upload of [lightMatrix].  [UpdateProgramData] uploads [lightMatrix]
    exactly when the render pass holds the [DepthPass] flag, and never
    sets a cone uniform: its [lightDirection] argument is not used. *)
Theorem X18_spot_program_data_variants :
  forall program renderPass camera lightPosition lightColor lightDirection
         innerAngleDegrees outerAngleDegrees maxLightDistance,
  exists base,
    Spotlights.UpdateProgramData program renderPass camera lightPosition
      lightColor lightDirection = Ok base /\
    Spotlights.UpdateProgramDataSpotlights program renderPass camera
      lightPosition lightColor lightDirection innerAngleDegrees
      outerAngleDegrees maxLightDistance
    = Ok (base ++ spot_uniforms program lightDirection innerAngleDegrees
                    outerAngleDegrees maxLightDistance) /\
    Spotlights.UpdateProgramDataSpotlightsShadow program renderPass camera
      lightPosition lightColor lightDirection innerAngleDegrees
      outerAngleDegrees maxLightDistance
    = Ok (filter (fun c => negb (is_uniform "lightMatrix" c)) base
          ++ spot_uniforms program lightDirection innerAngleDegrees
               outerAngleDegrees maxLightDistance) /\
    (sets_uniform "lightMatrix" base = true <->
     has_flag renderPass RenderPass.DepthPass) /\
    (forall lightDirection',
       Spotlights.UpdateProgramData program renderPass camera lightPosition
         lightColor lightDirection' = Ok base) /\
    Forall (fun name => sets_uniform name base = false)
           ["lightDirection"; "innerAngleDegrees"; "outerAngleDegrees";
            "maxLightDistance"]%string.
Proof.
  intros program rp camera lp lc ld ia oa md.
  unfold Spotlights.UpdateProgramData, Spotlights.UpdateProgramDataSpotlights,
    Spotlights.UpdateProgramDataSpotlightsShadow, has_flag.
  destruct (truthy (Z.land rp (Z.lor RenderPass.ShadowVolume RenderPass.LightPass)));
    destruct (truthy (Z.land rp RenderPass.DepthPass)) eqn:D;
    destruct (truthy (Z.land rp RenderPass.LightPass));
    (eexists; split; [reflexivity|]);
    (split; [reflexivity|]); (split; [reflexivity|]);
    unfold truthy in D; rewrite ?negb_true_iff, ?negb_false_iff in D;
    (split; [|split; [reflexivity|repeat constructor]]);
    cbn; split; intros H; try congruence;
    try (apply Z.eqb_neq; assumption);
    apply Z.eqb_eq in D; contradiction.
Qed.

Lemma keeps_seq {A} (f : Main.Program -> A) a b :
  keeps f a -> keeps f b -> keeps f (Main.seq a b).
Proof. intros Ha Hb p. unfold Main.seq. now rewrite Hb, Ha. Qed.

Lemma keeps_reading {A} (f : Main.Program -> A) k :
  (forall q, keeps f (k q)) -> keeps f (Main.reading k).
Proof. intros H p. apply H. Qed.

Lemma keeps_if {A} (f : Main.Program -> A) (c : bool) a b :
  keeps f a -> keeps f b -> keeps f (if c then a else b).
Proof. now destruct c. Qed.

Lemma keeps_if_dec {A} (f : Main.Program -> A) {P Q} (c : {P} + {Q}) a b :
  keeps f a -> keeps f b -> keeps f (if c then a else b).
Proof. now destruct c. Qed.

Lemma keeps_gen {A} (f : Main.Program -> A) g store :
  (forall n, keeps f (store n)) ->
  (forall o p, f (Main.set_objects o p) = f p) ->
  keeps f (Main.gen g store).
Proof. intros H H' p. unfold Main.gen. cbv zeta. now rewrite H, H'. Qed.

Ltac keeps_step :=
  match goal with
  | |- keeps _ (Main.seq _ _) => apply keeps_seq
  | |- keeps _ (Main.reading _) => apply keeps_reading; intros ?
  | |- keeps _ (let _ := _ in _) => cbv zeta
  | |- keeps _ (if _ then _ else _) => first [apply keeps_if | apply keeps_if_dec]
  | |- keeps _ (Main.gen _ _) =>
      apply keeps_gen; [intros ? ?; reflexivity | intros ? ?; reflexivity]
  | |- keeps _ Main.nop => intros ?; reflexivity
  | |- keeps _ (Main.call _) => intros ?; reflexivity
  | |- keeps _ (Main.gl _) => intros ?; reflexivity
  | |- keeps _ (Main.set_renderTarget _) => intros ?; reflexivity
  | |- keeps _ (Main.set_depthStencil _) => intros ?; reflexivity
  | |- keeps _ (Main.set_renderMode _) => intros ?; reflexivity
  | |- keeps _ (Main.set_animate _) => intros ?; reflexivity
  | |- keeps _ (Main.set_carmackReverse _) => intros ?; reflexivity
  | |- keeps _ (Main.set_fov _) => intros ?; reflexivity
  end.

Lemma CreateDepthBuffer_keeps_controls d w h msaa :
  keeps controls (Main.CreateDepthBuffer d w h msaa).
Proof. unfold Main.CreateDepthBuffer. repeat keeps_step. Qed.

Lemma createFramebuffer_keeps_controls d w h msaa :
  keeps controls (Main.createFramebuffer d w h msaa).
Proof.
  unfold Main.createFramebuffer. repeat keeps_step.
  apply CreateDepthBuffer_keeps_controls.
Qed.

Lemma createFramebuffer_keeps_fov d w h msaa :
  keeps Main.fov (Main.createFramebuffer d w h msaa).
Proof.
  intros p. pose proof (createFramebuffer_keeps_controls d w h msaa p) as H.
  unfold controls in H. congruence.
Qed.

Lemma seq_run (a b : Main.Stmt) p : Main.seq a b p = b (a p).
Proof. reflexivity. Qed.

Lemma keeps_run {A} (f : Main.Program -> A) s p : keeps f s -> f (s p) = f p.
Proof. intros H. apply H. Qed.

(** the conditions of [keyCallback] on a key that is known *)
Ltac key_eval :=
  repeat match goal with
    | |- context [Z.eqb ?a ?b] =>
        let v := eval vm_compute in (Z.eqb a b) in
        match v with
        | true => change (Z.eqb a b) with true
        | false => change (Z.eqb a b) with false
        end
    end;
  cbn [andb orb].

Ltac run_main :=
  cbv beta iota delta [Main.seq Main.reading Main.nop Main.set_projection].

(** the field of view after a key event, from the one before *)
Lemma keyCallback_fov d key scancode action mods p :
  let zoomed_in :=
    if (key =? Main.GLFW_KEY_KP_ADD)
       || (key =? Main.GLFW_KEY_EQUAL) && (action =? Main.GLFW_PRESS)
    then (if Rlt_dec (Main.fov p - 1) 5 then 5 else Main.fov p - 1)%R
    else Main.fov p in
  let zoomed_out :=
    if (key =? Main.GLFW_KEY_KP_SUBTRACT)
       || (key =? Main.GLFW_KEY_MINUS) && (action =? Main.GLFW_PRESS)
    then (if Rge_dec (zoomed_in + 1) 180 then 179 else zoomed_in + 1)%R
    else zoomed_in in
  Main.fov (Main.keyCallback d key scancode action mods p)
  = if (key =? Main.GLFW_KEY_BACKSPACE) && (action =? Main.GLFW_PRESS)
    then 45%R else zoomed_out.
Proof.
  cbv zeta. unfold Main.keyCallback. rewrite !seq_run.
  match goal with
  | |- Main.fov (_ (_ (_ (_ ?q)))) = _ =>
      assert (K : Main.fov q = Main.fov p);
      [|rewrite <- K; generalize q; clear K p; intros p]
  end.
  { repeat match goal with
      | |- Main.fov (?s ?x) = _ =>
          transitivity (Main.fov x);
          [apply keeps_run; repeat keeps_step; apply createFramebuffer_keeps_fov|]
      end.
    reflexivity. }
  destruct ((key =? Main.GLFW_KEY_KP_ADD)
            || (key =? Main.GLFW_KEY_EQUAL) && (action =? Main.GLFW_PRESS));
    destruct ((key =? Main.GLFW_KEY_KP_SUBTRACT)
              || (key =? Main.GLFW_KEY_MINUS) && (action =? Main.GLFW_PRESS));
    destruct ((key =? Main.GLFW_KEY_BACKSPACE) && (action =? Main.GLFW_PRESS));
    run_main; unfold Main.call;
    cbn [Main.fov Main.set_fov Main.set_made];
    repeat match goal with
      | |- context [Rlt_dec ?a ?b] =>
          destruct (Rlt_dec a b); cbn [Main.fov Main.set_fov Main.set_made]
      | |- context [Rge_dec ?a ?b] =>
          destruct (Rge_dec a b); cbn [Main.fov Main.set_fov Main.set_made]
      end;
    reflexivity.
Qed.

Lemma keyCallback_ends d key scancode action mods p :
  exists q, Main.keyCallback d key scancode action mods p = Main.set_projection q.
Proof. unfold Main.keyCallback. rewrite !seq_run. eexists. reflexivity. Qed.

Lemma keyCallback_whole_fov d key scancode action mods p :
  whole_fov p -> whole_fov (Main.keyCallback d key scancode action mods p).
Proof.
  intros (k & Hk & Hlo & Hhi).
  unfold whole_fov. rewrite keyCallback_fov. cbv zeta. rewrite Hk.
  destruct ((key =? Main.GLFW_KEY_BACKSPACE) && (action =? Main.GLFW_PRESS));
    [exists 45; split; [reflexivity|lia]|].
  assert (Z1 : exists k1, (if (key =? Main.GLFW_KEY_KP_ADD)
                    || (key =? Main.GLFW_KEY_EQUAL) && (action =? Main.GLFW_PRESS)
                 then (if Rlt_dec (IZR k - 1) 5 then 5 else IZR k - 1)%R
                 else IZR k) = IZR k1 /\ 5 <= k1 <= 179).
  { destruct ((key =? Main.GLFW_KEY_KP_ADD)
              || (key =? Main.GLFW_KEY_EQUAL) && (action =? Main.GLFW_PRESS));
      [|exists k; split; [reflexivity|lia]].
    destruct (Rlt_dec (IZR k - 1) 5) as [L|L];
      [exists 5; split; [reflexivity|lia]|].
    exists (k - 1). split; [now rewrite minus_IZR|].
    rewrite <- minus_IZR in L. apply Rnot_lt_le, le_IZR in L. lia. }
  destruct Z1 as (k1 & -> & Hlo1 & Hhi1).
  destruct ((key =? Main.GLFW_KEY_KP_SUBTRACT)
            || (key =? Main.GLFW_KEY_MINUS) && (action =? Main.GLFW_PRESS));
    [|exists k1; split; [reflexivity|lia]].
  destruct (Rge_dec (IZR k1 + 1) 180) as [G|G];
    [exists 179; split; [reflexivity|lia]|].
  exists (k1 + 1). split; [now rewrite plus_IZR|].
  rewrite <- plus_IZR in G. apply Rnot_ge_lt, lt_IZR in G. lia.
Qed.

(** X19. Key events keep the field of view a whole number of degrees
    between 5 and 179: whatever the key and the action, a field of view in
    that range stays in it, and it either moves by at most one degree or is
    reset to 45.  Every key event ends by handing the field of view it
    leaves to the camera, as the last call it makes. *)
Theorem X19_keyCallback_keeps_fov_in_range :
  forall d key scancode action mods p,
    whole_fov p ->
    let p' := Main.keyCallback d key scancode action mods p in
    whole_fov p' /\
    (Main.fov p' = 45 \/ Rabs (Main.fov p' - Main.fov p) <= 1)%R /\
    exists cs,
      Main.made p'
      = cs ++ [Main.SetProjection (Main.fov p') (Main.aspect p')
                 Main.nearClipPlane Main.farClipPlane].
Proof.
  intros d key scancode action mods p W p'.
  split; [apply keyCallback_whole_fov, W|].
  destruct W as (k & Hk & Hlo & Hhi).
  assert (F := keyCallback_fov d key scancode action mods p).
  cbv zeta in F. fold p' in F.
  split.
  - rewrite F.
    destruct ((key =? Main.GLFW_KEY_BACKSPACE) && (action =? Main.GLFW_PRESS));
      [now left|right].
    destruct ((key =? Main.GLFW_KEY_KP_ADD)
              || (key =? Main.GLFW_KEY_EQUAL) && (action =? Main.GLFW_PRESS));
      destruct ((key =? Main.GLFW_KEY_KP_SUBTRACT)
                || (key =? Main.GLFW_KEY_MINUS) && (action =? Main.GLFW_PRESS));
      repeat match goal with
        | |- context [Rlt_dec ?a ?b] => destruct (Rlt_dec a b)
        | |- context [Rge_dec ?a ?b] => destruct (Rge_dec a b)
        end;
      apply Rabs_le; rewrite Hk in *;
      assert (5 <= IZR k <= 179)%R by (split; apply IZR_le; lia); lra.
  - destruct (keyCallback_ends d key scancode action mods p) as (q & E).
    subst p'. rewrite E. exists (Main.made q). reflexivity.
Qed.

Lemma X19_witness :
  whole_fov (Main.keyCallback sample_driver Main.GLFW_KEY_KP_ADD 0
               Main.GLFW_RELEASE 0 Main.program_start).
Proof.
  refine (proj1 (X19_keyCallback_keeps_fov_in_range sample_driver
                   Main.GLFW_KEY_KP_ADD 0 Main.GLFW_RELEASE 0
                   Main.program_start _)).
  exists 45. split; [reflexivity|lia].
Defined.

(** X20. The keypad zoom keys act on every event of the key, not only on a
    press: [keyCallback] with the keypad plus key lowers the field of view
    by one degree (not below 5) whatever the action is, release and repeat
    included, and with the keypad minus key raises it by one degree (from
    180 on it becomes 179).  The [=] and [-] keys zoom in the same way on a
    press and leave the field of view alone on any other action. *)
Theorem X20_keypad_zoom_on_any_action :
  forall d scancode action mods p,
    let zoom_in := (if Rlt_dec (Main.fov p - 1) 5 then 5 else Main.fov p - 1)%R in
    let zoom_out := (if Rge_dec (Main.fov p + 1) 180 then 179 else Main.fov p + 1)%R in
    let after key action :=
      Main.fov (Main.keyCallback d key scancode action mods p) in
    after Main.GLFW_KEY_KP_ADD action = zoom_in /\
    after Main.GLFW_KEY_KP_SUBTRACT action = zoom_out /\
    after Main.GLFW_KEY_EQUAL Main.GLFW_PRESS = zoom_in /\
    after Main.GLFW_KEY_MINUS Main.GLFW_PRESS = zoom_out /\
    (action <> Main.GLFW_PRESS ->
     after Main.GLFW_KEY_EQUAL action = Main.fov p /\
     after Main.GLFW_KEY_MINUS action = Main.fov p).
Proof.
  intros d scancode action mods p zoom_in zoom_out after. subst after. cbv beta.
  rewrite !keyCallback_fov. cbv zeta.
  repeat split; try (key_eval; reflexivity).
  - intros. apply Z.eqb_neq in H. rewrite H. key_eval. reflexivity.
  - intros. apply Z.eqb_neq in H. rewrite H. key_eval. reflexivity.
Qed.

(** X21. Releasing or holding a key changes nothing: on an event whose
    action is not a press, of any key but the two keypad zoom keys,
    [keyCallback] only hands the unchanged field of view to the camera.
    No setting, no object of the context and no other call is involved. *)
Theorem X21_keyCallback_ignores_release :
  forall d key scancode action mods p,
    action <> Main.GLFW_PRESS ->
    key <> Main.GLFW_KEY_KP_ADD ->
    key <> Main.GLFW_KEY_KP_SUBTRACT ->
    Main.keyCallback d key scancode action mods p
    = Main.set_made
        (Main.made p ++ [Main.SetProjection (Main.fov p) (Main.aspect p)
                           Main.nearClipPlane Main.farClipPlane]) p.
Proof.
  intros d key scancode action mods p Ha Hk1 Hk2.
  apply Z.eqb_neq in Ha, Hk1, Hk2.
  unfold Main.keyCallback. rewrite Ha, Hk1, Hk2, !andb_false_r.
  reflexivity.
Qed.

Lemma X21_witness :
  Main.animate (Main.keyCallback sample_driver Main.GLFW_KEY_F5 0
                  Main.GLFW_RELEASE 0 Main.program_start) = false.
Proof.
  rewrite (X21_keyCallback_ignores_release sample_driver Main.GLFW_KEY_F5 0
             Main.GLFW_RELEASE 0 Main.program_start);
    [reflexivity | discriminate | discriminate | discriminate].
Defined.

(** X22. F2, F4, F5 and F6 are switches: a press flips the flag of the key
    (wireframe, tonemapping, light animation, Carmack's reverse), and a
    second press puts every control back as it was; the objects of the
    context are not touched.  A press of F3 flips vsync and sets the swap
    interval to match the new value, 1 for on and 0 for off, before the
    projection is set. *)
Theorem X22_function_keys_toggle :
  forall d scancode mods p,
    let press key q := Main.keyCallback d key scancode Main.GLFW_PRESS mods q in
    wireframe (Main.renderMode (press Main.GLFW_KEY_F2 p))
    = negb (wireframe (Main.renderMode p)) /\
    tonemapping (Main.renderMode (press Main.GLFW_KEY_F4 p))
    = negb (tonemapping (Main.renderMode p)) /\
    Main.animate (press Main.GLFW_KEY_F5 p) = negb (Main.animate p) /\
    Main.carmackReverse (press Main.GLFW_KEY_F6 p) = negb (Main.carmackReverse p) /\
    Forall (fun key =>
              controls (press key (press key p)) = controls p /\
              Main.objects (press key (press key p)) = Main.objects p)
           [Main.GLFW_KEY_F2; Main.GLFW_KEY_F4; Main.GLFW_KEY_F5;
            Main.GLFW_KEY_F6] /\
    vsync (Main.renderMode (press Main.GLFW_KEY_F3 p))
    = negb (vsync (Main.renderMode p)) /\
    Main.made (press Main.GLFW_KEY_F3 p)
    = Main.made p
      ++ [Main.glfwSwapInterval (if vsync (Main.renderMode p) then 0 else 1);
          Main.SetProjection (Main.fov p) (Main.aspect p)
            Main.nearClipPlane Main.farClipPlane].
Proof.
  intros d scancode mods p press. subst press. cbv beta.
  destruct p as [w h f m [vs wf tm ms] an cr fb rt ds dt df ob md].
  unfold Main.keyCallback. key_eval.
  split; [reflexivity|]. split; [reflexivity|]. split; [reflexivity|].
  split; [reflexivity|].
  split; [destruct wf, tm, an, cr; repeat constructor|].
  split; [destruct vs; reflexivity|].
  destruct vs; cbn; rewrite <- app_assoc; reflexivity.
Qed.

Lemma mouse_moves_last ps x y p :
  Main.mouseStatus (mouse_moves (ps ++ [(x, y)]) p)
  = {| Main.x := x; Main.y := y;
       Main.prevX := Main.prevX (Main.mouseStatus p);
       Main.prevY := Main.prevY (Main.mouseStatus p) |}.
Proof.
  unfold mouse_moves. rewrite fold_left_app. cbn [fold_left fst snd].
  assert (K : forall q,
             Main.prevX (Main.mouseStatus (fold_left
               (fun q xy => Main.mouseMoveCallback (fst xy) (snd xy) q) ps q))
             = Main.prevX (Main.mouseStatus q) /\
             Main.prevY (Main.mouseStatus (fold_left
               (fun q xy => Main.mouseMoveCallback (fst xy) (snd xy) q) ps q))
             = Main.prevY (Main.mouseStatus q)).
  { induction ps as [|a ps IH]; intros q; [split; reflexivity|].
    cbn [fold_left]. destruct (IH (Main.mouseMoveCallback (fst a) (snd a) q)) as (E1 & E2).
    rewrite E1, E2. split; reflexivity. }
  destruct (K p) as (E1 & E2).
  unfold Main.mouseMoveCallback at 1. unfold Main.reading.
  cbn [Main.mouseStatus Main.set_mouseStatus]. rewrite E1, E2. reflexivity.
Qed.

(** X23. The mouse movement a frame sees is the distance between the last
    position reported before it and the last position reported before the
    frame earlier: positions reported in between do not count, the
    movements of successive frames add up without drift, and a frame
    without a mouse event sees no movement at all. *)
Theorem X23_mouse_movement_per_frame :
  forall p ps x1 y1 qs x2 y2,
    let p1 := mouse_moves (ps ++ [(x1, y1)]) p in
    let frame1 := Main.Update (Main.mouseStatus p1) in
    let p2 := mouse_moves (qs ++ [(x2, y2)])
                (Main.set_mouseStatus (snd frame1) p1) in
    let frame2 := Main.Update (Main.mouseStatus p2) in
    let frame3 := Main.Update (snd frame2) in
    fst frame1 = (x1 - Main.prevX (Main.mouseStatus p),
                  y1 - Main.prevY (Main.mouseStatus p))%R /\
    fst frame2 = (x2 - x1, y2 - y1)%R /\
    fst frame3 = (0, 0)%R.
Proof.
  intros p ps x1 y1 qs x2 y2 p1 frame1 p2 frame2 frame3.
  subst frame3 frame2 p2 frame1 p1.
  rewrite !mouse_moves_last. unfold Main.Update.
  cbn [fst snd Main.x Main.y Main.prevX Main.prevY Main.mouseStatus
       Main.set_mouseStatus].
  rewrite !Rminus_diag. repeat split.
Qed.

Lemma createFramebuffer_steps d width height MSAA p :
  Main.createFramebuffer d width height MSAA p
  = depth_map_framebuffer d
      (depth_map_store d width height
         (depth_map_names d
            (finish_framebuffer d
               (depth_stencil_store d width height MSAA
                  (depth_stencil_name d
                     (render_target_store d width height MSAA
                        (render_target_name d
                           (own_framebuffer d p)))))))).
Proof.
  cbv beta delta [Main.createFramebuffer Main.CreateDepthBuffer
                  own_framebuffer render_target_name render_target_store
                  depth_stencil_name depth_stencil_store finish_framebuffer
                  depth_map_names depth_map_store depth_map_framebuffer
                  Main.seq].
  reflexivity.
Qed.

Section Tables.
Context {A : Type}.
Implicit Types (t : GLObjects.Table A) (n m : GLuint).
Import GLObjects.

Lemma lookup_put n m a t :
  lookup m (put n a t)
  = if m =? n then match lookup n t with Some _ => Some (Some a) | None => None end
    else lookup m t.
Proof.
  induction t as [|[k v] t IH]; cbn [put map lookup fst].
  - destruct (m =? n); reflexivity.
  - fold (put n a t).
    destruct (Z.eqb_spec k n) as [->|E]; cbn [lookup]; rewrite IH;
      destruct (Z.eqb_spec m n) as [->|E']; rewrite ?Z.eqb_refl; try reflexivity.
    + destruct (Z.eqb_spec n m); [congruence|reflexivity].
    + destruct (Z.eqb_spec k n); [congruence|reflexivity].
Qed.

Lemma lookup_drop n m t :
  lookup m (drop n t) = if m =? n then None else lookup m t.
Proof.
  induction t as [|[k v] t IH]; cbn [drop filter lookup fst].
  - destruct (m =? n); reflexivity.
  - fold (drop n t).
    destruct (Z.eqb_spec k n) as [->|E]; cbn [negb lookup]; rewrite IH;
      destruct (Z.eqb_spec m n) as [->|E']; rewrite ?Z.eqb_refl; try reflexivity.
    + destruct (Z.eqb_spec n m); [congruence|reflexivity].
    + destruct (Z.eqb_spec k n); [congruence|reflexivity].
Qed.

Lemma lookup_None n t : lookup n t = None <-> ~ In n (names t).
Proof.
  induction t as [|[k v] t IH]; cbn [lookup names map fst In].
  - tauto.
  - fold (names t). destruct (k =? n) eqn:E.
    + apply Z.eqb_eq in E. split; [discriminate|]. intros H. exfalso. auto.
    + apply Z.eqb_neq in E. rewrite IH. tauto.
Qed.

Lemma lookup_In n t : In n (names t) -> exists v, lookup n t = Some v.
Proof.
  intros H. destruct (lookup n t) eqn:E; [eauto|].
  apply lookup_None in E. contradiction.
Qed.

Lemma lookup_Some_In n t v : lookup n t = Some v -> In n (names t).
Proof.
  intros H. destruct (in_dec Z.eq_dec n (names t)) as [I|I]; [exact I|].
  apply lookup_None in I. congruence.
Qed.

Lemma names_put n a t : names (put n a t) = names t.
Proof.
  unfold names, put. rewrite map_map. apply map_ext_in.
  intros [k v] _. cbn [fst]. destruct (k =? n) eqn:E; [|reflexivity].
  apply Z.eqb_eq in E. now subst.
Qed.

Lemma length_put n a t : length (put n a t) = length t.
Proof. apply length_map. Qed.

Lemma In_names_drop n m t : In m (names (drop n t)) <-> In m (names t) /\ m <> n.
Proof.
  induction t as [|[k v] t IH]; cbn [drop filter names map fst In].
  - tauto.
  - fold (drop n t). fold (names t). destruct (k =? n) eqn:E; cbn [negb].
    + apply Z.eqb_eq in E. subst k. unfold names in IH. rewrite IH.
      split; [tauto|]. intros [[H|H] H']; [congruence|tauto].
    + apply Z.eqb_neq in E. cbn [map fst In]. unfold names in IH. rewrite IH.
      split; [intros [H|H]; [subst; tauto|tauto]|tauto].
Qed.

Lemma NoDup_names_drop n t : NoDup (names t) -> NoDup (names (drop n t)).
Proof.
  induction t as [|[k v] t IH]; cbn [drop filter names map fst]; [auto|].
  fold (drop n t). fold (names t). intros H. inversion H as [|? ? H1 H2]; subst.
  destruct (k =? n); cbn [negb]; [auto|].
  cbn [map fst]. constructor; [|apply IH, H2].
  intros I. apply (In_names_drop n k t) in I. tauto.
Qed.

Lemma length_drop n t :
  NoDup (names t) -> In n (names t) -> S (length (drop n t)) = length t.
Proof.
  induction t as [|[k v] t IH]; cbn [drop filter names map fst In length];
    [tauto|].
  fold (drop n t). fold (names t). intros H I.
  inversion H as [|? ? H1 H2]; subst.
  destruct (k =? n) eqn:E; cbn [negb length].
  - apply Z.eqb_eq in E. subst k. f_equal.
    assert (D : forall t', ~ In n (names t') -> drop n t' = t').
    { induction t' as [|[k' v'] t' IH']; [reflexivity|].
      cbn [names map fst In drop filter]. intros N.
      destruct (k' =? n) eqn:E'; [apply Z.eqb_eq in E'; tauto|].
      cbn [negb]. f_equal. apply IH'. tauto. }
    now rewrite D.
  - apply Z.eqb_neq in E. f_equal. apply IH; [exact H2|]. tauto.
Qed.

Lemma object_lookup n t a : lookup n t = Some (Some a) -> object n t = Some a.
Proof. unfold object. now intros ->. Qed.

End Tables.

Ltac prog_cbv :=
  cbv beta iota zeta delta
    [Main.seq Main.reading Main.nop Main.gl Main.gen Main.call
     Main.set_size Main.set_fov Main.set_mouseStatus Main.set_renderMode
     Main.set_animate Main.set_carmackReverse Main.set_fbo
     Main.set_renderTarget Main.set_depthStencil Main.set_depthMapTexture
     Main.set_depthMapFBO Main.set_objects Main.set_made
     Main.width Main.height Main.fov Main.mouseStatus Main.renderMode
     Main.animate Main.carmackReverse Main.fbo Main.renderTarget
     Main.depthStencil Main.depthMapTexture Main.depthMapFBO Main.objects
     Main.made controls
     GLObjects.with_textures GLObjects.with_renderbuffers
     GLObjects.with_framebuffers GLObjects.with_texture_binding
     GLObjects.with_renderbuffer_binding GLObjects.with_framebuffer_binding
     GLObjects.textures GLObjects.renderbuffers GLObjects.framebuffers
     GLObjects.texture_binding GLObjects.renderbuffer_binding
     GLObjects.framebuffer_binding
     GLObjects.glGenFramebuffers GLObjects.glGenTextures
     GLObjects.glGenRenderbuffers fst snd] in *;
  change (0 =? 0) with true in *;
  cbv beta iota in *;
  cbn [GLObjects.lookup length] in *.

Lemma names_cons {A} n (v : option A) t :
  GLObjects.names ((n, v) :: t) = n :: GLObjects.names t.
Proof. reflexivity. Qed.

Ltac tab :=
  repeat first
    [ rewrite lookup_put | rewrite lookup_drop | rewrite names_put
    | rewrite length_put | rewrite names_cons | rewrite Z.eqb_refl
    | progress cbn [GLObjects.lookup length] ].

Lemma eqb_false_of (a b : Z) : a <> b -> (a =? b) = false.
Proof. apply Z.eqb_neq. Qed.

(** the first step: the program's own framebuffer is generated if there is
    none, and bound *)
Lemma own_framebuffer_result d p :
  hands_out_unused_names d ->
  held (Main.fbo p) (GLObjects.framebuffers (Main.objects p)) ->
  NoDup (GLObjects.names (GLObjects.framebuffers (Main.objects p))) ->
  let q := own_framebuffer d p in
  let F := GLObjects.framebuffers (Main.objects p) in
  let F' := GLObjects.framebuffers (Main.objects q) in
  Main.fbo q <> 0 /\
  (Main.fbo p <> 0 -> Main.fbo q = Main.fbo p) /\
  (Main.fbo p = 0 -> ~ In (Main.fbo q) (GLObjects.names F)) /\
  (exists fb, GLObjects.lookup (Main.fbo q) F' = Some (Some fb)) /\
  GLObjects.framebuffer_binding (Main.objects q) = Main.fbo q /\
  (forall n, n <> Main.fbo q -> GLObjects.lookup n F' = GLObjects.lookup n F) /\
  NoDup (GLObjects.names F') /\
  length F' = (length F + if (Main.fbo p =? 0)%Z then 1 else 0)%nat /\
  GLObjects.textures (Main.objects q) = GLObjects.textures (Main.objects p) /\
  GLObjects.renderbuffers (Main.objects q) = GLObjects.renderbuffers (Main.objects p) /\
  GLObjects.texture_binding (Main.objects q) = GLObjects.texture_binding (Main.objects p) /\
  GLObjects.renderbuffer_binding (Main.objects q)
  = GLObjects.renderbuffer_binding (Main.objects p) /\
  Main.renderTarget q = Main.renderTarget p /\
  Main.depthStencil q = Main.depthStencil p /\
  Main.depthMapTexture q = Main.depthMapTexture p /\
  Main.depthMapFBO q = Main.depthMapFBO p /\
  controls q = controls p /\ Main.made q = Main.made p.
Proof.
  intros Hd Hf ND q F F'. subst q F F'.
  destruct p as [w h f m rm an cr fb rt ds dt df [T R F tb rb fbb] md].
  unfold held in Hf. unfold own_framebuffer, GLObjects.glBindFramebuffer.
  prog_cbv.
  destruct (Z.eqb_spec fb 0) as [->|Hfb]; prog_cbv.
  - destruct (Hd (GLObjects.names F)) as (N0 & NI).
    set (n := GLObjects.fresh d (GLObjects.names F)) in *.
    rewrite (eqb_false_of _ _ N0), Z.eqb_refl. prog_cbv.
    repeat split; try reflexivity; try assumption; tab;
      try solve [eauto | lia | now constructor | intros; contradiction].
    intros k Hk. tab. rewrite (eqb_false_of _ _ Hk).
    destruct (Z.eqb_spec n k); [congruence|reflexivity].
  - destruct Hf as [Hf|Hf]; [contradiction|].
    destruct (lookup_In _ _ Hf) as (v & Hv).
    rewrite (eqb_false_of _ _ Hfb), Hv.
    destruct v as [fb0|]; prog_cbv;
      repeat split; try reflexivity; try assumption; tab; rewrite ?Hv;
      try solve [eauto | lia | intros; contradiction].
    intros k Hk. tab. rewrite (eqb_false_of _ _ Hk). reflexivity.
Qed.

(** what a step leaves alone in a table of framebuffers that it only
    changes at the framebuffer that is bound *)
Lemma on_bound_framebuffer_result f o :
  let F := GLObjects.framebuffers o in
  let o' := GLObjects.on_bound_framebuffer f o in
  let F' := GLObjects.framebuffers o' in
  let B := GLObjects.framebuffer_binding o in
  GLObjects.lookup B F'
  = match GLObjects.lookup B F with
    | Some (Some fb) => Some (Some (f fb))
    | v => v
    end /\
  (forall n, n <> B -> GLObjects.lookup n F' = GLObjects.lookup n F) /\
  GLObjects.names F' = GLObjects.names F /\
  length F' = length F /\
  GLObjects.textures o' = GLObjects.textures o /\
  GLObjects.renderbuffers o' = GLObjects.renderbuffers o /\
  GLObjects.texture_binding o' = GLObjects.texture_binding o /\
  GLObjects.renderbuffer_binding o' = GLObjects.renderbuffer_binding o /\
  GLObjects.framebuffer_binding o' = B.
Proof.
  destruct o as [T R F tb rb B]. unfold GLObjects.on_bound_framebuffer, GLObjects.object.
  cbn [GLObjects.framebuffers GLObjects.framebuffer_binding].
  destruct (GLObjects.lookup B F) as [[fb|]|] eqn:E;
    cbn [GLObjects.with_framebuffers GLObjects.framebuffers GLObjects.textures
         GLObjects.renderbuffers GLObjects.texture_binding
         GLObjects.renderbuffer_binding GLObjects.framebuffer_binding];
    rewrite ?E; repeat split; tab; rewrite ?E; try reflexivity.
  intros n Hn. tab. now rewrite (eqb_false_of _ _ Hn).
Qed.

Ltac gl_unfold :=
  unfold GLObjects.glBindFramebuffer, GLObjects.glIsTexture,
    GLObjects.glIsRenderbuffer, GLObjects.glDeleteTextures,
    GLObjects.glDeleteRenderbuffers, GLObjects.glBindTexture,
    GLObjects.glTexImage2DMultisample, GLObjects.glTexImage2D,
    GLObjects.glTexParameteri, GLObjects.glFramebufferTexture2D,
    GLObjects.glBindRenderbuffer, GLObjects.glRenderbufferStorage,
    GLObjects.glRenderbufferStorageMultisample,
    GLObjects.glFramebufferRenderbuffer, GLObjects.glDrawBuffers,
    GLObjects.glDrawBuffer, GLObjects.glReadBuffer,
    GLObjects.on_bound_framebuffer, GLObjects.on_bound_texture,
    GLObjects.object in *.

(** the second step: the old render target is deleted and a name for the
    new one is at hand, which names no texture yet *)
Lemma render_target_name_result d p fb :
  hands_out_unused_names d ->
  held (Main.renderTarget p) (GLObjects.textures (Main.objects p)) ->
  NoDup (GLObjects.names (GLObjects.textures (Main.objects p))) ->
  GLObjects.lookup (GLObjects.framebuffer_binding (Main.objects p))
    (GLObjects.framebuffers (Main.objects p)) = Some (Some fb) ->
  let q := render_target_name d p in
  let o := Main.objects p in
  let o' := Main.objects q in
  let T := GLObjects.textures o in
  let T' := GLObjects.textures o' in
  let B := GLObjects.framebuffer_binding o in
  Main.renderTarget q <> 0 /\
  (Main.renderTarget q <> Main.renderTarget p ->
   ~ In (Main.renderTarget q) (GLObjects.names T)) /\
  GLObjects.lookup (Main.renderTarget q) T' = Some None /\
  (forall n, n <> Main.renderTarget p -> n <> Main.renderTarget q ->
             GLObjects.lookup n T' = GLObjects.lookup n T) /\
  NoDup (GLObjects.names T') /\
  length T'
  = (length T
     + if GLObjects.glIsTexture (Main.renderTarget p) o then 0
       else if (Main.renderTarget p =? 0)%Z then 1 else 0)%nat /\
  (exists fb', GLObjects.lookup B (GLObjects.framebuffers o') = Some (Some fb')) /\
  (forall n, n <> B -> GLObjects.lookup n (GLObjects.framebuffers o')
                       = GLObjects.lookup n (GLObjects.framebuffers o)) /\
  GLObjects.names (GLObjects.framebuffers o') = GLObjects.names (GLObjects.framebuffers o) /\
  length (GLObjects.framebuffers o') = length (GLObjects.framebuffers o) /\
  GLObjects.framebuffer_binding o' = B /\
  GLObjects.renderbuffers o' = GLObjects.renderbuffers o /\
  GLObjects.renderbuffer_binding o' = GLObjects.renderbuffer_binding o /\
  Main.fbo q = Main.fbo p /\
  Main.depthStencil q = Main.depthStencil p /\
  Main.depthMapTexture q = Main.depthMapTexture p /\
  Main.depthMapFBO q = Main.depthMapFBO p /\
  controls q = controls p /\ Main.made q = Main.made p.
Proof.
  intros Hd Hh ND HB q o o' T T' B. subst q o o' T T' B.
  destruct p as [w h f m rm an cr fbo rt ds dt df [T R F tb rb B] md].
  unfold held in Hh. unfold render_target_name. gl_unfold. prog_cbv.
  destruct (Z.eqb_spec rt 0) as [->|Hrt]; cbn [negb andb]; prog_cbv.
  - (* no render target yet *)
    destruct (Hd (GLObjects.names T)) as (N0 & NI).
    set (n := GLObjects.fresh d (GLObjects.names T)) in *.
    repeat split; try reflexivity; try assumption; tab;
      try solve [eauto | lia | now constructor].
    intros k _ Hk. tab.
    destruct (Z.eqb_spec n k); [congruence|reflexivity].
  - destruct Hh as [Hh|Hh]; [contradiction|].
    destruct (lookup_In _ _ Hh) as (v & Hv). rewrite Hv.
    destruct v as [tex|]; prog_cbv.
    + (* a texture: deleted, and a name generated *)
      repeat (progress (rewrite ?Hv, ?HB, ?(eqb_false_of _ _ Hrt)); prog_cbv).
      destruct (Hd (GLObjects.names (GLObjects.drop rt T))) as (N0 & NI).
      set (n := GLObjects.fresh d (GLObjects.names (GLObjects.drop rt T))) in *.
      repeat split; try reflexivity; try assumption; tab; rewrite ?HB;
        try solve [eauto | lia].
      * intros Hn I. apply NI, In_names_drop. now split.
      * intros k Hk1 Hk2. tab. rewrite (eqb_false_of _ _ Hk1).
        destruct (Z.eqb_spec n k); [congruence|reflexivity].
      * constructor; [exact NI|]. now apply NoDup_names_drop.
      * pose proof (length_drop rt T ND Hh). lia.
      * intros k Hk. tab. now rewrite (eqb_false_of _ _ Hk).
    + (* a name that names no texture yet: kept *)
      repeat (progress (rewrite ?Hv, ?HB, ?(eqb_false_of _ _ Hrt)); prog_cbv).
      repeat split; try reflexivity; try assumption; tab;
        try solve [eauto | lia | intros; congruence].
Qed.

Ltac gl_step :=
  match goal with
  | |- context [?f (GLObjects.Build_Objects ?a ?b ?c ?e ?g ?h)] =>
      let x := constr:(f (GLObjects.Build_Objects a b c e g h)) in
      let y := eval cbv beta iota zeta delta
                 [GLObjects.glBindFramebuffer GLObjects.glIsTexture
                  GLObjects.glIsRenderbuffer GLObjects.glDeleteTextures
                  GLObjects.glDeleteRenderbuffers GLObjects.glBindTexture
                  GLObjects.glTexImage2DMultisample GLObjects.glTexImage2D
                  GLObjects.glTexParameteri GLObjects.glFramebufferTexture2D
                  GLObjects.glBindRenderbuffer GLObjects.glRenderbufferStorage
                  GLObjects.glRenderbufferStorageMultisample
                  GLObjects.glFramebufferRenderbuffer GLObjects.glDrawBuffers
                  GLObjects.glDrawBuffer GLObjects.glReadBuffer
                  GLObjects.on_bound_framebuffer GLObjects.on_bound_texture
                  GLObjects.object GLObjects.bind_target GLObjects.target_eqb
                  GLObjects.with_textures GLObjects.with_renderbuffers
                  GLObjects.with_framebuffers GLObjects.with_texture_binding
                  GLObjects.with_renderbuffer_binding
                  GLObjects.with_framebuffer_binding
                  GLObjects.textures GLObjects.renderbuffers
                  GLObjects.framebuffers GLObjects.texture_binding
                  GLObjects.renderbuffer_binding GLObjects.framebuffer_binding]
               in x in
      progress change x with y
  end.

(** the third step: the render target gets its store and becomes the
    colour attachment *)
Lemma render_target_store_result d width height MSAA p fb :
  Main.renderTarget p <> 0 ->
  GLObjects.lookup (Main.renderTarget p) (GLObjects.textures (Main.objects p))
  = Some None ->
  GLObjects.lookup (GLObjects.framebuffer_binding (Main.objects p))
    (GLObjects.framebuffers (Main.objects p)) = Some (Some fb) ->
  let q := render_target_store d width height MSAA p in
  let o := Main.objects p in
  let o' := Main.objects q in
  let T := GLObjects.textures o in
  let T' := GLObjects.textures o' in
  let B := GLObjects.framebuffer_binding o in
  GLObjects.lookup (Main.renderTarget p) T'
  = Some (Some (render_target_texture d width height MSAA)) /\
  (forall n, n <> Main.renderTarget p -> GLObjects.lookup n T' = GLObjects.lookup n T) /\
  GLObjects.names T' = GLObjects.names T /\
  length T' = length T /\
  GLObjects.lookup B (GLObjects.framebuffers o')
  = Some (Some (GLObjects.attach GLObjects.GL_COLOR_ATTACHMENT0
                  (GLObjects.AttachedTexture (Main.renderTarget p)) fb)) /\
  (forall n, n <> B -> GLObjects.lookup n (GLObjects.framebuffers o')
                       = GLObjects.lookup n (GLObjects.framebuffers o)) /\
  GLObjects.names (GLObjects.framebuffers o') = GLObjects.names (GLObjects.framebuffers o) /\
  length (GLObjects.framebuffers o') = length (GLObjects.framebuffers o) /\
  GLObjects.framebuffer_binding o' = B /\
  GLObjects.renderbuffers o' = GLObjects.renderbuffers o /\
  GLObjects.renderbuffer_binding o' = GLObjects.renderbuffer_binding o /\
  Main.fbo q = Main.fbo p /\
  Main.renderTarget q = Main.renderTarget p /\
  Main.depthStencil q = Main.depthStencil p /\
  Main.depthMapTexture q = Main.depthMapTexture p /\
  Main.depthMapFBO q = Main.depthMapFBO p /\
  controls q = controls p /\ Main.made q = Main.made p.
Proof.
  intros Hrt Hv HB q o o' T T' B. subst q o o' T T' B.
  destruct p as [w h f m rm an cr fbo rt ds dt df [T R F tb rb B] md].
  unfold render_target_store, render_target_texture, granted, wanted.
  prog_cbv.
  destruct (MSAA >? 1); prog_cbv;
    repeat first
      [ gl_step
      | progress rewrite ?Hv, ?HB, ?(eqb_false_of _ _ Hrt)
      | progress tab
      | progress cbv beta iota
      | progress cbn [GLObjects.target GLObjects.image GLObjects.parameters
                      GLObjects.set_image GLObjects.set_parameter]
      | match goal with |- context [GLObjects.accepts d ?i] =>
          destruct (GLObjects.accepts d i) end ].
  all: repeat split; try reflexivity; intros; tab; rewrite ?Hv, ?HB; try reflexivity.
  all: try (rewrite (eqb_false_of _ _ H); reflexivity).
Qed.

Ltac gl_eval known :=
  repeat first
    [ gl_step
    | progress known
    | progress tab
    | progress cbv beta iota
    | progress cbn [GLObjects.target GLObjects.image GLObjects.parameters
                    GLObjects.set_image GLObjects.set_parameter
                    GLObjects.storage negb andb] ].

(** the fourth step: the old depth-stencil buffer is deleted and a name
    for the new one is at hand *)
Lemma depth_stencil_name_result d p fb :
  hands_out_unused_names d ->
  held (Main.depthStencil p) (GLObjects.renderbuffers (Main.objects p)) ->
  NoDup (GLObjects.names (GLObjects.renderbuffers (Main.objects p))) ->
  GLObjects.lookup (GLObjects.framebuffer_binding (Main.objects p))
    (GLObjects.framebuffers (Main.objects p)) = Some (Some fb) ->
  let q := depth_stencil_name d p in
  let o := Main.objects p in
  let o' := Main.objects q in
  let R := GLObjects.renderbuffers o in
  let R' := GLObjects.renderbuffers o' in
  let B := GLObjects.framebuffer_binding o in
  Main.depthStencil q <> 0 /\
  GLObjects.lookup (Main.depthStencil q) R' = Some None /\
  NoDup (GLObjects.names R') /\
  length R'
  = (length R
     + if GLObjects.glIsRenderbuffer (Main.depthStencil p) o then 0
       else if (Main.depthStencil p =? 0)%Z then 1 else 0)%nat /\
  (exists fb', GLObjects.lookup B (GLObjects.framebuffers o') = Some (Some fb') /\
               (forall n, GLObjects.color0 fb = GLObjects.AttachedTexture n ->
                          GLObjects.color0 fb' = GLObjects.AttachedTexture n)) /\
  (forall n, n <> B -> GLObjects.lookup n (GLObjects.framebuffers o')
                       = GLObjects.lookup n (GLObjects.framebuffers o)) /\
  GLObjects.names (GLObjects.framebuffers o') = GLObjects.names (GLObjects.framebuffers o) /\
  length (GLObjects.framebuffers o') = length (GLObjects.framebuffers o) /\
  GLObjects.framebuffer_binding o' = B /\
  GLObjects.textures o' = GLObjects.textures o /\
  GLObjects.texture_binding o' = GLObjects.texture_binding o /\
  Main.fbo q = Main.fbo p /\
  Main.renderTarget q = Main.renderTarget p /\
  Main.depthMapTexture q = Main.depthMapTexture p /\
  Main.depthMapFBO q = Main.depthMapFBO p /\
  controls q = controls p /\ Main.made q = Main.made p.
Proof.
  intros Hd Hh ND HB q o o' R R' B. subst q o o' R R' B.
  destruct p as [w h f m rm an cr fbo rt ds dt df [T R F tb rb B] md].
  unfold held in Hh. unfold depth_stencil_name. prog_cbv.
  destruct (Z.eqb_spec ds 0) as [->|Hds].
  - (* no depth-stencil buffer yet *)
    gl_eval idtac. prog_cbv.
    destruct (Hd (GLObjects.names R)) as (N0 & NI).
    set (n := GLObjects.fresh d (GLObjects.names R)) in *.
    repeat split; try reflexivity; try assumption; tab;
      try solve [eauto | lia | now constructor].
  - destruct Hh as [Hh|Hh]; [contradiction|].
    destruct (lookup_In _ _ Hh) as (v & Hv).
    destruct v as [buf|].
    + (* a renderbuffer: deleted, and a name generated *)
      gl_eval ltac:(rewrite ?Hv, ?HB, ?(eqb_false_of _ _ Hds)). prog_cbv.
      gl_eval ltac:(rewrite ?Hv, ?HB, ?(eqb_false_of _ _ Hds)). prog_cbv.
      destruct (Hd (GLObjects.names (GLObjects.drop ds R))) as (N0 & NI).
      set (n := GLObjects.fresh d (GLObjects.names (GLObjects.drop ds R))) in *.
      repeat split; try reflexivity; try assumption; tab; rewrite ?HB;
        try solve [eauto | lia].
      * constructor; [exact NI|]. now apply NoDup_names_drop.
      * pose proof (length_drop ds R ND Hh). lia.
      * eexists. split; [reflexivity|]. intros k E.
        unfold GLObjects.detach_all. cbn [GLObjects.color0 GLObjects.detach].
        rewrite E. reflexivity.
      * intros k Hk. tab. now rewrite (eqb_false_of _ _ Hk).
    + (* a name that names no renderbuffer yet: kept *)
      gl_eval ltac:(rewrite ?Hv, ?HB, ?(eqb_false_of _ _ Hds)). prog_cbv.
      gl_eval ltac:(rewrite ?Hv, ?HB, ?(eqb_false_of _ _ Hds)). prog_cbv.
      repeat split; try reflexivity; try assumption; tab;
        try solve [eauto | lia].
Qed.

(** the fifth step: the depth-stencil buffer gets its store and becomes
    the depth and the stencil attachment *)
Lemma depth_stencil_store_result d width height MSAA p fb :
  Main.depthStencil p <> 0 ->
  GLObjects.lookup (Main.depthStencil p) (GLObjects.renderbuffers (Main.objects p))
  = Some None ->
  GLObjects.lookup (GLObjects.framebuffer_binding (Main.objects p))
    (GLObjects.framebuffers (Main.objects p)) = Some (Some fb) ->
  let q := depth_stencil_store d width height MSAA p in
  let o := Main.objects p in
  let o' := Main.objects q in
  let R := GLObjects.renderbuffers o in
  let R' := GLObjects.renderbuffers o' in
  let B := GLObjects.framebuffer_binding o in
  GLObjects.lookup (Main.depthStencil p) R'
  = Some (Some (depth_stencil_buffer d width height MSAA)) /\
  GLObjects.names R' = GLObjects.names R /\
  length R' = length R /\
  GLObjects.renderbuffer_binding o' = Main.depthStencil p /\
  GLObjects.lookup B (GLObjects.framebuffers o')
  = Some (Some (GLObjects.attach GLObjects.GL_DEPTH_STENCIL_ATTACHMENT
                  (GLObjects.AttachedRenderbuffer (Main.depthStencil p)) fb)) /\
  (forall n, n <> B -> GLObjects.lookup n (GLObjects.framebuffers o')
                       = GLObjects.lookup n (GLObjects.framebuffers o)) /\
  GLObjects.names (GLObjects.framebuffers o') = GLObjects.names (GLObjects.framebuffers o) /\
  length (GLObjects.framebuffers o') = length (GLObjects.framebuffers o) /\
  GLObjects.framebuffer_binding o' = B /\
  GLObjects.textures o' = GLObjects.textures o /\
  GLObjects.texture_binding o' = GLObjects.texture_binding o /\
  Main.fbo q = Main.fbo p /\
  Main.renderTarget q = Main.renderTarget p /\
  Main.depthStencil q = Main.depthStencil p /\
  Main.depthMapTexture q = Main.depthMapTexture p /\
  Main.depthMapFBO q = Main.depthMapFBO p /\
  controls q = controls p /\ Main.made q = Main.made p.
Proof.
  intros Hds Hv HB q o o' R R' B. subst q o o' R R' B.
  destruct p as [w h f m rm an cr fbo rt ds dt df [T R F tb rb B] md].
  unfold depth_stencil_store, depth_stencil_buffer, granted, wanted.
  prog_cbv.
  destruct (MSAA >? 1); prog_cbv;
    repeat first
      [ progress gl_eval ltac:(rewrite ?Hv, ?HB, ?(eqb_false_of _ _ Hds))
      | match goal with |- context [GLObjects.accepts d ?i] =>
          destruct (GLObjects.accepts d i) end ].
  all: repeat split; try reflexivity; intros; tab; rewrite ?Hv, ?HB; try reflexivity.
  all: try (rewrite (eqb_false_of _ _ H); reflexivity).
Qed.

(** the sixth step: the draw buffer is set and the default framebuffer is
    bound again *)
Lemma finish_framebuffer_result d p fb :
  GLObjects.lookup (GLObjects.framebuffer_binding (Main.objects p))
    (GLObjects.framebuffers (Main.objects p)) = Some (Some fb) ->
  let q := finish_framebuffer d p in
  let o := Main.objects p in
  let o' := Main.objects q in
  let B := GLObjects.framebuffer_binding o in
  GLObjects.lookup B (GLObjects.framebuffers o')
  = Some (Some (GLObjects.set_draw_buffer GLObjects.GL_COLOR_ATTACHMENT0 fb)) /\
  (forall n, n <> B -> GLObjects.lookup n (GLObjects.framebuffers o')
                       = GLObjects.lookup n (GLObjects.framebuffers o)) /\
  GLObjects.names (GLObjects.framebuffers o') = GLObjects.names (GLObjects.framebuffers o) /\
  length (GLObjects.framebuffers o') = length (GLObjects.framebuffers o) /\
  GLObjects.framebuffer_binding o' = 0 /\
  GLObjects.textures o' = GLObjects.textures o /\
  GLObjects.texture_binding o' = GLObjects.texture_binding o /\
  GLObjects.renderbuffers o' = GLObjects.renderbuffers o /\
  GLObjects.renderbuffer_binding o' = GLObjects.renderbuffer_binding o /\
  Main.fbo q = Main.fbo p /\
  Main.renderTarget q = Main.renderTarget p /\
  Main.depthStencil q = Main.depthStencil p /\
  Main.depthMapTexture q = Main.depthMapTexture p /\
  Main.depthMapFBO q = Main.depthMapFBO p /\
  controls q = controls p.
Proof.
  intros HB q o o' B. subst q o o' B.
  destruct p as [w h f m rm an cr fbo rt ds dt df [T R F tb rb B] md].
  unfold finish_framebuffer. prog_cbv.
  gl_eval ltac:(rewrite ?HB). prog_cbv.
  match goal with |- context [negb ?c] => destruct c end; cbn [negb]; prog_cbv;
    gl_eval ltac:(rewrite ?HB); prog_cbv.
  all: repeat split; try reflexivity; intros; tab; rewrite ?HB; try reflexivity.
  all: try (rewrite (eqb_false_of _ _ H); reflexivity).
Qed.

(** [CreateDepthBuffer], first step: the framebuffer of the depth map is
    generated if there is none, and a texture name is generated whether
    there is one or not *)
Lemma depth_map_names_result d p :
  hands_out_unused_names d ->
  let q := depth_map_names d p in
  let o := Main.objects p in
  let o' := Main.objects q in
  let F := GLObjects.framebuffers o in
  let T := GLObjects.textures o in
  Main.depthMapFBO q
  = (if Main.depthMapFBO p =? 0 then GLObjects.fresh d (GLObjects.names F)
     else Main.depthMapFBO p) /\
  GLObjects.framebuffers o'
  = (if Main.depthMapFBO p =? 0 then (Main.depthMapFBO q, None) :: F else F) /\
  Main.depthMapTexture q = GLObjects.fresh d (GLObjects.names T) /\
  GLObjects.textures o' = (Main.depthMapTexture q, None) :: T /\
  GLObjects.framebuffer_binding o' = GLObjects.framebuffer_binding o /\
  GLObjects.texture_binding o' = GLObjects.texture_binding o /\
  GLObjects.renderbuffers o' = GLObjects.renderbuffers o /\
  GLObjects.renderbuffer_binding o' = GLObjects.renderbuffer_binding o /\
  Main.fbo q = Main.fbo p /\
  Main.renderTarget q = Main.renderTarget p /\
  Main.depthStencil q = Main.depthStencil p /\
  controls q = controls p.
Proof.
  intros Hd q o o' F T. subst q o o' F T.
  destruct p as [w h f m rm an cr fbo rt ds dt df [T R F tb rb B] md].
  unfold depth_map_names. prog_cbv.
  destruct (df =? 0); prog_cbv; repeat split; reflexivity.
Qed.

(** second step: the depth map gets its store and its parameters, and is
    unbound *)
Lemma depth_map_store_result d width height p :
  Main.depthMapTexture p <> 0 ->
  GLObjects.lookup (Main.depthMapTexture p) (GLObjects.textures (Main.objects p))
  = Some None ->
  let q := depth_map_store d width height p in
  let o := Main.objects p in
  let o' := Main.objects q in
  let T := GLObjects.textures o in
  let T' := GLObjects.textures o' in
  GLObjects.lookup (Main.depthMapTexture p) T'
  = Some (Some (depth_map_texture d width height)) /\
  (forall n, n <> Main.depthMapTexture p ->
             GLObjects.lookup n T' = GLObjects.lookup n T) /\
  GLObjects.names T' = GLObjects.names T /\
  length T' = length T /\
  GLObjects.texture_binding o' GLObjects.GL_TEXTURE_2D = 0 /\
  GLObjects.framebuffers o' = GLObjects.framebuffers o /\
  GLObjects.framebuffer_binding o' = GLObjects.framebuffer_binding o /\
  GLObjects.renderbuffers o' = GLObjects.renderbuffers o /\
  GLObjects.renderbuffer_binding o' = GLObjects.renderbuffer_binding o /\
  Main.fbo q = Main.fbo p /\
  Main.renderTarget q = Main.renderTarget p /\
  Main.depthStencil q = Main.depthStencil p /\
  Main.depthMapTexture q = Main.depthMapTexture p /\
  Main.depthMapFBO q = Main.depthMapFBO p /\
  controls q = controls p /\ Main.made q = Main.made p.
Proof.
  intros Hdt Hv q o o' T T'. subst q o o' T T'.
  destruct p as [w h f m rm an cr fbo rt ds dt df [T R F tb rb B] md].
  unfold depth_map_store, depth_map_texture, granted, wanted.
  change (0 >? 1) with false. prog_cbv.
  repeat first
    [ progress gl_eval ltac:(rewrite ?Hv, ?(eqb_false_of _ _ Hdt))
    | match goal with |- context [GLObjects.accepts d ?i] =>
        destruct (GLObjects.accepts d i) end ].
  all: repeat split; try reflexivity; intros; tab; rewrite ?Hv; try reflexivity.
  all: try (rewrite (eqb_false_of _ _ H); reflexivity).
Qed.

(** third step: the depth map becomes the depth attachment of its
    framebuffer, which gets no colour buffers, and the default framebuffer
    is bound again *)
Lemma depth_map_framebuffer_result d p v tex :
  Main.depthMapFBO p <> 0 ->
  Main.depthMapTexture p <> 0 ->
  GLObjects.lookup (Main.depthMapFBO p) (GLObjects.framebuffers (Main.objects p))
  = Some v ->
  GLObjects.lookup (Main.depthMapTexture p) (GLObjects.textures (Main.objects p))
  = Some (Some tex) ->
  GLObjects.target tex = GLObjects.GL_TEXTURE_2D ->
  let q := depth_map_framebuffer d p in
  let o := Main.objects p in
  let o' := Main.objects q in
  (exists fb, GLObjects.lookup (Main.depthMapFBO p) (GLObjects.framebuffers o')
              = Some (Some fb) /\
              GLObjects.depth fb = GLObjects.AttachedTexture (Main.depthMapTexture p) /\
              GLObjects.draw_buffer fb = GLObjects.GL_NONE /\
              GLObjects.read_buffer fb = GLObjects.GL_NONE) /\
  (forall n, n <> Main.depthMapFBO p ->
             GLObjects.lookup n (GLObjects.framebuffers o')
             = GLObjects.lookup n (GLObjects.framebuffers o)) /\
  GLObjects.names (GLObjects.framebuffers o') = GLObjects.names (GLObjects.framebuffers o) /\
  length (GLObjects.framebuffers o') = length (GLObjects.framebuffers o) /\
  GLObjects.framebuffer_binding o' = 0 /\
  GLObjects.textures o' = GLObjects.textures o /\
  GLObjects.texture_binding o' = GLObjects.texture_binding o /\
  GLObjects.renderbuffers o' = GLObjects.renderbuffers o /\
  GLObjects.renderbuffer_binding o' = GLObjects.renderbuffer_binding o /\
  Main.fbo q = Main.fbo p /\
  Main.renderTarget q = Main.renderTarget p /\
  Main.depthStencil q = Main.depthStencil p /\
  Main.depthMapTexture q = Main.depthMapTexture p /\
  Main.depthMapFBO q = Main.depthMapFBO p /\
  controls q = controls p.
Proof.
  intros Hdf Hdt Hv Ht Htex q o o'. subst q o o'.
  destruct p as [w h f m rm an cr fbo rt ds dt df [T R F tb rb B] md].
  unfold depth_map_framebuffer. prog_cbv.
  destruct v as [fb0|];
    gl_eval ltac:(rewrite ?Hv, ?Ht, ?Htex, ?(eqb_false_of _ _ Hdf),
                    ?(eqb_false_of _ _ Hdt));
    prog_cbv;
    (match goal with |- context [negb ?c] => destruct c end; cbn [negb]; prog_cbv;
     gl_eval ltac:(rewrite ?Hv, ?Ht, ?Htex, ?(eqb_false_of _ _ Hdf),
                     ?(eqb_false_of _ _ Hdt));
     prog_cbv).
  all: repeat split; try reflexivity; intros; tab; rewrite ?Hv; try reflexivity.
  all: try (rewrite (eqb_false_of _ _ H); reflexivity).
  all: eexists; repeat split; reflexivity.
Qed.

Lemma held_lookup {A} n (t : GLObjects.Table A) v :
  GLObjects.lookup n t = Some v -> held n t.
Proof. intros H. right. eapply lookup_Some_In, H. Qed.

(** [createFramebuffer] from a tidy state: what it builds, what it keeps
    and how the tables of names grow *)
Lemma createFramebuffer_result d width height MSAA p :
  hands_out_unused_names d ->
  tidy p ->
  let q := Main.createFramebuffer d width height MSAA p in
  let T := GLObjects.textures (Main.objects p) in
  let T' := GLObjects.textures (Main.objects q) in
  tidy q /\
  framebuffers_built d width height MSAA q /\
  (Main.fbo p <> 0 -> Main.fbo q = Main.fbo p) /\
  (Main.depthMapFBO p <> 0 -> Main.depthMapFBO q = Main.depthMapFBO p) /\
  (forall n, In n (GLObjects.names T) -> n <> Main.renderTarget p ->
             n <> Main.renderTarget q /\ n <> Main.depthMapTexture q /\
             GLObjects.lookup n T' = GLObjects.lookup n T) /\
  length T' = (length T + new_textures p)%nat /\
  length (GLObjects.renderbuffers (Main.objects q))
  = (length (GLObjects.renderbuffers (Main.objects p)) + new_renderbuffers p)%nat /\
  length (GLObjects.framebuffers (Main.objects q))
  = (length (GLObjects.framebuffers (Main.objects p)) + new_framebuffers p)%nat /\
  controls q = controls p.
Proof.
  intros Hd (ND1 & ND2 & ND3 & Hf & Hdf & Hrt & Hds & Hne) q T T'.
  subst q T T'. rewrite createFramebuffer_steps.
  (* own framebuffer *)
  set (qA := own_framebuffer d p).
  pose proof (own_framebuffer_result d p Hd Hf ND3) as HA. cbv zeta in HA.
  change (own_framebuffer d p) with qA in HA.
  destruct HA as (A1 & A2 & A3 & (fbA & A4) & A5 & A6 & A7 & A8 & A9 & A10
                  & A11 & A12 & A13 & A14 & A15 & A16 & A17 & A18).
  (* render target name *)
  set (qB := render_target_name d qA).
  assert (PB1 : held (Main.renderTarget qA) (GLObjects.textures (Main.objects qA)))
    by (rewrite A13, A9; exact Hrt).
  assert (PB2 : NoDup (GLObjects.names (GLObjects.textures (Main.objects qA))))
    by (rewrite A9; exact ND1).
  assert (PB3 : GLObjects.lookup (GLObjects.framebuffer_binding (Main.objects qA))
                  (GLObjects.framebuffers (Main.objects qA)) = Some (Some fbA))
    by (rewrite A5; exact A4).
  pose proof (render_target_name_result d qA fbA Hd PB1 PB2 PB3) as HB.
  cbv zeta in HB. change (render_target_name d qA) with qB in HB.
  destruct HB as (B1 & B2 & B3 & B4 & B5 & B6 & (fbB & B7) & B8 & B9 & B10 & B11
                  & B12 & B13 & B14 & B15 & B16 & B17 & B18 & B19).
  (* render target store *)
  set (qC := render_target_store d width height MSAA qB).
  assert (PC : GLObjects.lookup (GLObjects.framebuffer_binding (Main.objects qB))
                 (GLObjects.framebuffers (Main.objects qB)) = Some (Some fbB))
    by (rewrite B11; exact B7).
  pose proof (render_target_store_result d width height MSAA qB fbB B1 B3 PC) as HC.
  cbv zeta in HC. change (render_target_store d width height MSAA qB) with qC in HC.
  destruct HC as (C1 & C2 & C3 & C4 & C5 & C6 & C7 & C8 & C9 & C10 & C11 & C12
                  & C13 & C14 & C15 & C16 & C17 & C18).
  (* depth-stencil name *)
  set (qD := depth_stencil_name d qC).
  assert (PD1 : held (Main.depthStencil qC) (GLObjects.renderbuffers (Main.objects qC)))
    by (rewrite C14, C10, B15, B12, A14, A10; exact Hds).
  assert (PD2 : NoDup (GLObjects.names (GLObjects.renderbuffers (Main.objects qC))))
    by (rewrite C10, B12, A10; exact ND2).
  assert (PD3 : GLObjects.lookup (GLObjects.framebuffer_binding (Main.objects qC))
                  (GLObjects.framebuffers (Main.objects qC))
                = Some (Some (GLObjects.attach GLObjects.GL_COLOR_ATTACHMENT0
                                (GLObjects.AttachedTexture (Main.renderTarget qB)) fbB)))
    by (rewrite C9; exact C5).
  pose proof (depth_stencil_name_result d qC _ Hd PD1 PD2 PD3) as HD.
  cbv zeta in HD. change (depth_stencil_name d qC) with qD in HD.
  destruct HD as (D1 & D2 & D3 & D4 & (fbD & D5 & D5') & D6 & D7 & D8 & D9 & D10
                  & D11 & D12 & D13 & D14 & D15 & D16 & D17).
  (* depth-stencil store *)
  set (qE := depth_stencil_store d width height MSAA qD).
  assert (PE : GLObjects.lookup (GLObjects.framebuffer_binding (Main.objects qD))
                 (GLObjects.framebuffers (Main.objects qD)) = Some (Some fbD))
    by (rewrite D9; exact D5).
  pose proof (depth_stencil_store_result d width height MSAA qD fbD D1 D2 PE) as HE.
  cbv zeta in HE. change (depth_stencil_store d width height MSAA qD) with qE in HE.
  destruct HE as (E1 & E2 & E3 & E4 & E5 & E6 & E7 & E8 & E9 & E10 & E11 & E12
                  & E13 & E14 & E15 & E16 & E17 & E18).
  (* draw buffer and default framebuffer *)
  set (qF := finish_framebuffer d qE).
  assert (PF : GLObjects.lookup (GLObjects.framebuffer_binding (Main.objects qE))
                 (GLObjects.framebuffers (Main.objects qE))
               = Some (Some (GLObjects.attach GLObjects.GL_DEPTH_STENCIL_ATTACHMENT
                               (GLObjects.AttachedRenderbuffer (Main.depthStencil qD))
                               fbD)))
    by (rewrite E9; exact E5).
  pose proof (finish_framebuffer_result d qE _ PF) as HF.
  cbv zeta in HF. change (finish_framebuffer d qE) with qF in HF.
  destruct HF as (F1 & F2 & F3 & F4 & F5 & F6 & F7 & F8 & F9 & F10 & F11 & F12
                  & F13 & F14 & F15).
  (* names of the depth map *)
  set (qG := depth_map_names d qF).
  pose proof (depth_map_names_result d qF Hd) as HG.
  cbv zeta in HG. change (depth_map_names d qF) with qG in HG.
  destruct HG as (G1 & G2 & G3 & G4 & G5 & G6 & G7 & G8 & G9 & G10 & G11 & G12).
  destruct (Hd (GLObjects.names (GLObjects.textures (Main.objects qF))))
    as (NT0 & NTI).
  rewrite <- G3 in NT0, NTI.
  destruct (Hd (GLObjects.names (GLObjects.framebuffers (Main.objects qF))))
    as (NF0 & NFI).
  (* store of the depth map *)
  set (qH := depth_map_store d width height qG).
  assert (PH : GLObjects.lookup (Main.depthMapTexture qG)
                 (GLObjects.textures (Main.objects qG)) = Some None)
    by (rewrite G4; cbn [GLObjects.lookup]; now rewrite Z.eqb_refl).
  pose proof (depth_map_store_result d width height qG NT0 PH) as HH.
  cbv zeta in HH. change (depth_map_store d width height qG) with qH in HH.
  destruct HH as (H1 & H2 & H3 & H4 & H5 & H6 & H7 & H8 & H9 & H10 & H11 & H12
                  & H13 & H14 & H15 & H16).
  (* the facts so far, about the names *)
  assert (KfA : GLObjects.lookup (Main.fbo qA) (GLObjects.framebuffers (Main.objects qF))
                = Some (Some (GLObjects.set_draw_buffer GLObjects.GL_COLOR_ATTACHMENT0
                                (GLObjects.attach GLObjects.GL_DEPTH_STENCIL_ATTACHMENT
                                   (GLObjects.AttachedRenderbuffer (Main.depthStencil qD))
                                   fbD)))).
  { rewrite <- F1. f_equal. now rewrite E9, D9, C9, B11, A5. }
  assert (NfA : Main.depthMapFBO qG <> Main.fbo qA).
  { rewrite G1, F14, E16, D15, C16, B17, A16.
    destruct (Z.eqb_spec (Main.depthMapFBO p) 0) as [E0|E0].
    - intros E. apply NFI. rewrite E. eapply lookup_Some_In, KfA.
    - destruct Hdf as [Hdf|Hdf]; [contradiction|].
      destruct (Z.eq_dec (Main.fbo p) 0) as [Z0|Z0].
      + intros E. apply (A3 Z0). now rewrite <- E.
      + rewrite (A2 Z0). intros E. now apply (Hne Z0). }
  assert (KdG : exists v, GLObjects.lookup (Main.depthMapFBO qG)
                            (GLObjects.framebuffers (Main.objects qH)) = Some v).
  { rewrite H6, G2. rewrite F14, E16, D15, C16, B17, A16.
    destruct (Z.eqb_spec (Main.depthMapFBO p) 0) as [E0|E0].
    - cbn [GLObjects.lookup]. rewrite Z.eqb_refl. eauto.
    - rewrite G1, F14, E16, D15, C16, B17, A16.
      destruct (Z.eqb_spec (Main.depthMapFBO p) 0); [contradiction|].
      destruct Hdf as [Hdf|Hdf]; [contradiction|].
      apply lookup_In.
      destruct (lookup_In _ _ Hdf) as (v & Hv).
      eapply lookup_Some_In.
      rewrite F2, E6, D6, C6, B8, A6; try eassumption;
        rewrite ?E9, ?D9, ?C9, ?B11, ?A5;
        rewrite G1, F14, E16, D15, C16, B17, A16 in NfA;
        destruct (Z.eqb_spec (Main.depthMapFBO p) 0); try contradiction;
        exact NfA. }
  destruct KdG as (vG & KdG).
  assert (NG0 : Main.depthMapFBO qG <> 0).
  { rewrite G1, F14, E16, D15, C16, B17, A16.
    destruct (Z.eqb_spec (Main.depthMapFBO p) 0); assumption. }
  (* framebuffer of the depth map *)
  set (q := depth_map_framebuffer d qH).
  assert (PI1 : Main.depthMapFBO qH <> 0) by (rewrite H14; exact NG0).
  assert (PI2 : Main.depthMapTexture qH <> 0) by (rewrite H13; exact NT0).
  assert (PI3 : GLObjects.lookup (Main.depthMapFBO qH)
                  (GLObjects.framebuffers (Main.objects qH)) = Some vG)
    by (rewrite H14; exact KdG).
  assert (PI4 : GLObjects.lookup (Main.depthMapTexture qH)
                  (GLObjects.textures (Main.objects qH))
                = Some (Some (depth_map_texture d width height)))
    by (rewrite H13; exact H1).
  pose proof (depth_map_framebuffer_result d qH vG _ PI1 PI2 PI3 PI4 eq_refl) as HI.
  cbv zeta in HI. change (depth_map_framebuffer d qH) with q in HI.
  destruct HI as ((fbI & I1 & I1a & I1b & I1c) & I2 & I3 & I4 & I5 & I6 & I7 & I8
                  & I9 & I10 & I11 & I12 & I13 & I14 & I15).
  (* the variables at the end *)
  assert (EQfbo : Main.fbo q = Main.fbo qA)
    by (now rewrite I10, H10, G9, F10, E12, D12, C12, B14).
  assert (EQrt : Main.renderTarget q = Main.renderTarget qB)
    by (now rewrite I11, H11, G10, F11, E13, D13, C13).
  assert (EQds : Main.depthStencil q = Main.depthStencil qD)
    by (now rewrite I12, H12, G11, F12, E14).
  assert (EQdmt : Main.depthMapTexture q = Main.depthMapTexture qG)
    by (now rewrite I13, H13).
  assert (EQdmf : Main.depthMapFBO q = Main.depthMapFBO qG)
    by (now rewrite I14, H14).
  rewrite H13 in I1a. rewrite H14 in I1, I2.
  (* the tables at the end *)
  assert (TF : GLObjects.textures (Main.objects qF) = GLObjects.textures (Main.objects qC))
    by (now rewrite F6, E10, D10).
  assert (Nrt : Main.renderTarget qB <> Main.depthMapTexture qG).
  { intros E. apply NTI. rewrite <- E, TF. eapply lookup_Some_In, C1. }
  assert (Tq : forall n, n <> Main.depthMapTexture qG ->
                 GLObjects.lookup n (GLObjects.textures (Main.objects q))
                 = GLObjects.lookup n (GLObjects.textures (Main.objects qC))).
  { intros n Hn. rewrite I6, (H2 n Hn), G4. cbn [GLObjects.lookup].
    destruct (Z.eqb_spec (Main.depthMapTexture qG) n); [congruence|].
    now rewrite TF. }
  assert (LTrt : GLObjects.lookup (Main.renderTarget qB)
                   (GLObjects.textures (Main.objects q))
                 = Some (Some (render_target_texture d width height MSAA)))
    by (rewrite (Tq _ Nrt); exact C1).
  assert (LTdmt : GLObjects.lookup (Main.depthMapTexture qG)
                    (GLObjects.textures (Main.objects q))
                  = Some (Some (depth_map_texture d width height)))
    by (rewrite I6; exact H1).
  assert (LRds : GLObjects.lookup (Main.depthStencil qD)
                   (GLObjects.renderbuffers (Main.objects q))
                 = Some (Some (depth_stencil_buffer d width height MSAA)))
    by (rewrite I8, H8, G7, F8; exact E1).
  assert (LFfbo : GLObjects.lookup (Main.fbo qA)
                    (GLObjects.framebuffers (Main.objects q))
                  = GLObjects.lookup (Main.fbo qA)
                      (GLObjects.framebuffers (Main.objects qF))).
  { rewrite (I2 _ (not_eq_sym NfA)), H6, G2.
    destruct (Main.depthMapFBO qF =? 0); [|reflexivity].
    cbn [GLObjects.lookup].
    destruct (Z.eqb_spec (Main.depthMapFBO qG) (Main.fbo qA)); [contradiction|].
    reflexivity. }
  rewrite KfA in LFfbo.
  assert (NDT : NoDup (GLObjects.names (GLObjects.textures (Main.objects q)))).
  { rewrite I6, H3, G4, names_cons. constructor; [exact NTI|].
    now rewrite TF, C3. }
  assert (NDR : NoDup (GLObjects.names (GLObjects.renderbuffers (Main.objects q))))
    by (now rewrite I8, H8, G7, F8, E2).
  assert (NDFF : NoDup (GLObjects.names (GLObjects.framebuffers (Main.objects qF))))
    by (now rewrite F3, E7, D7, C7, B9).
  assert (NDF : NoDup (GLObjects.names (GLObjects.framebuffers (Main.objects q)))).
  { rewrite I3, H6, G2. destruct (Main.depthMapFBO qF =? 0) eqn:E0; [|exact NDFF].
    rewrite names_cons. constructor; [|exact NDFF].
    rewrite G1. exact NFI. }
  split.
  { (* tidy *)
    unfold tidy. cbv zeta.
    split; [exact NDT|]. split; [exact NDR|]. split; [exact NDF|].
    split; [rewrite EQfbo; eapply held_lookup, LFfbo|].
    split; [rewrite EQdmf; eapply held_lookup, I1|].
    split; [rewrite EQrt; eapply held_lookup, LTrt|].
    split; [rewrite EQds; eapply held_lookup, LRds|].
    intros _. rewrite EQfbo, EQdmf. exact (not_eq_sym NfA). }
  split.
  { (* what is built *)
    unfold framebuffers_built, GLObjects.object. cbv zeta.
    rewrite EQfbo, EQdmf, EQrt, EQds, EQdmt, LFfbo, LTrt, LRds, LTdmt, I1.
    split; [exact A1|]. split; [exact NG0|].
    split; [exact (not_eq_sym NfA)|].
    split; [exact B1|]. split; [exact D1|]. split; [exact NT0|].
    split; [exact Nrt|].
    split.
    { eexists. split; [reflexivity|].
      cbn [GLObjects.set_draw_buffer GLObjects.attach GLObjects.color0
           GLObjects.depth GLObjects.stencil GLObjects.draw_buffer].
      split; [|repeat split].
      apply D5'. reflexivity. }
    split; [reflexivity|]. split; [reflexivity|].
    split; [eexists; repeat split; assumption|].
    split; [reflexivity|].
    split; [exact I5|].
    split; [rewrite I7; exact H5|].
    now rewrite I9, H9, G8, F9, E4. }
  split; [intros Z0; rewrite EQfbo; exact (A2 Z0)|].
  split.
  { intros Z0. rewrite EQdmf, G1, F14, E16, D15, C16, B17, A16.
    destruct (Z.eqb_spec (Main.depthMapFBO p) 0); [contradiction|reflexivity]. }
  split.
  { (* the other textures *)
    intros n In_n Hn. rewrite EQrt, EQdmt.
    assert (N1 : n <> Main.renderTarget qB).
    { destruct (Z.eq_dec (Main.renderTarget qB) (Main.renderTarget qA)) as [E|E].
      - rewrite E, A13. exact Hn.
      - intros E'. apply (B2 E). rewrite A9, <- E'. exact In_n. }
    assert (L : GLObjects.lookup n (GLObjects.textures (Main.objects qC))
                = GLObjects.lookup n (GLObjects.textures (Main.objects p))).
    { rewrite (C2 _ N1), B4, A9; [reflexivity| |exact N1].
      rewrite A13. exact Hn. }
    assert (N2 : n <> Main.depthMapTexture qG).
    { intros E. apply NTI. rewrite <- E, TF.
      destruct (lookup_In _ _ In_n) as (v & Hv).
      eapply lookup_Some_In. rewrite L. exact Hv. }
    split; [exact N1|]. split; [exact N2|].
    now rewrite (Tq _ N2). }
  split.
  { (* textures in use *)
    rewrite I6, H4, G4. cbn [length]. rewrite TF, C4, B6.
    unfold new_textures, GLObjects.glIsTexture, GLObjects.object.
    rewrite A13, A9.
    clear.
    match goal with |- context [if ?c then 0%nat else _] => destruct c end;
      [lia|]. destruct (Main.renderTarget p =? 0); lia. }
  split.
  { (* renderbuffers in use *)
    rewrite I8, H8, G7, F8, E3, D4.
    unfold new_renderbuffers, GLObjects.glIsRenderbuffer, GLObjects.object.
    now rewrite C14, C10, B15, B12, A14, A10. }
  split.
  { (* framebuffers in use *)
    rewrite I4, H6, G2, F14, E16, D15, C16, B17, A16. unfold new_framebuffers.
    assert (L : length (GLObjects.framebuffers (Main.objects qF))
                = (length (GLObjects.framebuffers (Main.objects p))
                   + if (Main.fbo p =? 0)%Z then 1 else 0)%nat)
      by (now rewrite F4, E8, D8, C8, B10, A8).
    clear - L. destruct (Main.depthMapFBO p =? 0); cbn [length]; lia. }
  now rewrite I15, H15, G12, F15, E17, D16, C17, B18, A17.
Qed.

Lemma sample_driver_hands_out : hands_out_unused_names sample_driver.
Proof.
  intros l. cbn [sample_driver GLObjects.fresh].
  assert (B : forall x, In x l -> x <= fold_right Z.max 0 l).
  { induction l as [|a l IH]; [contradiction|].
    intros x [->|I]; cbn [fold_right]; [lia|]. specialize (IH x I). lia. }
  assert (P : 0 <= fold_right Z.max 0 l).
  { clear B. induction l as [|a l IH]; cbn [fold_right]; lia. }
  split; [lia|]. intros I. specialize (B _ I). lia.
Qed.

Lemma tidy_start : tidy Main.program_start.
Proof.
  unfold tidy, held. cbn. repeat split; try constructor; auto.
Qed.

Lemma tidy_gpu p p' : gpu p' = gpu p -> tidy p -> tidy p'.
Proof.
  unfold gpu, tidy. intros E. injection E as E1 E2 E3 E4 E5 E6.
  now rewrite E1, E2, E3, E5, E6.
Qed.

Lemma built_gpu d w h msaa p p' :
  gpu p' = gpu p -> framebuffers_built d w h msaa p -> framebuffers_built d w h msaa p'.
Proof.
  unfold gpu, framebuffers_built. intros E. injection E as E1 E2 E3 E4 E5 E6.
  now rewrite E1, E2, E3, E4, E5, E6.
Qed.

Lemma resizeCallback_runs d w h p :
  Main.resizeCallback d w h p
  = Main.createFramebuffer d w h (msaaLevel (Main.renderMode p))
      (Main.set_projection (Main.call (Main.glViewport 0 0 w h) (Main.set_size w h p))).
Proof.
  unfold Main.resizeCallback. rewrite !seq_run. unfold Main.reading.
  f_equal.
Qed.

Lemma key_F1_runs d scancode mods p :
  let level := if msaaLevel (Main.renderMode p) >? 1 then 1 else Main.MSAA_SAMPLES in
  Main.keyCallback d Main.GLFW_KEY_F1 scancode Main.GLFW_PRESS mods p
  = Main.set_projection
      (Main.createFramebuffer d (Main.width p) (Main.height p) level
         (Main.set_renderMode (Main.set_msaaLevel level (Main.renderMode p)) p)).
Proof.
  cbv zeta. unfold Main.keyCallback. key_eval. rewrite !seq_run.
  unfold Main.nop. unfold Main.reading at 1 2.
  f_equal.
  destruct (msaaLevel (Main.renderMode p) >? 1); f_equal.
Qed.

(** what a key event leaves alone unless it is a press of F1 *)
Lemma key_other_keeps d key scancode action mods p :
  (key =? Main.GLFW_KEY_F1) && (action =? Main.GLFW_PRESS) = false ->
  let p' := Main.keyCallback d key scancode action mods p in
  gpu p' = gpu p /\ Main.width p' = Main.width p /\
  Main.height p' = Main.height p /\
  msaaLevel (Main.renderMode p') = msaaLevel (Main.renderMode p).
Proof.
  intros Hc p'. subst p'.
  assert (K : keeps (fun p => (gpu p, Main.width p, Main.height p,
                               msaaLevel (Main.renderMode p)))
                (Main.keyCallback d key scancode action mods)).
  { unfold Main.keyCallback, Main.set_projection. rewrite Hc.
    repeat match goal with
      | |- keeps _ (Main.seq _ _) => apply keeps_seq
      | |- keeps _ (if _ then _ else _) => first [apply keeps_if | apply keeps_if_dec]
      | |- keeps _ _ => solve [intros ?; reflexivity]
      | |- keeps _ (Main.reading _) => apply keeps_reading; intros ?
      end. }
  specialize (K p). cbv beta in K.
  split; [exact (f_equal (fun t => fst (fst (fst t))) K)|].
  split; [exact (f_equal (fun t => snd (fst (fst t))) K)|].
  split; [exact (f_equal (fun t => snd (fst t)) K)|].
  exact (f_equal snd K).
Qed.

Lemma controls_fields p q :
  controls q = controls p ->
  Main.width q = Main.width p /\ Main.height q = Main.height p /\
  Main.fov q = Main.fov p /\ Main.renderMode q = Main.renderMode p.
Proof.
  unfold controls. intros E. injection E as E1 E2 E3 E4 E5 E6 E7. auto.
Qed.

Lemma gpu_objects p q : gpu q = gpu p -> Main.objects q = Main.objects p.
Proof. intros E. exact (f_equal snd E). Qed.

Lemma built_offscreen d w h msaa p :
  framebuffers_built d w h msaa p -> offscreen_buffers d w h msaa p.
Proof.
  intros (B1 & B2 & B3 & B4 & B5 & B6 & B7 & B8 & B9 & B10 & B11 & B12 & _).
  repeat (split; [assumption|]). assumption.
Qed.

Lemma offscreen_gpu d w h msaa p p' :
  gpu p' = gpu p -> offscreen_buffers d w h msaa p -> offscreen_buffers d w h msaa p'.
Proof.
  unfold gpu, offscreen_buffers. intros E. injection E as E1 E2 E3 E4 E5 E6.
  now rewrite E1, E2, E3, E4, E5, E6.
Qed.

(** once the framebuffers are built, building them anew adds one texture
    name and nothing else *)
Lemma offscreen_new_names d w h msaa p :
  offscreen_buffers d w h msaa p ->
  new_textures p = 1%nat /\ new_renderbuffers p = 0%nat /\ new_framebuffers p = 0%nat.
Proof.
  intros (F0 & D0 & _ & R0 & S0 & _ & _ & _ & Ort & Ods & _).
  unfold new_textures, new_renderbuffers, new_framebuffers,
    GLObjects.glIsTexture, GLObjects.glIsRenderbuffer.
  rewrite Ort, Ods.
  apply Z.eqb_neq in F0, D0, R0, S0. rewrite F0, D0, R0, S0.
  repeat split.
Qed.

(** building the framebuffers for the window and the settings as they are *)
Lemma rebuild_steady d w h msaa p1 :
  hands_out_unused_names d ->
  tidy p1 ->
  Main.width p1 = w -> Main.height p1 = h ->
  msaaLevel (Main.renderMode p1) = msaa ->
  whole_fov p1 ->
  (msaa = 1 \/ msaa = Main.MSAA_SAMPLES) ->
  steady d (Main.createFramebuffer d w h msaa p1).
Proof.
  intros Hd Ht Hw Hh Hm Hfov Hlevel.
  destruct (createFramebuffer_result d w h msaa p1 Hd Ht)
    as (T' & B' & _ & _ & _ & _ & _ & _ & C').
  destruct (controls_fields _ _ C') as (Cw & Ch & Cf & Cm).
  split; [exact T'|].
  split; [unfold buffers_fit_window; rewrite Cw, Ch, Cm, Hw, Hh, Hm;
          exact (built_offscreen _ _ _ _ _ B')|].
  split; [unfold whole_fov; rewrite Cf; exact Hfov|].
  rewrite Cm, Hm; exact Hlevel.
Qed.

(** the names in use after the framebuffers are built anew *)
Lemma rebuild_names d w h msaa w0 h0 m0 p1 :
  hands_out_unused_names d ->
  tidy p1 ->
  offscreen_buffers d w0 h0 m0 p1 ->
  let q := Main.createFramebuffer d w h msaa p1 in
  length (GLObjects.textures (Main.objects q))
  = (length (GLObjects.textures (Main.objects p1)) + 1)%nat /\
  length (GLObjects.renderbuffers (Main.objects q))
  = length (GLObjects.renderbuffers (Main.objects p1)) /\
  length (GLObjects.framebuffers (Main.objects q))
  = length (GLObjects.framebuffers (Main.objects p1)).
Proof.
  intros Hd Ht Hb q. subst q.
  destruct (createFramebuffer_result d w h msaa p1 Hd Ht)
    as (_ & _ & _ & _ & _ & LT' & LR' & LF' & _).
  destruct (offscreen_new_names _ _ _ _ _ Hb) as (N1 & N2 & N3).
  rewrite LT', LR', LF', N1, N2, N3. repeat split; lia.
Qed.

Lemma resize_steady d w h p :
  hands_out_unused_names d ->
  tidy p -> whole_fov p ->
  (msaaLevel (Main.renderMode p) = 1 \/
   msaaLevel (Main.renderMode p) = Main.MSAA_SAMPLES) ->
  steady d (Main.resizeCallback d w h p).
Proof.
  intros Hd Ht Hfov Hlevel. rewrite resizeCallback_runs.
  match goal with |- steady _ (Main.createFramebuffer _ _ _ _ ?q) =>
    refine (rebuild_steady d w h _ q Hd _ eq_refl eq_refl eq_refl Hfov Hlevel)
  end.
  eapply tidy_gpu; [|exact Ht]. reflexivity.
Qed.

Lemma dispatch_steady d e p :
  hands_out_unused_names d ->
  steady d p ->
  steady d (dispatch d e p).
Proof.
  intros Hd (Ht & Hb & Hfov & Hlevel).
  destruct e as [w h|key scancode action mods|x y]; cbn [dispatch].
  - (* resize *)
    exact (resize_steady d w h p Hd Ht Hfov Hlevel).
  - (* key *)
    destruct ((key =? Main.GLFW_KEY_F1) && (action =? Main.GLFW_PRESS)) eqn:Hc.
    + apply andb_prop in Hc. destruct Hc as (Hk & Ha).
      apply Z.eqb_eq in Hk, Ha. subst key action.
      rewrite key_F1_runs. cbv zeta.
      match goal with |- steady _ (Main.set_projection ?q) =>
        assert (St : steady d q)
      end.
      { match goal with |- steady _ (Main.createFramebuffer _ _ _ _ ?q) =>
          refine (rebuild_steady d _ _ _ q Hd _ eq_refl eq_refl eq_refl Hfov _)
        end.
        - eapply tidy_gpu; [|exact Ht]. reflexivity.
        - destruct (msaaLevel (Main.renderMode p) >? 1); auto. }
      destruct St as (S1 & S2 & S3 & S4).
      split; [eapply tidy_gpu; [|exact S1]; reflexivity|].
      split; [eapply offscreen_gpu; [|exact S2]; reflexivity|].
      split; [exact S3|exact S4].
    + destruct (key_other_keeps d key scancode action mods p Hc)
        as (G & Kw & Kh & Km).
      split; [exact (tidy_gpu _ _ G Ht)|].
      split; [unfold buffers_fit_window; rewrite Kw, Kh, Km;
              exact (offscreen_gpu _ _ _ _ _ _ G Hb)|].
      split; [apply keyCallback_whole_fov, Hfov|].
      rewrite Km; exact Hlevel.
  - (* mouse *)
    split; [exact Ht|]. split; [exact Hb|]. split; [exact Hfov|exact Hlevel].
Qed.

Lemma dispatch_names d e p :
  hands_out_unused_names d ->
  steady d p ->
  let q := dispatch d e p in
  length (GLObjects.textures (Main.objects q))
  = (length (GLObjects.textures (Main.objects p)) + if rebuilds e then 1 else 0)%nat /\
  length (GLObjects.renderbuffers (Main.objects q))
  = length (GLObjects.renderbuffers (Main.objects p)) /\
  length (GLObjects.framebuffers (Main.objects q))
  = length (GLObjects.framebuffers (Main.objects p)).
Proof.
  intros Hd (Ht & Hb & Hfov & Hlevel) q. subst q.
  destruct e as [w h|key scancode action mods|x y]; cbn [dispatch rebuilds].
  - rewrite resizeCallback_runs.
    match goal with |- context [Main.createFramebuffer d ?a ?b ?m ?q] =>
      refine (rebuild_names d a b m _ _ _ q Hd _ _)
    end.
    + eapply tidy_gpu; [|exact Ht]. reflexivity.
    + eapply offscreen_gpu; [|exact Hb]. reflexivity.
  - destruct ((key =? Main.GLFW_KEY_F1) && (action =? Main.GLFW_PRESS)) eqn:Hc.
    + apply andb_prop in Hc. destruct Hc as (Hk & Ha).
      apply Z.eqb_eq in Hk, Ha. subst key action.
      rewrite key_F1_runs. cbv zeta.
      match goal with |- context [Main.createFramebuffer d ?a ?b ?m ?q] =>
        refine (rebuild_names d a b m _ _ _ q Hd _ _)
      end.
      * eapply tidy_gpu; [|exact Ht]. reflexivity.
      * eapply offscreen_gpu; [|exact Hb]. reflexivity.
    + destruct (key_other_keeps d key scancode action mods p Hc) as (G & _).
      rewrite (gpu_objects _ _ G), Nat.add_0_r. repeat split.
  - rewrite Nat.add_0_r. repeat split.
Qed.

Lemma between_steady d c p :
  leaves_buffers_alone d c -> steady d p -> steady d (c p).
Proof.
  intros L St. pose proof St as (Ht & Hb & Hfov & Hlevel).
  destruct (L p St) as (T' & Kw & Kh & Kf & Km & N1 & N2 & N3 & N4 & N5
                        & O1 & O2 & O3 & O4 & O5).
  split; [exact T'|].
  split.
  { unfold buffers_fit_window, offscreen_buffers in *.
    rewrite Kw, Kh, Km, N1, N2, N3, N4, N5, O1, O2, O3, O4, O5. exact Hb. }
  split; [unfold whole_fov in *; rewrite Kf; exact Hfov|].
  rewrite Km. exact Hlevel.
Qed.

Lemma after_steps_steady d ss :
  hands_out_unused_names d ->
  Forall (allowed d) ss ->
  forall p, steady d p -> steady d (after_steps d ss p).
Proof.
  intros Hd A. unfold after_steps.
  induction A as [|s ss As _ IH]; intros p St; cbn [fold_left]; [exact St|].
  apply IH. destruct s as [e|c]; cbn [perform].
  - exact (dispatch_steady d e p Hd St).
  - exact (between_steady d c p As St).
Qed.

(** under a driver that accepts what it is asked for, the stores are there *)
Lemma steady_stores d p :
  steady d p ->
  (forall i, GLObjects.accepts d i = true) ->
  let o := Main.objects p in
  let level := msaaLevel (Main.renderMode p) in
  exists rt ds dm,
    GLObjects.object (Main.renderTarget p) (GLObjects.textures o) = Some rt /\
    GLObjects.image rt
    = Some (wanted level GLObjects.GL_RGB16F (Main.width p) (Main.height p)) /\
    GLObjects.object (Main.depthStencil p) (GLObjects.renderbuffers o) = Some ds /\
    GLObjects.storage ds
    = Some (wanted level GLObjects.GL_DEPTH24_STENCIL8 (Main.width p) (Main.height p)) /\
    GLObjects.object (Main.depthMapTexture p) (GLObjects.textures o) = Some dm /\
    GLObjects.image dm
    = Some (wanted 0 GLObjects.GL_DEPTH_COMPONENT32 (Main.width p) (Main.height p)).
Proof.
  intros (_ & Hb & _) Ha o level.
  destruct Hb as (_ & _ & _ & _ & _ & _ & _ & _ & Ort & Ods & _ & Odm).
  fold o level in Ort, Ods, Odm.
  do 3 eexists.
  split; [exact Ort|]. split.
  { unfold render_target_texture, granted. cbn [GLObjects.image]. now rewrite Ha. }
  split; [exact Ods|]. split.
  { unfold depth_stencil_buffer, granted. cbn [GLObjects.storage]. now rewrite Ha. }
  split; [exact Odm|].
  unfold depth_map_texture, granted. cbn [GLObjects.image]. now rewrite Ha.
Qed.

Lemma bind_fbo_leaves_buffers_alone d : leaves_buffers_alone d bind_fbo.
Proof.
  intros p (Ht & Hb & _) q o o'. subst q o o'.
  destruct Hb as (F0 & _ & _ & _ & _ & _ & _ & (fb & Ofb & _) & _).
  unfold bind_fbo, Main.reading, Main.gl, GLObjects.glBindFramebuffer.
  apply Z.eqb_neq in F0. rewrite F0.
  unfold GLObjects.object in Ofb.
  destruct (GLObjects.lookup (Main.fbo p)
              (GLObjects.framebuffers (Main.objects p))) as [[fb'|]|];
    try discriminate Ofb.
  destruct p as [? ? ? ? ? ? ? ? ? ? ? ? [] ?].
  split; [exact Ht|]. repeat split.
Qed.

Lemma object_new_name {A} n m (t : GLObjects.Table A) :
  In m (GLObjects.names t) -> ~ In n (GLObjects.names t) ->
  GLObjects.object m ((n, None) :: t) = GLObjects.object m t.
Proof.
  intros I N. unfold GLObjects.object. cbn [GLObjects.lookup].
  destruct (Z.eqb_spec n m) as [->|_]; [contradiction|reflexivity].
Qed.

Lemma object_In {A} n (t : GLObjects.Table A) v :
  GLObjects.object n t = Some v -> In n (GLObjects.names t).
Proof.
  unfold GLObjects.object. intros H.
  destruct (GLObjects.lookup n t) as [o|] eqn:E; [|discriminate H].
  eapply lookup_Some_In, E.
Qed.

Lemma scene_texture_leaves_buffers_alone d :
  hands_out_unused_names d -> leaves_buffers_alone d (scene_texture d).
Proof.
  intros Hd p (Ht & Hb & _) q o o'. subst q o o'.
  destruct Hb as (_ & _ & _ & _ & _ & _ & _ & _ & Ort & _ & _ & Odm).
  destruct Ht as (ND1 & ND2 & ND3 & H1 & H2 & H3 & H4 & H5).
  destruct (Hd (GLObjects.names (GLObjects.textures (Main.objects p)))) as [_ Hn].
  apply object_In in Ort, Odm.
  unfold scene_texture, Main.gl, GLObjects.glGenTextures.
  destruct p as [? ? ? ? ? ? ? ? ? ? ? ? [T Rb Fb tb rb fbb] ?].
  cbn [Main.objects Main.set_objects snd GLObjects.with_textures
       GLObjects.textures GLObjects.renderbuffers GLObjects.framebuffers
       Main.fbo Main.renderTarget Main.depthStencil Main.depthMapTexture
       Main.depthMapFBO Main.width Main.height Main.fov Main.renderMode] in *.
  split.
  { unfold tidy.
    cbn [Main.objects GLObjects.textures GLObjects.renderbuffers
         GLObjects.framebuffers Main.fbo Main.renderTarget Main.depthStencil
         Main.depthMapFBO GLObjects.names map fst].
    split; [constructor; assumption|].
    split; [exact ND2|]. split; [exact ND3|]. split; [exact H1|].
    split; [exact H2|].
    split; [destruct H3 as [H3|H3]; [left; exact H3|right; right; exact H3]|].
    split; [exact H4|exact H5]. }
  do 9 (split; [reflexivity|]).
  split; [reflexivity|]. split; [reflexivity|].
  split; [apply object_new_name; assumption|].
  split; [apply object_new_name; assumption|reflexivity].
Qed.

(** X24. [createFramebuffer], run with names that are in order and a
    driver that accepts the three stores it asks for, leaves the names in
    order and builds both framebuffers: the program's own has the render
    target as colour attachment and the depth-stencil buffer as depth and
    as stencil attachment, and draws to the colour attachment; the scene's
    has the depth map as depth attachment and no colour buffer.  The render
    target and the depth-stencil buffer have a store of the given size,
    with [MSAA] samples if [MSAA] is above 1 and without multisampling
    otherwise; the depth map is a 2D texture with a single-sampled store of
    the given size whatever [MSAA] is.  On return the default framebuffer
    is bound and no 2D texture is.  A framebuffer that exists is used
    again; window size, field of view and settings are not touched. *)
Theorem X24_createFramebuffer_builds :
  forall d width height MSAA p,
    hands_out_unused_names d ->
    tidy p ->
    GLObjects.accepts d (wanted MSAA GLObjects.GL_RGB16F width height) = true ->
    GLObjects.accepts d (wanted MSAA GLObjects.GL_DEPTH24_STENCIL8 width height) = true ->
    GLObjects.accepts d (wanted 0 GLObjects.GL_DEPTH_COMPONENT32 width height) = true ->
    let q := Main.createFramebuffer d width height MSAA p in
    let o := Main.objects q in
    tidy q /\
    framebuffers_built d width height MSAA q /\
    (exists rt ds dm,
       GLObjects.object (Main.renderTarget q) (GLObjects.textures o) = Some rt /\
       GLObjects.target rt
       = (if MSAA >? 1 then GLObjects.GL_TEXTURE_2D_MULTISAMPLE
          else GLObjects.GL_TEXTURE_2D) /\
       GLObjects.image rt
       = Some {| GLObjects.samples := if MSAA >? 1 then MSAA else 0;
                 GLObjects.internalformat := GLObjects.GL_RGB16F;
                 GLObjects.image_width := width;
                 GLObjects.image_height := height |} /\
       GLObjects.object (Main.depthStencil q) (GLObjects.renderbuffers o) = Some ds /\
       GLObjects.storage ds
       = Some {| GLObjects.samples := if MSAA >? 1 then MSAA else 0;
                 GLObjects.internalformat := GLObjects.GL_DEPTH24_STENCIL8;
                 GLObjects.image_width := width;
                 GLObjects.image_height := height |} /\
       GLObjects.object (Main.depthMapTexture q) (GLObjects.textures o) = Some dm /\
       GLObjects.target dm = GLObjects.GL_TEXTURE_2D /\
       GLObjects.image dm
       = Some {| GLObjects.samples := 0;
                 GLObjects.internalformat := GLObjects.GL_DEPTH_COMPONENT32;
                 GLObjects.image_width := width;
                 GLObjects.image_height := height |}) /\
    (Main.fbo p <> 0 -> Main.fbo q = Main.fbo p) /\
    (Main.depthMapFBO p <> 0 -> Main.depthMapFBO q = Main.depthMapFBO p) /\
    controls q = controls p.
Proof.
  intros d width height MSAA p Hd Ht A1 A2 A3 q o.
  destruct (createFramebuffer_result d width height MSAA p Hd Ht)
    as (T' & B' & F1 & F2 & _ & _ & _ & _ & C').
  split; [exact T'|]. split; [exact B'|].
  split.
  { destruct B' as (_ & _ & _ & _ & _ & _ & _ & _ & Ort & Ods & _ & Odm & _).
    do 3 eexists.
    split; [exact Ort|]. split; [reflexivity|].
    split.
    { unfold render_target_texture, granted. cbn [GLObjects.image].
      rewrite A1. reflexivity. }
    split; [exact Ods|].
    split.
    { unfold depth_stencil_buffer, granted. cbn [GLObjects.storage].
      rewrite A2. reflexivity. }
    split; [exact Odm|]. split; [reflexivity|].
    unfold depth_map_texture, granted. cbn [GLObjects.image].
    rewrite A3. reflexivity. }
  split; [exact F1|]. split; [exact F2|exact C'].
Qed.

Lemma X24_witness :
  let q := Main.createFramebuffer sample_driver 800 600 4 Main.program_start in
  exists rt dm,
    GLObjects.object (Main.renderTarget q) (GLObjects.textures (Main.objects q))
    = Some rt /\
    GLObjects.image rt
    = Some {| GLObjects.samples := 4;
              GLObjects.internalformat := GLObjects.GL_RGB16F;
              GLObjects.image_width := 800; GLObjects.image_height := 600 |} /\
    GLObjects.object (Main.depthMapTexture q) (GLObjects.textures (Main.objects q))
    = Some dm /\
    GLObjects.image dm
    = Some {| GLObjects.samples := 0;
              GLObjects.internalformat := GLObjects.GL_DEPTH_COMPONENT32;
              GLObjects.image_width := 800; GLObjects.image_height := 600 |}.
Proof.
  destruct (X24_createFramebuffer_builds sample_driver 800 600 4
              Main.program_start sample_driver_hands_out tidy_start
              eq_refl eq_refl eq_refl)
    as (_ & _ & (rt & ds & dm & O1 & _ & I1 & _ & _ & O3 & _ & I3) & _).
  exists rt, dm. split; [exact O1|]. split; [exact I1|].
  split; [exact O3|exact I3].
Defined.


(** X26. The callbacks keep the program in its steady state, in which the
    names it holds are in order, the render target and the depth-stencil
    buffer are those built for the size of the window and the MSAA level of
    the render settings, the depth map is the one built for the size of the
    window, the field of view is a whole number from 5 to 179 and the MSAA
    level is 1 or 4.  The call of [resizeCallback] establishes the steady
    state from any state with names in order (that of [initOpenGL], which
    makes the call before any object exists, is one); every run of
    callbacks, on whatever events, and of other code in between keeps it,
    provided the other code leaves the five names and their objects alone
    (it may bind what it likes and create objects of its own, as code that
    binds the framebuffer or generates a texture name does).  Whatever else
    the context holds, a resize and a press of F1 add exactly one texture
    to those in use, and no renderbuffer and no framebuffer; the other
    events add nothing.  With a driver that accepts every store asked for,
    the three stores of the steady state are there, with the size of the
    window. *)
Theorem X26_callbacks_keep_program_steady :
  forall d,
    hands_out_unused_names d ->
    (forall width height p,
        tidy p -> whole_fov p ->
        msaaLevel (Main.renderMode p) = 1 \/
        msaaLevel (Main.renderMode p) = Main.MSAA_SAMPLES ->
        steady d (Main.resizeCallback d width height p)) /\
    steady d (Main.resizeCallback d Main.DefaultWidth Main.DefaultHeight
                Main.program_start) /\
    (forall ss p, Forall (allowed d) ss -> steady d p -> steady d (after_steps d ss p)) /\
    (forall e p,
        steady d p ->
        let q := dispatch d e p in
        length (GLObjects.textures (Main.objects q))
        = (length (GLObjects.textures (Main.objects p))
           + if rebuilds e then 1 else 0)%nat /\
        length (GLObjects.renderbuffers (Main.objects q))
        = length (GLObjects.renderbuffers (Main.objects p)) /\
        length (GLObjects.framebuffers (Main.objects q))
        = length (GLObjects.framebuffers (Main.objects p))) /\
    (forall p,
        steady d p ->
        (forall i, GLObjects.accepts d i = true) ->
        let o := Main.objects p in
        let level := msaaLevel (Main.renderMode p) in
        exists rt ds dm,
          GLObjects.object (Main.renderTarget p) (GLObjects.textures o) = Some rt /\
          GLObjects.image rt
          = Some (wanted level GLObjects.GL_RGB16F (Main.width p) (Main.height p)) /\
          GLObjects.object (Main.depthStencil p) (GLObjects.renderbuffers o)
          = Some ds /\
          GLObjects.storage ds
          = Some (wanted level GLObjects.GL_DEPTH24_STENCIL8
                         (Main.width p) (Main.height p)) /\
          GLObjects.object (Main.depthMapTexture p) (GLObjects.textures o)
          = Some dm /\
          GLObjects.image dm
          = Some (wanted 0 GLObjects.GL_DEPTH_COMPONENT32
                         (Main.width p) (Main.height p))).
Proof.
  intros d Hd.
  split; [intros w h p Ht Hf Hl; exact (resize_steady d w h p Hd Ht Hf Hl)|].
  split.
  { apply (resize_steady d _ _ _ Hd tidy_start).
    - exists 45. split; [reflexivity|lia].
    - right. reflexivity. }
  split; [intros ss p A St; exact (after_steps_steady d ss Hd A p St)|].
  split; [intros e p St; exact (dispatch_names d e p Hd St)|].
  intros p St Ha. exact (steady_stores d p St Ha).
Qed.

Lemma X26_witness :
  let d := sample_driver in
  let ss := [Between (scene_texture d); Between (scene_texture d);
             Between bind_fbo; Callback (Resize 1024 768);
             Between bind_fbo;
             Callback (Key Main.GLFW_KEY_F1 0 Main.GLFW_PRESS 0);
             Callback (Key Main.GLFW_KEY_F5 0 Main.GLFW_PRESS 0);
             Callback (MouseMove 10 20)] in
  let p0 := Main.resizeCallback d Main.DefaultWidth Main.DefaultHeight
              Main.program_start in
  let p := after_steps d ss p0 in
  hands_out_unused_names d /\
  Forall (allowed d) ss /\
  steady d p /\
  length (GLObjects.textures (Main.objects (dispatch d (Resize 640 480) p)))
  = (length (GLObjects.textures (Main.objects p)) + 1)%nat.
Proof.
  intros d ss p0 p.
  assert (A : Forall (allowed d) ss).
  { pose proof (scene_texture_leaves_buffers_alone d sample_driver_hands_out) as L1.
    pose proof (bind_fbo_leaves_buffers_alone d) as L2.
    repeat (constructor; [first [exact L1 | exact L2 | exact I]|]).
    constructor. }
  destruct (X26_callbacks_keep_program_steady d sample_driver_hands_out)
    as (_ & S0 & R & N & _).
  pose proof (R ss p0 A S0) as St. fold p in St.
  split; [exact sample_driver_hands_out|]. split; [exact A|].
  split; [exact St|].
  exact (proj1 (N (Resize 640 480) p St)).
Defined.


(** X27. A press of F1 switches the MSAA level, to 1 if it was above 1 and
    to 4 otherwise, and builds the framebuffers anew for the window as it
    is, with the new level: the render target and the depth-stencil buffer
    are multisampled after the press exactly if the new level is 4.
    Window size and field of view are as before. *)
Theorem X27_F1_switches_MSAA :
  forall d scancode mods p,
    hands_out_unused_names d ->
    tidy p ->
    let p' := Main.keyCallback d Main.GLFW_KEY_F1 scancode Main.GLFW_PRESS mods p in
    let level := if msaaLevel (Main.renderMode p) >? 1 then 1 else 4 in
    msaaLevel (Main.renderMode p') = level /\
    tidy p' /\
    framebuffers_built d (Main.width p) (Main.height p) level p' /\
    GLObjects.target (render_target_texture d (Main.width p) (Main.height p) level)
    = (if msaaLevel (Main.renderMode p) >? 1 then GLObjects.GL_TEXTURE_2D
       else GLObjects.GL_TEXTURE_2D_MULTISAMPLE) /\
    Main.width p' = Main.width p /\ Main.height p' = Main.height p /\
    Main.fov p' = Main.fov p.
Proof.
  intros d scancode mods p Hd Ht p' level. subst p'.
  rewrite key_F1_runs. cbv zeta. change Main.MSAA_SAMPLES with 4. fold level.
  match goal with |- context [Main.createFramebuffer d ?w ?h ?m ?q] =>
    destruct (createFramebuffer_result d w h m q Hd)
      as (T' & B' & _ & _ & _ & _ & _ & _ & C');
      [eapply tidy_gpu; [|exact Ht]; reflexivity|];
      set (r := Main.createFramebuffer d w h m q) in *
  end.
  destruct (controls_fields _ _ C') as (Cw & Ch & Cf & Cm).
  split; [exact (f_equal msaaLevel Cm)|].
  split; [eapply tidy_gpu; [|exact T']; reflexivity|].
  split; [eapply built_gpu; [|exact B']; reflexivity|].
  split.
  { unfold render_target_texture. cbn [GLObjects.target]. subst level.
    destruct (msaaLevel (Main.renderMode p) >? 1); reflexivity. }
  split; [exact Cw|]. split; [exact Ch|exact Cf].
Qed.

Lemma X27_witness :
  let p' := Main.keyCallback sample_driver Main.GLFW_KEY_F1 0 Main.GLFW_PRESS 0
              Main.program_start in
  msaaLevel (Main.renderMode p') = 1 /\
  framebuffers_built sample_driver 0 0 1 p'.
Proof.
  destruct (X27_F1_switches_MSAA sample_driver 0 0 Main.program_start
              sample_driver_hands_out tidy_start)
    as (L & _ & B & _).
  split; [exact L|exact B].
Defined.
